(* ===== verification/_CoqProject ===== *)
-Q . S2P
Prelude.v
JsValue.v
Json.v
Session.v
Async.v
Component.v
Gateway.v
Server.v
BookingForm.v
Workflow.v
AIPromptBox.v
BookDetails.v
BookList.v
MyBookings.v
Login.v
Traffic.v
System.v
Inventory.v
Router.v
App.v
Site.v
