(* ===== verification/Prelude.v ===== *)
(** * Online library client: a verification development

    ** The program

    The program is the React front end of an online library
    (src/frontend/src).  It has no logic of its own about books: the
    inventory, the bookings and the AI service live on a server that the
    client reaches through HTTP.  What the client decides is when a request
    is sent, with what payload, what the user sees while it is in flight,
    and what is shown when it succeeds or fails.  Its parts are

    - api/api.js: nine one-line wrappers around an axios instance, one per
      endpoint;
    - components/BookingForm.jsx: the form that books a copy for a user
      id; it validates the id, posts the booking and calls its parent's
      [onBooked] when the server accepted;
    - components/AIPromptBox.jsx: two independent tools, "recommend a
      book" and "summarize a text", each with its input, button, result
      and loading flag, and one shared error message;
    - pages/BookDetails.jsx: the page of one book; it fetches the book
      named by the route, asks for a generated summary on demand, hosts
      the booking form and fetches the book again after a booking;
    - pages/BookList.jsx with components/BookCard.jsx: the catalogue with
      its search box, one card per book, each with a link to the page of
      the book;
    - pages/MyBookings.jsx: the bookings of a user id;
    - pages/Login.jsx: the creation of an account, which writes the new
      user to the browser's local storage, and the log out, which removes
      it;
    - App.jsx, components/Navbar.jsx, pages/Home.jsx: the table of
      routes, the navigation bar and the home page.

    Every component is a function component: its state is a handful of
    [useState] cells, its handlers are [async] functions that update the
    cells, [await] one request and update the cells again, inside
    [try]/[catch]/[finally].  The interesting behaviour is in the
    interleaving: a handler is suspended while its request is in flight,
    the user can click and type meanwhile, responses arrive in any order,
    and a continuation runs with the variables of the render that started
    it.  The pages share nothing but the location and the stored user.

    ** The model, file by file

    - [JsValue]: the value domain.  [value] has the constructors of the
      dynamic types the code manipulates, with truthiness ([truthy],
      [not_], [or_], [and_]), property access ([member], which fails on
      [undefined] and [null], and [opt_get], the [?.] operator),
      [Number_], [toString] and [array_map] for [Array.prototype.map].
    - [Json]: [JSON.stringify] and [JSON.parse] on that domain, the
      parser by recursive descent.
    - [Session]: [localStorage] as a finite map from keys to strings, and
      [stored_user], the expression
      [JSON.parse(localStorage.getItem('user') || 'null')] that
      BookingForm.jsx, MyBookings.jsx and Login.jsx each evaluate.
    - [Async]: the execution model.  An async function body is a value
      of [prog]: a finite tree of state updates ([upd], a [setX] call),
      [await]s, throws, and calls of other async functions that are not
      awaited ([call]); [try_catch] and [try_finally] are the [try]
      statement and [pbind] is sequencing, with the notations of a monad.
      [run] executes a body on a state up to its suspension points and
      returns the new state, the continuations left waiting, each with its
      request, and the exceptions nobody caught.  [machine] is a mounted
      component on the event loop: the state, the requests in flight
      (a finite map from request ids to continuations), the log of the
      requests sent, and the unhandled rejections.  [invoke] runs a
      handler, [deliver] settles a request in flight and runs its
      continuation; both apply the component's [commit] afterwards, which
      is what rendering does to the state (mounting and unmounting
      children).
    - [Component]: the interface between a component and the event
      loop: [enabled] (the [disabled] attributes of the rendered
      controls), [fire] (the executable reaction to an event) and [step]
      (the transition relation), with the laws that make the runs of
      [fire] the paths of [step].  Invariants are proved against it.
    - [Gateway]: api/api.js.  A [request] record for what axios is asked
      to send, one definition per wrapper ([getBooks] ... ,
      [getUserBookings]), the shapes axios answers with ([response],
      [failure], [no_response]), and [error_message], the expression
      [err.response?.data?.error || default] of the [catch] blocks.
    - [BookingForm], [AIPromptBox], [BookDetails], [BookList] (with
      [BookCard]), [MyBookings] and [Login]: each models the component of
      the same name, in a Module of the same name: a Record [State] with
      one field per [useState] cell, a setter per cell, one definition per
      handler ([handleSubmit]; [handleRecommend], [handleSummarize];
      [load], [handleSummarize]; [load], [search]; [load], [effect];
      [handleSubmit], [handleLogout]), [render] for the JSX, as a record
      of what the output depends on, and the component as a transition
      system ([event], [enabled], [fire], [step], [exec]).  A handler
      takes the state [c] of the render whose closure it is: what the
      JavaScript reads from a variable of the closure is read from [c],
      also after the [await]; what it writes goes through the setters to
      the current state.  A [render] that can throw (a [map] over
      something that is no array, a stored user that is no JSON) returns
      an option.
    - [BookingForm.handleSubmit] is written for a form inside any parent:
      [poke] applies an update to the form's cells where the parent keeps
      them and [onBooked] is the parent's callback.
      [BookingForm.Harness] closes it with a parent that records the
      calls of the callback; [BookDetails] closes it with the page, whose
      state holds the cells of the mounted form instance ([form]) and
      whose callback is [load].  The state of [Login] is the cells
      together with the storage, which its handlers write.
    - [Workflow]: the state machine the specification gives for the
      booking workflow, [idle -> submitting -> success | error], with
      what each transition does to the outside, and [phase_of], which
      reads the phase off the cells of the form.
    - [Server]: the server, which is not part of the sources, as the
      specification of the client describes it: books with their copies,
      users and bookings; one definition per operation ([get_books] ...
      [get_bookings]); [route], which reads the method and the path the
      gateway writes; [handle], which answers a request and returns the
      new state.  A booking takes a copy when one is available.  The AI
      model and the search are parameters ([Oracle]).
    - [System]: a page and the server as one transition system
      ([world], [act], [perform]), generic in the page.  A step is an
      event of the user, an answer of the server to a request in flight,
      a request that is lost, an answer that is lost, or a request of
      another client.
    - [Inventory]: the page of a book in that system ([browse]).
    - [Traffic]: measures on the requests in flight of the pages.
      [owed] counts the answers owed to the requests in flight, [busy]
      says that each flag of the book page has its request, [answered] is
      a run of answers with no event of the user in between.
    - [Router]: what App.jsx asks of react-router-dom, the match of a
      path pattern against a pathname.
    - [App]: App.jsx, Navbar.jsx and Home.jsx.  [routes] is the table,
      [resolve] follows the redirection of the last route, [mount] is the
      first render of the element of a route, and the application is a
      transition system over the location, the storage and the mounted
      page with its requests in flight: [Open] loads a page, [Visit]
      follows a link, and the events of the mounted page are passed to
      it.
    - [Site]: the application of [App] and the server as one
      transition system ([site], [turn], [surf]), with the moves of
      [System]: the answers go to the page that is on the screen.
      [sail] and [voyage] add the answers to the submissions of Login
      pages that are gone.

    ** What is proved

    - The handlers, branch by branch: what each one sends and shows when
      it returns early, when the server accepts and when it refuses
      ([handleSubmit_missing_user], [handleSubmit_sends_booking],
      [booking_accepted], [booking_rejected]; [recommendation_displayed],
      [recommendation_failed], [summary_displayed];
      [load_replaces_snapshot], [summarize_needs_summary],
      [summary_generated], [load_failure_message]; [search_sends_query];
      [mount_fetches_stored_user], [bookings_listed]; [account_created],
      [logged_out]).
    - The page and its form together: an accepted booking fetches the
      book again and a rejected one does not
      ([accepted_booking_refetches], [rejected_booking_no_refetch]); the
      form is mounted exactly when the book is shown
      ([form_follows_book]).
    - Refinement: the runs of the form are runs of the workflow of the
      specification, with the same requests and the same signals to the
      parent ([form_refines_workflow]).
    - Invariants of the transition systems, by induction on the steps: at
      most one booking, one creation of an account, one request of each AI
      flow in flight, exactly while the button is disabled
      ([no_double_submission], [one_account_at_a_time],
      [flows_single_flight], [second_recommend_blocked]); every request
      of a log carries a user id, a query or a text that is not empty
      ([prompt_requests_nonempty], [every_request_has_user],
      [bookings_need_user]).
    - Interleavings: the last response to arrive is the one displayed,
      for a handler invoked twice ([last_arrival_wins]), for a page whose
      route changes while a fetch is in flight ([stale_fetch_applied]),
      and for searches, which the list page does not keep from
      overlapping ([overlapping_searches_race]); the flows of AIPromptBox
      do not touch each other's result and flag ([flows_independent]) but
      share the error cell ([recommend_clears_error]).
    - End to end, with the server: a booking takes one copy and the
      page shows one copy less after the fetch that follows
      ([booking_takes_a_copy]); without a copy the booking is refused,
      nothing changes and nothing is fetched
      ([sold_out_booking_refused]); a generated summary is displayed and
      changes no number of copies ([summary_keeps_copies]); in every run,
      with losses and with other clients booking in between, the copies
      the page shows are within [0 <= available <= total] and the
      inventory of the server is consistent
      ([displayed_copies_in_bounds]); every wrapper of the gateway
      reaches its operation ([gateway_reaches_endpoints]).
    - The whole application with the server: a new reader creates an
      account on the Login page, opens the page of a book, books a copy
      and finds exactly that booking on the page of the bookings
      ([reader_journey]); while the reader stays on the page of a book
      the site is the world of that page ([surf_on_book]); and in every
      run of the site, across pages and navigation, the application is
      in a good state, the inventory is consistent and every page of a
      book shows copies within bounds ([app_copies_in_bounds], by the
      invariant [in_order]).  The screen is never blank: the lists the
      pages map are lists and the user Login stores can be read back
      ([never_blank], by the invariant [steady]); the defect of a
      stored text that is no JSON needs an answer without data, which
      this server does not give.
    - The assumptions on the network, discharged: the theorems on
      exceptions and on rendering assume answers of a certain shape; every
      answer of the server has it, so that against the server no page
      leaves a rejection unhandled and the list pages always render
      ([no_page_fails], from [perform_produced]).
    - Traffic: on the book page every answer lowers the answers owed,
      so the answers end after at most twice the requests in flight
      ([answers_terminate]); answering them in any way empties the
      network, and with nothing in flight the page shows neither
      "Loading…" nor "Summarizing…" ([page_comes_to_rest]).  The booking
      form and Login have at most one request in flight, AIPromptBox at
      most two, the list of books any number ([in_flight_bounded]).
    - The session: what Login stores is what every page reads back
      ([session_round_trip], on top of [JSON.parse_stringify]), and the
      user stored is the user of the pages opened afterwards
      ([login_reaches_bookings]).  The answer to a submission stores the
      user also when the Login page is gone by then
      ([late_answer_signs_in], [detour_signs_in]).
    - The application: the table of routes computes the reference
      function of the segments ([table_is_page_of]), no two pages claim a
      location ([routes_unambiguous]), every location leads to a page
      ([every_location_has_a_page]); in every reachable state the mounted
      page is the page of the location and satisfies the invariant of its
      component ([screen_follows_location], [requests_numbered]); the bar
      marks only the link of the page shown ([active_link_is_current]);
      and the ids of a booking survive the way from the card of a book
      and from the stored user to the request ([booking_journey]).
    - Rendering: the list pages render in every state as long as the
      server answers with lists ([list_renders],
      [bookings_always_render]).
    - Exceptions: no run leaves a rejection unhandled when the network
      answers the way axios does ([page_no_unhandled] and its siblings for
      the other components).
    - What the refetch does not cover: the snapshot is as old as the
      last fetch ([stale_after_refusal]), and a lost answer makes a second
      attempt take a second copy ([lost_answer_books_twice]).
    - Defects the model brought out: the success message of the form and
      the confirmation of Login are never visible
      ([success_message_never_shown], [confirmation_never_shown]); the
      error cells of BookDetails and BookList are never cleared
      ([error_is_sticky], [list_error_sticky]); an answer without data
      makes Login store a text that is no JSON, after which every page
      that reads the user is blank ([unparsable_user_blanks_pages]).

    Every theorem with a hypothesis has a witness, a closed instance
    computed from a concrete run.

    ** Bounds and conventions

    - Numbers are the integers and NaN; [StringToNumber] reads decimal
      integer literals.  Ids, counts and status codes are integers; the
      development makes no claim on fractions, nor on integers beyond the
      range a JavaScript number holds exactly.
    - Bodies are finite trees and [run] is structural: there is no fuel.
      The handlers have no loop; the one chain of requests, a booking
      whose acceptance starts a fetch, is bounded by the rank of [owed].
      [JSON.parse] has fuel, the length of the text, which is enough for
      every text [JSON.stringify] writes ([JSON.parse_stringify]).
    - The network is any sequence of [Settle] events: any request in
      flight may be answered at any time, with any outcome.  The
      theorems on exceptions and on the workflow restrict outcomes to
      [axios_outcome]: axios resolves with a response object and rejects
      with an error object, never with [null] or [undefined].
    - The property names the code reads are not built-in properties of
      strings and numbers, so reading them from a primitive answers
      [undefined].
    - A view is a record of JavaScript values, not a DOM tree: it holds
      what the JSX computes (texts, [disabled] flags, which boxes are
      present).
    - A page reads the stored user when it mounts, and only the Login
      page writes it.  A page that is unmounted leaves its requests in
      flight, and the handlers that await them run to their end: what
      they set on the page that is gone is lost.  The handler of the
      Login page also writes the storage: [App] keeps the submissions
      of the Login pages that are gone ([adrift]) and their answers are
      events ([Late]).  The handlers of the other pages only set cells
      after their [await]; the fetch that an accepted booking starts
      through [onBooked] on a page that is gone only reads, and is not
      modelled.  A page load starts the program anew.
    - Route matching follows react-router for the six patterns of the
      table; parameters are not percent-decoded.
    - The server is a model of the specification, not of code: its
      status codes and messages other than the error envelope are
      choices, and so is the check that the user of a booking exists.
      The body of a request passes through [JSON.stringify] and
      [JSON.parse] ([Server.received]); the ids of the end-to-end
      theorems are integers a JavaScript number holds exactly
      ([Server.safe_int]).  The data of an answer is taken as the server
      built it.  In a world the server handles a request and the page
      receives the answer in one step; the order in which requests are
      handled is free.  In [Site] the requests of a page that was
      unmounted, other than the submissions of Login, are no longer
      awaited by the application; the server may still handle them,
      which is a move of another client ([Elsewhere]).

    ** Not modelled

    The code of the server, which is outside the repository (the model
    is of its contract); cancelling and returning a booking, for which
    the client has no operation; the DOM and CSS class
    names other than the one the navigation bar computes; the browser's
    validation of [type="email"] and [type="number"] inputs; the
    formatting of dates by [toLocaleString]; [createBook] and [getUsers]
    are modelled as requests but no component calls them.

    This file is the prelude: the libraries every other file loads, the
    hint database and tactics of the development, and the generic facts
    on transition systems that the components share.  *)

From stdpp Require Export base tactics option list strings gmap relations.
From Stdlib Require Export ZArith Lia.

(** ** The hint database of the development *)

Create HintDb olib discriminated.
Create Rewrite HintDb olib.

(** ** Tactics *)

(** [case_bool b] splits on a boolean expression and names the equation. *)
Tactic Notation "case_bool" constr(b) "as" ident(E) :=
  destruct b eqn:E; simpl in *; try done.

(** ** Transition systems

    A component is a labelled transition system: a type of states, an
    initial state and a step relation.  [reachable] is the set of states a
    run can be in; an invariant is proved once for the initial state and
    once for each step. *)

Section Transition.
Context {St : Type} (step : St -> St -> Prop) (init : St).

Definition reachable (s : St) : Prop := rtc step init s.

Lemma reachable_init : reachable init.
Proof. apply rtc_refl. Qed.

Lemma reachable_step s s' : reachable s -> step s s' -> reachable s'.
Proof. intros Hs Hst. eapply rtc_r; eauto. Qed.

Lemma reachable_ind_inv (P : St -> Prop) :
  P init ->
  (forall s s', reachable s -> P s -> step s s' -> P s') ->
  forall s, reachable s -> P s.
Proof.
  intros Hi Hs. apply (rtc_ind_r P init Hi).
  intros y z Hy Hyz Py. by apply (Hs y z).
Qed.

(** A run of an executable step function stays among the reachable
    states, when each of its steps is a step of the relation or leaves the
    state alone. *)
Lemma reachable_foldl {E} (fire : St -> E -> St) (evs : list E) s :
  (forall s e, step s (fire s e) \/ fire s e = s) ->
  reachable s -> reachable (foldl fire s evs).
Proof.
  intros Hf. revert s. induction evs as [|e evs IH]; intros s Hs; simpl; [done|].
  apply IH. destruct (Hf s e) as [H| ->]; [|done]. by eapply reachable_step.
Qed.

End Transition.

(** A property that every step of a run keeps holds at its end. *)
Lemma foldl_invariant {A E} (f : A -> E -> A) (P : A -> Prop) (ok : E -> Prop) evs a :
  (forall a e, ok e -> P a -> P (f a e)) ->
  Forall ok evs -> P a -> P (foldl f a evs).
Proof.
  intros Hf Hevs. revert a. induction Hevs as [|e evs He _ IH]; intros a Ha; simpl; auto.
Qed.

(** ** Lists and options *)

Lemma length_one_inv {A} (l : list A) : length l = 1 -> exists x, l = [x].
Proof. destruct l as [|x [|y l]]; simpl; intros; try lia. by exists x. Qed.

Lemma app_nil_both {A} (l1 l2 : list A) : l1 ++ l2 = [] -> l1 = [] /\ l2 = [].
Proof. by destruct l1. Qed.

Lemma forallb_elem {A} (f : A -> bool) l x : forallb f l = true -> x ∈ l -> f x = true.
Proof. rewrite forallb_forall. intros H Hx. by apply H, list_elem_of_In. Qed.

(** ** Strings

    [+:+] does not compute under [simpl]; these equations and [flatten]
    bring the literal characters of a concatenation to the front. *)

Lemma append_nil (s : string) : "" +:+ s = s.
Proof. reflexivity. Qed.

Lemma append_cons c (a b : string) : String c a +:+ b = String c (a +:+ b).
Proof. reflexivity. Qed.

Lemma append_assoc (a b c : string) : (a +:+ b) +:+ c = a +:+ (b +:+ c).
Proof. induction a as [|x a IH]; [done|]. rewrite !append_cons. by rewrite IH. Qed.

Lemma append_empty_r (a : string) : a +:+ "" = a.
Proof. induction a as [|x a IH]; [done|]. rewrite append_cons. by rewrite IH. Qed.

Lemma length_append (a b : string) :
  String.length (a +:+ b) = String.length a + String.length b.
Proof. induction a as [|x a IH]; [done|]. rewrite append_cons. simpl. by rewrite IH. Qed.

Ltac flatten :=
  repeat (rewrite append_cons || rewrite append_nil || rewrite append_assoc).
