(* ===== verification/JsValue.v ===== *)
(** * JavaScript values and the operators the components use

    The components are dynamically typed: a state cell holds whatever the
    server sent ([data], [data.summary], [err.response.data.error]) or the
    user typed.  This file gives the value domain and the operators that
    appear in the sources: truthiness ([!x], [a && b], [a || b]), property
    access ([x.p], [x?.p]), [Number(x)] and the string conversion of
    template literals.

    Numbers are the integers and NaN.  [StringToNumber] reads the decimal
    integer literals (optional sign, digits, surrounding white space) and
    the empty string; on any other string it answers NaN, which is what
    JavaScript answers except on literals with a fraction, an exponent or a
    radix prefix and on "Infinity": those denote numbers this domain does
    not have, and the development makes no claim on them. *)

From S2P Require Import Prelude.
From Stdlib Require Import Ascii DecimalString DecimalZ DecimalPos DecimalFacts.

(** ** Values *)

#[warnings="-register-all"]
Inductive value : Type :=
| VUndefined
| VNull
| VBool (b : bool)
| VNum (n : Z)
| VNaN
| VStr (s : string)
| VObj (fields : list (string * value))
| VArr (items : list value).

#[export] Instance value_inhabited : Inhabited value := populate VUndefined.

(** The TypeError thrown by a property access on [undefined] or [null]. *)
Definition TypeError : value :=
  VObj [("name", VStr "TypeError")].

(** ** Truthiness: [ToBoolean], [!], [||], [&&] *)

Definition truthy (v : value) : bool :=
  match v with
  | VUndefined | VNull | VNaN => false
  | VBool b => b
  | VNum n => negb (n =? 0)%Z
  | VStr s => negb (String.eqb s "")
  | VObj _ | VArr _ => true
  end.

Definition not_ (v : value) : bool := negb (truthy v).

Definition or_ (a b : value) : value := if truthy a then a else b.

Definition and_ (a b : value) : value := if truthy a then b else a.

(** ** Property access *)

Definition nullish (v : value) : bool :=
  match v with
  | VUndefined | VNull => true
  | _ => false
  end.

Fixpoint assoc (k : string) (l : list (string * value)) : option value :=
  match l with
  | [] => None
  | (k', v) :: l' => if String.eqb k k' then Some v else assoc k l'
  end.

(** [get_field v k] is [v.k] for a [v] that is neither [undefined] nor
    [null]: the own property of an object, [undefined] when there is none.
    The property names of the sources ([data], [error], [summary], ...) are
    no built-in property of a string, a number or a boolean, so these
    answer [undefined]; an array has its [length]. *)
Definition get_field (v : value) (k : string) : value :=
  match v with
  | VObj l => default VUndefined (assoc k l)
  | VArr l => if String.eqb k "length" then VNum (Z.of_nat (length l)) else VUndefined
  | _ => VUndefined
  end.

(** [member v k] is [v.k]: [None] stands for the TypeError. *)
Definition member (v : value) (k : string) : option value :=
  if nullish v then None else Some (get_field v k).

(** [opt_get v k] is [v?.k]. *)
Definition opt_get (v : value) (k : string) : value :=
  if nullish v then VUndefined else get_field v k.

(** ** Numbers and strings *)

Definition string_of_Z (n : Z) : string := NilZero.string_of_int (Z.to_int n).

(** Character classes of a string. *)
Fixpoint all_chars (P : ascii -> bool) (s : string) : bool :=
  match s with
  | EmptyString => true
  | String c t => P c && all_chars P t
  end.

Definition is_digit (c : ascii) : bool :=
  let n := nat_of_ascii c in (48 <=? n) && (n <=? 57).

Definition is_numeral (c : ascii) : bool := is_digit c || Ascii.eqb c "-".

Definition is_ws (c : ascii) : bool :=
  let n := nat_of_ascii c in
  (n =? 32) || ((9 <=? n) && (n <=? 13)).

Fixpoint trim_left (s : string) : string :=
  match s with
  | String c t => if is_ws c then trim_left t else s
  | EmptyString => EmptyString
  end.

Fixpoint trim_right (s : string) : string :=
  match s with
  | String c t =>
      match trim_right t with
      | EmptyString => if is_ws c then EmptyString else String c EmptyString
      | t' => String c t'
      end
  | EmptyString => EmptyString
  end.

Definition trim (s : string) : string := trim_right (trim_left s).

Definition StringToNumber (s : string) : value :=
  match trim s with
  | EmptyString => VNum 0
  | String "+" t =>
      match NilZero.uint_of_string t with
      | Some d => VNum (Z.of_uint d)
      | None => VNaN
      end
  | t =>
      match NilZero.int_of_string t with
      | Some d => VNum (Z.of_int d)
      | None => VNaN
      end
  end.

Definition join (sep : string) (l : list string) : string :=
  match l with
  | [] => ""
  | x :: l' => fold_left (fun acc y => acc +:+ sep +:+ y) l' x
  end.

(** [toString v] is [String(v)], the conversion of a template literal. *)
Fixpoint toString (v : value) : string :=
  match v with
  | VUndefined => "undefined"
  | VNull => "null"
  | VBool true => "true"
  | VBool false => "false"
  | VNum n => string_of_Z n
  | VNaN => "NaN"
  | VStr s => s
  | VObj _ => "[object Object]"
  | VArr l =>
      join "," (map (fun x => if nullish x then "" else toString x) l)
  end.

(** [Number_ v] is [Number(v)]. *)
Definition Number_ (v : value) : value :=
  match v with
  | VUndefined => VNaN
  | VNull => VNum 0
  | VBool b => VNum (if b then 1 else 0)
  | VNum n => VNum n
  | VNaN => VNaN
  | VStr s => StringToNumber s
  | VObj _ | VArr _ => StringToNumber (toString v)
  end.

(** [v.map(f)] and [v.length], for a callback that may throw: [None]
    stands for the TypeError of a [v] that is no array (it has no [map])
    or of a call of [f] that throws. *)
Definition array_map {A} (f : value -> option A) (v : value) : option (list A) :=
  match v with
  | VArr l => mapM f l
  | _ => None
  end.

Definition is_number (v : value) : bool :=
  match v with
  | VNum _ | VNaN => true
  | _ => false
  end.

(** ** Facts *)

(** Induction on values, through the lists they hold. *)
Lemma value_ind_nested (P : value -> Prop) :
  P VUndefined -> P VNull -> (forall b, P (VBool b)) -> (forall n, P (VNum n)) ->
  P VNaN -> (forall s, P (VStr s)) ->
  (forall fs, Forall (fun kv => P kv.2) fs -> P (VObj fs)) ->
  (forall l, Forall P l -> P (VArr l)) ->
  forall v, P v.
Proof.
  intros Hu Hn Hb Hz Hnan Hs Ho Ha. fix IH 1.
  intros [| |b|n| |s|fs|l];
    [exact Hu|exact Hn|apply Hb|apply Hz|exact Hnan|apply Hs|..].
  - apply Ho. induction fs as [|[k v] fs IHfs]; constructor; [apply IH|apply IHfs].
  - apply Ha. induction l as [|x l IHl]; constructor; [apply IH|apply IHl].
Qed.

Lemma truthy_or_default a b : truthy b = true -> truthy (or_ a b) = true.
Proof. unfold or_. by destruct (truthy a) eqn:E. Qed.

Lemma or_truthy a b : truthy a = true -> or_ a b = a.
Proof. unfold or_. by intros ->. Qed.

Lemma or_falsy a b : truthy a = false -> or_ a b = b.
Proof. unfold or_. by intros ->. Qed.

Lemma truthy_str s : truthy (VStr s) = true <-> s <> "".
Proof.
  simpl. destruct (String.eqb_spec s ""); simpl; split; congruence.
Qed.

Lemma truthy_not_nullish v : truthy v = true -> nullish v = false.
Proof. by destruct v. Qed.

Lemma opt_get_nullish v k : nullish v = true -> opt_get v k = VUndefined.
Proof. unfold opt_get. by intros ->. Qed.

Lemma opt_get_defined v k : nullish v = false -> opt_get v k = get_field v k.
Proof. unfold opt_get. by intros ->. Qed.

Lemma opt_get_member v k : opt_get v k = default VUndefined (member v k).
Proof. unfold opt_get, member. by destruct (nullish v). Qed.

Lemma member_obj l k : member (VObj l) k = Some (default VUndefined (assoc k l)).
Proof. done. Qed.

Lemma Number_is_number v : is_number (Number_ v) = true.
Proof.
  assert (H : forall s, is_number (StringToNumber s) = true).
  { intros s. unfold StringToNumber.
    repeat case_match; done. }
  destruct v; simpl; auto.
Qed.

Lemma all_chars_impl (P Q : ascii -> bool) s :
  (forall c, P c = true -> Q c = true) -> all_chars P s = true -> all_chars Q s = true.
Proof.
  intros H. induction s as [|c s IH]; simpl; [done|].
  intros [? ?]%andb_true_iff. rewrite H, IH; done.
Qed.

Lemma trim_left_id s : all_chars (fun c => negb (is_ws c)) s = true -> trim_left s = s.
Proof. destruct s as [|c s]; simpl; [done|]. intros [->%negb_true_iff _]%andb_true_iff. done. Qed.

Lemma trim_right_id s : all_chars (fun c => negb (is_ws c)) s = true -> trim_right s = s.
Proof.
  induction s as [|c s IH]; simpl; [done|].
  intros [Hc%negb_true_iff Hs]%andb_true_iff. rewrite (IH Hs), Hc. by destruct s.
Qed.

Lemma trim_id s : all_chars (fun c => negb (is_ws c)) s = true -> trim s = s.
Proof. intros H. unfold trim. by rewrite trim_left_id, trim_right_id. Qed.

Lemma digits_of_uint d : all_chars is_digit (NilEmpty.string_of_uint d) = true.
Proof. induction d; simpl; auto. Qed.

Lemma numerals_of_Z n : all_chars is_numeral (string_of_Z n) = true.
Proof.
  assert (H : forall d, all_chars is_numeral (NilZero.string_of_uint d) = true).
  { intros d. apply (all_chars_impl is_digit); [by unfold is_numeral; intros c ->|].
    destruct d; try apply (digits_of_uint (_ _)); done. }
  unfold string_of_Z. destruct (Z.to_int n); simpl; auto.
Qed.

Lemma numeral_not_ws c : is_numeral c = true -> negb (is_ws c) = true.
Proof. destruct c as [[] [] [] [] [] [] [] []]; by vm_compute. Qed.

Lemma to_int_proper n : Z.to_int n <> Decimal.Pos Decimal.Nil /\ Z.to_int n <> Decimal.Neg Decimal.Nil.
Proof.
  destruct n as [|p|p]; simpl; split; try done.
  - intros [= H]. by apply (Unsigned.to_uint_nonnil p).
  - intros [= H]. by apply (Unsigned.to_uint_nonnil p).
Qed.

Lemma string_of_Z_first n :
  exists c t, string_of_Z n = String c t /\ Ascii.eqb c "+" = false.
Proof.
  pose proof (numerals_of_Z n) as H. destruct (string_of_Z n) as [|c t] eqn:E.
  - exfalso. unfold string_of_Z in E. destruct (Z.to_int n) as [d|d] eqn:Ed; simpl in E.
    + destruct d; simpl in E; discriminate.
    + discriminate.
  - exists c, t. split; [done|]. simpl in H. apply andb_true_iff in H as [H _].
    destruct (Ascii.eqb_spec c "+") as [->|]; [by vm_compute in H|done].
Qed.

Lemma StringToNumber_plain c t d :
  trim (String c t) = String c t -> Ascii.eqb c "+" = false ->
  NilZero.int_of_string (String c t) = Some d ->
  StringToNumber (String c t) = VNum (Z.of_int d).
Proof.
  intros Ht Hc Hd. unfold StringToNumber. rewrite Ht.
  destruct c as [[] [] [] [] [] [] [] []]; try discriminate Hc; by rewrite Hd.
Qed.

Lemma StringToNumber_of_Z n : StringToNumber (string_of_Z n) = VNum n.
Proof.
  destruct (string_of_Z_first n) as (c & t & E & Hc).
  rewrite <- (DecimalZ.of_to n) at 2. rewrite E. apply StringToNumber_plain; [|done|].
  - rewrite <- E. apply trim_id.
    eapply all_chars_impl; [apply numeral_not_ws|apply numerals_of_Z].
  - rewrite <- E. unfold string_of_Z. apply NilZero.isi; apply to_int_proper.
Qed.

(** A number survives the trip through its decimal string: [Number(String(n))]
    is [n].  Book ids make that trip, from a card's link through the route
    parameter into the requests of the book's page. *)
Lemma Number_toString n : Number_ (VStr (toString (VNum n))) = VNum n.
Proof. apply StringToNumber_of_Z. Qed.

#[export] Hint Rewrite or_truthy or_falsy opt_get_nullish using done : olib.
#[export] Hint Resolve truthy_or_default Number_is_number : olib.
