(* ===== verification/Json.v ===== *)
(** * JSON: [JSON.stringify] and [JSON.parse] on the values of the model

    The signed-in user is kept in local storage as JSON text.  This file
    gives the two conversions on [value]: [stringify] as the serializer
    writes (no white space, the escapes of [QuoteJSONString], properties in
    order, [undefined] properties left out, [NaN] as [null]), and [parse]
    as a recursive descent on the text, white space and all the escapes of
    the grammar included.

    The model has integers only, and characters up to 255: [parse] refuses
    a number with a fraction or an exponent and an escape above [\u00ff],
    which JavaScript would accept; the development makes no claim on such
    texts.  The fuel of [parse] is the length of the text, which bounds
    the depth and the number of items of what it denotes. *)

From S2P Require Import Prelude JsValue.
From Stdlib Require Import Ascii DecimalString DecimalZ DecimalPos DecimalFacts.

Module JSON.

(** ** Characters *)

Definition dquote : ascii := ascii_of_nat 34.
Definition backslash : ascii := ascii_of_nat 92.

Definition json_ws (c : ascii) : bool :=
  let n := nat_of_ascii c in (n =? 32) || (n =? 9) || (n =? 10) || (n =? 13).

Fixpoint skip (s : string) : string :=
  match s with
  | String c t => if json_ws c then skip t else s
  | EmptyString => EmptyString
  end.

Definition hex (n : nat) : ascii :=
  ascii_of_nat (if n <? 10 then 48 + n else 87 + n).

Definition unhex (c : ascii) : option nat :=
  let n := nat_of_ascii c in
  if (48 <=? n) && (n <=? 57) then Some (n - 48)
  else if (97 <=? n) && (n <=? 102) then Some (n - 87)
  else if (65 <=? n) && (n <=? 70) then Some (n - 55)
  else None.

(** ** JSON.stringify *)

(** One character of a string literal, as [QuoteJSONString] writes it. *)
Definition escape_char (c : ascii) : string :=
  let n := nat_of_ascii c in
  if n =? 34 then String backslash (String dquote "")
  else if n =? 92 then String backslash (String backslash "")
  else if n =? 8 then String backslash "b"
  else if n =? 9 then String backslash "t"
  else if n =? 10 then String backslash "n"
  else if n =? 12 then String backslash "f"
  else if n =? 13 then String backslash "r"
  else if n <? 32 then
    String backslash (String "u" (String "0" (String "0"
      (String (hex (n / 16)) (String (hex (n mod 16)) "")))))
  else String c "".

Fixpoint escape (s : string) : string :=
  match s with
  | String c t => escape_char c +:+ escape t
  | EmptyString => EmptyString
  end.

Definition quote (s : string) : string :=
  String dquote (escape s +:+ String dquote "").

Fixpoint commas (l : list string) : string :=
  match l with
  | [] => ""
  | [x] => x
  | x :: l' => x +:+ "," +:+ commas l'
  end.

(** [None] is the [undefined] that [JSON.stringify] answers for
    [undefined]. *)
Fixpoint stringify (v : value) : option string :=
  match v with
  | VUndefined => None
  | VNull | VNaN => Some "null"
  | VBool true => Some "true"
  | VBool false => Some "false"
  | VNum n => Some (string_of_Z n)
  | VStr s => Some (quote s)
  | VArr l =>
      Some ("[" +:+ commas (map (fun x => default "null" (stringify x)) l) +:+ "]")
  | VObj fs =>
      Some ("{" +:+
            commas (omap (fun kv => s ← stringify kv.2; Some (quote kv.1 +:+ ":" +:+ s)) fs)
            +:+ "}")
  end.

(** ** JSON.parse *)

(** [eat p s]: [s] without its prefix [p]. *)
Fixpoint eat (p s : string) : option string :=
  match p, s with
  | EmptyString, _ => Some s
  | String a p', String b s' => if Ascii.eqb a b then eat p' s' else None
  | _, _ => None
  end.

(** One character of a string literal: the character it denotes and the
    rest. *)
Definition parse_char (s : string) : option (ascii * string) :=
  match s with
  | String c t =>
      if Ascii.eqb c backslash then
        match t with
        | String e t' =>
            let n := nat_of_ascii e in
            if n =? 34 then Some (dquote, t')
            else if n =? 92 then Some (backslash, t')
            else if n =? 47 then Some (e, t')
            else if n =? 98 then Some (ascii_of_nat 8, t')
            else if n =? 102 then Some (ascii_of_nat 12, t')
            else if n =? 110 then Some (ascii_of_nat 10, t')
            else if n =? 114 then Some (ascii_of_nat 13, t')
            else if n =? 116 then Some (ascii_of_nat 9, t')
            else if n =? 117 then
              match t' with
              | String a (String b (String c' (String d t''))) =>
                  ha ← unhex a; hb ← unhex b; hc ← unhex c'; hd ← unhex d;
                  (* a code unit above 255 has no character in this model *)
                  if (ha =? 0) && (hb =? 0) then Some (ascii_of_nat (16 * hc + hd), t'')
                  else None
              | _ => None
              end
            else None
        | EmptyString => None
        end
      else if nat_of_ascii c <? 32 then None
      else Some (c, t)
  | EmptyString => None
  end.

(** The body of a string literal, up to and including the closing
    quote. *)
Fixpoint parse_chars (fuel : nat) (s : string) : option (string * string) :=
  match fuel with
  | 0 => None
  | S fuel =>
      match s with
      | String c t =>
          if Ascii.eqb c dquote then Some ("", t)
          else
            '(ch, r) ← parse_char s;
            '(str, r') ← parse_chars fuel r;
            Some (String ch str, r')
      | EmptyString => None
      end
  end.

Definition parse_string (s : string) : option (string * string) :=
  parse_chars (S (String.length s)) s.

Fixpoint span_numeral (s : string) : string * string :=
  match s with
  | String c t =>
      if is_numeral c then let '(a, b) := span_numeral t in (String c a, b)
      else ("", s)
  | EmptyString => ("", "")
  end.

(** The integers of the JSON grammar: an optional minus sign, then a
    single zero or digits that do not start with a zero. *)
Definition json_int (t : string) : bool :=
  let u := match t with
           | String c u => if Ascii.eqb c "-" then u else t
           | EmptyString => t
           end in
  match u with
  | EmptyString => false
  | String c r =>
      if Ascii.eqb c "0" then match r with EmptyString => true | _ => false end
      else is_digit c && all_chars is_digit r
  end.

(** A number: fractions and exponents denote numbers the model does not
    have, and are refused. *)
Definition parse_number (s : string) : option (Z * string) :=
  let '(t, rest) := span_numeral s in
  if json_int t then
    match rest with
    | String c _ =>
        if Ascii.eqb c "." || Ascii.eqb c "e" || Ascii.eqb c "E" then None
        else d ← NilZero.int_of_string t; Some (Z.of_int d, rest)
    | EmptyString => d ← NilZero.int_of_string t; Some (Z.of_int d, rest)
    end
  else None.

(** A property set twice keeps its place and takes the last value. *)
Fixpoint set_field (k : string) (v : value) (fs : list (string * value)) :
    list (string * value) :=
  match fs with
  | [] => [(k, v)]
  | (k', v') :: fs' =>
      if String.eqb k k' then (k, v) :: fs' else (k', v') :: set_field k v fs'
  end.

Definition object_of (members : list (string * value)) : value :=
  VObj (foldl (fun fs kv => set_field kv.1 kv.2 fs) [] members).

Section Compound.
Context (parse_value : string -> option (value * string)).

(** The elements of an array after its first bracket, up to and
    including the closing one. *)
Fixpoint parse_elements (n : nat) (s : string) : option (list value * string) :=
  match n with
  | 0 => None
  | S n =>
      '(v, r) ← parse_value s;
      match skip r with
      | String c r' =>
          if Ascii.eqb c "," then
            '(l, r'') ← parse_elements n r'; Some (v :: l, r'')
          else if Ascii.eqb c "]" then Some ([v], r')
          else None
      | EmptyString => None
      end
  end.

(** The members of an object after its first brace. *)
Fixpoint parse_members (n : nat) (s : string) :
    option (list (string * value) * string) :=
  match n with
  | 0 => None
  | S n =>
      match skip s with
      | String q t =>
          if Ascii.eqb q dquote then
            '(k, r) ← parse_string t;
            match skip r with
            | String c r1 =>
                if Ascii.eqb c ":" then
                  '(v, r2) ← parse_value r1;
                  match skip r2 with
                  | String c' r3 =>
                      if Ascii.eqb c' "," then
                        '(fs, r4) ← parse_members n r3; Some ((k, v) :: fs, r4)
                      else if Ascii.eqb c' "}" then Some ([(k, v)], r3)
                      else None
                  | EmptyString => None
                  end
                else None
            | EmptyString => None
            end
          else None
      | EmptyString => None
      end
  end.

End Compound.

Fixpoint parse_value (fuel : nat) (s : string) : option (value * string) :=
  match fuel with
  | 0 => None
  | S fuel =>
      match skip s with
      | String c t =>
          if Ascii.eqb c dquote then
            '(str, r) ← parse_string t; Some (VStr str, r)
          else if Ascii.eqb c "[" then
            match skip t with
            | String c' r =>
                if Ascii.eqb c' "]" then Some (VArr [], r)
                else '(l, r) ← parse_elements (parse_value fuel) fuel t; Some (VArr l, r)
            | EmptyString => None
            end
          else if Ascii.eqb c "{" then
            match skip t with
            | String c' r =>
                if Ascii.eqb c' "}" then Some (VObj [], r)
                else '(fs, r) ← parse_members (parse_value fuel) fuel t;
                     Some (object_of fs, r)
            | EmptyString => None
            end
          else if Ascii.eqb c "n" then r ← eat "ull" t; Some (VNull, r)
          else if Ascii.eqb c "t" then r ← eat "rue" t; Some (VBool true, r)
          else if Ascii.eqb c "f" then r ← eat "alse" t; Some (VBool false, r)
          else '(n, r) ← parse_number (String c t); Some (VNum n, r)
      | EmptyString => None
      end
  end.

(** [JSON.parse]: [None] is the SyntaxError. *)
Definition parse (s : string) : option value :=
  '(v, r) ← parse_value (S (String.length s)) s;
  match skip r with
  | EmptyString => Some v
  | _ => None
  end.

(** ** The values that survive the trip *)

(** What follows a number must not continue it. *)
Definition delimited (rest : string) : Prop :=
  match rest with
  | String c _ =>
      is_numeral c = false /\ Ascii.eqb c "." = false /\
      Ascii.eqb c "e" = false /\ Ascii.eqb c "E" = false
  | EmptyString => True
  end.

Definition is_index (k : string) : bool := json_int k && all_chars is_digit k.

Fixpoint is_json (v : value) : bool :=
  match v with
  | VUndefined | VNaN => false
  | VNull | VBool _ | VStr _ => true
  | VNum n => (Z.abs n <? 2 ^ 53)%Z
  | VArr l => forallb is_json l
  | VObj fs =>
      bool_decide (NoDup fs.*1) &&
      forallb (fun kv => negb (is_index kv.1) && is_json kv.2) fs
  end.

Fixpoint size (v : value) : nat :=
  match v with
  | VArr l => S (list_sum (map size l))
  | VObj fs => S (list_sum (map (fun kv => size kv.2) fs))
  | _ => 1
  end.

Definition print (v : value) : string := default "null" (stringify v).

Definition member_string (kv : string * value) : string :=
  quote kv.1 +:+ ":" +:+ print kv.2.

(** The first character of a value. *)
Definition value_start (c : ascii) : bool :=
  is_numeral c || Ascii.eqb c dquote || Ascii.eqb c "[" || Ascii.eqb c "{" ||
  Ascii.eqb c "n" || Ascii.eqb c "t" || Ascii.eqb c "f".

(** A stored user, for the examples. *)
Definition ann : value :=
  VObj [("id", VNum 5); ("name", VStr "Ann"); ("tags", VArr [VNull; VBool true; VNum (-3)]);
        ("note", VStr (String dquote (String backslash (String (ascii_of_nat 10) "x"))))].


(** ** Facts *)

(** *** String literals *)

Lemma parse_char_escape c t : parse_char (escape_char c +:+ t) = Some (c, t).
Proof. destruct c as [[] [] [] [] [] [] [] []]; reflexivity. Qed.

Lemma escape_char_head c :
  exists h r, escape_char c = String h r /\ Ascii.eqb h dquote = false.
Proof. destruct c as [[] [] [] [] [] [] [] []]; by eexists _, _. Qed.

Lemma parse_chars_step fuel h r :
  Ascii.eqb h dquote = false ->
  parse_chars (S fuel) (String h r) =
    '(ch, r1) ← parse_char (String h r);
    '(str, r') ← parse_chars fuel r1;
    Some (String ch str, r').
Proof. intros H. cbn [parse_chars]. by rewrite H. Qed.

Lemma parse_chars_escape s rest fuel :
  String.length s < fuel ->
  parse_chars fuel (escape s +:+ String dquote rest) = Some (s, rest).
Proof.
  revert fuel. induction s as [|c s IH]; intros [|fuel] Hf; simpl in Hf; try lia.
  - done.
  - simpl escape. rewrite append_assoc.
    destruct (escape_char_head c) as (h & r & E & Hh).
    assert (E' : escape_char c +:+ (escape s +:+ String dquote rest) =
                 String h (r +:+ (escape s +:+ String dquote rest))) by (by rewrite E).
    rewrite E', parse_chars_step, <- E', parse_char_escape by done.
    cbn. by rewrite IH by lia.
Qed.

Lemma length_escape s : String.length s <= String.length (escape s).
Proof.
  induction s as [|c s IH]; simpl; [done|]. rewrite length_append.
  destruct (escape_char_head c) as (h & r & -> & _). simpl. lia.
Qed.

Lemma parse_string_quote s rest :
  parse_string (escape s +:+ String dquote rest) = Some (s, rest).
Proof.
  apply parse_chars_escape. rewrite length_append. pose proof (length_escape s). lia.
Qed.

(** *** Numbers *)

Lemma span_numeral_app t rest :
  all_chars is_numeral t = true ->
  match rest with String c _ => is_numeral c = false | EmptyString => True end ->
  span_numeral (t +:+ rest) = (t, rest).
Proof.
  intros Ht Hr. induction t as [|c t IH]; simpl in *.
  - rewrite ?append_nil. destruct rest as [|c r]; [done|]. simpl. by rewrite Hr.
  - apply andb_true_iff in Ht as [Hc Ht]. by rewrite Hc, IH.
Qed.

Lemma to_uint_head p :
  exists c t, NilEmpty.string_of_uint (Pos.to_uint p) = String c t /\
    Ascii.eqb c "0" = false /\ Ascii.eqb c "-" = false /\
    is_digit c = true /\ all_chars is_digit t = true.
Proof.
  pose proof (Unsigned.to_uint_nonnil p) as Hnil.
  assert (Hn : Decimal.unorm (Pos.to_uint p) = Pos.to_uint p).
  { by rewrite <- (Unsigned.to_of (Pos.to_uint p)), Unsigned.of_to. }
  pose proof (digits_of_uint (Pos.to_uint p)) as Hd.
  destruct (Pos.to_uint p) as [|d|d|d|d|d|d|d|d|d|d] eqn:E; try done;
    try (eexists _, _; split; [reflexivity|]; by apply andb_true_iff in Hd as [? ?]).
  exfalso. rewrite unorm_D0 in Hn. unfold Decimal.unorm in Hn.
  pose proof (nzhead_nonzero d d) as Hz.
  destruct (Decimal.nzhead d) eqn:Ez; try done.
  injection Hn as <-. by apply (Unsigned.to_uint_nonzero p).
Qed.

Lemma json_int_of_Z n : json_int (string_of_Z n) = true.
Proof.
  unfold string_of_Z. destruct n as [|p|p]; [done|..]; simpl;
    destruct (to_uint_head p) as (c & t & E & H0 & Hm & Hc & Ht).
  - assert (NilZero.string_of_uint (Pos.to_uint p) = String c t) as ->.
    { rewrite <- E. by destruct (Pos.to_uint p). }
    unfold json_int. by rewrite Hm, H0, Hc, Ht.
  - assert (NilZero.string_of_uint (Pos.to_uint p) = String c t) as ->.
    { rewrite <- E. by destruct (Pos.to_uint p). }
    unfold json_int. cbn. by rewrite H0, Hc, Ht.
Qed.

Lemma int_of_string_of_Z n :
  NilZero.int_of_string (string_of_Z n) = Some (Z.to_int n).
Proof. unfold string_of_Z. apply NilZero.isi; apply to_int_proper. Qed.

Lemma parse_number_of_Z n rest :
  delimited rest -> parse_number (string_of_Z n +:+ rest) = Some (n, rest).
Proof.
  intros Hr. unfold parse_number.
  rewrite span_numeral_app; [|apply numerals_of_Z|by destruct rest as [|c r]; [|destruct Hr]].
  rewrite json_int_of_Z, int_of_string_of_Z. cbn. rewrite DecimalZ.of_to.
  destruct rest as [|c r]; [done|]. destruct Hr as (_ & -> & -> & ->). done.
Qed.

(** *** Values *)

Lemma value_start_spec c :
  value_start c = true ->
  json_ws c = false /\ Ascii.eqb c "]" = false /\ Ascii.eqb c "}" = false.
Proof. destruct c as [[] [] [] [] [] [] [] []]; by vm_compute. Qed.

Lemma numeral_dispatch c :
  is_numeral c = true ->
  json_ws c = false /\ Ascii.eqb c dquote = false /\ Ascii.eqb c "[" = false /\
  Ascii.eqb c "{" = false /\ Ascii.eqb c "n" = false /\ Ascii.eqb c "t" = false /\
  Ascii.eqb c "f" = false.
Proof. destruct c as [[] [] [] [] [] [] [] []]; by vm_compute. Qed.

Lemma string_of_Z_head n :
  exists c t, string_of_Z n = String c t /\ is_numeral c = true.
Proof.
  destruct (string_of_Z_first n) as (c & t & E & _). exists c, t. split; [done|].
  pose proof (numerals_of_Z n) as H. rewrite E in H. simpl in H.
  by apply andb_true_iff in H as [? _].
Qed.

Lemma skip_start c t : json_ws c = false -> skip (String c t) = String c t.
Proof. simpl. by intros ->. Qed.

Lemma delimited_comma r : delimited (String "," r).
Proof. by vm_compute. Qed.
Lemma delimited_bracket r : delimited (String "]" r).
Proof. by vm_compute. Qed.
Lemma delimited_brace r : delimited (String "}" r).
Proof. by vm_compute. Qed.

Section CompoundFacts.
Context (pv : string -> option (value * string)).

Lemma parse_elements_step n s v r :
  pv s = Some (v, r) ->
  parse_elements pv (S n) s =
    match skip r with
    | String c r' =>
        if Ascii.eqb c "," then
          '(l, r'') ← parse_elements pv n r'; Some (v :: l, r'')
        else if Ascii.eqb c "]" then Some ([v], r')
        else None
    | EmptyString => None
    end.
Proof. intros H. cbn [parse_elements]. by rewrite H. Qed.

Lemma parse_members_step n k v X r2 :
  pv X = Some (v, r2) ->
  parse_members pv (S n) (String dquote (escape k +:+ String dquote (String ":" X))) =
    match skip r2 with
    | String c' r3 =>
        if Ascii.eqb c' "," then
          '(fs, r4) ← parse_members pv n r3; Some ((k, v) :: fs, r4)
        else if Ascii.eqb c' "}" then Some ([(k, v)], r3)
        else None
    | EmptyString => None
    end.
Proof.
  intros H. cbn [parse_members]. rewrite skip_start by done.
  change (Ascii.eqb dquote dquote) with true. cbv iota.
  rewrite parse_string_quote. cbn [mbind option_bind]. rewrite skip_start by done.
  change (Ascii.eqb ":" ":") with true. cbv iota. by rewrite H.
Qed.

Lemma parse_elements_commas (l : list value) rest n :
  l <> [] ->
  Forall (fun x => forall r, delimited r -> pv (print x +:+ r) = Some (x, r)) l ->
  length l <= n ->
  parse_elements pv n (commas (map print l) +:+ String "]" rest) = Some (l, rest).
Proof.
  intros Hl H. revert n. induction H as [|x l Hx Hrest IH]; [done|]. clear Hl.
  intros [|n] Hn; simpl in Hn; [lia|]. destruct l as [|y l].
  - change (commas (map print [x])) with (print x).
    rewrite (parse_elements_step n _ x (String "]" rest)) by apply Hx, delimited_bracket.
    by rewrite skip_start.
  - change (commas (map print (x :: y :: l)))
      with (print x +:+ "," +:+ commas (map print (y :: l))).
    rewrite !append_assoc, append_cons, append_nil.
    rewrite (parse_elements_step n _ x (String "," (commas (map print (y :: l)) +:+ String "]" rest)))
      by apply Hx, delimited_comma.
    rewrite skip_start by done. change (Ascii.eqb "," ",") with true. cbv iota.
    rewrite IH by (done || simpl in *; lia). done.
Qed.

Lemma parse_members_commas (fs : list (string * value)) rest n :
  fs <> [] ->
  Forall (fun kv => forall r, delimited r -> pv (print kv.2 +:+ r) = Some (kv.2, r)) fs ->
  length fs <= n ->
  parse_members pv n (commas (map member_string fs) +:+ String "}" rest) = Some (fs, rest).
Proof.
  intros Hl H. revert n. induction H as [|[k v] fs Hx Hrest IH]; [done|]. clear Hl.
  intros [|n] Hn; simpl in Hn; [lia|]. simpl in Hx.
  assert (Hm : forall X, member_string (k, v) +:+ X =
                 String dquote (escape k +:+ String dquote (String ":" (print v +:+ X)))).
  { intros X. unfold member_string, quote. simpl fst. simpl snd.
    by rewrite !append_cons, !append_assoc, !append_cons, !append_nil. }
  destruct fs as [|kv fs].
  - change (commas (map member_string [(k, v)])) with (member_string (k, v)).
    rewrite Hm, (parse_members_step n k v _ (String "}" rest)) by apply Hx, delimited_brace.
    by rewrite skip_start.
  - change (commas (map member_string ((k, v) :: kv :: fs)))
      with (member_string (k, v) +:+ "," +:+ commas (map member_string (kv :: fs))).
    rewrite append_assoc, Hm, append_assoc, append_cons, append_nil.
    rewrite (parse_members_step n k v _
               (String "," (commas (map member_string (kv :: fs)) +:+ String "}" rest)))
      by apply Hx, delimited_comma.
    rewrite skip_start by done. change (Ascii.eqb "," ",") with true. cbv iota.
    rewrite IH by (done || simpl in *; lia). done.
Qed.

End CompoundFacts.

Lemma stringify_print v : v <> VUndefined -> stringify v = Some (print v).
Proof. unfold print. destruct v as [| |[]| | | | |]; done. Qed.

Lemma is_json_defined v : is_json v = true -> v <> VUndefined.
Proof. by destruct v. Qed.

Lemma omap_members fs :
  Forall (fun kv : string * value => kv.2 <> VUndefined) fs ->
  omap (fun kv : string * value =>
          s ← stringify kv.2; Some (quote kv.1 +:+ ":" +:+ s)) fs =
  map member_string fs.
Proof.
  induction 1 as [|kv fs Hkv _ IH]; [done|]. cbn [omap list_omap map].
  rewrite (stringify_print _ Hkv). cbn. by rewrite IH.
Qed.

Lemma print_array l : print (VArr l) = "[" +:+ commas (map print l) +:+ "]".
Proof. reflexivity. Qed.

Lemma print_object fs :
  Forall (fun kv : string * value => kv.2 <> VUndefined) fs ->
  print (VObj fs) = "{" +:+ commas (map member_string fs) +:+ "}".
Proof. intros H. unfold print. cbn [stringify default]. by rewrite omap_members. Qed.

Lemma print_head v :
  is_json v = true -> exists c t, print v = String c t /\ value_start c = true.
Proof.
  destruct v as [| |[]|n| |s|fs|l]; try done; intros Hj;
    try (by eexists _, _; split; [reflexivity|]).
  - destruct (string_of_Z_head n) as (c & t & E & Hc). exists c, t. split; [done|].
    unfold value_start. by rewrite Hc.
Qed.

Lemma commas_head (ss : list string) c t :
  exists t', commas (String c t :: ss) = String c t'.
Proof. destruct ss; cbn [commas]; [by eexists|]. rewrite append_cons. by eexists. Qed.

Lemma set_field_fresh k v fs : k ∉ fs.*1 -> set_field k v fs = fs ++ [(k, v)].
Proof.
  induction fs as [|[k' v'] fs IH]; [done|]. simpl.
  intros [Hk Hfs]%not_elem_of_cons. destruct (String.eqb_spec k k'); [done|].
  by rewrite IH.
Qed.

Lemma object_of_nodup fs : NoDup fs.*1 -> object_of fs = VObj fs.
Proof.
  unfold object_of. intros H. f_equal.
  enough (G : forall acc, NoDup ((acc ++ fs).*1) ->
            foldl (fun a kv => set_field kv.1 kv.2 a) acc fs = acc ++ fs)
    by (by apply (G [])).
  clear H. induction fs as [|[k v] fs IH]; intros acc H; simpl.
  - by rewrite List.app_nil_r.
  - rewrite set_field_fresh.
    + rewrite IH; rewrite <- List.app_assoc; done.
    + rewrite fmap_app, fmap_cons in H. apply NoDup_app in H as (_ & H & _).
      intros Hk. apply (H k Hk). simpl. left.
Qed.

Lemma size_pos v : 1 <= size v.
Proof. destruct v; simpl; lia. Qed.

Lemma length_le_sizes {A} (f : A -> value) (l : list A) :
  length l <= list_sum (map (fun x => size (f x)) l).
Proof.
  induction l as [|x l IH]; simpl; [done|]. pose proof (size_pos (f x)). lia.
Qed.

Lemma size_le_sizes {A} (f : A -> value) (l : list A) x :
  x ∈ l -> size (f x) <= list_sum (map (fun x => size (f x)) l).
Proof.
  intros H. induction l as [|y l IH]; [by apply elem_of_nil in H|].
  apply elem_of_cons in H as [->|H]; simpl; [lia|]. specialize (IH H). lia.
Qed.

Lemma length_le_size l : length l <= list_sum (map size l).
Proof. induction l as [|x l IH]; simpl; [done|]. pose proof (size_pos x). lia. Qed.

Lemma size_le_size l x : x ∈ l -> size x <= list_sum (map size l).
Proof.
  intros H. induction l as [|y l IH]; [by apply elem_of_nil in H|].
  apply elem_of_cons in H as [->|H]; simpl; [lia|]. specialize (IH H). lia.
Qed.

Lemma parse_value_array f c t :
  value_start c = true ->
  parse_value (S f) (String "[" (String c t)) =
    '(l, r) ← parse_elements (parse_value f) f (String c t); Some (VArr l, r).
Proof.
  intros (Hws & Hb & _)%value_start_spec. cbn [parse_value].
  rewrite skip_start by done.
  change (Ascii.eqb "[" dquote) with false. change (Ascii.eqb "[" "[") with true.
  cbv iota. by rewrite skip_start, Hb.
Qed.

Lemma parse_value_object f t :
  parse_value (S f) (String "{" (String dquote t)) =
    '(fs, r) ← parse_members (parse_value f) f (String dquote t); Some (object_of fs, r).
Proof.
  cbn [parse_value]. rewrite skip_start by done.
  change (Ascii.eqb "{" dquote) with false. change (Ascii.eqb "{" "[") with false.
  change (Ascii.eqb "{" "{") with true. cbv iota. by rewrite skip_start.
Qed.

Lemma parse_value_number f c t :
  is_numeral c = true ->
  parse_value (S f) (String c t) = '(n, r) ← parse_number (String c t); Some (VNum n, r).
Proof.
  intros (Hws & H1 & H2 & H3 & H4 & H5 & H6)%numeral_dispatch.
  cbn [parse_value]. rewrite skip_start by done. by rewrite H1, H2, H3, H4, H5, H6.
Qed.

(** Parsing what was printed, inside any context that delimits it: the
    two compound cases, given the claim for the components. *)
Lemma parse_print_object f fs rest :
  is_json (VObj fs) = true -> size (VObj fs) <= S f ->
  Forall (fun kv => is_json kv.2 = true -> forall fuel rest, size kv.2 <= fuel ->
            delimited rest -> parse_value fuel (print kv.2 +:+ rest) = Some (kv.2, rest)) fs ->
  parse_value (S f) (print (VObj fs) +:+ rest) = Some (VObj fs, rest).
Proof.
  intros Hj Hf IH.
  simpl in Hj. apply andb_true_iff in Hj as [Hnd%bool_decide_eq_true Hfs].
  assert (Hjs : forall kv, kv ∈ fs -> is_json kv.2 = true).
  { intros kv Hkv. apply (forallb_elem _ _ _ Hfs) in Hkv.
    by apply andb_true_iff in Hkv as [_ ?]. }
  rewrite print_object
    by (apply Forall_forall; intros kv Hkv; by apply is_json_defined, Hjs).
  flatten. destruct fs as [|[k v] fs]; [reflexivity|].
  destruct (commas_head (map member_string fs) dquote
              ((escape k +:+ String dquote "") +:+ ":" +:+ print v)) as [t' Et].
  assert (Eh : commas (map member_string ((k, v) :: fs)) = String dquote t')
    by (by rewrite <- Et).
  rewrite Eh, append_cons, parse_value_object, <- append_cons, <- Eh.
  rewrite parse_members_commas; [cbn; by rewrite object_of_nodup|done|..].
  - rewrite Forall_forall in IH |- *. intros kv Hkv r Hdel.
    apply IH; [done|by apply Hjs| |done].
    simpl in Hf. pose proof (size_le_sizes snd _ _ Hkv). simpl in *. lia.
  - simpl in Hf. pose proof (length_le_sizes snd ((k, v) :: fs)). simpl in *. lia.
Qed.

Lemma parse_print_array f l rest :
  is_json (VArr l) = true -> size (VArr l) <= S f ->
  Forall (fun x => is_json x = true -> forall fuel rest, size x <= fuel ->
            delimited rest -> parse_value fuel (print x +:+ rest) = Some (x, rest)) l ->
  parse_value (S f) (print (VArr l) +:+ rest) = Some (VArr l, rest).
Proof.
  intros Hj Hf IH. simpl in Hj. rewrite print_array. flatten.
  destruct l as [|x l]; [reflexivity|].
  destruct (print_head x) as (c & t & Ex & Hc);
    [apply (forallb_elem _ _ _ Hj); by left|].
  destruct (commas_head (map print l) c t) as [t' Et].
  assert (Eh : commas (map print (x :: l)) = String c t').
  { rewrite <- Et. cbn [map]. by rewrite Ex. }
  rewrite Eh, append_cons, parse_value_array, <- append_cons, <- Eh by done.
  rewrite parse_elements_commas; [done|done|..].
  - rewrite Forall_forall in IH |- *. intros y Hy r Hdel.
    apply IH; [done|by apply (forallb_elem _ _ _ Hj)| |done].
    simpl in Hf. pose proof (size_le_size _ _ Hy). simpl in *. lia.
  - simpl in Hf. pose proof (length_le_size (x :: l)). simpl in *. lia.
Qed.

Lemma parse_print v :
  is_json v = true ->
  forall fuel rest, size v <= fuel -> delimited rest ->
  parse_value fuel (print v +:+ rest) = Some (v, rest).
Proof.
  induction v as [| |b|n| |s|fs IH|l IH] using value_ind_nested;
    intros Hj [|f] rest Hf Hr; try done; try (simpl in Hf; lia).
  - destruct b; reflexivity.
  - destruct (string_of_Z_head n) as (c & t & E & Hc).
    change (print (VNum n)) with (string_of_Z n). rewrite E, append_cons.
    rewrite parse_value_number by done.
    rewrite <- append_cons, <- E, parse_number_of_Z by done. done.
  - change (print (VStr s)) with (quote s). unfold quote. flatten.
    cbn [parse_value]. rewrite skip_start by done.
    change (Ascii.eqb dquote dquote) with true. cbv iota.
    by rewrite parse_string_quote.
  - by apply parse_print_object.
  - by apply parse_print_array.
Qed.

Lemma length_commas (ss : list string) :
  list_sum (map String.length ss) <= String.length (commas ss).
Proof.
  induction ss as [|s ss IH]; [done|]. destruct ss as [|s' ss].
  - simpl. lia.
  - change (commas (s :: s' :: ss)) with (s +:+ "," +:+ commas (s' :: ss)).
    rewrite !length_append. simpl in *. lia.
Qed.

Lemma list_sum_le {A} (f g : A -> nat) (l : list A) :
  Forall (fun x => f x <= g x) l -> list_sum (map f l) <= list_sum (map g l).
Proof. induction 1; simpl; lia. Qed.

Lemma size_le_length v : is_json v = true -> size v <= String.length (print v).
Proof.
  induction v as [| |b|n| |s|fs IH|l IH] using value_ind_nested; intros Hj; try done.
  - vm_compute. lia.
  - destruct b; vm_compute; lia.
  - destruct (string_of_Z_head n) as (c & t & E & _).
    change (print (VNum n)) with (string_of_Z n). rewrite E. simpl. lia.
  - simpl. lia.
  - simpl in Hj. apply andb_true_iff in Hj as [_ Hfs].
    assert (Hjs : forall kv, kv ∈ fs -> is_json kv.2 = true).
    { intros kv Hkv. apply (forallb_elem _ _ _ Hfs) in Hkv.
      by apply andb_true_iff in Hkv as [_ ?]. }
    rewrite print_object
      by (apply Forall_forall; intros kv Hkv; by apply is_json_defined, Hjs).
    rewrite !length_append. simpl.
    pose proof (length_commas (map member_string fs)) as Hc.
    rewrite map_map in Hc.
    enough (list_sum (map (fun kv => size kv.2) fs) <=
            list_sum (map (fun x => String.length (member_string x)) fs)) by lia.
    apply list_sum_le. rewrite Forall_forall in IH |- *. intros kv Hkv.
    unfold member_string. rewrite !length_append. specialize (IH kv Hkv (Hjs kv Hkv)). lia.
  - simpl in Hj. rewrite print_array, !length_append. simpl.
    pose proof (length_commas (map print l)) as Hc. rewrite map_map in Hc.
    enough (list_sum (map size l) <= list_sum (map (fun x => String.length (print x)) l))
      by lia.
    apply list_sum_le. rewrite Forall_forall in IH |- *. intros x Hx.
    apply IH; [done|]. by apply (forallb_elem _ _ _ Hj).
Qed.

(** A value made of [null], booleans, integers, strings, arrays and
    objects with distinct keys survives the trip through its JSON text:
    [JSON.parse(JSON.stringify(v))] is [v].  This is what the stored user
    relies on. *)
Theorem parse_stringify v s :
  is_json v = true -> stringify v = Some s -> parse s = Some v.
Proof.
  intros Hj Hs. rewrite (stringify_print v) in Hs by (by apply is_json_defined).
  injection Hs as <-. unfold parse.
  rewrite <- (append_empty_r (print v)) at 2.
  rewrite parse_print; [done|done| |done].
  pose proof (size_le_length v Hj). lia.
Qed.


(** ** Witnesses *)

Lemma parse_stringify_witness :
  parse (String "{" (String dquote "id" +:+ String dquote ":5," +:+ String dquote "name" +:+ String dquote ":" +:+ String dquote "Ann" +:+ String dquote "," +:+ String dquote "tags" +:+ String dquote ":[null,true,-3]," +:+ String dquote "note" +:+ String dquote ":" +:+ String dquote (String backslash (String dquote (String backslash (String backslash (String backslash "nx" +:+ String dquote "}"))))))) = Some ann.
Proof. apply (parse_stringify ann); reflexivity. Defined.

End JSON.
