(* ===== verification/Session.v ===== *)
(** * The session: the browser's local storage

    The program keeps one thing between page loads: the signed-in user,
    as JSON text under the key 'user' of [localStorage].  There is no
    session object in the sources; Login.jsx writes and removes the key,
    and BookingForm.jsx, MyBookings.jsx and Login.jsx each read it with the
    same expression, [JSON.parse(localStorage.getItem('user') || 'null')],
    which is [stored_user] here. *)

From S2P Require Import Prelude JsValue Json.

(** ** [localStorage] *)

Module localStorage.

Abbreviation storage := (gmap string string).

(** [getItem(k)]: the string stored under [k], or [null]. *)
Definition getItem (k : string) (st : storage) : value :=
  match st !! k with
  | Some s => VStr s
  | None => VNull
  end.

(** [setItem(k, v)] stores the string of [v]. *)
Definition setItem (k : string) (v : value) (st : storage) : storage :=
  <[k := toString v]> st.

Definition removeItem (k : string) (st : storage) : storage := delete k st.

End localStorage.

(** [JSON.stringify(v)] as a value: a string, or [undefined]. *)
Definition stringified (v : value) : value :=
  match JSON.stringify v with
  | Some s => VStr s
  | None => VUndefined
  end.

(** [JSON.parse(localStorage.getItem('user') || 'null')]: [None] is the
    SyntaxError of a text that is not JSON. *)
Definition stored_user (st : localStorage.storage) : option value :=
  JSON.parse (toString (or_ (localStorage.getItem "user" st) (VStr "null"))).

(** ** Facts *)

Lemma stored_user_empty : stored_user ∅ = Some VNull.
Proof. reflexivity. Qed.

Lemma JSON_nonempty v s : JSON.stringify v = Some s -> s <> "".
Proof.
  destruct v as [| |[]|n| |x|fs|l]; simpl; intros [= <-]; try done.
  destruct (string_of_Z_first n) as (c & t & -> & _). done.
Qed.

(** What was stored as the user is what is read back. *)
Lemma stored_user_set v st :
  JSON.is_json v = true ->
  stored_user (localStorage.setItem "user" (stringified v) st) = Some v.
Proof.
  intros Hj. unfold stringified.
  destruct (JSON.stringify v) as [s|] eqn:E;
    [|by rewrite JSON.stringify_print in E by (by apply JSON.is_json_defined)].
  unfold stored_user, localStorage.setItem, localStorage.getItem.
  rewrite lookup_insert_eq. cbn [toString].
  rewrite or_truthy by (apply truthy_str; by eapply JSON_nonempty).
  by apply JSON.parse_stringify.
Qed.

Lemma stored_user_removed st :
  stored_user (localStorage.removeItem "user" st) = Some VNull.
Proof.
  unfold stored_user, localStorage.removeItem, localStorage.getItem.
  by rewrite lookup_delete_eq.
Qed.

(** [JSON.stringify(undefined)] is [undefined], which is stored as the
    text "undefined", which is not JSON: every later read throws. *)
Lemma stored_user_undefined st :
  stored_user (localStorage.setItem "user" (stringified VUndefined) st) = None.
Proof.
  unfold stored_user, localStorage.setItem, localStorage.getItem.
  by rewrite lookup_insert_eq.
Qed.

(** ** The property of the session *)

(** C31. The session survives the trip through the storage: whatever the
    storage held, after [localStorage.setItem('user', JSON.stringify(data))]
    with [data] made of [null], booleans, integers, strings, arrays and
    objects, every page reads [data] back as the stored user, and after
    [localStorage.removeItem('user')] it reads [null]. *)
Theorem session_round_trip data st :
  JSON.is_json data = true ->
  stored_user (localStorage.setItem "user" (stringified data) st) = Some data /\
  stored_user (localStorage.removeItem "user"
                 (localStorage.setItem "user" (stringified data) st)) = Some VNull.
Proof. intros Hj. split; [by apply stored_user_set|apply stored_user_removed]. Qed.

(** ** Witnesses *)

Lemma session_round_trip_witness :
  stored_user (localStorage.setItem "user" (stringified JSON.ann)
                 (localStorage.setItem "user" (VStr "{") ∅)) = Some JSON.ann /\
  stored_user (localStorage.removeItem "user"
                 (localStorage.setItem "user" (stringified JSON.ann)
                    (localStorage.setItem "user" (VStr "{") ∅))) = Some VNull.
Proof. by apply session_round_trip. Defined.
