(* ===== verification/Async.v ===== *)
(** * Asynchronous handlers

    A handler of a component is an [async] function: it runs until its
    first [await], where it hands a request to the network and suspends;
    when the response (or the failure) arrives, the rest of the body runs,
    until the next [await] or the end.  Between two suspension points the
    handler is alone on the event loop.

    [prog] is the syntax of such a body: state updates (the [setX] calls of
    [useState]), [await] on a request, [throw], and the call of another
    async function that is not awaited.  [try_catch] and [try_finally] are
    the [try] statement.  [run] executes a body up to its suspension
    points, and [machine] is a component instance on the event loop: its
    state, the requests in flight with the continuations that wait for
    them, and the log of what was sent. *)

From S2P Require Import Prelude JsValue.

(** ** Programs *)

(** How a promise settles. *)
Inductive outcome : Type :=
| Resolved (response : value)
| Rejected (reason : value).

Inductive prog (Req St A : Type) : Type :=
| Ret (a : A)
| Throw (e : value)
| Upd (f : St -> St) (k : prog Req St A)
| Await (r : Req) (k : outcome -> prog Req St A)
| Spawn (p : prog Req St unit) (k : prog Req St A).

Arguments Ret {Req St A} a.
Arguments Throw {Req St A} e.
Arguments Upd {Req St A} f k.
Arguments Await {Req St A} r k.
Arguments Spawn {Req St A} p k.

Section Prog.
Context {Req St : Type}.
#[local] Abbreviation prog := (prog Req St).

Fixpoint pbind {A B} (p : prog A) (f : A -> prog B) : prog B :=
  match p with
  | Ret a => f a
  | Throw e => Throw e
  | Upd g k => Upd g (pbind k f)
  | Await r k => Await r (fun o => pbind (k o) f)
  | Spawn q k => Spawn q (pbind k f)
  end.

(** [try { p } catch (e) { h e }] *)
Fixpoint try_catch {A} (p : prog A) (h : value -> prog A) : prog A :=
  match p with
  | Ret a => Ret a
  | Throw e => h e
  | Upd g k => Upd g (try_catch k h)
  | Await r k => Await r (fun o => try_catch (k o) h)
  | Spawn q k => Spawn q (try_catch k h)
  end.

(** [try { p } finally { c }]: [c] runs on both exits of [p]; an exception
    of [c] replaces the result of [p]. *)
Fixpoint try_finally {A} (p : prog A) (c : prog unit) : prog A :=
  match p with
  | Ret a => pbind c (fun _ => Ret a)
  | Throw e => pbind c (fun _ => Throw e)
  | Upd g k => Upd g (try_finally k c)
  | Await r k => Await r (fun o => try_finally (k o) c)
  | Spawn q k => Spawn q (try_finally k c)
  end.

(** [setX(v)] *)
Definition upd (f : St -> St) : prog unit := Upd f (Ret tt).

(** [await request]: the response, or the rejection as an exception. *)
Definition await (r : Req) : prog value :=
  Await r (fun o =>
    match o with
    | Resolved v => Ret v
    | Rejected e => Throw e
    end).

(** A call [f()] of an async function whose promise is dropped. *)
Definition call (p : prog unit) : prog unit := Spawn p (Ret tt).

(** [v.k], which throws on [undefined] and [null]. *)
Definition get (v : value) (k : string) : prog value :=
  match member v k with
  | Some x => Ret x
  | None => Throw TypeError
  end.

End Prog.

#[export] Instance prog_ret {Req St} : MRet (prog Req St) := @Ret Req St.
#[export] Instance prog_bind {Req St} : MBind (prog Req St) :=
  fun A B f p => pbind p f.


(** ** Running a body up to its suspension points *)

Section Run.
Context {Req St : Type}.
#[local] Abbreviation prog := (prog Req St).

(** A suspended body: the request it waits for and what it does next. *)
Record suspended : Type := Suspended {
  request_of : Req;
  resume : outcome -> prog unit
}.

Record effects : Type := Effects {
  after : St;                    (* the state when the body stops *)
  waiting : list suspended;      (* the bodies that suspended, in order *)
  uncaught : list value          (* the exceptions nothing caught *)
}.

Fixpoint run (p : prog unit) (s : St) : effects :=
  match p with
  | Ret _ => Effects s [] []
  | Throw e => Effects s [] [e]
  | Upd f k => run k (f s)
  | Await r k => Effects s [Suspended r k] []
  | Spawn q k =>
      let e1 := run q s in
      let e2 := run k (after e1) in
      Effects (after e2) (waiting e1 ++ waiting e2) (uncaught e1 ++ uncaught e2)
  end.

(** ** A component instance on the event loop *)

Record machine : Type := Machine {
  ui : St;                          (* the state cells *)
  pending : gmap nat suspended;     (* requests in flight, by id *)
  next_id : nat;                    (* the id of the next request *)
  sent : list Req;                  (* every request issued, oldest first *)
  unhandled : list value            (* unhandled rejections *)
}.

Definition boot (s : St) : machine := Machine s ∅ 0 [] [].

(** A synchronous handler that only sets cells: [onChange] of an input. *)
Definition retype (f : St -> St) (m : machine) : machine :=
  Machine (f (ui m)) (pending m) (next_id m) (sent m) (unhandled m).

Definition register (m : machine) (w : suspended) : machine :=
  Machine (ui m) (<[next_id m := w]> (pending m)) (S (next_id m))
          (sent m ++ [request_of w]) (unhandled m).

(** [commit] is what React does when the handler gives control back: it
    renders, which mounts and unmounts children.  A component without
    children commits with [id]. *)
Context (commit : St -> St).

Definition settle (e : effects) (m : machine) : machine :=
  foldl register
    (Machine (commit (after e)) (pending m) (next_id m) (sent m)
             (unhandled m ++ uncaught e))
    (waiting e).

(** Run a handler (or a continuation) on the instance. *)
Definition invoke (p : prog unit) (m : machine) : machine :=
  settle (run p (ui m)) m.

(** The network settles request [i] with [o]. *)
Definition deliver (i : nat) (o : outcome) (m : machine) : machine :=
  match pending m !! i with
  | Some w =>
      invoke (resume w o)
        (Machine (ui m) (delete i (pending m)) (next_id m) (sent m) (unhandled m))
  | None => m
  end.

End Run.

Arguments suspended : clear implicits.
Arguments Suspended {Req St} request_of resume.
Arguments Effects {Req St} after waiting uncaught.
Arguments Machine {Req St} ui pending next_id sent unhandled.
Arguments invoke : simpl never.
Arguments deliver : simpl never.
Arguments settle : simpl never.
Arguments effects : clear implicits.
Arguments machine : clear implicits.

(** ** What may be thrown

    [guarded P T p]: on every path of [p] on which the awaited promises
    settle with outcomes in [P], an exception that leaves [p] is in [T].
    With [T] empty the body never throws. *)

Fixpoint guarded {Req St : Type} {A : Type} (P : outcome -> Prop) (T : value -> Prop)
    (p : prog Req St A) : Prop :=
  match p with
  | Ret _ => True
  | Throw e => T e
  | Upd _ k => guarded P T k
  | Await _ k => forall o, P o -> guarded P T (k o)
  | Spawn q k => guarded P (fun _ => False) q /\ guarded P T k
  end.

Definition safe {Req St : Type} {A : Type} (P : outcome -> Prop) (p : prog Req St A) : Prop :=
  guarded P (fun _ => False) p.

(** ** Well-formed instances *)

Section Invariants.
Context {Req St : Type}.

(** Ids are handed out in order, and the log has the request of each id. *)
Definition machine_wf (m : machine Req St) : Prop :=
  length (sent m) = next_id m /\
  forall i w, pending m !! i = Some w -> sent m !! i = Some (request_of w).

(** Nothing was left uncaught, and nothing in flight will throw as long as
    the network answers within [P]. *)
Definition machine_safe (P : outcome -> Prop) (m : machine Req St) : Prop :=
  unhandled m = [] /\
  forall i w, pending m !! i = Some w -> forall o, P o -> safe P (resume w o).

(** A flow is single-flight when at most one of its requests is in flight,
    exactly while its flag is up: the flag is the [loading] cell that
    disables the button, [mine] tells the continuations of the flow. *)
Definition single_flight (flag : St -> bool) (mine : suspended Req St -> Prop)
    (m : machine Req St) : Prop :=
  (forall i j w w', pending m !! i = Some w -> pending m !! j = Some w' ->
                    mine w -> mine w' -> i = j) /\
  (flag (ui m) = true <-> exists i w, pending m !! i = Some w /\ mine w).

End Invariants.

(** ** Facts on programs *)

Section ProgFacts.
Context {Req St : Type}.
#[local] Abbreviation prog := (prog Req St).

Lemma guarded_weaken {A} (P : outcome -> Prop) (T T' : value -> Prop) (p : prog A) :
  (forall e, T e -> T' e) -> guarded P T p -> guarded P T' p.
Proof. intros HT. induction p; simpl; intuition eauto. Qed.

Lemma guarded_bind {A B} P T (p : prog A) (f : A -> prog B) :
  guarded P T p -> (forall a, guarded P T (f a)) -> guarded P T (pbind p f).
Proof. revert f. induction p; simpl; intuition eauto. Qed.

Lemma guarded_try_catch {A} P T T' (p : prog A) (h : value -> prog A) :
  guarded P T p -> (forall e, T e -> guarded P T' (h e)) ->
  guarded P T' (try_catch p h).
Proof. revert h. induction p; simpl; intuition eauto. Qed.

Lemma guarded_try_finally {A} P T (p : prog A) (c : prog unit) :
  guarded P T p -> guarded P T c -> guarded P T (try_finally p c).
Proof.
  intros Hp Hc. induction p; simpl in *; intuition eauto using guarded_bind.
  all: apply guarded_bind; simpl; auto.
Qed.

Lemma guarded_get P (T : value -> Prop) v k :
  (nullish v = true -> T TypeError) -> guarded (Req:=Req) (St:=St) P T (get v k).
Proof. unfold get, member. destruct (nullish v); simpl; auto. Qed.

Lemma guarded_await P (T : value -> Prop) (r : Req) :
  (forall e, P (Rejected e) -> T e) -> guarded (St:=St) P T (await r).
Proof. intros H [v|e] Ho; simpl; auto. Qed.

Lemma guarded_upd P T (f : St -> St) : guarded (Req:=Req) P T (upd f).
Proof. done. Qed.

(** Induction on the bodies that [run] takes: those that return nothing. *)
Lemma prog_unit_ind (Q : prog unit -> Prop) :
  (forall a, Q (Ret a)) ->
  (forall e, Q (Throw e)) ->
  (forall f k, Q k -> Q (Upd f k)) ->
  (forall r k, (forall o, Q (k o)) -> Q (Await r k)) ->
  (forall q k, Q q -> Q k -> Q (Spawn q k)) ->
  forall p, Q p.
Proof.
  intros HR HT HU HA HS p.
  enough (H : forall A (p : prog A) (E : A = unit),
             Q (eq_rect A (Async.prog Req St) p unit E)) by apply (H _ p eq_refl).
  clear p. induction p as [| | ? ? ? IH | ? ? ? IH | ? q IHq k IHk];
    intros E; subst; simpl; auto.
  - apply HU, (IH eq_refl).
  - apply HA. intros o. apply (IH o eq_refl).
  - apply HS; [apply (IHq eq_refl) | apply (IHk eq_refl)].
Qed.

(** A body that never throws leaves nothing uncaught, and neither do the
    bodies it leaves suspended. *)
Lemma run_safe P (p : prog unit) s :
  safe P p ->
  uncaught (run p s) = [] /\
  Forall (fun w : suspended Req St => forall o, P o -> safe P (resume w o)) (waiting (run p s)).
Proof.
  unfold safe. revert s.
  induction p as [| | ? ? IH | ? ? IH | q k IHq IHk] using prog_unit_ind;
    intros s Hp; simpl in *; try done.
  - auto.
  - split; [done|]. repeat constructor. done.
  - destruct Hp as [Hq Hk].
    destruct (IHq s Hq) as [-> ?], (IHk (after (run q s)) Hk) as [-> ?].
    split; [done|]. by apply Forall_app.
Qed.

End ProgFacts.

(** ** Facts on instances *)

Section MachineFacts.
Context {Req St : Type} (commit : St -> St).
Implicit Types (m : machine Req St) (w : suspended Req St)
  (l : list (suspended Req St)) (p : Async.prog Req St unit).

Lemma register_all_ui m l : ui (foldl register m l) = ui m.
Proof. revert m. induction l as [|w l IH]; intros m; simpl; [done|]. by rewrite IH. Qed.

Lemma register_all_unhandled m l : unhandled (foldl register m l) = unhandled m.
Proof. revert m. induction l as [|w l IH]; intros m; simpl; [done|]. by rewrite IH. Qed.

Lemma register_all_next_id m l :
  next_id (foldl register m l) = next_id m + length l.
Proof.
  revert m. induction l as [|w l IH]; intros m; simpl; [lia|].
  rewrite IH. simpl. lia.
Qed.

Lemma register_all_sent m l : sent (foldl register m l) = sent m ++ (request_of <$> l).
Proof.
  revert m. induction l as [|w l IH]; intros m; simpl; [by rewrite app_nil_r|].
  rewrite IH. simpl. by rewrite <- app_assoc.
Qed.

Lemma register_all_pending m l i :
  pending (foldl register m l) !! i =
    if decide (next_id m <= i) then
      match l !! (i - next_id m) with Some w => Some w | None => pending m !! i end
    else pending m !! i.
Proof.
  revert m. induction l as [|w l IH]; intros m; simpl.
  - by case_decide.
  - rewrite IH. simpl. repeat case_decide; try lia.
    + destruct (decide (i = next_id m)) as [->|].
      * lia.
      * replace (i - next_id m) with (S (i - S (next_id m))) by lia. simpl.
        by rewrite lookup_insert_ne.
    + assert (i = next_id m) as -> by lia.
      rewrite Nat.sub_diag. simpl. by rewrite lookup_insert_eq.
    + rewrite lookup_insert_ne by lia. done.
Qed.

(** The observable effects of running a handler. *)
Lemma invoke_ui p m : ui (invoke commit p m) = commit (after (run p (ui m))).
Proof. unfold invoke, settle. by rewrite register_all_ui. Qed.

Lemma invoke_sent p m :
  sent (invoke commit p m) = sent m ++ (request_of <$> waiting (run p (ui m))).
Proof. unfold invoke, settle. by rewrite register_all_sent. Qed.

Lemma invoke_next_id p m :
  next_id (invoke commit p m) = next_id m + length (waiting (run p (ui m))).
Proof. unfold invoke, settle. by rewrite register_all_next_id. Qed.

Lemma invoke_unhandled p m :
  unhandled (invoke commit p m) = unhandled m ++ uncaught (run p (ui m)).
Proof. unfold invoke, settle. by rewrite register_all_unhandled. Qed.

Lemma invoke_pending p m i :
  pending (invoke commit p m) !! i =
    if decide (next_id m <= i) then
      match waiting (run p (ui m)) !! (i - next_id m) with
      | Some w => Some w
      | None => pending m !! i
      end
    else pending m !! i.
Proof. unfold invoke, settle. by rewrite register_all_pending. Qed.

Lemma invoke_quiet p m :
  waiting (run p (ui m)) = [] ->
  invoke commit p m =
    Machine (commit (after (run p (ui m)))) (pending m) (next_id m) (sent m)
            (unhandled m ++ uncaught (run p (ui m))).
Proof. unfold invoke, settle. by intros ->. Qed.

Lemma invoke_single p m w :
  waiting (run p (ui m)) = [w] ->
  invoke commit p m =
    Machine (commit (after (run p (ui m)))) (<[next_id m := w]> (pending m))
            (S (next_id m)) (sent m ++ [request_of w])
            (unhandled m ++ uncaught (run p (ui m))).
Proof. unfold invoke, settle. by intros ->. Qed.

Lemma deliver_known i o m w :
  pending m !! i = Some w ->
  deliver commit i o m =
    invoke commit (resume w o)
      (Machine (ui m) (delete i (pending m)) (next_id m) (sent m) (unhandled m)).
Proof. unfold deliver. by intros ->. Qed.

(** A settlement whose continuation runs to its end, and one whose
    continuation issues one more request. *)
Lemma deliver_quiet i o m w :
  pending m !! i = Some w -> waiting (run (resume w o) (ui m)) = [] ->
  deliver commit i o m =
    Machine (commit (after (run (resume w o) (ui m)))) (delete i (pending m))
            (next_id m) (sent m) (unhandled m ++ uncaught (run (resume w o) (ui m))).
Proof.
  intros Hw Hq. rewrite (deliver_known _ _ _ w) by done. by rewrite invoke_quiet.
Qed.

Lemma deliver_single i o m w w' :
  pending m !! i = Some w -> waiting (run (resume w o) (ui m)) = [w'] ->
  deliver commit i o m =
    Machine (commit (after (run (resume w o) (ui m))))
            (<[next_id m := w']> (delete i (pending m))) (S (next_id m))
            (sent m ++ [request_of w'])
            (unhandled m ++ uncaught (run (resume w o) (ui m))).
Proof.
  intros Hw Hq. rewrite (deliver_known _ _ _ w) by done.
  by rewrite (invoke_single _ _ w').
Qed.

Lemma wf_fresh m i : machine_wf m -> next_id m <= i -> pending m !! i = None.
Proof.
  intros [Hlen Hp] Hi. destruct (pending m !! i) as [w|] eqn:E; [|done].
  apply Hp, lookup_lt_Some in E. lia.
Qed.

Lemma deliver_unknown i o m : pending m !! i = None -> deliver commit i o m = m.
Proof. unfold deliver. by intros ->. Qed.

Lemma boot_wf (s : St) : machine_wf (boot (Req:=Req) s).
Proof. split; [done|]. intros i w. simpl. by rewrite lookup_empty. Qed.

Lemma invoke_wf p m : machine_wf m -> machine_wf (invoke commit p m).
Proof.
  intros [Hlen Hp]. split.
  - rewrite invoke_sent, invoke_next_id, length_app, length_fmap. lia.
  - intros i w. rewrite invoke_pending, invoke_sent. case_decide as Hi.
    + destruct (_ !! (i - next_id m)) as [w'|] eqn:E.
      * intros [= ->]. rewrite lookup_app_r by lia.
        rewrite Hlen, list_lookup_fmap, E. done.
      * intros Hw. apply Hp in Hw as Hs. apply lookup_lt_Some in Hs. lia.
    + intros Hw. rewrite lookup_app_l by lia. auto.
Qed.

Lemma deliver_wf i o m : machine_wf m -> machine_wf (deliver commit i o m).
Proof.
  intros Hm. unfold deliver. destruct (pending m !! i) as [w0|] eqn:E; [|done].
  apply invoke_wf. destruct Hm as [Hlen Hp]. split; [done|]. simpl.
  intros j w Hj. apply lookup_delete_Some in Hj as [_ Hj]. auto.
Qed.

Lemma boot_safe P (s : St) : machine_safe (Req:=Req) P (boot s).
Proof. split; [done|]. intros i w. simpl. by rewrite lookup_empty. Qed.

Lemma invoke_safe P p m :
  safe P p -> machine_safe P m -> machine_safe P (invoke commit p m).
Proof.
  intros Hp [Hu Hk]. destruct (run_safe P p (ui m) Hp) as [Hun Hw]. split.
  - by rewrite invoke_unhandled, Hu, Hun.
  - intros i w. rewrite invoke_pending. rewrite Forall_lookup in Hw.
    case_decide; [|by eauto].
    destruct (_ !! (i - next_id m)) eqn:E; [|by eauto].
    intros [= <-]. eauto.
Qed.

Lemma deliver_safe P i o m :
  P o -> machine_safe P m -> machine_safe P (deliver commit i o m).
Proof.
  intros Ho Hm. unfold deliver. destruct (pending m !! i) as [w0|] eqn:E; [|done].
  destruct Hm as [Hu Hk]. apply invoke_safe.
  - apply (Hk i w0 E o Ho).
  - split; [done|]. simpl. intros j w Hj.
    apply lookup_delete_Some in Hj as [_ Hj]. eauto.
Qed.

End MachineFacts.

(** ** Facts on single-flight flows *)

Section FlowFacts.
Context {Req St : Type}.
Context (flag : St -> bool) (mine : suspended Req St -> Prop).
Implicit Types (m : machine Req St) (w : suspended Req St).

Lemma single_flight_boot (s : St) : flag s = false -> single_flight flag mine (boot s).
Proof.
  intros Hf. split; simpl.
  - intros i j w w'. by rewrite lookup_empty.
  - rewrite Hf. split; [done|]. intros (i & w & Hi & _). by rewrite lookup_empty in Hi.
Qed.

Lemma single_flight_same m m' :
  pending m' = pending m -> flag (ui m') = flag (ui m) ->
  single_flight flag mine m -> single_flight flag mine m'.
Proof.
  destruct m, m'. unfold single_flight. simpl. intros Hp Hf H. subst.
  by rewrite Hf.
Qed.

Lemma single_flight_start m m' k w :
  single_flight flag mine m -> flag (ui m) = false -> pending m !! k = None ->
  pending m' = <[k := w]> (pending m) -> mine w -> flag (ui m') = true ->
  single_flight flag mine m'.
Proof.
  destruct m' as [s' p' n' l' u']. unfold single_flight at 2. simpl.
  intros [Hu Hf] Hidle Hk -> Hw Hbusy.
  assert (Hnone : forall i w0, pending m !! i = Some w0 -> mine w0 -> False).
  { intros i w0 Hi Hm. rewrite Hidle in Hf.
    assert (false = true) by (apply Hf; eauto). done. }
  split.
  - intros i j w1 w2 [[-> ->]|[? Hi]]%lookup_insert_Some
      [[-> ->]|[? Hj]]%lookup_insert_Some Hm1 Hm2; try done; exfalso; eauto.
  - rewrite Hbusy. split; [|done]. intros _. exists k, w.
    by rewrite lookup_insert_eq.
Qed.

Lemma single_flight_other_start m m' k w :
  single_flight flag mine m -> pending m !! k = None ->
  pending m' = <[k := w]> (pending m) -> ~ mine w -> flag (ui m') = flag (ui m) ->
  single_flight flag mine m'.
Proof.
  destruct m' as [s' p' n' l' u']. unfold single_flight at 2. simpl.
  intros [Hu Hf] Hk -> Hw ->. split.
  - intros i j w1 w2 [[-> ->]|[? Hi]]%lookup_insert_Some
      [[-> ->]|[? Hj]]%lookup_insert_Some Hm1 Hm2; try done. eauto.
  - rewrite Hf. split.
    + intros (i & w0 & Hi & Hm). exists i, w0. split; [|done].
      rewrite lookup_insert_ne; [done|]. intros ->. congruence.
    + intros (i & w0 & [[-> ->]|[? Hi]]%lookup_insert_Some & Hm); [done|eauto].
Qed.

Lemma single_flight_finish m m' i w :
  single_flight flag mine m -> pending m !! i = Some w -> mine w ->
  pending m' = delete i (pending m) -> flag (ui m') = false ->
  single_flight flag mine m'.
Proof.
  destruct m' as [s' p' n' l' u']. unfold single_flight at 2. simpl.
  intros [Hu Hf] Hi Hw -> Hidle. split.
  - intros j1 j2 w1 w2 [_ H1]%lookup_delete_Some [_ H2]%lookup_delete_Some. eauto.
  - rewrite Hidle. split; [done|].
    intros (j & w0 & [Hne Hj]%lookup_delete_Some & Hm).
    destruct Hne. eauto.
Qed.

Lemma single_flight_other_finish m m' i w :
  single_flight flag mine m -> pending m !! i = Some w -> ~ mine w ->
  pending m' = delete i (pending m) -> flag (ui m') = flag (ui m) ->
  single_flight flag mine m'.
Proof.
  destruct m' as [s' p' n' l' u']. unfold single_flight at 2. simpl.
  intros [Hu Hf] Hi Hw -> ->. split.
  - intros j1 j2 w1 w2 [_ H1]%lookup_delete_Some [_ H2]%lookup_delete_Some. eauto.
  - rewrite Hf. split.
    + intros (j & w0 & Hj & Hm). exists j, w0. split; [|done].
      apply lookup_delete_Some. split; [|done]. intros ->. congruence.
    + intros (j & w0 & [_ Hj]%lookup_delete_Some & Hm). eauto.
Qed.

(** While the flag is down, nothing of the flow is in flight. *)
Lemma single_flight_idle m i w :
  single_flight flag mine m -> flag (ui m) = false -> pending m !! i = Some w -> ~ mine w.
Proof.
  intros [_ Hf] Hidle Hi Hm. rewrite Hidle in Hf.
  assert (false = true) by (apply Hf; eauto). done.
Qed.

End FlowFacts.

#[export] Hint Resolve guarded_bind guarded_try_catch guarded_try_finally
  guarded_get guarded_await guarded_upd : olib.
#[export] Hint Resolve boot_wf invoke_wf deliver_wf boot_safe invoke_safe
  deliver_safe : olib.
#[export] Hint Rewrite @invoke_ui @invoke_sent @invoke_next_id @invoke_unhandled : olib.
