(* ===== verification/Component.v ===== *)
(** * Components on the event loop: the interface

    Every component of the program meets the event loop in the same way:
    the user or the network produces an event; a disabled control swallows
    its event; an enabled one runs a handler, or the continuation of one.
    A component therefore comes with three things: [enabled], which reads
    the [disabled] attributes off the rendered output, [fire], the
    executable reaction to an event, and [step], the transition relation
    its invariants are stated on.

    [Component] is what the three promise each other.  The facts below are
    proved once against it: the runs of [fire] are exactly the paths of
    [step], so that an invariant proved event by event holds in every
    reachable state, and a concrete run computed by [fire] is a witness of
    reachability. *)

From S2P Require Import Prelude JsValue Async.

Class Component {Req St Ev : Type}
    (enabled : Ev -> machine Req St -> bool)
    (fire : Ev -> machine Req St -> machine Req St)
    (step : machine Req St -> machine Req St -> Prop) : Prop := {
  fire_disabled ev m : enabled ev m = false -> fire ev m = m;
  fire_step ev m : enabled ev m = true -> step m (fire ev m);
  step_fire m m' : step m m' -> exists ev, enabled ev m = true /\ m' = fire ev m
}.

Section ComponentFacts.
Context {Req St Ev : Type}.
Context {enabled : Ev -> machine Req St -> bool}.
Context {fire : Ev -> machine Req St -> machine Req St}.
Context {step : machine Req St -> machine Req St -> Prop}.
Context `{!Component enabled fire step}.
Implicit Types (m : machine Req St) (evs : list Ev).

Lemma fire_step_or_same ev m : step m (fire ev m) \/ fire ev m = m.
Proof.
  destruct (enabled ev m) eqn:E; [left; by apply fire_step|right; by apply fire_disabled].
Qed.

(** A run of [fire] is a path of [step]. *)
Lemma exec_reachable init evs :
  reachable step init (foldl (fun m ev => fire ev m) init evs).
Proof.
  apply reachable_foldl; [|apply reachable_init].
  intros m ev. apply fire_step_or_same.
Qed.

(** Every path of [step] is a run of [fire]. *)
Lemma reachable_exec init m :
  reachable step init m -> exists evs, m = foldl (fun m ev => fire ev m) init evs.
Proof.
  revert m. apply reachable_ind_inv; [by exists []|].
  intros m m' _ [evs ->] (ev & _ & ->)%step_fire.
  exists (evs ++ [ev]). by rewrite foldl_app.
Qed.

(** An invariant is proved for the first state and for each enabled
    event. *)
Lemma reachable_invariant (P : machine Req St -> Prop) init :
  P init ->
  (forall ev m, P m -> enabled ev m = true -> P (fire ev m)) ->
  forall m, reachable step init m -> P m.
Proof.
  intros Hi Hs. apply reachable_ind_inv; [done|].
  intros m m' _ Hm (ev & Hev & ->)%step_fire. by apply Hs.
Qed.

(** The same invariant for any event, disabled ones included. *)
Lemma fire_invariant (P : machine Req St -> Prop) :
  (forall ev m, P m -> enabled ev m = true -> P (fire ev m)) ->
  forall ev m, P m -> P (fire ev m).
Proof.
  intros Hs ev m Hm. destruct (enabled ev m) eqn:E; [by apply Hs|].
  by rewrite fire_disabled.
Qed.

(** A run whose handlers catch what the network can answer leaves no
    rejection unhandled. *)
Lemma exec_unhandled (P : outcome -> Prop) (ok : Ev -> Prop) evs m :
  (forall ev m, ok ev -> machine_safe P m -> machine_safe P (fire ev m)) ->
  Forall ok evs -> machine_safe P m ->
  unhandled (foldl (fun m ev => fire ev m) m evs) = [].
Proof.
  intros Hf Hevs Hm.
  by destruct (foldl_invariant _ (machine_safe P) ok evs m (fun m ev => Hf ev m) Hevs Hm).
Qed.

End ComponentFacts.
