(* ===== verification/Gateway.v ===== *)
(** * The gateway: api/api.js

    One function per server capability, each a thin wrapper of an axios
    call on the instance [API].  A call is a [request]; what the server
    makes of it is an [outcome]: axios resolves with a response object
    whose [data] is the decoded body, and rejects with an error object that
    has a [response] when the server answered with a failure status and
    none when nothing came back.  The wrappers neither retry nor translate
    errors: each handler reads the message out of the error itself, with
    [error_message]. *)

From S2P Require Import Prelude JsValue Async.

Inductive method : Type := GET | POST.

Record request : Type := Request {
  meth : method;
  url : string;         (* relative to [baseURL] *)
  params : value;       (* the query parameters, [undefined] when not given *)
  body : value          (* the payload of a POST *)
}.

#[export] Instance method_eq_dec : EqDecision method.
Proof. solve_decision. Defined.

Module API.

Definition baseURL : string := "http://127.0.0.1:5000/api".

Definition get (path : string) (config : value) : request :=
  Request GET path (opt_get config "params") VUndefined.

Definition post (path : string) (payload : value) : request :=
  Request POST path VUndefined payload.

End API.

(** ** Books *)

Definition getBooks (q : value) : request :=
  API.get "/books/"
    (VObj [("params", if truthy q then VObj [("q", q)] else VObj [])]).

Definition getBook (id : value) : request :=
  API.get ("/books/" +:+ toString id) VUndefined.

Definition createBook (payload : value) : request :=
  API.post "/books/" payload.

(** ** AI endpoints *)

Definition summarize (textOrBook : value) : request :=
  API.post "/books/summarize" textOrBook.

Definition recommend (query : value) : request :=
  API.post "/books/recommend" (VObj [("query", query)]).

(** ** Users *)

Definition createUser (payload : value) : request :=
  API.post "/users/" payload.

Definition getUsers : request :=
  API.get "/users/" VUndefined.

(** ** Bookings *)

Definition createBooking (payload : value) : request :=
  API.post "/bookings/" payload.

Definition getUserBookings (userId : value) : request :=
  API.get ("/bookings/user/" +:+ toString userId) VUndefined.

(** ** Outcomes of a call, as axios reports them *)

(** The response object of a success status, and the promise resolved
    with it. *)
Definition response (data : value) : value :=
  VObj [("data", data); ("status", VNum 200)].

Definition http_ok (data : value) : outcome := Resolved (response data).

(** The error object of a failure status, which carries the response, and
    the promise rejected with it. *)
Definition failure (status : Z) (data : value) : value :=
  VObj [("name", VStr "AxiosError");
        ("response", VObj [("data", data); ("status", VNum status)])].

Definition http_error (status : Z) (data : value) : outcome :=
  Rejected (failure status data).

(** The error object when no response came back at all. *)
Definition no_response : value :=
  VObj [("name", VStr "AxiosError"); ("message", VStr "Network Error")].

Definition network_error : outcome := Rejected no_response.

(** The error envelope of the server. *)
Definition error_body (msg : string) : value := VObj [("error", VStr msg)].

(** What axios can deliver: a response object, or an error object. *)
Definition axios_outcome (o : outcome) : Prop :=
  match o with
  | Resolved r => nullish r = false
  | Rejected e => nullish e = false
  end.

(** What a body throws is an object: the error of a rejected call, or a
    TypeError. *)
Definition thrown_object (e : value) : Prop := nullish e = false.

(** ** Lists, as the server sends them

    The list endpoints answer with an envelope [{ items: [...] }].  A list
    a page can render is an array without [null] or [undefined] entries;
    [listing] is the contract of an answer: its [items], when there are
    any, are such a list. *)
Definition listable (v : value) : Prop :=
  exists l, v = VArr l /\ Forall (fun b => nullish b = false) l.

Definition listing (o : outcome) : Prop :=
  match o with
  | Resolved resp =>
      forall data items,
        member resp "data" = Some data -> member data "items" = Some items ->
        truthy items = true -> listable items
  | Rejected _ => True
  end.

(** ** Reading the message of a failure

    [err.response?.data?.error || dflt], the expression of every [catch]
    block that shows the server's message. *)
Definition error_message {St} (err : value) (dflt : string) : prog request St value :=
  r ← get err "response";
  mret (or_ (opt_get (opt_get r "data") "error") (VStr dflt)).

(** The same as a function, for an [err] that is an object. *)
Definition message_of (err : value) (dflt : string) : value :=
  or_ (opt_get (opt_get (opt_get err "response") "data") "error") (VStr dflt).

(** ** Facts *)

Lemma error_message_object {St} err dflt :
  nullish err = false ->
  error_message (St:=St) err dflt = Ret (message_of err dflt).
Proof.
  intros H. unfold error_message, message_of, get, member.
  rewrite H. cbn. by rewrite (opt_get_defined err).
Qed.

Lemma error_message_nullish {St} err dflt :
  nullish err = true -> error_message (St:=St) err dflt = Throw TypeError.
Proof. intros H. unfold error_message, get, member. by rewrite H. Qed.

Lemma message_of_truthy err dflt : dflt <> "" -> truthy (message_of err dflt) = true.
Proof. intros H. apply truthy_or_default. by apply truthy_str. Qed.

Lemma message_of_failure status msg dflt :
  msg <> "" -> message_of (failure status (error_body msg)) dflt = VStr msg.
Proof.
  intros Hm. unfold message_of. simpl.
  apply or_truthy. by apply truthy_str.
Qed.

Lemma message_of_no_response dflt : message_of no_response dflt = VStr dflt.
Proof. done. Qed.

Lemma member_response data : member (response data) "data" = Some data.
Proof. done. Qed.

Lemma guarded_error_message {St} P (T : value -> Prop) err dflt :
  (nullish err = true -> T TypeError) ->
  guarded (St:=St) P T (error_message err dflt).
Proof.
  intros H. unfold error_message, get, member.
  destruct (nullish err); simpl; auto.
Qed.

(** The shape of every handler that reports a failure:
    [try { body } catch (err) { setError(err.response?.data?.error || dflt) }
     finally { fin }].  Whatever [body] throws, an axios error or a
    TypeError, the [catch] block can read. *)
Lemma guarded_reporting {St} (T : value -> Prop) (body : prog request St unit) dflt
    (report : value -> St -> St) (fin : prog request St unit) :
  guarded axios_outcome thrown_object body ->
  guarded axios_outcome T fin ->
  guarded axios_outcome T
    (try_finally
       (try_catch body (fun err => msg ← error_message err dflt; upd (report msg)))
       fin).
Proof.
  intros Hb Hf. apply guarded_try_finally; [|done].
  apply guarded_try_catch with (T := thrown_object); [done|].
  intros e He. apply guarded_bind; [|done].
  apply guarded_error_message. unfold thrown_object in He. congruence.
Qed.

Lemma guarded_request {St} (r : request) :
  guarded (St:=St) axios_outcome thrown_object (await r).
Proof. by apply guarded_await. Qed.

Lemma guarded_field {St} P v k :
  guarded (Req:=request) (St:=St) P thrown_object (get v k).
Proof. by apply guarded_get. Qed.

(** [solve_guarded] walks the body of a handler, statement by statement. *)
Ltac solve_guarded :=
  repeat first
    [ done
    | progress intros
    | apply guarded_reporting
    | apply guarded_bind
    | apply guarded_request
    | apply guarded_field
    | apply guarded_upd ].

(** [items || []] of a well-formed answer is a list. *)
Lemma listable_default items :
  (truthy items = true -> listable items) -> listable (or_ items (VArr [])).
Proof.
  intros H. unfold or_. destruct (truthy items); [by apply H|]. by exists [].
Qed.

(** A list is mapped without a TypeError by a callback that accepts
    every book. *)
Lemma listable_map {A} (f : value -> option A) v :
  (forall b, nullish b = false -> is_Some (f b)) ->
  listable v -> is_Some (array_map f v).
Proof.
  intros Hf (l & -> & Hl). cbn. induction l as [|b l IH]; [by eexists|].
  apply Forall_cons in Hl as [[c Hc]%Hf [cs Hcs]%IH]. cbn.
  rewrite Hc, Hcs. by eexists.
Qed.

Lemma getBooks_falsy q : truthy q = false -> getBooks q = getBooks VUndefined.
Proof. unfold getBooks. by intros ->. Qed.

#[export] Hint Resolve guarded_error_message message_of_truthy : olib.
