(* ===== verification/Server.v ===== *)
(** * The server, as the client's specification describes it

    The inventory, the bookings and the AI service are on a server that
    is not part of the client's sources.  The specification of the client
    says what the client relies on: the nine endpoints with the shape of
    their answers, the error envelope, and what a booking does to the
    copies of a book.  This file is the smallest server that keeps these
    promises, so that the properties of the client that need one can be
    stated and proved end to end.

    - The state holds the books with their copies, the users and the
      bookings.  The AI model and the search are parameters ([Oracle]).
    - [route] reads the method and the URL of a request the way the
      gateway writes them; [handle] answers a request and returns the new
      state.  A body is what [JSON.stringify] leaves of it ([received]).
    - A booking is accepted when its user and its book exist and a copy
      is available; it takes one copy.  Nothing gives a copy back: the
      client has no operation that cancels or returns. *)

From S2P Require Import Prelude JsValue Json Async Gateway.

Module Server.

(** ** Data *)

Record Book : Type := mkBook {
  title : string;
  author : string;
  genre : option string;
  summary : option string;
  ai_summary : option string;
  total_copies : Z;
  available_copies : Z
}.

Record User : Type := mkUser {
  user_name : string;
  user_email : string;
  user_password : string
}.

Inductive status : Type := active | cancelled | returned.

#[export] Instance status_eq_dec : EqDecision status.
Proof. solve_decision. Defined.

Record Booking : Type := mkBooking {
  booking_id : Z;
  user_id : Z;
  book_id : Z;
  booking_status : status;
  booking_date : Z
}.

Record State : Type := mkState {
  books : gmap Z Book;
  users : gmap Z User;
  bookings : list Booking;       (* the oldest first *)
  next_book : Z;
  next_user : Z;
  now : Z                        (* the clock *)
}.

(** What the server does not compute from its state: the text model, the
    choice of a recommendation, the match of a search, and whether a
    generated summary is stored with the book. *)
Record Oracle : Type := mkOracle {
  generate : string -> string;
  pick : string -> list (Z * Book) -> option string;
  found : string -> Book -> bool;
  persists : bool
}.

(** ** The bodies of the answers *)

Definition optional (o : option string) : value := from_option VStr VNull o.

Definition book_json (id : Z) (b : Book) : value :=
  VObj [("id", VNum id); ("title", VStr (title b)); ("author", VStr (author b));
        ("genre", optional (genre b)); ("summary", optional (summary b));
        ("ai_summary", optional (ai_summary b));
        ("total_copies", VNum (total_copies b));
        ("available_copies", VNum (available_copies b))].

Definition user_json (id : Z) (u : User) : value :=
  VObj [("id", VNum id); ("name", VStr (user_name u)); ("email", VStr (user_email u))].

Definition status_json (st : status) : value :=
  VStr match st with
       | active => "active"
       | cancelled => "cancelled"
       | returned => "returned"
       end.

Definition booking_json (b : Booking) : value :=
  VObj [("id", VNum (booking_id b)); ("user_id", VNum (user_id b));
        ("book_id", VNum (book_id b)); ("status", status_json (booking_status b));
        ("booking_date", VNum (booking_date b))].

Definition items (l : list value) : value := VObj [("items", VArr l)].

(** The answers: a success, a creation, and the error envelope. *)
Definition ok (data : value) (s : State) : outcome * State := (http_ok data, s).

Definition created (data : value) (s : State) : outcome * State :=
  (Resolved (VObj [("data", data); ("status", VNum 201)]), s).

Definition fail (code : Z) (msg : string) (s : State) : outcome * State :=
  (http_error code (error_body msg), s).

(** A field that is a string, when it is one. *)
Definition text (v : value) : option string :=
  match v with
  | VStr x => Some x
  | _ => None
  end.

(** ** The endpoints *)

Definition get_books (ai : Oracle) (q : option string) (s : State) : outcome * State :=
  let shown (kb : Z * Book) :=
    match q with
    | Some x => found ai x kb.2
    | None => true
    end in
  ok (items ((fun kb => book_json kb.1 kb.2) <$> List.filter shown (map_to_list (books s)))) s.

Definition get_book (id : Z) (s : State) : outcome * State :=
  match books s !! id with
  | Some b => ok (book_json id b) s
  | None => fail 404 "Book not found" s
  end.

Definition post_book (payload : value) (s : State) : outcome * State :=
  match get_field payload "title", get_field payload "author",
        get_field payload "total_copies" with
  | VStr t, VStr a, VNum n =>
      if String.eqb t "" || String.eqb a "" || (n <? 0)%Z then fail 400 "Invalid book" s
      else
        let b := mkBook t a (text (get_field payload "genre"))
                        (text (get_field payload "summary")) None n n in
        created (book_json (next_book s) b)
          (mkState (<[next_book s := b]> (books s)) (users s) (bookings s)
                   (next_book s + 1)%Z (next_user s) (now s))
  | _, _, _ => fail 400 "Invalid book" s
  end.

Definition set_ai_summary (t : string) (b : Book) : Book :=
  mkBook (title b) (author b) (genre b) (summary b) (Some t)
         (total_copies b) (available_copies b).

(** Either a text or a book: the text of the book is its summary. *)
Definition post_summarize (ai : Oracle) (payload : value) (s : State) : outcome * State :=
  match get_field payload "text", get_field payload "book_id" with
  | VStr t, VUndefined =>
      if String.eqb t "" then fail 400 "Nothing to summarize" s
      else ok (VObj [("summary", VStr (generate ai t))]) s
  | VUndefined, VNum id =>
      match books s !! id with
      | Some b =>
          match summary b with
          | Some t =>
              ok (VObj [("summary", VStr (generate ai t))])
                 (if persists ai then
                    mkState (<[id := set_ai_summary (generate ai t) b]> (books s)) (users s)
                            (bookings s) (next_book s) (next_user s) (now s)
                  else s)
          | None => fail 400 "Nothing to summarize" s
          end
      | None => fail 404 "Book not found" s
      end
  | _, _ => fail 400 "Invalid request" s
  end.

Definition post_recommend (ai : Oracle) (payload : value) (s : State) : outcome * State :=
  match get_field payload "query" with
  | VStr q =>
      ok (VObj [("recommended_book",
                 optional (pick ai q (map_to_list (books s))))]) s
  | _ => fail 400 "Invalid request" s
  end.

Definition post_user (payload : value) (s : State) : outcome * State :=
  match get_field payload "name", get_field payload "email",
        get_field payload "password" with
  | VStr n, VStr e, VStr p =>
      if String.eqb n "" || String.eqb e "" || String.eqb p "" then
        fail 400 "Invalid user" s
      else
        created (user_json (next_user s) (mkUser n e p))
          (mkState (books s) (<[next_user s := mkUser n e p]> (users s)) (bookings s)
                   (next_book s) (next_user s + 1)%Z (now s))
  | _, _, _ => fail 400 "Invalid user" s
  end.

Definition get_users (s : State) : outcome * State :=
  ok (VArr ((fun ku => user_json ku.1 ku.2) <$> map_to_list (users s))) s.

Definition take_copy (b : Book) : Book :=
  mkBook (title b) (author b) (genre b) (summary b) (ai_summary b)
         (total_copies b) (available_copies b - 1)%Z.

Definition post_booking (payload : value) (s : State) : outcome * State :=
  match get_field payload "user_id", get_field payload "book_id" with
  | VNum u, VNum id =>
      match users s !! u, books s !! id with
      | Some _, Some b =>
          if (0 <? available_copies b)%Z then
            let bk := mkBooking (Z.of_nat (length (bookings s)) + 1)%Z u id active (now s) in
            created (booking_json bk)
              (mkState (<[id := take_copy b]> (books s)) (users s) (bookings s ++ [bk])
                       (next_book s) (next_user s) (now s))
          else fail 409 "No copies available" s
      | None, _ => fail 404 "User not found" s
      | _, None => fail 404 "Book not found" s
      end
  | _, _ => fail 400 "Invalid identifiers" s
  end.

Definition get_bookings (uid : Z) (s : State) : outcome * State :=
  ok (items (booking_json <$>
               List.filter (fun b => bool_decide (user_id b = uid)) (bookings s))) s.

(** ** Requests *)

(** An integer a JavaScript number holds exactly. *)
Definition safe_int (n : Z) : Prop := (Z.abs n < 2 ^ 53)%Z.

(** The body as it arrives: [JSON.stringify] drops the fields that are
    [undefined] and writes [NaN] as [null]. *)
Definition received (v : value) : value :=
  default VNull (JSON.stringify v ≫= JSON.parse).

Inductive endpoint : Type :=
| GetBooks (q : option string)
| GetBook (id : Z)
| PostBook (payload : value)
| PostSummarize (payload : value)
| PostRecommend (payload : value)
| PostUser (payload : value)
| GetUsers
| PostBooking (payload : value)
| GetBookings (uid : Z)
| NoRoute.

(** The number at the end of a path. *)
Definition numeral (t : string) : option Z :=
  if all_chars is_numeral t && negb (String.eqb t "") then
    match StringToNumber t with
    | VNum n => Some n
    | _ => None
    end
  else None.

Definition route (r : request) : endpoint :=
  match meth r with
  | GET =>
      if String.eqb (url r) "/books/" then
        GetBooks (text (get_field (params r) "q"))
      else if String.eqb (url r) "/users/" then GetUsers
      else
        match JSON.eat "/bookings/user/" (url r) ≫= numeral with
        | Some uid => GetBookings uid
        | None =>
            match JSON.eat "/books/" (url r) ≫= numeral with
            | Some id => GetBook id
            | None => NoRoute
            end
        end
  | POST =>
      let payload := received (body r) in
      if String.eqb (url r) "/books/" then PostBook payload
      else if String.eqb (url r) "/books/summarize" then PostSummarize payload
      else if String.eqb (url r) "/books/recommend" then PostRecommend payload
      else if String.eqb (url r) "/users/" then PostUser payload
      else if String.eqb (url r) "/bookings/" then PostBooking payload
      else NoRoute
  end.

Definition serve (ai : Oracle) (e : endpoint) (s : State) : outcome * State :=
  match e with
  | GetBooks q => get_books ai q s
  | GetBook id => get_book id s
  | PostBook payload => post_book payload s
  | PostSummarize payload => post_summarize ai payload s
  | PostRecommend payload => post_recommend ai payload s
  | PostUser payload => post_user payload s
  | GetUsers => get_users s
  | PostBooking payload => post_booking payload s
  | GetBookings uid => get_bookings uid s
  | NoRoute => fail 404 "Not found" s
  end.

Definition handle (ai : Oracle) (r : request) (s : State) : outcome * State :=
  serve ai (route r) s.

(** ** The inventory *)

(** The copies of a book that are out: its active bookings. *)
Definition lent (id : Z) (l : list Booking) : Z :=
  Z.of_nat (length (List.filter
    (fun b => bool_decide (book_id b = id) && bool_decide (booking_status b = active)) l)).

(** The copies of a book are within bounds, and those available are
    those that are not lent. *)
Definition stocked (b : Book) : Prop :=
  (0 <= available_copies b <= total_copies b)%Z.

Record wf (s : State) : Prop := mkWf {
  wf_stocked : forall id b, books s !! id = Some b -> stocked b;
  wf_lent : forall id b, books s !! id = Some b ->
            (available_copies b + lent id (bookings s))%Z = total_copies b;
  wf_books : forall id, is_Some (books s !! id) -> (0 < id < next_book s)%Z;
  wf_users : forall id, is_Some (users s !! id) -> (0 < id < next_user s)%Z;
  wf_next : (0 < next_book s)%Z /\ (0 < next_user s)%Z;
  wf_bookings : Forall (fun b => is_Some (users s !! user_id b) /\
                                 is_Some (books s !! book_id b)) (bookings s)
}.

(** An empty library. *)
Definition empty : State := mkState ∅ ∅ [] 1 1 0.

(** ** What the server answers *)

(** An answer is a response with its data, or a failure with the error
    envelope. *)
Inductive answer : outcome -> Prop :=
| answer_data data code : answer (Resolved (VObj [("data", data); ("status", VNum code)]))
| answer_error code msg : answer (http_error code (error_body msg)).

(** ** Facts *)

Section ServerFacts.
Context (ai : Oracle).
Implicit Types (s : State) (b : Book) (r : request) (l : list Booking).

(** *** The wire *)

Lemma received_json v : JSON.is_json v = true -> received v = v.
Proof.
  intros Hj. unfold received.
  rewrite (JSON.stringify_print v) by (by apply JSON.is_json_defined). simpl.
  by rewrite (JSON.parse_stringify v (JSON.print v))
    by (done || by apply JSON.stringify_print, JSON.is_json_defined).
Qed.

Lemma is_json_num n : safe_int n -> JSON.is_json (VNum n) = true.
Proof. intros H. by apply Z.ltb_lt. Qed.

Lemma numeral_of_Z n : numeral (string_of_Z n) = Some n.
Proof.
  unfold numeral. rewrite numerals_of_Z, StringToNumber_of_Z.
  destruct (string_of_Z_first n) as (c & t & -> & _). done.
Qed.

(** *** The inventory *)

Lemma lent_nil id : lent id [] = 0%Z.
Proof. done. Qed.

Lemma lent_snoc id l bk :
  lent id (l ++ [bk]) =
    (lent id l + if bool_decide (book_id bk = id) && bool_decide (booking_status bk = active)
                 then 1 else 0)%Z.
Proof.
  unfold lent. rewrite List.filter_app, length_app. simpl. case_match; simpl; lia.
Qed.

(** Nothing is lent of a book no booking names. *)
Lemma lent_unknown id l : Forall (fun bk => book_id bk <> id) l -> lent id l = 0%Z.
Proof.
  unfold lent. induction 1 as [|bk l Hbk _ IH]; [done|]. simpl.
  by rewrite bool_decide_eq_false_2.
Qed.

Lemma take_copy_stocked b :
  stocked b -> (0 < available_copies b)%Z -> stocked (take_copy b).
Proof. unfold stocked. simpl. lia. Qed.

End ServerFacts.

Section InventoryFacts.
Context (ai : Oracle).
Implicit Types (s : State) (b : Book) (r : request) (l : list Booking).

(** *** Every endpoint keeps the inventory well formed *)

Lemma ok_wf data s : wf s -> wf (ok data s).2.
Proof. done. Qed.

Lemma fail_wf code msg s : wf s -> wf (fail code msg s).2.
Proof. done. Qed.

(** A booking names a book that exists: none names the next id. *)
Lemma lent_next s : wf s -> lent (next_book s) (bookings s) = 0%Z.
Proof.
  intros H. apply lent_unknown. eapply Forall_impl; [apply (wf_bookings _ H)|].
  intros bk [_ Hb] E. apply (wf_books _ H) in Hb. lia.
Qed.

Lemma post_book_wf payload s : wf s -> wf (post_book payload s).2.
Proof.
  intros H. unfold post_book. repeat case_match; try done. simpl.
  match goal with E : _ || _ = false |- _ =>
    apply orb_false_iff in E as [_ Hn%Z.ltb_ge] end.
  destruct (wf_next _ H). split; simpl; [..|lia|].
  - intros id' b' [[<- <-]|[_ Hb]]%lookup_insert_Some; [unfold stocked; simpl; lia|].
    by apply (wf_stocked _ H id').
  - intros id' b' [[<- <-]|[_ Hb]]%lookup_insert_Some; [|by apply (wf_lent _ H)].
    rewrite lent_next by done. simpl. lia.
  - intros id' [<-|[_ Hb]]%lookup_insert_is_Some; [lia|].
    apply (wf_books _ H) in Hb. lia.
  - apply (wf_users _ H).
  - eapply Forall_impl; [apply (wf_bookings _ H)|]. intros bk [Hu Hb]. split; [done|].
    apply lookup_insert_is_Some'. by right.
Qed.

Lemma post_summarize_wf payload s : wf s -> wf (post_summarize ai payload s).2.
Proof.
  intros H. unfold post_summarize. repeat case_match; try done. simpl.
  match goal with E : books s !! _ = Some _ |- _ => rename E into Hid end.
  split; simpl; try apply H.
  - intros id' b' [[<- <-]|[_ Hb]]%lookup_insert_Some; [|by apply (wf_stocked _ H id')].
    by apply (wf_stocked _ H _ _ Hid).
  - intros id' b' [[<- <-]|[_ Hb]]%lookup_insert_Some; [|by apply (wf_lent _ H)].
    by apply (wf_lent _ H _ _ Hid).
  - intros id' [<-|[_ Hb]]%lookup_insert_is_Some; by apply (wf_books _ H).
  - eapply Forall_impl; [apply (wf_bookings _ H)|]. intros bk [Hu Hb]. split; [done|].
    apply lookup_insert_is_Some'. by right.
Qed.

Lemma post_user_wf payload s : wf s -> wf (post_user payload s).2.
Proof.
  intros H. unfold post_user. repeat case_match; try done. simpl.
  destruct (wf_next _ H). split; simpl; try apply H; [..|lia|].
  - intros id' [<-|[_ Hb]]%lookup_insert_is_Some; [lia|].
    apply (wf_users _ H) in Hb. lia.
  - eapply Forall_impl; [apply (wf_bookings _ H)|]. intros bk [Hu Hb]. split; [|done].
    apply lookup_insert_is_Some'. by right.
Qed.

Lemma post_booking_wf payload s : wf s -> wf (post_booking payload s).2.
Proof.
  intros H. unfold post_booking. repeat case_match; try done. simpl.
  match goal with E : books s !! _ = Some _ |- _ => rename E into Hid end.
  match goal with E : (0 <? _)%Z = true |- _ => apply Z.ltb_lt in E; rename E into Hpos end.
  split; simpl; try apply H.
  - intros id' b' [[<- <-]|[_ Hb]]%lookup_insert_Some; [|by apply (wf_stocked _ H id')].
    by apply take_copy_stocked; [apply (wf_stocked _ H _ _ Hid)|].
  - intros id' b' Hb. rewrite lent_snoc. simpl.
    apply lookup_insert_Some in Hb as [[<- <-]|[Hne Hb]].
    + rewrite !bool_decide_eq_true_2 by done. simpl.
      pose proof (wf_lent _ H _ _ Hid). lia.
    + rewrite bool_decide_eq_false_2 by done. simpl.
      pose proof (wf_lent _ H _ _ Hb). lia.
  - intros id' [<-|[_ Hb]]%lookup_insert_is_Some; by apply (wf_books _ H).
  - apply Forall_app. split.
    + eapply Forall_impl; [apply (wf_bookings _ H)|]. intros bk [Hu Hb]. split; [done|].
      apply lookup_insert_is_Some'. by right.
    + constructor; [|done]. simpl. split; [done|]. by rewrite lookup_insert_eq.
Qed.

Lemma serve_wf e s : wf s -> wf (serve ai e s).2.
Proof.
  destruct e; simpl;
    auto using post_book_wf, post_summarize_wf, post_user_wf, post_booking_wf.
  - unfold get_book. by case_match.
  - unfold post_recommend. by repeat case_match.
Qed.

Lemma handle_wf r s : wf s -> wf (handle ai r s).2.
Proof. apply serve_wf. Qed.

Lemma empty_wf : wf empty.
Proof.
  split; simpl; try done; try (intros id; rewrite lookup_empty; by intros []).
  all: intros id b; by rewrite lookup_empty.
Qed.

End InventoryFacts.

Section ContractFacts.
Context (ai : Oracle).
Implicit Types (s : State) (b : Book) (r : request) (l : list Booking).

(** *** Where the requests of the gateway arrive *)

Lemma route_get path (ps : value) :
  String.eqb path "/books/" = false -> String.eqb path "/users/" = false ->
  route (Request GET path ps VUndefined) =
    match JSON.eat "/bookings/user/" path ≫= numeral with
    | Some uid => GetBookings uid
    | None =>
        match JSON.eat "/books/" path ≫= numeral with
        | Some id => GetBook id
        | None => NoRoute
        end
    end.
Proof. intros Hb Hu. unfold route. cbn [meth url]. by rewrite Hb, Hu. Qed.

Lemma route_getBook n : route (getBook (VStr (string_of_Z n))) = GetBook n.
Proof.
  unfold getBook, API.get. cbn [toString].
  destruct (string_of_Z_first n) as (c & t & E & _).
  rewrite route_get; [|rewrite E; by apply String.eqb_neq|by apply String.eqb_neq].
  change (JSON.eat "/bookings/user/" _) with (@None string).
  change (JSON.eat "/books/" _) with (Some (string_of_Z n)).
  cbn [mbind option_bind]. by rewrite numeral_of_Z.
Qed.

Lemma route_getUserBookings n : route (getUserBookings (VNum n)) = GetBookings n.
Proof.
  unfold getUserBookings, API.get. cbn [toString].
  rewrite route_get by (by apply String.eqb_neq).
  change (JSON.eat "/bookings/user/" _) with (Some (string_of_Z n)).
  cbn [mbind option_bind]. by rewrite numeral_of_Z.
Qed.

Lemma route_getBooks x :
  route (getBooks (or_ (VStr x) VUndefined)) = GetBooks (if decide (x = "") then None else Some x).
Proof.
  unfold route, getBooks, API.get, or_. cbn [meth url params].
  case_decide as Hx; [by subst|]. apply truthy_str in Hx. by rewrite !Hx.
Qed.

Lemma route_post path payload :
  JSON.is_json payload = true ->
  route (API.post path payload) =
    if String.eqb path "/books/" then PostBook payload
    else if String.eqb path "/books/summarize" then PostSummarize payload
    else if String.eqb path "/books/recommend" then PostRecommend payload
    else if String.eqb path "/users/" then PostUser payload
    else if String.eqb path "/bookings/" then PostBooking payload
    else NoRoute.
Proof.
  intros Hj. unfold route, API.post. cbn [meth url body]. cbn zeta.
  by rewrite (received_json payload Hj).
Qed.

Lemma route_createBooking u id :
  safe_int u -> safe_int id ->
  route (createBooking (VObj [("user_id", VNum u); ("book_id", VNum id)])) =
    PostBooking (VObj [("user_id", VNum u); ("book_id", VNum id)]).
Proof.
  intros Hu%is_json_num Hid%is_json_num. unfold createBooking. rewrite route_post; [done|].
  apply andb_true_intro. split; [by vm_compute|]. simpl in *. by rewrite Hu, Hid.
Qed.

Lemma route_summarize_book id :
  safe_int id ->
  route (summarize (VObj [("book_id", VNum id)])) = PostSummarize (VObj [("book_id", VNum id)]).
Proof.
  intros Hid%is_json_num. unfold summarize. rewrite route_post; [done|].
  apply andb_true_intro. split; [by vm_compute|]. simpl in *. by rewrite Hid.
Qed.

Lemma route_summarize_text t :
  route (summarize (VObj [("text", VStr t)])) = PostSummarize (VObj [("text", VStr t)]).
Proof. unfold summarize. by rewrite route_post by reflexivity. Qed.

Lemma route_recommend q :
  route (recommend (VStr q)) = PostRecommend (VObj [("query", VStr q)]).
Proof. unfold recommend. by rewrite route_post by reflexivity. Qed.

Lemma route_createUser n e p :
  route (createUser (VObj [("name", VStr n); ("email", VStr e); ("password", VStr p)])) =
    PostUser (VObj [("name", VStr n); ("email", VStr e); ("password", VStr p)]).
Proof. unfold createUser. by rewrite route_post by reflexivity. Qed.

Lemma serve_answer e s : answer (serve ai e s).1.
Proof.
  destruct e; simpl;
    unfold get_books, get_book, post_book, post_summarize, post_recommend, post_user,
      get_users, post_booking, get_bookings;
    repeat case_match; simpl; constructor.
Qed.

Lemma answer_axios o : answer o -> axios_outcome o.
Proof. by intros []. Qed.

Lemma handle_axios r s : axios_outcome (handle ai r s).1.
Proof. apply answer_axios, serve_answer. Qed.

End ContractFacts.

Section AnswerFacts.
Context (ai : Oracle).
Implicit Types (s : State) (b : Book) (r : request) (l : list Booking).

(** *** The lists the server sends can be rendered *)

Lemma listable_fmap {A} (f : A -> value) (xs : list A) :
  (forall x, nullish (f x) = false) -> listable (VArr (f <$> xs)).
Proof.
  intros Hf. exists (f <$> xs). split; [done|]. apply Forall_fmap, Forall_forall.
  intros x _. apply Hf.
Qed.

Lemma serve_listing e s : listing (serve ai e s).1.
Proof.
  destruct e; simpl;
    unfold get_books, get_book, post_book, post_summarize, post_recommend, post_user,
      get_users, post_booking, get_bookings;
    repeat case_match; simpl; try done;
    intros data its [= <-] [= <-]; try done; intros _; by apply listable_fmap.
Qed.

Lemma handle_listing r s : listing (handle ai r s).1.
Proof. apply serve_listing. Qed.

(** *** Bookings *)

Lemma post_booking_accepted u id usr b s :
  users s !! u = Some usr -> books s !! id = Some b -> (0 < available_copies b)%Z ->
  post_booking (VObj [("user_id", VNum u); ("book_id", VNum id)]) s =
    created
      (booking_json (mkBooking (Z.of_nat (length (bookings s)) + 1) u id active (now s)))
      (mkState (<[id := take_copy b]> (books s)) (users s)
         (bookings s ++ [mkBooking (Z.of_nat (length (bookings s)) + 1) u id active (now s)])
         (next_book s) (next_user s) (now s)).
Proof.
  intros Hu Hb Hn%Z.ltb_lt. unfold post_booking. cbn [get_field assoc String.eqb Ascii.eqb].
  simpl. by rewrite Hu, Hb, Hn.
Qed.

Lemma post_booking_sold_out u id usr b s :
  users s !! u = Some usr -> books s !! id = Some b -> (available_copies b <= 0)%Z ->
  post_booking (VObj [("user_id", VNum u); ("book_id", VNum id)]) s =
    fail 409 "No copies available" s.
Proof.
  intros Hu Hb Hn%Z.ltb_ge. unfold post_booking. simpl. by rewrite Hu, Hb, Hn.
Qed.

Lemma get_book_found id b s : books s !! id = Some b -> get_book id s = ok (book_json id b) s.
Proof. intros H. unfold get_book. by rewrite H. Qed.

Lemma get_book_missing id s :
  books s !! id = None -> get_book id s = fail 404 "Book not found" s.
Proof. intros H. unfold get_book. by rewrite H. Qed.

(** A failure changes nothing. *)
Lemma serve_failure e s err : (serve ai e s).1 = Rejected err -> (serve ai e s).2 = s.
Proof.
  destruct e; simpl;
    unfold get_books, get_book, post_book, post_summarize, post_recommend, post_user,
      get_users, post_booking, get_bookings;
    repeat case_match; simpl; done.
Qed.

(** Only a booking changes the copies of a book, and only those
    available. *)
Lemma serve_copies e s id b :
  wf s -> books s !! id = Some b ->
  exists b', books (serve ai e s).2 !! id = Some b' /\
    total_copies b' = total_copies b /\
    (available_copies b' = available_copies b \/
     exists payload, e = PostBooking payload /\
       available_copies b' = (available_copies b - 1)%Z).
Proof.
  intros Hwf Hb. destruct e; simpl;
    unfold get_books, get_book, post_book, post_summarize, post_recommend, post_user,
      get_users, post_booking, get_bookings;
    repeat case_match; simpl; eauto.
  - exists b. rewrite lookup_insert_ne; [eauto|].
    intros <-. apply mk_is_Some, (wf_books _ Hwf) in Hb. lia.
  - match goal with |- context [<[?k := _]> _ !! id] => destruct (decide (k = id)) as [->|] end;
      [rewrite lookup_insert_eq|rewrite lookup_insert_ne by done]; eauto.
    simplify_eq. eauto.
  - match goal with |- context [<[?k := _]> _ !! id] => destruct (decide (k = id)) as [->|] end;
      [rewrite lookup_insert_eq|rewrite lookup_insert_ne by done]; eauto.
    simplify_eq. eexists. split_and!; [done..|]. right. eauto.
Qed.

End AnswerFacts.

(** ** The gateway and the server *)


End Server.
