(* ===== verification/BookingForm.v ===== *)
(** * The booking form: components/BookingForm.jsx

    The form of a book's page that creates a booking for a user id.  Its
    state is four [useState] cells; [handleSubmit] validates the user id,
    posts the booking, and tells the parent through [onBooked] when the
    server accepted it.

    The handler is written once, for a form that lives inside any parent
    state [St]: [poke] applies an update to the form's cells where the
    form is mounted, and [onBooked] is the parent's callback.  [Harness]
    closes the form with a parent that only records the callback's calls,
    the way a unit test would, and gives the transition system of the form
    on its own. *)

From S2P Require Import Prelude JsValue Async Component Gateway.

Module BookingForm.

(** ** State: lines 5-9 *)

Record State : Type := mkState {
  userId : value;      (* the stored user's id, or what the user typed *)
  loading : bool;
  error : value;       (* '' or the message to show *)
  success : string
}.

Definition setUserId (v : value) (s : State) : State :=
  mkState v (loading s) (error s) (success s).
Definition setLoading (b : bool) (s : State) : State :=
  mkState (userId s) b (error s) (success s).
Definition setError (v : value) (s : State) : State :=
  mkState (userId s) (loading s) v (success s).
Definition setSuccess (v : string) (s : State) : State :=
  mkState (userId s) (loading s) (error s) v.

(** The first render: [storedUser] is what local storage holds under
    'user', decoded, or [null]. *)
Definition init (storedUser : value) : State :=
  mkState (or_ (opt_get storedUser "id") (VStr "")) false (VStr "") "".

(** A stored user, for the examples. *)
Definition user5 : value := VObj [("id", VNum 5); ("name", VStr "Ann")].

(** ** The handler: lines 11-29 *)

Section Handler.
Context {St : Type}.
Context (poke : (State -> State) -> St -> St).
Context (bookId : value).
Context (onBooked : option (value -> prog request St unit)).

(** [onBooked?.(data)] *)
Definition call_onBooked (data : value) : prog request St unit :=
  match onBooked with
  | Some f => f data
  | None => mret tt
  end.

(** The payload of the request, line 21. *)
Definition payload (uid : value) : value :=
  VObj [("user_id", Number_ uid); ("book_id", Number_ bookId)].

(** [c] is the state of the render whose handler runs: the closure reads
    [userId] from it, also after the [await]. *)
Definition handleSubmit (c : State) : prog request St unit :=
  upd (poke (setError (VStr "")));;
  upd (poke (setSuccess ""));;
  if not_ (userId c) then
    upd (poke (setError (VStr "Please provide a user id or login.")))
  else
    try_finally
      (try_catch
         (upd (poke (setLoading true));;
          resp ← await (createBooking (payload (userId c)));
          data ← get resp "data";
          upd (poke (setSuccess "Booked successfully."));;
          call_onBooked data)
         (fun err =>
            msg ← error_message err "Booking failed";
            upd (poke (setError msg))))
      (upd (poke (setLoading false))).

End Handler.

Arguments handleSubmit : simpl never.

(** ** What is rendered: lines 31-49 *)

Record View : Type := mkView {
  input_value : value;
  button_disabled : bool;
  button_label : string;
  error_box : option value;      (* the div of class "error" *)
  success_box : option string    (* the div of class "success" *)
}.

Definition render (s : State) : View :=
  mkView (userId s)
         (loading s)
         (if loading s then "Booking..." else "Confirm Booking")
         (if truthy (error s) then Some (error s) else None)
         (if String.eqb (success s) "" then None else Some (success s)).

(** ** The form on its own *)

Module Harness.

(** The parent of the harness keeps the arguments of every call of
    [onBooked]. *)
Record St : Type := mkSt {
  form : State;
  booked : list value
}.

Definition poke (f : State -> State) (s : St) : St := mkSt (f (form s)) (booked s).

Definition onBooked (data : value) : prog request St unit :=
  upd (fun s => mkSt (form s) (booked s ++ [data])).

Definition boot (storedUser : value) : machine request St :=
  Async.boot (mkSt (init storedUser) []).

Inductive event : Type :=
| Change (v : string)                 (* typing in the input *)
| Submit                              (* the button, or Enter *)
| Settle (i : nat) (o : outcome).     (* the network answers request i *)

(** A disabled submit button blocks the submission of the form. *)
Definition enabled (ev : event) (m : machine request St) : bool :=
  match ev with
  | Change _ => true
  | Submit => negb (button_disabled (render (form (ui m))))
  | Settle i _ => bool_decide (is_Some (pending m !! i))
  end.

Definition fire (bookId : value) (ev : event) (m : machine request St) : machine request St :=
  if enabled ev m then
    match ev with
    | Change v =>
        retype (poke (setUserId (VStr v))) m
    | Submit =>
        invoke id (handleSubmit poke bookId (Some onBooked) (form (ui m))) m
    | Settle i o => deliver id i o m
    end
  else m.

Inductive step (bookId : value) (m : machine request St) : machine request St -> Prop :=
| step_change v :
    step bookId m
      (retype (poke (setUserId (VStr v))) m)
| step_submit :
    button_disabled (render (form (ui m))) = false ->
    step bookId m
      (invoke id (handleSubmit poke bookId (Some onBooked) (form (ui m))) m)
| step_settle i o :
    is_Some (pending m !! i) ->
    step bookId m (deliver id i o m).

Definition exec (bookId : value) (evs : list event) (m : machine request St) :
    machine request St :=
  foldl (fun m ev => fire bookId ev m) m evs.

(** The network answers the way axios does. *)
Definition axios_event (ev : event) : Prop :=
  match ev with
  | Settle _ o => axios_outcome o
  | _ => True
  end.

(** The body that [handleSubmit], run from the render [c], leaves waiting
    for the server; [None] when it returned before the request. *)
Definition submitted (bookId : value) (c : State) : option (suspended request St) :=
  head (waiting (run (handleSubmit poke bookId (Some onBooked) c) (mkSt c []))).

(** The button's flag follows the request: idle with nothing in flight, or
    loading with the one request of the last submission. *)
Definition consistent (bookId : value) (m : machine request St) : Prop :=
  (loading (form (ui m)) = false /\ pending m = ∅) \/
  (loading (form (ui m)) = true /\
   exists i c w, submitted bookId c = Some w /\ pending m = {[ i := w ]}).

(** Every request of the log is a booking for a user id that passed the
    validation. *)
Definition booking_request (bookId : value) (r : request) : Prop :=
  exists uid, truthy uid = true /\
    r = createBooking (VObj [("user_id", Number_ uid); ("book_id", Number_ bookId)]).

(** What the two message boxes can show: nothing while a submission is in
    flight, never both at once, and an error that is empty or visible. *)
Definition banners_ok (s : State) : Prop :=
  (loading s = true -> error s = VStr "" /\ success s = "") /\
  (success s <> "" -> error s = VStr "") /\
  (error s = VStr "" \/ truthy (error s) = true).

Record good (bookId : value) (m : machine request St) : Prop := mkGood {
  good_wf : machine_wf m;
  good_consistent : consistent bookId m;
  good_log : Forall (booking_request bookId) (sent m);
  good_banners : banners_ok (form (ui m))
}.

End Harness.

(** ** The handler, branch by branch *)

Section HandlerFacts.
Context {St : Type}.
Context (poke : (State -> State) -> St -> St).
Context (bookId : value).
Context (onBooked : option (value -> prog request St unit)).

#[local] Abbreviation handle := (handleSubmit poke bookId onBooked).

Lemma run_missing_user (c : State) (s : St) :
  truthy (userId c) = false ->
  run (handle c) s =
    Effects
      (poke (setError (VStr "Please provide a user id or login."))
         (poke (setSuccess "") (poke (setError (VStr "")) s)))
      [] [].
Proof. intros H. unfold handleSubmit, not_. rewrite H. reflexivity. Qed.

Lemma run_sends (c : State) (s : St) :
  truthy (userId c) = true ->
  after (run (handle c) s) =
    poke (setLoading true) (poke (setSuccess "") (poke (setError (VStr "")) s)) /\
  request_of <$> waiting (run (handle c) s) =
    [createBooking (payload bookId (userId c))] /\
  uncaught (run (handle c) s) = [].
Proof. intros H. unfold handleSubmit, not_. rewrite H. by cbn. Qed.

Lemma payload_numeric uid :
  is_number (get_field (payload bookId uid) "user_id") = true /\
  is_number (get_field (payload bookId uid) "book_id") = true.
Proof. split; apply Number_is_number. Qed.

(** The callback runs inside the [try]: what it throws is caught like a
    failure of the request. *)
Lemma form_handleSubmit_guarded (c : State) :
  (forall d f, onBooked = Some f -> guarded axios_outcome thrown_object (f d)) ->
  safe axios_outcome (handle c).
Proof.
  intros Hcb. unfold handleSubmit, safe. case_match; solve_guarded.
  unfold call_onBooked. case_match; [by eapply Hcb|done].
Qed.

End HandlerFacts.

(** ** The form on its own: the steps *)

Section HarnessFacts.
Import Harness.
Context (bookId : value).
Implicit Types (m : machine request St) (c : State) (s : St).

#[local] Abbreviation handle := (handleSubmit poke bookId (Some onBooked)).

Lemma submitted_truthy c w : submitted bookId c = Some w -> truthy (userId c) = true.
Proof.
  unfold submitted, handleSubmit, not_.
  destruct (truthy (userId c)); [done|]. discriminate.
Qed.

(** [resume_of H] opens the body that [H : submitted bookId c = Some w]
    names: the continuation of [handleSubmit] after its [await]. *)
Ltac resume_of H :=
  revert H; unfold submitted, handleSubmit, not_;
  destruct (truthy (userId _)); [|done]; cbn; intros [= <-]; cbn.

Lemma submitted_waiting c s :
  waiting (run (handle c) s) = option_list (submitted bookId c).
Proof.
  unfold submitted, handleSubmit, not_. by destruct (truthy (userId c)).
Qed.

Lemma submitted_request c w :
  submitted bookId c = Some w ->
  request_of w = createBooking (payload bookId (userId c)).
Proof.
  intros H. pose proof (submitted_truthy _ _ H) as Ht. revert H.
  unfold submitted, handleSubmit, not_. rewrite Ht. cbn. by intros [= <-].
Qed.

Lemma resume_accepted c w resp data s :
  submitted bookId c = Some w -> member resp "data" = Some data ->
  run (resume w (Resolved resp)) s =
    Effects (mkSt (setLoading false (setSuccess "Booked successfully." (form s)))
                  (booked s ++ [data])) [] [].
Proof.
  intros H Hd. resume_of H.
  unfold get. rewrite Hd. reflexivity.
Qed.

Lemma resume_rejected c w e s :
  submitted bookId c = Some w -> nullish e = false ->
  run (resume w (Rejected e)) s =
    Effects (poke (setLoading false) (poke (setError (message_of e "Booking failed")) s))
            [] [].
Proof.
  intros H He. resume_of H.
  rewrite error_message_object by done. reflexivity.
Qed.

Lemma resume_malformed c w resp s :
  submitted bookId c = Some w -> member resp "data" = None ->
  run (resume w (Resolved resp)) s =
    Effects (poke (setLoading false) (poke (setError (VStr "Booking failed")) s))
            [] [].
Proof.
  intros H Hd. resume_of H.
  unfold get. rewrite Hd. reflexivity.
Qed.

Lemma resume_rejected_nullish c w e s :
  submitted bookId c = Some w -> nullish e = true ->
  run (resume w (Rejected e)) s = Effects (poke (setLoading false) s) [] [TypeError].
Proof.
  intros H He. resume_of H.
  rewrite error_message_nullish by done. reflexivity.
Qed.

(** Whatever the network answers, the continuation ends the submission:
    nothing is left waiting and the button is enabled again. *)
Lemma resume_settles c w o s :
  submitted bookId c = Some w ->
  waiting (run (resume w o) s) = [] /\
  loading (form (after (run (resume w o) s))) = false /\
  ((exists e, truthy e = true /\
      after (run (resume w o) s) = poke (setLoading false) (poke (setError e) s)) \/
   after (run (resume w o) s) = poke (setLoading false) s \/
   (exists d, after (run (resume w o) s) =
      mkSt (setLoading false (setSuccess "Booked successfully." (form s)))
           (booked s ++ [d]))).
Proof.
  intros H. destruct o as [resp|e].
  - destruct (member resp "data") as [d|] eqn:Hd.
    + rewrite (resume_accepted _ _ _ _ _ H Hd). cbn.
      split_and!; [done..|]. right; right. by exists d.
    + rewrite (resume_malformed _ _ _ _ H Hd). cbn.
      split_and!; [done..|]. left. by exists (VStr "Booking failed").
  - destruct (nullish e) eqn:He.
    + rewrite (resume_rejected_nullish _ _ _ _ H He). cbn.
      split_and!; [done..|]. by right; left.
    + rewrite (resume_rejected _ _ _ _ H He). cbn.
      split_and!; [done..|]. left. eexists. split; [|done].
      by apply message_of_truthy.
Qed.

(** *** The steps of the form *)

Lemma fire_change v m :
  fire bookId (Change v) m =
    retype (poke (setUserId (VStr v))) m.
Proof. reflexivity. Qed.

Lemma fire_submit_missing m :
  loading (form (ui m)) = false -> truthy (userId (form (ui m))) = false ->
  fire bookId Submit m =
    Machine (poke (setError (VStr "Please provide a user id or login."))
               (poke (setSuccess "") (poke (setError (VStr "")) (ui m))))
            (pending m) (next_id m) (sent m) (unhandled m).
Proof.
  intros Hl Hu. unfold fire, enabled. cbn [render button_disabled]. rewrite Hl.
  cbn [negb]. rewrite invoke_quiet; rewrite run_missing_user by done; [|done].
  cbn. by rewrite app_nil_r.
Qed.

Lemma fire_submit_sends m w :
  loading (form (ui m)) = false -> submitted bookId (form (ui m)) = Some w ->
  fire bookId Submit m =
    Machine (poke (setLoading true) (poke (setSuccess "") (poke (setError (VStr "")) (ui m))))
            (<[next_id m := w]> (pending m)) (S (next_id m))
            (sent m ++ [createBooking (payload bookId (userId (form (ui m))))])
            (unhandled m).
Proof.
  intros Hl Hw. unfold fire, enabled. cbn [render button_disabled]. rewrite Hl.
  cbn [negb]. rewrite (invoke_single _ _ _ w) by (by rewrite submitted_waiting, Hw).
  rewrite (submitted_request _ _ Hw).
  pose proof (submitted_truthy _ _ Hw) as Ht.
  unfold handleSubmit, not_. rewrite Ht. cbn. by rewrite app_nil_r.
Qed.

Lemma form_fire_settle m i w o :
  pending m !! i = Some w ->
  fire bookId (Settle i o) m =
    invoke id (resume w o)
      (Machine (ui m) (delete i (pending m)) (next_id m) (sent m) (unhandled m)).
Proof.
  intros Hw. unfold fire, enabled.
  rewrite bool_decide_eq_true_2 by eauto. by apply deliver_known.
Qed.

Lemma submitted_none c : submitted bookId c = None -> truthy (userId c) = false.
Proof.
  unfold submitted, handleSubmit, not_.
  destruct (truthy (userId c)); [discriminate|done].
Qed.

Lemma form_enabled_submit m : enabled Submit m = true -> loading (form (ui m)) = false.
Proof. unfold enabled. cbn. by destruct (loading _). Qed.

Lemma consistent_idle m :
  consistent bookId m -> loading (form (ui m)) = false -> pending m = ∅.
Proof. intros [[_ ?]|[? _]] ?; [done|congruence]. Qed.

Lemma consistent_busy m i :
  consistent bookId m -> is_Some (pending m !! i) ->
  loading (form (ui m)) = true /\
  exists c w, submitted bookId c = Some w /\ pending m = {[ i := w ]}.
Proof.
  intros [[_ He]|[Hl (j & c & w & Hw & Hp)]] [w' Hi].
  - by rewrite He, lookup_empty in Hi.
  - rewrite Hp in Hi. apply lookup_singleton_Some in Hi as [-> _]. eauto.
Qed.

(** *** Each step keeps the form in order *)

Lemma form_fire_wf ev m : machine_wf m -> machine_wf (fire bookId ev m).
Proof.
  intros Hwf. unfold fire. destruct (enabled ev m); [|done].
  destruct ev; [by destruct Hwf|by apply invoke_wf|by apply deliver_wf].
Qed.

Lemma form_good_boot u : good bookId (boot u).
Proof.
  split; [apply boot_wf|by left|constructor|].
  repeat split; try done. by left.
Qed.

Lemma form_good_change v m : good bookId m -> good bookId (fire bookId (Change v) m).
Proof. intros [Hwf Hc Hl Hb]. rewrite fire_change. by split. Qed.

Lemma form_good_submit m :
  good bookId m -> enabled Submit m = true -> good bookId (fire bookId Submit m).
Proof.
  intros [Hwf Hc Hl Hb] Hl0%form_enabled_submit.
  pose proof (consistent_idle _ Hc Hl0) as He.
  destruct (submitted bookId (form (ui m))) as [w|] eqn:Hs.
  - split; [by apply form_fire_wf|..]; rewrite (fire_submit_sends _ _ Hl0 Hs);
      unfold consistent, banners_ok; simpl.
    + right. split; [done|]. exists (next_id m), (form (ui m)), w. by rewrite He.
    + apply Forall_app. split; [done|]. constructor; [|done].
      exists (userId (form (ui m))). eauto using submitted_truthy.
    + repeat split; try done. by left.
  - split; [by apply form_fire_wf|..];
      rewrite (fire_submit_missing _ Hl0 (submitted_none _ Hs));
      unfold consistent, banners_ok; simpl; try done.
    repeat split; try done; [congruence|by right].
Qed.

Lemma form_good_settle i o m :
  good bookId m -> enabled (Settle i o) m = true ->
  good bookId (fire bookId (Settle i o) m).
Proof.
  intros [Hwf Hc Hl Hb] Hi%bool_decide_eq_true.
  destruct (consistent_busy _ _ Hc Hi) as (Hbusy & c & w & Hw & Hp).
  split; [by apply form_fire_wf|..];
    rewrite (form_fire_settle _ i w) by (by rewrite Hp, lookup_singleton_eq);
    destruct (resume_settles _ _ o (ui m) Hw) as (Hq & Hl' & Hafter);
    rewrite invoke_quiet by done; unfold consistent, banners_ok; simpl.
  - left. split; [done|]. by rewrite Hp, delete_singleton_eq.
  - done.
  - destruct Hb as (Hb1 & Hb2 & Hb3). destruct (Hb1 Hbusy) as [He Hs].
    destruct Hafter as [(e & He' & ->)|[->|(d & ->)]]; simpl;
      repeat split; try done; try congruence; auto.
Qed.


(** The form is a component: its runs are the paths of [step]. *)
#[export] Instance form_component : Component enabled (fire bookId) (step bookId).
Proof.
  split.
  - intros ev m E. unfold fire. by rewrite E.
  - intros ev m E. unfold fire. rewrite E. destruct ev; constructor.
    + by apply negb_true_iff in E.
    + by apply bool_decide_eq_true in E.
  - intros m m' [v|Hl|i o Hi].
    + by exists (Change v).
    + exists Submit. unfold fire, enabled. by rewrite Hl.
    + exists (Settle i o). unfold fire, enabled. by rewrite bool_decide_eq_true_2.
Qed.

Lemma form_good_fire ev m :
  good bookId m -> enabled ev m = true -> good bookId (fire bookId ev m).
Proof.
  destruct ev; auto using form_good_change, form_good_submit, form_good_settle.
Qed.

Lemma form_reachable_good u m : reachable (step bookId) (boot u) m -> good bookId m.
Proof.
  apply (reachable_invariant (good bookId)); [apply form_good_boot|].
  intros ev m'. apply form_good_fire.
Qed.

(** *** Nothing is left unhandled *)

Lemma form_fire_safe ev m :
  axios_event ev -> machine_safe axios_outcome m ->
  machine_safe axios_outcome (fire bookId ev m).
Proof.
  intros Hev Hm. unfold fire. destruct (enabled ev m); [|done].
  destruct ev as [v| |i o]; [by destruct Hm| |by apply deliver_safe].
  apply invoke_safe; [|done]. apply form_handleSubmit_guarded.
  by intros d f [= <-].
Qed.

End HarnessFacts.

(** ** The properties of the form *)

Section Claims.
Context {St : Type}.
Context (poke : (State -> State) -> St -> St).
Context (bookId : value).
Context (onBooked : option (value -> prog request St unit)).

(** C1. A submission without a user id shows "Please provide a user id or
    login." and stops there: no request is issued and nothing is left
    suspended, whatever the parent and its callback are. *)
Theorem handleSubmit_missing_user (c : State) (s : St) :
  truthy (userId c) = false ->
  run (handleSubmit poke bookId onBooked c) s =
    Effects
      (poke (setError (VStr "Please provide a user id or login."))
         (poke (setSuccess "") (poke (setError (VStr "")) s)))
      [] [].
Proof. apply run_missing_user. Qed.

(** C2. A submission with a user id clears both messages, disables the
    button and issues exactly one request: the POST of a booking whose
    [user_id] and [book_id] are the numbers read from the user id and the
    book id.  It then waits: nothing is thrown. *)
Theorem handleSubmit_sends_booking (c : State) (s : St) :
  truthy (userId c) = true ->
  after (run (handleSubmit poke bookId onBooked c) s) =
    poke (setLoading true) (poke (setSuccess "") (poke (setError (VStr "")) s)) /\
  request_of <$> waiting (run (handleSubmit poke bookId onBooked c) s) =
    [Request POST "/bookings/" VUndefined
       (VObj [("user_id", Number_ (userId c)); ("book_id", Number_ bookId)])] /\
  uncaught (run (handleSubmit poke bookId onBooked c) s) = [].
Proof. apply run_sends. Qed.

(** With a callback that throws nothing but objects, the handler
    catches every failure axios can report: no rejection of it is left
    unhandled, before or after the [await]. *)
Theorem handleSubmit_safe (c : State) :
  (forall d f, onBooked = Some f -> guarded axios_outcome thrown_object (f d)) ->
  safe axios_outcome (handleSubmit poke bookId onBooked c).
Proof. apply form_handleSubmit_guarded. Qed.

End Claims.

Section HarnessClaims.
Import Harness.
Context (bookId : value).
Implicit Types (m : machine request St) (c : State).

(** C6. When the server accepts the booking, the form shows "Booked
    successfully.", enables the button again and calls [onBooked] once,
    with the booking the server returned; it sends nothing more. *)
Theorem booking_accepted m i c w resp data :
  pending m !! i = Some w -> submitted bookId c = Some w ->
  member resp "data" = Some data ->
  fire bookId (Settle i (Resolved resp)) m =
    Machine
      (mkSt (setLoading false (setSuccess "Booked successfully." (form (ui m))))
            (booked (ui m) ++ [data]))
      (delete i (pending m)) (next_id m) (sent m) (unhandled m).
Proof.
  intros Hi Hw Hd. rewrite (form_fire_settle _ _ _ w) by done.
  rewrite invoke_quiet; rewrite (resume_accepted _ _ _ _ _ _ Hw Hd); [|done].
  cbn. by rewrite app_nil_r.
Qed.

(** C7. When the request fails, the form shows the server's message, or
    "Booking failed" when there is none, and enables the button again; the
    parent is not told, so nothing is fetched again. *)
Theorem booking_rejected m i c w e :
  pending m !! i = Some w -> submitted bookId c = Some w ->
  nullish e = false ->
  fire bookId (Settle i (Rejected e)) m =
    Machine
      (mkSt (setLoading false
               (setError (message_of e "Booking failed") (form (ui m))))
            (booked (ui m)))
      (delete i (pending m)) (next_id m) (sent m) (unhandled m).
Proof.
  intros Hi Hw He. rewrite (form_fire_settle _ _ _ w) by done.
  rewrite invoke_quiet; rewrite (resume_rejected _ _ _ _ _ Hw He); [|done].
  cbn. by rewrite app_nil_r.
Qed.

(** C8. However the user and the network interleave, at most one booking
    request is in flight, and one is in flight exactly while the button is
    disabled: the form cannot submit twice. *)
Theorem no_double_submission u m :
  reachable (step bookId) (boot u) m ->
  size (pending m) <= 1 /\
  (loading (form (ui m)) = true <-> size (pending m) = 1).
Proof.
  intros [_ [[Hl ->]|(Hl & i & c & w & _ & ->)] _ _]%form_reachable_good.
  - rewrite map_size_empty, Hl. split; [lia|]. split; [done|lia].
  - rewrite map_size_singleton, Hl. split; [lia|done].
Qed.

(** Every request the form ever sends is the POST of a booking made
    from a user id that passed the validation: no call reaches the network
    without a user id. *)
Theorem every_request_has_user u m :
  reachable (step bookId) (boot u) m ->
  Forall (fun r => exists uid, truthy uid = true /\
            r = Request POST "/bookings/" VUndefined
                  (VObj [("user_id", Number_ uid); ("book_id", Number_ bookId)]))
         (sent m).
Proof. intros [_ _ Hlog _]%form_reachable_good. exact Hlog. Qed.

(** As long as the network answers the way axios does, no run of the
    form leaves a rejection unhandled. *)
Theorem form_no_unhandled u evs :
  Forall axios_event evs -> unhandled (exec bookId evs (boot u)) = [].
Proof.
  intros Hevs. eapply exec_unhandled; eauto using form_fire_safe, boot_safe.
Qed.

End HarnessClaims.

(** ** Witnesses *)

Lemma handleSubmit_missing_user_witness :
  run (handleSubmit Harness.poke (VStr "12") (Some Harness.onBooked) (init VNull))
      (Harness.mkSt (init VNull) []) =
  Effects
    (Harness.mkSt
       (mkState (VStr "") false (VStr "Please provide a user id or login.") "") [])
    [] [].
Proof.
  exact (handleSubmit_missing_user Harness.poke (VStr "12") (Some Harness.onBooked)
           (init VNull) (Harness.mkSt (init VNull) []) eq_refl).
Defined.

Lemma handleSubmit_sends_booking_witness :
  request_of <$>
    waiting (run (handleSubmit Harness.poke (VStr "12") (Some Harness.onBooked)
                    (init user5))
                 (Harness.mkSt (init user5) [])) =
  [Request POST "/bookings/" VUndefined
     (VObj [("user_id", VNum 5); ("book_id", VNum 12)])].
Proof.
  exact (proj1 (proj2 (handleSubmit_sends_booking Harness.poke (VStr "12")
           (Some Harness.onBooked) (init user5) (Harness.mkSt (init user5) [])
           eq_refl))).
Defined.

Lemma handleSubmit_safe_witness :
  safe axios_outcome
    (handleSubmit Harness.poke (VStr "12") (Some Harness.onBooked) (init user5)).
Proof.
  apply handleSubmit_safe. intros d f [= <-]. exact I.
Defined.

Lemma booking_accepted_witness :
  let m := Harness.fire (VStr "12") Harness.Submit (Harness.boot user5) in
  Harness.fire (VStr "12")
    (Harness.Settle 0 (http_ok (VObj [("id", VNum 1); ("status", VStr "active")]))) m =
  Machine
    (Harness.mkSt (mkState (VNum 5) false (VStr "") "Booked successfully.")
                  [VObj [("id", VNum 1); ("status", VStr "active")]])
    (delete 0 (pending m)) 1
    [Request POST "/bookings/" VUndefined
       (VObj [("user_id", VNum 5); ("book_id", VNum 12)])] [].
Proof.
  intros m.
  eapply (booking_accepted (VStr "12") m 0 (init user5)); reflexivity.
Defined.

Lemma booking_rejected_witness :
  let m := Harness.fire (VStr "12") Harness.Submit (Harness.boot user5) in
  Harness.fire (VStr "12")
    (Harness.Settle 0 (http_error 409 (error_body "No copies available"))) m =
  Machine
    (Harness.mkSt (mkState (VNum 5) false (VStr "No copies available") "") [])
    (delete 0 (pending m)) 1
    [Request POST "/bookings/" VUndefined
       (VObj [("user_id", VNum 5); ("book_id", VNum 12)])] [].
Proof.
  intros m.
  eapply (booking_rejected (VStr "12") m 0 (init user5)); reflexivity.
Defined.

Lemma no_double_submission_witness :
  let m := Harness.exec (VStr "12") [Harness.Submit; Harness.Submit]
             (Harness.boot user5) in
  size (pending m) <= 1 /\
  (loading (Harness.form (ui m)) = true <-> size (pending m) = 1).
Proof.
  intros m. apply (no_double_submission (VStr "12") user5), exec_reachable.
Defined.

Lemma every_request_has_user_witness :
  Forall (fun r => exists uid, truthy uid = true /\
            r = Request POST "/bookings/" VUndefined
                  (VObj [("user_id", Number_ uid); ("book_id", Number_ (VStr "12"))]))
    (sent (Harness.exec (VStr "12")
             [Harness.Change ""; Harness.Submit; Harness.Change "7"; Harness.Submit]
             (Harness.boot VNull))).
Proof. apply (every_request_has_user (VStr "12") VNull), exec_reachable. Defined.

Lemma form_no_unhandled_witness :
  unhandled (Harness.exec (VStr "12")
               [Harness.Submit; Harness.Settle 0 network_error]
               (Harness.boot user5)) = [].
Proof.
  apply form_no_unhandled. repeat constructor.
Defined.

(** A rejection with [null] is not something axios produces; the handler
    would not survive it, because its [catch] block reads [err.response]. *)
Example rejection_with_null_escapes :
  unhandled (Harness.exec (VStr "12")
               [Harness.Submit; Harness.Settle 0 (Rejected VNull)]
               (Harness.boot user5)) = [TypeError].
Proof. reflexivity. Qed.

End BookingForm.
