(* ===== verification/Workflow.v ===== *)
(** * The booking workflow of the specification, and the form that implements it

    The specification describes the Booking Workflow Controller as a state
    machine, [idle -> submitting -> success | error], that refuses a
    submission without a user id before the server is contacted, signals
    the orchestrator when the server accepted, and surfaces the error
    when it did not.  [Workflow] is that machine, with what each of its
    transitions does to the outside.  The form of BookingForm.jsx has no
    such machine in its code: it has four cells.  [phase_of] reads the
    phase off the cells, and the theorem of this file is that the runs of
    the form are runs of the machine. *)

From S2P Require Import Prelude JsValue Async Component Gateway BookingForm.
Import BookingForm BookingForm.Harness.

Module Workflow.

Inductive phase : Type := Idle | Submitting | Succeeded | Failed.

#[export] Instance phase_eq_dec : EqDecision phase.
Proof. solve_decision. Defined.

(** What a transition of the workflow does to the outside. *)
Inductive action : Type :=
| Send (r : request)          (* the booking is posted *)
| Refuse                      (* ValidationError: the server is not contacted *)
| Signal (data : value)       (* success: the orchestrator is told to refetch *)
| Surface.                    (* the failure is shown; no refetch *)

Section Spec.
Context (bookId : value).

Inductive transition : phase -> action -> phase -> Prop :=
| t_submit p uid :
    p <> Submitting -> truthy uid = true ->
    transition p (Send (createBooking (VObj [("user_id", Number_ uid);
                                              ("book_id", Number_ bookId)])))
               Submitting
| t_refuse p : p <> Submitting -> transition p Refuse Failed
| t_success data : transition Submitting (Signal data) Succeeded
| t_error : transition Submitting Surface Failed.

(** A run of the workflow, with what it did. *)
Inductive path : phase -> list action -> phase -> Prop :=
| path_nil p : path p [] p
| path_snoc p acts q a r : path p acts q -> transition q a r -> path p (acts ++ [a]) r.

End Spec.

Definition requests (acts : list action) : list request :=
  omap (fun a => match a with Send r => Some r | _ => None end) acts.

Definition signals (acts : list action) : list value :=
  omap (fun a => match a with Signal d => Some d | _ => None end) acts.

(** The phase the form is in, read off its cells. *)
Definition phase_of (s : State) : phase :=
  if loading s then Submitting
  else if negb (String.eqb (success s) "") then Succeeded
  else if truthy (error s) then Failed
  else Idle.

(** What a step of the form does: nothing the workflow sees, or one
    transition of the workflow. *)
Definition simulated (bookId : value) (m m' : machine request St) : Prop :=
  (phase_of (form (ui m')) = phase_of (form (ui m)) /\
   sent m' = sent m /\ booked (ui m') = booked (ui m)) \/
  exists a, transition bookId (phase_of (form (ui m))) a (phase_of (form (ui m'))) /\
    sent m' = sent m ++ match a with Send r => [r] | _ => [] end /\
    booked (ui m') = booked (ui m) ++ match a with Signal d => [d] | _ => [] end.

(** A run of the form that the workflow can follow. *)
Definition followed (bookId : value) (m : machine request St) : Prop :=
  exists acts, path bookId Idle acts (phase_of (form (ui m))) /\
    requests acts = sent m /\ signals acts = booked (ui m).

End Workflow.

Import Workflow.

Section Refinement.
Context (bookId : value).
Implicit Types (m : machine request St) (c : State) (s : St).

#[local] Abbreviation fire := (fire bookId).
#[local] Abbreviation good := (good bookId).
#[local] Abbreviation simulated := (simulated bookId).
#[local] Abbreviation followed := (followed bookId).

Lemma requests_snoc acts a :
  requests (acts ++ [a]) = requests acts ++ match a with Send r => [r] | _ => [] end.
Proof. unfold requests. rewrite omap_app. by destruct a. Qed.

Lemma signals_snoc acts a :
  signals (acts ++ [a]) = signals acts ++ match a with Signal d => [d] | _ => [] end.
Proof. unfold signals. rewrite omap_app. by destruct a. Qed.


Lemma phase_idle c : loading c = false -> phase_of c <> Submitting.
Proof. unfold phase_of. intros ->. by repeat case_match. Qed.

Lemma phase_submitting c : loading c = true -> phase_of c = Submitting.
Proof. unfold phase_of. by intros ->. Qed.

Lemma phase_succeeded c : loading c = false -> success c <> "" -> phase_of c = Succeeded.
Proof. unfold phase_of. intros -> H%String.eqb_neq. by rewrite H. Qed.

Lemma phase_failed c :
  loading c = false -> success c = "" -> truthy (error c) = true -> phase_of c = Failed.
Proof. unfold phase_of. by intros -> -> ->. Qed.

Lemma simulated_submit m :
  good m -> enabled Submit m = true -> simulated m (fire Submit m).
Proof.
  intros Hg Hl%form_enabled_submit. right.
  destruct (submitted bookId (form (ui m))) as [w|] eqn:Hs.
  - rewrite (fire_submit_sends _ _ _ Hl Hs). eexists (Send _). cbn [ui sent form booked poke].
    rewrite (phase_submitting (setLoading _ _)) by done. split; [|by rewrite app_nil_r].
    apply t_submit; [by apply phase_idle|by eapply submitted_truthy].
  - rewrite (fire_submit_missing _ _ Hl (submitted_none _ _ Hs)). exists Refuse.
    cbn [ui sent form booked poke]. rewrite (phase_failed (setError _ _)) by done.
    split; [|by rewrite !app_nil_r]. by apply t_refuse, phase_idle.
Qed.

Lemma simulated_settle i o m :
  good m -> axios_outcome o -> enabled (Settle i o) m = true ->
  simulated m (fire (Settle i o) m).
Proof.
  intros [Hwf Hc Hl Hb] Ho Hi%bool_decide_eq_true.
  destruct (consistent_busy _ _ _ Hc Hi) as (Hbusy & c & w & Hw & Hp).
  destruct Hb as (Hb1 & _). destruct (Hb1 Hbusy) as [He Hs].
  rewrite (form_fire_settle _ _ i w) by (by rewrite Hp, lookup_singleton_eq).
  right. rewrite (phase_submitting (form (ui m))) by done.
  destruct o as [resp|e]; [destruct (member resp "data") as [d|] eqn:Hd|].
  - rewrite invoke_quiet; rewrite (resume_accepted _ _ _ _ _ _ Hw Hd); [|done].
    exists (Signal d). cbn [ui sent form booked poke after id].
    rewrite (phase_succeeded (setLoading _ _)) by done.
    split; [apply t_success|by rewrite app_nil_r].
  - rewrite invoke_quiet; rewrite (resume_malformed _ _ _ _ _ Hw Hd); [|done].
    exists Surface. cbn [ui sent form booked poke after id].
    rewrite (phase_failed (setLoading _ _)) by done.
    split; [apply t_error|by rewrite !app_nil_r].
  - rewrite invoke_quiet; rewrite (resume_rejected _ _ _ _ _ Hw Ho); [|done].
    exists Surface. cbn [ui sent form booked poke after id].
    rewrite (phase_failed (setLoading _ _)); [|done|done|by apply message_of_truthy].
    split; [apply t_error|by rewrite !app_nil_r].
Qed.

Lemma simulated_fire ev m :
  good m -> axios_event ev -> simulated m (fire ev m).
Proof.
  intros Hg Hev. destruct (enabled ev m) eqn:He.
  - destruct ev as [v| |i o]; [by left|by apply simulated_submit|by apply simulated_settle].
  - left. unfold fire, Harness.fire. by rewrite He.
Qed.

Lemma form_good_run ev m : good m -> good (fire ev m).
Proof. revert ev m. apply (fire_invariant good), @form_good_fire. Qed.


Lemma followed_boot u : followed (boot u).
Proof. exists []. split; [apply path_nil|done]. Qed.

Lemma followed_step m m' : followed m -> simulated m m' -> followed m'.
Proof.
  unfold followed, Workflow.followed. intros (acts & Hp & Hr & Hs) [(E1 & E2 & E3)|(a & Ht & E2 & E3)];
    rewrite E2, E3; [rewrite E1; by exists acts|].
  exists (acts ++ [a]). rewrite requests_snoc, signals_snoc, Hr, Hs.
  split; [by eapply path_snoc|done].
Qed.


End Refinement.

