(* ===== verification/AIPromptBox.v ===== *)
(** * The AI tools: components/AIPromptBox.jsx

    Two request flows side by side, each with its input, its button, its
    result cell and its loading flag: [handleRecommend] asks for a book
    that matches a query, [handleSummarize] for the summary of a text.  The
    flows share one cell, [error].

    The component has no parent state and no props: its handlers are
    bodies over its own cells. *)

From S2P Require Import Prelude JsValue Async Component Gateway.

Module AIPromptBox.

(** ** State: lines 5-11 *)

Record State : Type := mkState {
  query : string;
  text : string;
  recResult : value;     (* [null], or the data of the last recommendation *)
  sumResult : value;     (* '', or the last summary *)
  loadingRec : bool;
  loadingSum : bool;
  error : value
}.

Definition init : State :=
  mkState "" "" VNull (VStr "") false false (VStr "").

Definition setQuery (v : string) (s : State) : State :=
  mkState v (text s) (recResult s) (sumResult s) (loadingRec s) (loadingSum s) (error s).
Definition setText (v : string) (s : State) : State :=
  mkState (query s) v (recResult s) (sumResult s) (loadingRec s) (loadingSum s) (error s).
Definition setRecResult (v : value) (s : State) : State :=
  mkState (query s) (text s) v (sumResult s) (loadingRec s) (loadingSum s) (error s).
Definition setSumResult (v : value) (s : State) : State :=
  mkState (query s) (text s) (recResult s) v (loadingRec s) (loadingSum s) (error s).
Definition setLoadingRec (b : bool) (s : State) : State :=
  mkState (query s) (text s) (recResult s) (sumResult s) b (loadingSum s) (error s).
Definition setLoadingSum (b : bool) (s : State) : State :=
  mkState (query s) (text s) (recResult s) (sumResult s) (loadingRec s) b (error s).
Definition setError (v : value) (s : State) : State :=
  mkState (query s) (text s) (recResult s) (sumResult s) (loadingRec s) (loadingSum s) v.

(** ** The handlers: lines 13-39

    [c] is the state of the render whose handler runs: the closure reads
    [query] and [text] from it. *)

Definition handleRecommend (c : State) : prog request State unit :=
  upd (setError (VStr ""));;
  upd (setRecResult VNull);;
  try_finally
    (try_catch
       (upd (setLoadingRec true);;
        resp ← await (recommend (VStr (query c)));
        data ← get resp "data";
        upd (setRecResult data))
       (fun err =>
          msg ← error_message err "Recommendation failed";
          upd (setError msg)))
    (upd (setLoadingRec false)).

Definition handleSummarize (c : State) : prog request State unit :=
  upd (setError (VStr ""));;
  upd (setSumResult (VStr ""));;
  try_finally
    (try_catch
       (upd (setLoadingSum true);;
        resp ← await (summarize (VObj [("text", VStr (text c))]));
        data ← get resp "data";
        summary ← get data "summary";
        upd (setSumResult summary))
       (fun err =>
          msg ← error_message err "Summarization failed";
          upd (setError msg)))
    (upd (setLoadingSum false)).

Arguments handleRecommend : simpl never.
Arguments handleSummarize : simpl never.

(** ** What is rendered: lines 41-72 *)

Record View : Type := mkView {
  rec_disabled : bool;
  rec_label : string;
  rec_box : option value;      (* what follows "Recommended: " *)
  sum_disabled : bool;
  sum_label : string;
  sum_box : option value;
  error_box : option value
}.

Definition render (s : State) : View :=
  mkView
    (loadingRec s || negb (truthy (VStr (query s))))
    (if loadingRec s then "Thinking…" else "Recommend")
    (if truthy (recResult s)
     then Some (or_ (get_field (recResult s) "recommended_book") (VStr "—"))
     else None)
    (loadingSum s || negb (truthy (VStr (text s))))
    (if loadingSum s then "Summarizing…" else "Summarize")
    (if truthy (sumResult s) then Some (sumResult s) else None)
    (if truthy (error s) then Some (error s) else None).

(** ** The component on the event loop *)

Definition boot : machine request State := Async.boot init.

Inductive event : Type :=
| TypeQuery (v : string)
| TypeText (v : string)
| ClickRecommend
| ClickSummarize
| Settle (i : nat) (o : outcome).

(** A disabled button does not fire its handler. *)
Definition enabled (ev : event) (m : machine request State) : bool :=
  match ev with
  | TypeQuery _ | TypeText _ => true
  | ClickRecommend => negb (rec_disabled (render (ui m)))
  | ClickSummarize => negb (sum_disabled (render (ui m)))
  | Settle i _ => bool_decide (is_Some (pending m !! i))
  end.

Definition fire (ev : event) (m : machine request State) : machine request State :=
  if enabled ev m then
    match ev with
    | TypeQuery v => retype (setQuery v) m
    | TypeText v => retype (setText v) m
    | ClickRecommend => invoke id (handleRecommend (ui m)) m
    | ClickSummarize => invoke id (handleSummarize (ui m)) m
    | Settle i o => deliver id i o m
    end
  else m.

Inductive step (m : machine request State) : machine request State -> Prop :=
| step_query v : step m (retype (setQuery v) m)
| step_text v : step m (retype (setText v) m)
| step_recommend :
    rec_disabled (render (ui m)) = false ->
    step m (invoke id (handleRecommend (ui m)) m)
| step_summarize :
    sum_disabled (render (ui m)) = false ->
    step m (invoke id (handleSummarize (ui m)) m)
| step_settle i o :
    is_Some (pending m !! i) -> step m (deliver id i o m).

Definition exec (evs : list event) (m : machine request State) : machine request State :=
  foldl (fun m ev => fire ev m) m evs.

Definition axios_event (ev : event) : Prop :=
  match ev with
  | Settle _ o => axios_outcome o
  | _ => True
  end.

(** The bodies the two handlers leave waiting. *)
Definition recommending (c : State) : option (suspended request State) :=
  head (waiting (run (handleRecommend c) c)).

Definition summarizing (c : State) : option (suspended request State) :=
  head (waiting (run (handleSummarize c) c)).

Definition is_rec (w : suspended request State) : Prop :=
  exists c, query c <> "" /\ recommending c = Some w.

Definition is_sum (w : suspended request State) : Prop :=
  exists c, text c <> "" /\ summarizing c = Some w.

(** The requests the component sends: a recommendation for a query, the
    summary of a text, neither empty. *)
Definition prompt_request (r : request) : Prop :=
  (exists q, q <> "" /\ r = recommend (VStr q)) \/
  (exists t, t <> "" /\ r = summarize (VObj [("text", VStr t)])).

(** Each flow is single-flight, and nothing else is in flight. *)
Record good (m : machine request State) : Prop := mkGood {
  good_wf : machine_wf m;
  good_rec : single_flight loadingRec is_rec m;
  good_sum : single_flight loadingSum is_sum m;
  good_pending : forall i w, pending m !! i = Some w -> is_rec w \/ is_sum w;
  good_log : Forall prompt_request (sent m)
}.

(** ** The handlers, branch by branch *)

Section HandlerFacts.
Implicit Types (c s : State) (w : suspended request State).

Lemma run_recommend c s :
  exists w, recommending c = Some w /\
    request_of w = recommend (VStr (query c)) /\
    run (handleRecommend c) s =
      Effects (setLoadingRec true (setRecResult VNull (setError (VStr "") s))) [w] [].
Proof. eexists. split; [reflexivity|]. split; reflexivity. Qed.

Lemma prompt_run_summarize c s :
  exists w, summarizing c = Some w /\
    request_of w = summarize (VObj [("text", VStr (text c))]) /\
    run (handleSummarize c) s =
      Effects (setLoadingSum true (setSumResult (VStr "") (setError (VStr "") s))) [w] [].
Proof. eexists. split; [reflexivity|]. split; reflexivity. Qed.

Lemma recommending_request c w :
  recommending c = Some w -> request_of w = recommend (VStr (query c)).
Proof. by intros [= <-]. Qed.

Lemma summarizing_request c w :
  summarizing c = Some w -> request_of w = summarize (VObj [("text", VStr (text c))]).
Proof. by intros [= <-]. Qed.

Lemma rec_not_sum w : is_rec w -> ~ is_sum w.
Proof.
  intros (c & _ & Hc%recommending_request) (c' & _ & Hc'%summarizing_request).
  rewrite Hc in Hc'. discriminate.
Qed.

(** The four ways a recommendation settles. *)
Lemma resume_rec_ok c w resp data s :
  recommending c = Some w -> member resp "data" = Some data ->
  run (resume w (Resolved resp)) s =
    Effects (setLoadingRec false (setRecResult data s)) [] [].
Proof. intros [= <-] Hd. cbn. unfold get. rewrite Hd. reflexivity. Qed.

Lemma resume_rec_malformed c w resp s :
  recommending c = Some w -> member resp "data" = None ->
  run (resume w (Resolved resp)) s =
    Effects (setLoadingRec false (setError (VStr "Recommendation failed") s)) [] [].
Proof. intros [= <-] Hd. cbn. unfold get. rewrite Hd. reflexivity. Qed.

Lemma resume_rec_rejected c w e s :
  recommending c = Some w -> nullish e = false ->
  run (resume w (Rejected e)) s =
    Effects (setLoadingRec false
               (setError (message_of e "Recommendation failed") s)) [] [].
Proof.
  intros [= <-] He. cbn. rewrite error_message_object by done. reflexivity.
Qed.

Lemma resume_rec_null c w e s :
  recommending c = Some w -> nullish e = true ->
  run (resume w (Rejected e)) s = Effects (setLoadingRec false s) [] [TypeError].
Proof.
  intros [= <-] He. cbn. rewrite error_message_nullish by done. reflexivity.
Qed.

(** The ways a summary settles. *)
Lemma prompt_resume_sum_ok c w resp data summary s :
  summarizing c = Some w -> member resp "data" = Some data ->
  member data "summary" = Some summary ->
  run (resume w (Resolved resp)) s =
    Effects (setLoadingSum false (setSumResult summary s)) [] [].
Proof.
  intros [= <-] Hd Hs. cbn. unfold get. rewrite Hd. cbn. rewrite Hs. reflexivity.
Qed.

Lemma prompt_resume_sum_malformed c w resp s :
  summarizing c = Some w ->
  member resp "data" ≫= (fun d => member d "summary") = None ->
  run (resume w (Resolved resp)) s =
    Effects (setLoadingSum false (setError (VStr "Summarization failed") s)) [] [].
Proof.
  intros [= <-] Hd. cbn. unfold get.
  destruct (member resp "data") as [d|]; cbn in *; [|done].
  rewrite Hd. reflexivity.
Qed.

Lemma prompt_resume_sum_rejected c w e s :
  summarizing c = Some w -> nullish e = false ->
  run (resume w (Rejected e)) s =
    Effects (setLoadingSum false
               (setError (message_of e "Summarization failed") s)) [] [].
Proof.
  intros [= <-] He. cbn. rewrite error_message_object by done. reflexivity.
Qed.

Lemma resume_sum_null c w e s :
  summarizing c = Some w -> nullish e = true ->
  run (resume w (Rejected e)) s = Effects (setLoadingSum false s) [] [TypeError].
Proof.
  intros [= <-] He. cbn. rewrite error_message_nullish by done. reflexivity.
Qed.

(** A settled recommendation leaves nothing waiting, lowers its own flag
    and keeps its hands off the cells of the other flow. *)
Lemma resume_rec_settles c w o s :
  recommending c = Some w ->
  waiting (run (resume w o) s) = [] /\
  loadingRec (after (run (resume w o) s)) = false /\
  loadingSum (after (run (resume w o) s)) = loadingSum s /\
  sumResult (after (run (resume w o) s)) = sumResult s /\
  text (after (run (resume w o) s)) = text s /\
  query (after (run (resume w o) s)) = query s.
Proof.
  intros H. destruct o as [resp|e].
  - destruct (member resp "data") as [d|] eqn:Hd.
    + by rewrite (resume_rec_ok _ _ _ _ _ H Hd).
    + by rewrite (resume_rec_malformed _ _ _ _ H Hd).
  - destruct (nullish e) eqn:He.
    + by rewrite (resume_rec_null _ _ _ _ H He).
    + by rewrite (resume_rec_rejected _ _ _ _ H He).
Qed.

Lemma prompt_resume_sum_settles c w o s :
  summarizing c = Some w ->
  waiting (run (resume w o) s) = [] /\
  loadingSum (after (run (resume w o) s)) = false /\
  loadingRec (after (run (resume w o) s)) = loadingRec s /\
  recResult (after (run (resume w o) s)) = recResult s /\
  text (after (run (resume w o) s)) = text s /\
  query (after (run (resume w o) s)) = query s.
Proof.
  intros H. destruct o as [resp|e].
  - destruct (member resp "data" ≫= (fun d => member d "summary")) as [x|] eqn:Hd.
    + destruct (member resp "data") as [d|] eqn:Hd1; [|done]. cbn in Hd.
      by rewrite (prompt_resume_sum_ok _ _ _ _ _ _ H Hd1 Hd).
    + by rewrite (prompt_resume_sum_malformed _ _ _ _ H Hd).
  - destruct (nullish e) eqn:He.
    + by rewrite (resume_sum_null _ _ _ _ H He).
    + by rewrite (prompt_resume_sum_rejected _ _ _ _ H He).
Qed.

End HandlerFacts.

Section MachineFacts.
Implicit Types (m : machine request State) (c s : State) (w : suspended request State).

Lemma enabled_recommend m :
  enabled ClickRecommend m = true <-> loadingRec (ui m) = false /\ query (ui m) <> "".
Proof.
  unfold enabled. cbn. destruct (loadingRec (ui m)); cbn; [by split; [|intros []]|].
  rewrite negb_involutive, negb_true_iff.
  destruct (String.eqb_spec (query (ui m)) ""); split; intros; destruct_and?; done.
Qed.

Lemma prompt_enabled_summarize m :
  enabled ClickSummarize m = true <-> loadingSum (ui m) = false /\ text (ui m) <> "".
Proof.
  unfold enabled. cbn. destruct (loadingSum (ui m)); cbn; [by split; [|intros []]|].
  rewrite negb_involutive, negb_true_iff.
  destruct (String.eqb_spec (text (ui m)) ""); split; intros; destruct_and?; done.
Qed.

Lemma fire_recommend m :
  enabled ClickRecommend m = true ->
  exists w, recommending (ui m) = Some w /\
    fire ClickRecommend m =
      Machine (setLoadingRec true (setRecResult VNull (setError (VStr "") (ui m))))
              (<[next_id m := w]> (pending m)) (S (next_id m))
              (sent m ++ [recommend (VStr (query (ui m)))]) (unhandled m).
Proof.
  intros He. unfold fire. rewrite He.
  destruct (run_recommend (ui m) (ui m)) as (w & Hw & Hr & Hrun).
  exists w. split; [done|].
  rewrite (invoke_single _ _ _ w) by (by rewrite Hrun).
  rewrite Hrun, Hr. cbn. by rewrite app_nil_r.
Qed.

Lemma fire_summarize m :
  enabled ClickSummarize m = true ->
  exists w, summarizing (ui m) = Some w /\
    fire ClickSummarize m =
      Machine (setLoadingSum true (setSumResult (VStr "") (setError (VStr "") (ui m))))
              (<[next_id m := w]> (pending m)) (S (next_id m))
              (sent m ++ [summarize (VObj [("text", VStr (text (ui m)))])])
              (unhandled m).
Proof.
  intros He. unfold fire. rewrite He.
  destruct (prompt_run_summarize (ui m) (ui m)) as (w & Hw & Hr & Hrun).
  exists w. split; [done|].
  rewrite (invoke_single _ _ _ w) by (by rewrite Hrun).
  rewrite Hrun, Hr. cbn. by rewrite app_nil_r.
Qed.

Lemma prompt_fire_settle m i w o :
  pending m !! i = Some w -> waiting (run (resume w o) (ui m)) = [] ->
  fire (Settle i o) m =
    Machine (after (run (resume w o) (ui m))) (delete i (pending m)) (next_id m)
            (sent m) (unhandled m ++ uncaught (run (resume w o) (ui m))).
Proof.
  intros Hw Hq. unfold fire, enabled.
  rewrite bool_decide_eq_true_2 by eauto. exact (deliver_quiet id i o m w Hw Hq).
Qed.

Lemma prompt_fire_wf ev m : machine_wf m -> machine_wf (fire ev m).
Proof.
  intros Hwf. unfold fire. destruct (enabled ev m); [|done].
  destruct ev; try (by destruct Hwf); auto using invoke_wf, deliver_wf.
Qed.

(** *** Each step keeps the two flows in order *)

Lemma prompt_good_boot : good boot.
Proof.
  split; [apply boot_wf|by apply single_flight_boot..| |constructor].
  intros i w. unfold boot. simpl. by rewrite lookup_empty.
Qed.

Lemma prompt_good_retype f m :
  loadingRec (f (ui m)) = loadingRec (ui m) ->
  loadingSum (f (ui m)) = loadingSum (ui m) ->
  good m -> good (retype f m).
Proof.
  intros Hr Hs [Hwf Hrec Hsum Hp Hl].
  split; try done.
  - by apply (single_flight_same _ _ m).
  - by apply (single_flight_same _ _ m).
Qed.

Lemma good_recommend m :
  good m -> enabled ClickRecommend m = true -> good (fire ClickRecommend m).
Proof.
  intros Hg He. pose proof (prompt_fire_wf ClickRecommend m (good_wf _ Hg)) as Hwf'.
  destruct Hg as [Hwf Hrec Hsum Hp Hl].
  destruct (fire_recommend m He) as (w & Hw & Hfire).
  apply enabled_recommend in He as [Hidle Hq].
  assert (Hmine : is_rec w) by (by exists (ui m)).
  pose proof (wf_fresh m (next_id m) Hwf (Nat.le_refl _)) as Hfresh.
  rewrite Hfire in *. split; [done|..].
  - by eapply single_flight_start.
  - eapply single_flight_other_start; eauto using rec_not_sum.
  - simpl. intros i w' [[_ <-]|[_ Hi]]%lookup_insert_Some; eauto.
  - simpl. apply Forall_app. split; [done|]. constructor; [|done].
    left. by exists (query (ui m)).
Qed.

Lemma prompt_good_summarize m :
  good m -> enabled ClickSummarize m = true -> good (fire ClickSummarize m).
Proof.
  intros Hg He. pose proof (prompt_fire_wf ClickSummarize m (good_wf _ Hg)) as Hwf'.
  destruct Hg as [Hwf Hrec Hsum Hp Hl].
  destruct (fire_summarize m He) as (w & Hw & Hfire).
  apply prompt_enabled_summarize in He as [Hidle Hq].
  assert (Hmine : is_sum w) by (by exists (ui m)).
  pose proof (wf_fresh m (next_id m) Hwf (Nat.le_refl _)) as Hfresh.
  rewrite Hfire in *. split; [done|..].
  - eapply single_flight_other_start; eauto.
    intros Hr. by apply (rec_not_sum w).
  - by eapply single_flight_start.
  - simpl. intros i w' [[_ <-]|[_ Hi]]%lookup_insert_Some; eauto.
  - simpl. apply Forall_app. split; [done|]. constructor; [|done].
    right. by exists (text (ui m)).
Qed.

Lemma prompt_good_settle i o m :
  good m -> enabled (Settle i o) m = true -> good (fire (Settle i o) m).
Proof.
  intros Hg [w Hi]%bool_decide_eq_true.
  pose proof (prompt_fire_wf (Settle i o) m (good_wf _ Hg)) as Hwf'.
  destruct Hg as [Hwf Hrec Hsum Hp Hl].
  destruct (Hp i w Hi) as [Hr|Hs].
  - destruct Hr as (c & Hq & Hc).
    destruct (resume_rec_settles c w o (ui m) Hc) as (Hw0 & Hf & Hf' & _).
    rewrite (prompt_fire_settle m i w o Hi Hw0) in *. split; [done|..].
    + eapply single_flight_finish; eauto. by exists c.
    + eapply single_flight_other_finish; eauto.
      apply rec_not_sum. by exists c.
    + simpl. intros j w' [_ Hj]%lookup_delete_Some. eauto.
    + done.
  - destruct Hs as (c & Hq & Hc).
    destruct (prompt_resume_sum_settles c w o (ui m) Hc) as (Hw0 & Hf & Hf' & _).
    rewrite (prompt_fire_settle m i w o Hi Hw0) in *. split; [done|..].
    + eapply single_flight_other_finish; eauto.
      intros Hr. apply (rec_not_sum w Hr). by exists c.
    + eapply single_flight_finish; eauto. by exists c.
    + simpl. intros j w' [_ Hj]%lookup_delete_Some. eauto.
    + done.
Qed.

Lemma prompt_good_fire ev m : good m -> enabled ev m = true -> good (fire ev m).
Proof.
  intros Hg He.
  destruct ev; auto using good_recommend, prompt_good_summarize, prompt_good_settle.
  all: unfold fire; rewrite He; by apply prompt_good_retype.
Qed.

(** The tools are a component: their runs are the paths of [step]. *)
#[export] Instance prompt_component : Component enabled fire step.
Proof.
  split.
  - intros ev m E. unfold fire. by rewrite E.
  - intros ev m E. unfold fire. rewrite E. destruct ev; constructor.
    + by apply negb_true_iff in E.
    + by apply negb_true_iff in E.
    + by apply bool_decide_eq_true in E.
  - intros m m' [v|v|Hd|Hd|i o Hi].
    + by exists (TypeQuery v).
    + by exists (TypeText v).
    + exists ClickRecommend. unfold fire, enabled. by rewrite Hd.
    + exists ClickSummarize. unfold fire, enabled. by rewrite Hd.
    + exists (Settle i o). unfold fire, enabled. by rewrite bool_decide_eq_true_2.
Qed.

Lemma prompt_reachable_good m : reachable step boot m -> good m.
Proof.
  apply (reachable_invariant good); [apply prompt_good_boot|].
  intros ev m'. apply prompt_good_fire.
Qed.

Lemma prompt_good_run ev m : good m -> good (fire ev m).
Proof. revert ev m. apply (fire_invariant good), @prompt_good_fire. Qed.

End MachineFacts.

Section SafetyFacts.
Implicit Types (m : machine request State) (c s : State) (w : suspended request State).

Lemma handleRecommend_guarded c : safe axios_outcome (handleRecommend c).
Proof. unfold handleRecommend, safe. solve_guarded. Qed.

Lemma prompt_handleSummarize_guarded c : safe axios_outcome (handleSummarize c).
Proof. unfold handleSummarize, safe. solve_guarded. Qed.

Lemma prompt_fire_safe ev m :
  axios_event ev -> machine_safe axios_outcome m ->
  machine_safe axios_outcome (fire ev m).
Proof.
  intros Hev Hm. unfold fire. destruct (enabled ev m); [|done].
  destruct ev as [v|v| | |i o]; try (by destruct Hm).
  - apply invoke_safe; [apply handleRecommend_guarded|done].
  - apply invoke_safe; [apply prompt_handleSummarize_guarded|done].
  - by apply deliver_safe.
Qed.

(** Two recommendations started back to back, bypassing the button. *)
Lemma two_in_flight m cA cB :
  machine_wf m ->
  exists wA wB,
    recommending cA = Some wA /\ recommending cB = Some wB /\
    pending (invoke id (handleRecommend cB) (invoke id (handleRecommend cA) m)) =
      <[S (next_id m) := wB]> (<[next_id m := wA]> (pending m)).
Proof.
  intros Hwf.
  destruct (run_recommend cA (ui m)) as (wA & HA & _ & HrA).
  destruct (run_recommend cB (ui (invoke id (handleRecommend cA) m)))
    as (wB & HB & _ & HrB).
  exists wA, wB. split; [done|]. split; [done|].
  rewrite (invoke_single _ _ _ wB) by (by rewrite HrB).
  rewrite (invoke_single _ _ _ wA) by (by rewrite HrA). done.
Qed.

End SafetyFacts.

Section DeliverFacts.
Implicit Types (m : machine request State) (c s : State) (w : suspended request State).

Lemma deliver_rec_ok m i c w resp data :
  pending m !! i = Some w -> recommending c = Some w ->
  member resp "data" = Some data ->
  deliver id i (Resolved resp) m =
    Machine (setLoadingRec false (setRecResult data (ui m))) (delete i (pending m))
            (next_id m) (sent m) (unhandled m).
Proof.
  intros Hi Hc Hd.
  pose proof (resume_rec_ok c w resp data (ui m) Hc Hd) as Hrun.
  rewrite (deliver_quiet id _ _ m w Hi) by (by rewrite Hrun).
  rewrite Hrun. cbn. by rewrite app_nil_r.
Qed.

End DeliverFacts.

Section Claims.
Implicit Types (m : machine request State) (c s : State) (w : suspended request State).

(** C9. Every request the tools ever send carries a non-empty input: a
    recommendation is asked for a non-empty query and a summary for a
    non-empty text, because the buttons are disabled otherwise. *)
Theorem prompt_requests_nonempty m :
  reachable step boot m ->
  Forall (fun r =>
            (exists q, q <> "" /\
               r = Request POST "/books/recommend" VUndefined (VObj [("query", VStr q)])) \/
            (exists t, t <> "" /\
               r = Request POST "/books/summarize" VUndefined (VObj [("text", VStr t)])))
         (sent m).
Proof. intros Hg%prompt_reachable_good. exact (good_log _ Hg). Qed.

(** C10. When the recommendation arrives, its data become the result and the
    button is enabled again; the result box shows the recommended title,
    or a dash when the server found none. *)
Theorem recommendation_displayed m i c w resp data :
  pending m !! i = Some w -> recommending c = Some w ->
  member resp "data" = Some data ->
  fire (Settle i (Resolved resp)) m =
    Machine (setLoadingRec false (setRecResult data (ui m))) (delete i (pending m))
            (next_id m) (sent m) (unhandled m) /\
  rec_box (render (ui (fire (Settle i (Resolved resp)) m))) =
    if truthy data
    then Some (or_ (get_field data "recommended_book") (VStr "—"))
    else None.
Proof.
  intros Hi Hc Hd.
  assert (E : fire (Settle i (Resolved resp)) m =
              Machine (setLoadingRec false (setRecResult data (ui m)))
                (delete i (pending m)) (next_id m) (sent m) (unhandled m)).
  { pose proof (resume_rec_ok c w resp data (ui m) Hc Hd) as Hrun.
    rewrite (prompt_fire_settle m i w _ Hi) by (by rewrite Hrun).
    rewrite Hrun. cbn. by rewrite app_nil_r. }
  by rewrite E.
Qed.

(** When the recommendation fails, the error cell takes the server's
    message, or "Recommendation failed" when there is none, and the button
    is enabled again. *)
Theorem recommendation_failed m i c w e :
  pending m !! i = Some w -> recommending c = Some w -> nullish e = false ->
  fire (Settle i (Rejected e)) m =
    Machine (setLoadingRec false
               (setError (message_of e "Recommendation failed") (ui m)))
            (delete i (pending m)) (next_id m) (sent m) (unhandled m).
Proof.
  intros Hi Hc He.
  pose proof (resume_rec_rejected c w e (ui m) Hc He) as Hrun.
  rewrite (prompt_fire_settle m i w _ Hi) by (by rewrite Hrun).
  rewrite Hrun. cbn. by rewrite app_nil_r.
Qed.

(** When the summary arrives, [data.summary] becomes the result of the
    summary flow and its button is enabled again. *)
Theorem summary_displayed m i c w resp data summary :
  pending m !! i = Some w -> summarizing c = Some w ->
  member resp "data" = Some data -> member data "summary" = Some summary ->
  fire (Settle i (Resolved resp)) m =
    Machine (setLoadingSum false (setSumResult summary (ui m))) (delete i (pending m))
            (next_id m) (sent m) (unhandled m).
Proof.
  intros Hi Hc Hd Hs.
  pose proof (prompt_resume_sum_ok c w resp data summary (ui m) Hc Hd Hs) as Hrun.
  rewrite (prompt_fire_settle m i w _ Hi) by (by rewrite Hrun).
  rewrite Hrun. cbn. by rewrite app_nil_r.
Qed.

(** Through the buttons, each flow has at most one request in flight,
    exactly while its own loading flag is up, and nothing else is ever in
    flight. *)
Theorem flows_single_flight m :
  reachable step boot m ->
  single_flight loadingRec is_rec m /\
  single_flight loadingSum is_sum m /\
  (forall i w, pending m !! i = Some w -> is_rec w \/ is_sum w).
Proof. intros [_ ? ? ? _]%prompt_reachable_good. done. Qed.

(** C25. The button therefore never starts a second recommendation while one
    is pending: whenever Recommend can be clicked, no recommendation is in
    flight. *)
Theorem second_recommend_blocked m i w :
  reachable step boot m -> enabled ClickRecommend m = true ->
  pending m !! i = Some w -> ~ is_rec w.
Proof.
  intros Hg%prompt_reachable_good [Hidle _]%enabled_recommend Hi.
  eapply single_flight_idle; eauto using good_rec.
Qed.

(** C23. The handler itself does not order its responses: when it is invoked
    twice and the second response arrives first, the first response, which
    arrives last, is the one that stays displayed. *)
Theorem last_arrival_wins m cA cB respA respB dA dB :
  machine_wf m ->
  member respA "data" = Some dA -> member respB "data" = Some dB ->
  let m2 := invoke id (handleRecommend cB) (invoke id (handleRecommend cA) m) in
  let m3 := deliver id (S (next_id m)) (Resolved respB) m2 in
  let m4 := deliver id (next_id m) (Resolved respA) m3 in
  recResult (ui m3) = dB /\ recResult (ui m4) = dA.
Proof.
  intros Hwf HA HB. cbv zeta.
  destruct (two_in_flight m cA cB Hwf) as (wA & wB & HwA & HwB & Hp).
  remember (invoke id (handleRecommend cB) (invoke id (handleRecommend cA) m))
    as m2 eqn:E2. clear E2.
  rewrite (deliver_rec_ok m2 (S (next_id m)) cB wB respB dB)
    by (done || by rewrite Hp, lookup_insert_eq).
  split; [done|].
  rewrite (deliver_rec_ok _ (next_id m) cA wA respA dA); [done| |done..].
  simpl. rewrite Hp.
  rewrite lookup_delete_ne, lookup_insert_ne, lookup_insert_eq by lia. done.
Qed.

(** C40. The two flows share the error cell: starting a recommendation
    erases whatever message is displayed, the failure of a summary
    included, and touches nothing else of the summary flow. *)
Theorem recommend_clears_error m :
  enabled ClickRecommend m = true ->
  error (ui (fire ClickRecommend m)) = VStr "" /\
  sumResult (ui (fire ClickRecommend m)) = sumResult (ui m) /\
  loadingSum (ui (fire ClickRecommend m)) = loadingSum (ui m).
Proof. intros (w & _ & ->)%fire_recommend. done. Qed.

(** A response of one flow leaves the inputs, the result and the
    loading flag of the other flow as they are. *)
Theorem flows_independent m i w o :
  pending m !! i = Some w ->
  (is_rec w ->
     sumResult (ui (fire (Settle i o) m)) = sumResult (ui m) /\
     loadingSum (ui (fire (Settle i o) m)) = loadingSum (ui m)) /\
  (is_sum w ->
     recResult (ui (fire (Settle i o) m)) = recResult (ui m) /\
     loadingRec (ui (fire (Settle i o) m)) = loadingRec (ui m)).
Proof.
  intros Hi. split; intros (c & _ & Hc).
  - destruct (resume_rec_settles c w o (ui m) Hc) as (Hq & _ & ? & ? & _).
    by rewrite (prompt_fire_settle m i w o Hi Hq).
  - destruct (prompt_resume_sum_settles c w o (ui m) Hc) as (Hq & _ & ? & ? & _).
    by rewrite (prompt_fire_settle m i w o Hi Hq).
Qed.

(** As long as the network answers the way axios does, no run of the
    tools leaves a rejection unhandled: every failure ends as a message. *)
Theorem prompt_no_unhandled evs :
  Forall axios_event evs -> unhandled (exec evs boot) = [].
Proof.
  intros Hevs. eapply exec_unhandled; eauto using prompt_fire_safe, boot_safe.
Qed.

End Claims.

(** ** Witnesses *)

Lemma prompt_requests_nonempty_witness :
  Forall (fun r =>
            (exists q, q <> "" /\
               r = Request POST "/books/recommend" VUndefined (VObj [("query", VStr q)])) \/
            (exists t, t <> "" /\
               r = Request POST "/books/summarize" VUndefined (VObj [("text", VStr t)])))
    (sent (exec [ClickRecommend; TypeQuery "moors"; ClickRecommend; ClickSummarize] boot)).
Proof. apply prompt_requests_nonempty, exec_reachable. Defined.

Lemma recommendation_displayed_witness :
  let m := exec [TypeQuery "moors"; ClickRecommend] boot in
  rec_box (render (ui (fire (Settle 0 (http_ok (VObj [("recommended_book", VNull)]))) m))) =
    Some (VStr "—").
Proof.
  intros m.
  refine (proj2 (recommendation_displayed m 0 (ui (exec [TypeQuery "moors"] boot)) _
                   (response (VObj [("recommended_book", VNull)]))
                   (VObj [("recommended_book", VNull)]) _ _ _));
    reflexivity.
Defined.

Lemma recommendation_failed_witness :
  let m := exec [TypeQuery "moors"; ClickRecommend] boot in
  ui (fire (Settle 0 network_error) m) =
    mkState "moors" "" VNull (VStr "") false false (VStr "Recommendation failed").
Proof.
  intros m.
  refine (f_equal ui
            (recommendation_failed m 0 (ui (exec [TypeQuery "moors"] boot)) _
               no_response _ _ _)); reflexivity.
Defined.

Lemma summary_displayed_witness :
  let m := exec [TypeText "A long text."; ClickSummarize] boot in
  ui (fire (Settle 0 (http_ok (VObj [("summary", VStr "Short.")]))) m) =
    mkState "" "A long text." VNull (VStr "Short.") false false (VStr "").
Proof.
  intros m.
  refine (f_equal ui
            (summary_displayed m 0 (ui (exec [TypeText "A long text."] boot)) _
               (response (VObj [("summary", VStr "Short.")]))
               (VObj [("summary", VStr "Short.")]) (VStr "Short.") _ _ _ _));
    reflexivity.
Defined.

Lemma flows_single_flight_witness :
  let m := exec [TypeQuery "moors"; ClickRecommend; TypeText "t"; ClickSummarize] boot in
  single_flight loadingRec is_rec m /\
  single_flight loadingSum is_sum m /\
  (forall i w, pending m !! i = Some w -> is_rec w \/ is_sum w).
Proof. intros m. apply flows_single_flight, exec_reachable. Defined.

Lemma second_recommend_blocked_witness :
  let m := exec [TypeQuery "moors"; TypeText "t"; ClickSummarize] boot in
  enabled ClickRecommend m = true /\
  exists w, pending m !! 0 = Some w /\ ~ is_rec w.
Proof.
  intros m. split; [reflexivity|].
  destruct (pending m !! 0) as [w|] eqn:E; [|by vm_compute in E].
  exists w. split; [done|].
  apply (second_recommend_blocked m 0 w); [apply exec_reachable|reflexivity|done].
Defined.

Lemma last_arrival_wins_witness :
  let cA := setQuery "A" init in
  let cB := setQuery "B" init in
  let m2 := invoke id (handleRecommend cB) (invoke id (handleRecommend cA) boot) in
  let m3 := deliver id 1 (http_ok (VObj [("recommended_book", VStr "for B")])) m2 in
  let m4 := deliver id 0 (http_ok (VObj [("recommended_book", VStr "for A")])) m3 in
  recResult (ui m3) = VObj [("recommended_book", VStr "for B")] /\
  recResult (ui m4) = VObj [("recommended_book", VStr "for A")].
Proof.
  intros cA cB.
  refine (last_arrival_wins boot cA cB
            (response (VObj [("recommended_book", VStr "for A")]))
            (response (VObj [("recommended_book", VStr "for B")]))
            (VObj [("recommended_book", VStr "for A")])
            (VObj [("recommended_book", VStr "for B")])
            (boot_wf _) _ _); reflexivity.
Defined.

Lemma recommend_clears_error_witness :
  let m := exec [TypeText "t"; ClickSummarize; Settle 0 (http_error 500 (error_body "boom"));
                 TypeQuery "moors"] boot in
  error (ui m) = VStr "boom" /\
  error (ui (fire ClickRecommend m)) = VStr "".
Proof.
  intros m. split; [reflexivity|].
  exact (proj1 (recommend_clears_error m eq_refl)).
Defined.

Lemma flows_independent_witness :
  let m := exec [TypeQuery "moors"; ClickRecommend; TypeText "t"; ClickSummarize] boot in
  recResult (ui (fire (Settle 1 network_error) m)) = recResult (ui m) /\
  loadingRec (ui (fire (Settle 1 network_error) m)) = loadingRec (ui m).
Proof.
  intros m.
  destruct (pending m !! 1) as [w|] eqn:E; [|by vm_compute in E].
  refine (proj2 (flows_independent m 1 w network_error E) _).
  exists (ui (exec [TypeQuery "moors"; ClickRecommend; TypeText "t"] boot)).
  split; [done|]. vm_compute in E. vm_compute. done.
Defined.

Lemma prompt_no_unhandled_witness :
  unhandled (exec [TypeQuery "moors"; ClickRecommend; Settle 0 network_error] boot) = [].
Proof. apply prompt_no_unhandled. repeat constructor. Defined.

End AIPromptBox.
