(* ===== verification/BookDetails.v ===== *)
(** * The page of one book: pages/BookDetails.jsx

    The page fetches the book named by the route parameter, shows it with
    its summaries, asks the server for a generated summary on demand, and
    hosts the booking form.  A booking the server accepted makes the page
    fetch the book again, so that the displayed number of available copies
    is the server's.

    The page is the parent of [BookingForm]: its state holds the form's
    cells while the form is mounted.  The form is part of the output only
    when the page shows the book; [commit] is that rule, applied each time
    a handler gives control back.  Each mounted form is an instance with a
    number of its own, so that a continuation of a form that was unmounted
    in the meantime updates nothing. *)

From S2P Require Import Prelude JsValue Async Component Gateway BookingForm.

Module BookDetails.

(** ** State: lines 7-12 *)

Record State : Type := mkState {
  id : string;                 (* the route parameter, [useParams] *)
  book : value;                (* [null], or the last snapshot fetched *)
  loading : bool;
  error : value;
  aiSummary : value;
  summarizing : bool;
  form : option (nat * BookingForm.State);   (* the mounted form, by instance *)
  mounts : nat                 (* the forms mounted so far *)
}.

Definition init (id : string) : State :=
  mkState id VNull true (VStr "") (VStr "") false None 0.

Definition setId (v : string) (s : State) : State :=
  mkState v (book s) (loading s) (error s) (aiSummary s) (summarizing s) (form s) (mounts s).
Definition setBook (v : value) (s : State) : State :=
  mkState (id s) v (loading s) (error s) (aiSummary s) (summarizing s) (form s) (mounts s).
Definition setLoading (b : bool) (s : State) : State :=
  mkState (id s) (book s) b (error s) (aiSummary s) (summarizing s) (form s) (mounts s).
Definition setError (v : value) (s : State) : State :=
  mkState (id s) (book s) (loading s) v (aiSummary s) (summarizing s) (form s) (mounts s).
Definition setAiSummary (v : value) (s : State) : State :=
  mkState (id s) (book s) (loading s) (error s) v (summarizing s) (form s) (mounts s).
Definition setSummarizing (b : bool) (s : State) : State :=
  mkState (id s) (book s) (loading s) (error s) (aiSummary s) b (form s) (mounts s).
Definition setForm (f : option (nat * BookingForm.State)) (s : State) : State :=
  mkState (id s) (book s) (loading s) (error s) (aiSummary s) (summarizing s) f (mounts s).

(** A book as the server sends it, for the examples. *)
Definition hound (copies : Z) (ai : value) : value :=
  VObj [("id", VNum 12); ("title", VStr "The Hound of the Baskervilles");
        ("author", VStr "Arthur Conan Doyle"); ("genre", VNull);
        ("summary", VStr "A detective story."); ("ai_summary", ai);
        ("total_copies", VNum 3); ("available_copies", VNum copies)].

(** ** The handlers: lines 14-38

    [c] is the state of the render whose closure runs: [load] reads [id]
    from it, [handleSummarize] reads [book] and [id]. *)

Definition load (c : State) : prog request State unit :=
  try_finally
    (try_catch
       (upd (setLoading true);;
        resp ← await (getBook (VStr (id c)));
        data ← get resp "data";
        upd (setBook data);;
        ai ← get data "ai_summary";
        upd (setAiSummary (or_ ai (VStr ""))))
       (fun _ => upd (setError (VStr "Failed to load book"))))
    (upd (setLoading false)).

Definition handleSummarize (c : State) : prog request State unit :=
  if not_ (opt_get (book c) "summary") then mret tt
  else
    try_finally
      (try_catch
         (upd (setSummarizing true);;
          resp ← await (summarize (VObj [("book_id", Number_ (VStr (id c)))]));
          data ← get resp "data";
          summary ← get data "summary";
          upd (setAiSummary summary))
         (fun err =>
            msg ← error_message err "Summarization failed";
            upd (setError msg)))
      (upd (setSummarizing false)).

Arguments load : simpl never.
Arguments handleSummarize : simpl never.

(** ** The booking form inside the page: line 68 *)

(** An update of the cells of form instance [g]: nothing when that
    instance is no longer the mounted one. *)
Definition poke_form (g : nat) (f : BookingForm.State -> BookingForm.State)
    (s : State) : State :=
  match form s with
  | Some (g', fs) => if decide (g = g') then setForm (Some (g', f fs)) s else s
  | None => s
  end.

(** [onBooked={() => load()}] *)
Definition onBooked (c : State) (_ : value) : prog request State unit :=
  call (load c).

(** The submit handler of the mounted form, with the props of the render
    [c]. *)
Definition handleSubmit (c : State) : prog request State unit :=
  match form c with
  | Some (g, fs) =>
      BookingForm.handleSubmit (poke_form g) (VStr (id c)) (Some (onBooked c)) fs
  | None => mret tt
  end.

(** ** What is rendered: lines 45-70 *)

Record Page : Type := mkPage {
  title : value;
  author : value;
  genre : value;
  available : value;
  total : value;
  summary : value;
  ai_disabled : bool;
  ai_label : string;
  ai_summary : value
}.

Inductive View : Type :=
| Loading                  (* "Loading…" *)
| Failed (e : value)       (* the error, alone *)
| Blank                    (* [null] *)
| Shown (p : Page).        (* the book and, below it, the booking form *)

Definition render (s : State) : View :=
  if loading s then Loading
  else if truthy (error s) then Failed (error s)
  else if not_ (book s) then Blank
  else
    Shown (mkPage
      (get_field (book s) "title")
      (get_field (book s) "author")
      (or_ (get_field (book s) "genre") (VStr "—"))
      (get_field (book s) "available_copies")
      (get_field (book s) "total_copies")
      (or_ (get_field (book s) "summary") (VStr "No summary available."))
      (not_ (get_field (book s) "summary") || summarizing s)
      (if summarizing s then "Summarizing…" else "Generate AI Summary")
      (or_ (aiSummary s) (VStr "No AI summary yet."))).

Definition shows_book (s : State) : bool :=
  match render s with
  | Shown _ => true
  | _ => false
  end.

(** ** The page on the event loop *)

Section Machine.
(** What local storage holds under 'user', decoded, while the page is
    open: the form reads it when it mounts. *)
Context (storedUser : value).

(** Rendering mounts the form when the book is shown and no form is
    there, and unmounts it when the book is not shown. *)
Definition commit (s : State) : State :=
  if shows_book s then
    match form s with
    | Some _ => s
    | None =>
        mkState (id s) (book s) (loading s) (error s) (aiSummary s) (summarizing s)
                (Some (mounts s, BookingForm.init storedUser)) (S (mounts s))
    end
  else setForm None s.

(** The first render, and the effect of line 40 after it. *)
Definition boot (id : string) : machine request State :=
  invoke commit (load (init id)) (Async.boot (init id)).

Inductive event : Type :=
| Navigate (id' : string)             (* the route parameter changes *)
| ClickSummarize
| FormChange (v : string)
| FormSubmit
| Settle (i : nat) (o : outcome).

Definition enabled (ev : event) (m : machine request State) : bool :=
  match ev with
  | Navigate _ => true
  | ClickSummarize =>
      match render (ui m) with
      | Shown p => negb (ai_disabled p)
      | _ => false
      end
  | FormChange _ => bool_decide (is_Some (form (ui m)))
  | FormSubmit =>
      match form (ui m) with
      | Some (_, fs) => negb (BookingForm.button_disabled (BookingForm.render fs))
      | None => false
      end
  | Settle i _ => bool_decide (is_Some (pending m !! i))
  end.

Definition change_form (v : string) (s : State) : State :=
  match form s with
  | Some (g, fs) => setForm (Some (g, BookingForm.setUserId (VStr v) fs)) s
  | None => s
  end.

Definition fire (ev : event) (m : machine request State) : machine request State :=
  if enabled ev m then
    match ev with
    | Navigate id' =>
        if decide (id' = id (ui m)) then m
        else invoke commit (load (setId id' (ui m))) (retype (setId id') m)
    | ClickSummarize => invoke commit (handleSummarize (ui m)) m
    | FormChange v => retype (change_form v) m
    | FormSubmit => invoke commit (handleSubmit (ui m)) m
    | Settle i o => deliver commit i o m
    end
  else m.

Definition exec (evs : list event) (m : machine request State) : machine request State :=
  foldl (fun m ev => fire ev m) m evs.

Definition step (m m' : machine request State) : Prop :=
  exists ev, enabled ev m = true /\ m' = fire ev m.

Definition axios_event (ev : event) : Prop :=
  match ev with
  | Settle _ o => axios_outcome o
  | _ => True
  end.

End Machine.

(** ** The bodies in flight

    What each handler, run from the render [c], leaves waiting for the
    server; [None] when it returns before any request. *)

Definition loading_of (c : State) : option (suspended request State) :=
  head (waiting (run (load c) c)).

Definition summarizing_of (c : State) : option (suspended request State) :=
  head (waiting (run (handleSummarize c) c)).

Definition booking_of (c : State) : option (suspended request State) :=
  head (waiting (run (handleSubmit c) c)).

Definition is_load (w : suspended request State) : Prop :=
  exists c, loading_of c = Some w.
Definition is_sum (w : suspended request State) : Prop :=
  exists c, summarizing_of c = Some w.
Definition is_booking (w : suspended request State) : Prop :=
  exists c, booking_of c = Some w.

Definition kinds (w : suspended request State) : Prop :=
  is_load w \/ is_sum w \/ is_booking w.

(** The mounted form shows no success message, and its instance number is
    one that was handed out. *)
Definition form_ok (s : State) : Prop :=
  forall g fs, form s = Some (g, fs) ->
    BookingForm.success fs = "" /\ g < mounts s.

(** The form is mounted exactly when the book is shown. *)
Definition tidy (s : State) : Prop :=
  (is_Some (form s) <-> shows_book s = true) /\ form_ok s.

Record good (m : machine request State) : Prop := mkGood {
  good_wf : machine_wf m;
  good_tidy : tidy (ui m);
  good_pending : forall i w, pending m !! i = Some w -> kinds w
}.

(** ** The handlers, branch by branch *)

Section HandlerFacts.
Implicit Types (c s : State) (w : suspended request State).

(** *** Fetching the book *)

Lemma run_load c s :
  exists w, loading_of c = Some w /\
    request_of w = getBook (VStr (id c)) /\
    run (load c) s = Effects (setLoading true s) [w] [].
Proof. eexists. split; [reflexivity|]. split; reflexivity. Qed.

Lemma resume_load_ok c w resp data ai s :
  loading_of c = Some w -> member resp "data" = Some data ->
  member data "ai_summary" = Some ai ->
  run (resume w (Resolved resp)) s =
    Effects (setLoading false (setAiSummary (or_ ai (VStr "")) (setBook data s))) [] [].
Proof.
  intros [= <-] Hd Ha. cbn. unfold get. rewrite Hd. cbn. rewrite Ha. reflexivity.
Qed.

Lemma resume_load_null c w resp data s :
  loading_of c = Some w -> member resp "data" = Some data ->
  member data "ai_summary" = None ->
  run (resume w (Resolved resp)) s =
    Effects (setLoading false (setError (VStr "Failed to load book") (setBook data s)))
            [] [].
Proof.
  intros [= <-] Hd Ha. cbn. unfold get. rewrite Hd. cbn. rewrite Ha. reflexivity.
Qed.

Lemma resume_load_malformed c w resp s :
  loading_of c = Some w -> member resp "data" = None ->
  run (resume w (Resolved resp)) s =
    Effects (setLoading false (setError (VStr "Failed to load book") s)) [] [].
Proof. intros [= <-] Hd. cbn. unfold get. rewrite Hd. reflexivity. Qed.

Lemma resume_load_rejected c w e s :
  loading_of c = Some w ->
  run (resume w (Rejected e)) s =
    Effects (setLoading false (setError (VStr "Failed to load book") s)) [] [].
Proof. by intros [= <-]. Qed.

(** However the fetch ends, it leaves nothing waiting and nothing
    uncaught, lowers [loading], and touches neither the form nor the
    summary flag; the error cell changes only to a message. *)
Lemma resume_load_settles c w o s :
  loading_of c = Some w ->
  waiting (run (resume w o) s) = [] /\
  uncaught (run (resume w o) s) = [] /\
  loading (after (run (resume w o) s)) = false /\
  form (after (run (resume w o) s)) = form s /\
  mounts (after (run (resume w o) s)) = mounts s /\
  (error (after (run (resume w o) s)) = error s \/
   error (after (run (resume w o) s)) = VStr "Failed to load book").
Proof.
  intros H. destruct o as [resp|e].
  - destruct (member resp "data") as [d|] eqn:Hd.
    + destruct (member d "ai_summary") as [a|] eqn:Ha.
      * rewrite (resume_load_ok _ _ _ _ _ _ H Hd Ha). cbn. auto 10.
      * rewrite (resume_load_null _ _ _ _ _ H Hd Ha). cbn. auto 10.
    + rewrite (resume_load_malformed _ _ _ _ H Hd). cbn. auto 10.
  - rewrite (resume_load_rejected _ _ _ _ H). cbn. auto 10.
Qed.

(** *** The generated summary *)

Lemma run_summarize_disabled c s :
  truthy (opt_get (book c) "summary") = false ->
  run (handleSummarize c) s = Effects s [] [].
Proof. intros H. unfold handleSummarize, not_. by rewrite H. Qed.

Lemma summarizing_of_truthy c w :
  summarizing_of c = Some w -> truthy (opt_get (book c) "summary") = true.
Proof.
  unfold summarizing_of, handleSummarize, not_.
  by destruct (truthy (opt_get (book c) "summary")).
Qed.

Lemma page_run_summarize c s :
  truthy (opt_get (book c) "summary") = true ->
  exists w, summarizing_of c = Some w /\
    request_of w = summarize (VObj [("book_id", Number_ (VStr (id c)))]) /\
    run (handleSummarize c) s = Effects (setSummarizing true s) [w] [].
Proof.
  intros H. unfold summarizing_of, handleSummarize, not_. rewrite H. cbn.
  eexists. split; [reflexivity|]. split; reflexivity.
Qed.

Lemma page_resume_sum_ok c w resp data summary s :
  summarizing_of c = Some w -> member resp "data" = Some data ->
  member data "summary" = Some summary ->
  run (resume w (Resolved resp)) s =
    Effects (setSummarizing false (setAiSummary summary s)) [] [].
Proof.
  intros H Hd Hs. pose proof (summarizing_of_truthy _ _ H) as Ht. revert H.
  unfold summarizing_of, handleSummarize, not_. rewrite Ht. cbn. intros [= <-].
  cbn. unfold get. rewrite Hd. cbn. rewrite Hs. reflexivity.
Qed.

Lemma page_resume_sum_malformed c w resp s :
  summarizing_of c = Some w ->
  member resp "data" ≫= (fun d => member d "summary") = None ->
  run (resume w (Resolved resp)) s =
    Effects (setSummarizing false (setError (VStr "Summarization failed") s)) [] [].
Proof.
  intros H Hd. pose proof (summarizing_of_truthy _ _ H) as Ht. revert H.
  unfold summarizing_of, handleSummarize, not_. rewrite Ht. cbn. intros [= <-].
  cbn. unfold get. destruct (member resp "data") as [d|]; cbn in *; [|done].
  rewrite Hd. reflexivity.
Qed.

Lemma page_resume_sum_rejected c w e s :
  summarizing_of c = Some w -> nullish e = false ->
  run (resume w (Rejected e)) s =
    Effects (setSummarizing false
               (setError (message_of e "Summarization failed") s)) [] [].
Proof.
  intros H He. pose proof (summarizing_of_truthy _ _ H) as Ht. revert H.
  unfold summarizing_of, handleSummarize, not_. rewrite Ht. cbn. intros [= <-].
  cbn. rewrite error_message_object by done. reflexivity.
Qed.

Lemma resume_sum_nullish c w e s :
  summarizing_of c = Some w -> nullish e = true ->
  run (resume w (Rejected e)) s = Effects (setSummarizing false s) [] [TypeError].
Proof.
  intros H He. pose proof (summarizing_of_truthy _ _ H) as Ht. revert H.
  unfold summarizing_of, handleSummarize, not_. rewrite Ht. cbn. intros [= <-].
  cbn. rewrite error_message_nullish by done. reflexivity.
Qed.

Lemma page_resume_sum_settles c w o s :
  summarizing_of c = Some w ->
  waiting (run (resume w o) s) = [] /\
  loading (after (run (resume w o) s)) = loading s /\
  book (after (run (resume w o) s)) = book s /\
  form (after (run (resume w o) s)) = form s /\
  mounts (after (run (resume w o) s)) = mounts s /\
  (error (after (run (resume w o) s)) = error s \/
   truthy (error (after (run (resume w o) s))) = true).
Proof.
  intros H. destruct o as [resp|e].
  - destruct (member resp "data" ≫= (fun d => member d "summary")) as [x|] eqn:Hd.
    + destruct (member resp "data") as [d|] eqn:Hd1; [|done]. cbn in Hd.
      rewrite (page_resume_sum_ok _ _ _ _ _ _ H Hd1 Hd). cbn. auto 10.
    + rewrite (page_resume_sum_malformed _ _ _ _ H Hd). cbn. auto 10.
  - destruct (nullish e) eqn:He.
    + rewrite (resume_sum_nullish _ _ _ _ H He). cbn. auto 10.
    + rewrite (page_resume_sum_rejected _ _ _ _ H He). cbn.
      split_and!; try done. right. by apply message_of_truthy.
Qed.

End HandlerFacts.

Section FormFacts.
Implicit Types (c s : State) (w : suspended request State) (g : nat)
  (fs : BookingForm.State).

(** *** Updates of the form leave the page's cells alone *)

Lemma poke_form_page g f s :
  id (poke_form g f s) = id s /\ book (poke_form g f s) = book s /\
  loading (poke_form g f s) = loading s /\ error (poke_form g f s) = error s /\
  aiSummary (poke_form g f s) = aiSummary s /\
  summarizing (poke_form g f s) = summarizing s /\
  mounts (poke_form g f s) = mounts s.
Proof.
  unfold poke_form. destruct (form s) as [[g' fs]|]; [|done].
  by case_decide.
Qed.

Lemma poke_form_error g f s : error (poke_form g f s) = error s.
Proof. apply poke_form_page. Qed.
Lemma poke_form_mounts g f s : mounts (poke_form g f s) = mounts s.
Proof. apply poke_form_page. Qed.
Lemma poke_form_loading g f s : loading (poke_form g f s) = loading s.
Proof. apply poke_form_page. Qed.
Lemma poke_form_book g f s : book (poke_form g f s) = book s.
Proof. apply poke_form_page. Qed.
Lemma poke_form_id g f s : id (poke_form g f s) = id s.
Proof. apply poke_form_page. Qed.

Lemma poke_form_render g f s : render (poke_form g f s) = render s.
Proof.
  destruct (poke_form_page g f s) as (_ & Hb & Hl & He & Ha & Hs & _).
  unfold render. by rewrite Hb, Hl, He, Ha, Hs.
Qed.

Lemma poke_form_shows g f s : shows_book (poke_form g f s) = shows_book s.
Proof. unfold shows_book. by rewrite poke_form_render. Qed.

Lemma poke_form_form g f s :
  form (poke_form g f s) =
    match form s with
    | Some (g', fs) => Some (g', if decide (g = g') then f fs else fs)
    | None => None
    end.
Proof.
  unfold poke_form. destruct (form s) as [[g' fs]|] eqn:E; [|done].
  case_decide; simpl; [done|]. by rewrite E.
Qed.

(** An update that sets no success message keeps the form in order. *)
Lemma poke_form_ok g f s :
  (forall fs, BookingForm.success fs = "" -> BookingForm.success (f fs) = "") ->
  form_ok s -> form_ok (poke_form g f s).
Proof.
  intros Hf Hs g' fs'. rewrite poke_form_form, poke_form_mounts.
  destruct (form s) as [[g0 fs0]|] eqn:E; [|done].
  intros [= <- <-]. destruct (Hs g0 fs0 E) as [? ?].
  case_decide; auto.
Qed.

(** *** The booking made from the page *)

Lemma booking_of_form c w :
  booking_of c = Some w ->
  exists g fs, form c = Some (g, fs) /\ truthy (BookingForm.userId fs) = true.
Proof.
  unfold booking_of, handleSubmit. destruct (form c) as [[g fs]|]; [|done].
  unfold BookingForm.handleSubmit, not_.
  destruct (truthy (BookingForm.userId fs)) eqn:E; [eauto|done].
Qed.

(** [resume_of H Hf] opens the body that [H : booking_of c = Some w] names,
    for the form [Hf : form c = Some (g, fs)] that submitted: the
    continuation of the form's handler after its [await]. *)
Ltac resume_of H Hf :=
  revert H; unfold booking_of, handleSubmit; rewrite Hf;
  unfold BookingForm.handleSubmit, not_;
  destruct (truthy (BookingForm.userId _)); [|done]; cbn; intros [= <-]; cbn.

Lemma run_submit_missing c g fs s :
  form c = Some (g, fs) -> truthy (BookingForm.userId fs) = false ->
  run (handleSubmit c) s =
    Effects
      (poke_form g (BookingForm.setError (VStr "Please provide a user id or login."))
         (poke_form g (BookingForm.setSuccess "")
            (poke_form g (BookingForm.setError (VStr "")) s)))
      [] [].
Proof.
  intros Hf Hu. unfold handleSubmit. rewrite Hf.
  unfold BookingForm.handleSubmit, not_. by rewrite Hu.
Qed.

Lemma run_submit c g fs s :
  form c = Some (g, fs) -> truthy (BookingForm.userId fs) = true ->
  exists w, booking_of c = Some w /\
    request_of w =
      createBooking (BookingForm.payload (VStr (id c)) (BookingForm.userId fs)) /\
    run (handleSubmit c) s =
      Effects
        (poke_form g (BookingForm.setLoading true)
           (poke_form g (BookingForm.setSuccess "")
              (poke_form g (BookingForm.setError (VStr "")) s)))
        [w] [].
Proof.
  intros Hf Hu. unfold booking_of, handleSubmit. rewrite Hf.
  unfold BookingForm.handleSubmit, not_. rewrite Hu. cbn.
  eexists. split; [reflexivity|]. split; reflexivity.
Qed.

(** The server accepted: the form instance that submitted gets its
    message, and the page starts fetching the book again. *)
Lemma resume_booking_ok c w g fs resp data s :
  booking_of c = Some w -> form c = Some (g, fs) ->
  member resp "data" = Some data ->
  exists wl, loading_of c = Some wl /\
    run (resume w (Resolved resp)) s =
      Effects
        (poke_form g (BookingForm.setLoading false)
           (setLoading true
              (poke_form g (BookingForm.setSuccess "Booked successfully.") s)))
        [wl] [].
Proof.
  intros H Hf Hd. resume_of H Hf.
  unfold get. rewrite Hd. cbn. eexists. split; reflexivity.
Qed.

Lemma resume_booking_malformed c w g fs resp s :
  booking_of c = Some w -> form c = Some (g, fs) ->
  member resp "data" = None ->
  run (resume w (Resolved resp)) s =
    Effects
      (poke_form g (BookingForm.setLoading false)
         (poke_form g (BookingForm.setError (VStr "Booking failed")) s))
      [] [].
Proof.
  intros H Hf Hd. resume_of H Hf.
  unfold get. rewrite Hd. reflexivity.
Qed.

Lemma resume_booking_rejected c w g fs e s :
  booking_of c = Some w -> form c = Some (g, fs) -> nullish e = false ->
  run (resume w (Rejected e)) s =
    Effects
      (poke_form g (BookingForm.setLoading false)
         (poke_form g (BookingForm.setError (message_of e "Booking failed")) s))
      [] [].
Proof.
  intros H Hf He. resume_of H Hf.
  rewrite error_message_object by done. reflexivity.
Qed.

Lemma resume_booking_nullish c w g fs e s :
  booking_of c = Some w -> form c = Some (g, fs) -> nullish e = true ->
  run (resume w (Rejected e)) s =
    Effects (poke_form g (BookingForm.setLoading false) s) [] [TypeError].
Proof.
  intros H Hf He. resume_of H Hf.
  rewrite error_message_nullish by done. reflexivity.
Qed.

(** However the booking ends: either the page is fetching again, with
    that fetch as the only thing left waiting, or nothing is waiting and
    the form kept its (empty) success message.  The page's error cell is
    never touched. *)
Lemma resume_booking_settles c w o s :
  booking_of c = Some w -> form_ok s ->
  error (after (run (resume w o) s)) = error s /\
  mounts (after (run (resume w o) s)) = mounts s /\
  ((exists wl, is_load wl /\ waiting (run (resume w o) s) = [wl] /\
      loading (after (run (resume w o) s)) = true) \/
   (waiting (run (resume w o) s) = [] /\
    shows_book (after (run (resume w o) s)) = shows_book s /\
    form_ok (after (run (resume w o) s)))).
Proof.
  intros H Hok. destruct (booking_of_form _ _ H) as (g & fs & Hf & _).
  destruct o as [resp|e].
  - destruct (member resp "data") as [d|] eqn:Hd.
    + destruct (resume_booking_ok _ _ _ _ _ _ s H Hf Hd) as (wl & Hwl & ->).
      cbn [after waiting]. rewrite ?poke_form_error, ?poke_form_mounts,
        ?poke_form_loading. cbn. rewrite ?poke_form_error, ?poke_form_mounts.
      split_and!; try done. left. exists wl. split_and!; try done. by exists c.
    + rewrite (resume_booking_malformed _ _ _ _ _ s H Hf Hd). cbn [after waiting].
      rewrite ?poke_form_error, ?poke_form_mounts, ?poke_form_shows.
      split_and!; try done. right. split_and!; try done.
      by do 2 (apply poke_form_ok; [done|]).
  - destruct (nullish e) eqn:He.
    + rewrite (resume_booking_nullish _ _ _ _ _ s H Hf He). cbn [after waiting].
      rewrite ?poke_form_error, ?poke_form_mounts, ?poke_form_shows.
      split_and!; try done. right. split_and!; try done.
      by apply poke_form_ok.
    + rewrite (resume_booking_rejected _ _ _ _ _ s H Hf He). cbn [after waiting].
      rewrite ?poke_form_error, ?poke_form_mounts, ?poke_form_shows.
      split_and!; try done. right. split_and!; try done.
      by do 2 (apply poke_form_ok; [done|]).
Qed.

End FormFacts.

Section MachineFacts.
Context (storedUser : value).
Implicit Types (m : machine request State) (c s : State)
  (w : suspended request State).

#[local] Abbreviation commit := (commit storedUser).
#[local] Abbreviation fire := (fire storedUser).

(** *** Rendering *)

Lemma commit_render s : render (commit s) = render s.
Proof.
  unfold commit. destruct (shows_book s); [|done].
  by destruct (form s).
Qed.

Lemma commit_shows s : shows_book (commit s) = shows_book s.
Proof. unfold shows_book. by rewrite commit_render. Qed.

Lemma commit_error s : error (commit s) = error s.
Proof. unfold commit. destruct (shows_book s); [|done]. by destruct (form s). Qed.

Lemma commit_book s : book (commit s) = book s.
Proof. unfold commit. destruct (shows_book s); [|done]. by destruct (form s). Qed.

Lemma commit_loading s : loading (commit s) = loading s.
Proof. unfold commit. destruct (shows_book s); [|done]. by destruct (form s). Qed.

Lemma commit_aiSummary s : aiSummary (commit s) = aiSummary s.
Proof. unfold commit. destruct (shows_book s); [|done]. by destruct (form s). Qed.

(** After rendering, the form is mounted exactly when the book is shown;
    it is in order when it was before, and a fresh form always is. *)
Lemma commit_tidy s : (shows_book s = true -> form_ok s) -> tidy (commit s).
Proof.
  intros Hok. split.
  - rewrite commit_shows. unfold commit.
    destruct (shows_book s) eqn:E.
    + destruct (form s) eqn:Ef; simpl; [by rewrite Ef|]; by split; eauto.
    + simpl. split; [by intros [? ?]|done].
  - unfold commit. destruct (shows_book s) eqn:E; [|by intros g fs].
    destruct (form s) eqn:Ef; [by auto|].
    intros g fs. simpl. intros [= <- <-]. split; [done|lia].
Qed.

Lemma tidy_commit s : tidy s -> commit s = s.
Proof.
  intros [Hm _]. unfold commit. destruct (shows_book s) eqn:E.
  - destruct (proj2 Hm eq_refl) as [x ->]. done.
  - destruct (form s) eqn:Ef; [|by destruct s; simpl in *; subst].
    assert (false = true) by (by apply Hm). done.
Qed.

(** *** What is in flight *)

Lemma settle_good e m0 :
  machine_wf (settle commit e m0) ->
  (forall i w, pending m0 !! i = Some w -> kinds w) ->
  Forall kinds (waiting e) ->
  (shows_book (after e) = true -> form_ok (after e)) ->
  good (settle commit e m0).
Proof.
  intros Hwf Hp He Hok. split; [done| |].
  - unfold settle. rewrite register_all_ui. simpl. by apply commit_tidy.
  - intros i w. unfold settle. rewrite register_all_pending. simpl.
    rewrite Forall_lookup in He.
    case_decide; [|by apply Hp].
    destruct (waiting e !! _) eqn:E; [|by apply Hp].
    intros [= <-]. by eapply He.
Qed.

Lemma invoke_good p m :
  good m -> Forall kinds (waiting (run p (ui m))) ->
  (shows_book (after (run p (ui m))) = true -> form_ok (after (run p (ui m)))) ->
  good (invoke commit p m).
Proof.
  intros [Hwf Ht Hp] Hk Hok. apply settle_good; try done.
  by apply (invoke_wf commit p m).
Qed.

Lemma deliver_good i o m w :
  good m -> pending m !! i = Some w ->
  Forall kinds (waiting (run (resume w o) (ui m))) ->
  (shows_book (after (run (resume w o) (ui m))) = true ->
   form_ok (after (run (resume w o) (ui m)))) ->
  good (deliver commit i o m).
Proof.
  intros [Hwf Ht Hp] Hi Hk Hok.
  pose proof (deliver_wf commit i o m Hwf) as Hwf'.
  rewrite (deliver_known _ _ _ _ w Hi) in *. apply settle_good; try done.
  simpl. intros j w' [_ Hj]%lookup_delete_Some. eauto.
Qed.

End MachineFacts.

Section StepFacts.
Context (storedUser : value).
Implicit Types (m : machine request State) (c s : State)
  (w : suspended request State).

#[local] Abbreviation commit := (commit storedUser).
#[local] Abbreviation fire := (fire storedUser).
#[local] Abbreviation boot := (boot storedUser).

Lemma loading_hides s : loading s = true -> shows_book s = false.
Proof. unfold shows_book, render. by intros ->. Qed.

Lemma form_ok_same s s' :
  form s' = form s -> mounts s' = mounts s -> form_ok s -> form_ok s'.
Proof. unfold form_ok. by intros -> ->. Qed.

Lemma shows_book_summary s :
  shows_book s = true -> nullish (book s) = false.
Proof.
  unfold shows_book, render, not_.
  destruct (loading s); [done|]. destruct (truthy (error s)); [done|].
  by destruct (book s).
Qed.

Lemma page_enabled_summarize m :
  enabled ClickSummarize m = true ->
  shows_book (ui m) = true /\ summarizing (ui m) = false /\
  truthy (opt_get (book (ui m)) "summary") = true.
Proof.
  unfold enabled. intros H.
  assert (Hs : shows_book (ui m) = true).
  { unfold shows_book. by destruct (render (ui m)). }
  rewrite (opt_get_defined _ _ (shows_book_summary _ Hs)).
  revert H. unfold render, not_.
  destruct (loading (ui m)); [done|]. destruct (truthy (error (ui m))); [done|].
  destruct (truthy (book (ui m))); [|done]. cbn.
  destruct (truthy (get_field (book (ui m)) "summary")); [|done].
  by destruct (summarizing (ui m)).
Qed.

Lemma page_enabled_submit m :
  enabled FormSubmit m = true ->
  exists g fs, form (ui m) = Some (g, fs) /\ BookingForm.loading fs = false.
Proof.
  unfold enabled. destruct (form (ui m)) as [[g fs]|]; [|done].
  cbn. destruct (BookingForm.loading fs) eqn:E; [done|eauto].
Qed.

(** *** Each step keeps the page in order *)

Lemma page_good_retype f m :
  form_ok (f (ui m)) -> shows_book (f (ui m)) = shows_book (ui m) ->
  (is_Some (form (f (ui m))) <-> is_Some (form (ui m))) ->
  good m -> good (retype f m).
Proof.
  intros Hok Hs Hf [Hwf [Hm _] Hp]. split; [by destruct Hwf| |done].
  split; [|done]. simpl. by rewrite Hf, Hs.
Qed.

Lemma page_good_boot i : good (boot i).
Proof.
  apply invoke_good.
  - split; [apply boot_wf| |].
    + split; [|by intros g fs]. simpl. by split; [intros [? ?]|].
    + intros j w. simpl. by rewrite lookup_empty.
  - destruct (run_load (init i) (ui (Async.boot (Req:=request) (init i)))) as (w & Hw & _ & ->).
    apply Forall_singleton. left. by exists (init i).
  - by destruct (run_load (init i) (ui (Async.boot (Req:=request) (init i)))) as (w & Hw & _ & ->).
Qed.

Lemma good_navigate i m : good m -> good (fire (Navigate i) m).
Proof.
  intros Hg. unfold fire, BookDetails.fire. cbn. case_decide; [done|].
  apply invoke_good.
  - apply page_good_retype; try done. apply Hg.
  - destruct (run_load (setId i (ui m)) (ui (retype (setId i) m))) as (w & Hw & _ & ->).
    apply Forall_singleton. left. by eexists.
  - by destruct (run_load (setId i (ui m)) (ui (retype (setId i) m))) as (w & Hw & _ & ->).
Qed.

Lemma page_good_summarize m :
  good m -> enabled ClickSummarize m = true -> good (fire ClickSummarize m).
Proof.
  intros Hg He. unfold fire, BookDetails.fire. rewrite He.
  apply page_enabled_summarize in He as (_ & _ & Ht).
  destruct (page_run_summarize (ui m) (ui m) Ht) as (w & Hw & _ & Hrun).
  apply invoke_good; [done|..]; rewrite Hrun.
  - apply Forall_singleton. right; left. by eexists.
  - intros _. apply (form_ok_same (ui m)); try done. apply Hg.
Qed.

Lemma page_good_change v m : good m -> good (fire (FormChange v) m).
Proof.
  intros Hg. unfold fire, BookDetails.fire.
  destruct (enabled (FormChange v) m); [|done].
  destruct Hg as [Hwf [Hm Hok] Hp].
  apply page_good_retype; [| | |by split]; unfold change_form;
    destruct (form (ui m)) as [[g fs]|] eqn:E; try done.
  - intros g' fs'. simpl. intros [= <- <-]. by apply (Hok g fs).
  - simpl. rewrite E. by split; eauto.
Qed.

Lemma page_good_submit m :
  good m -> enabled FormSubmit m = true -> good (fire FormSubmit m).
Proof.
  intros Hg He. unfold fire, BookDetails.fire. rewrite He.
  apply page_enabled_submit in He as (g & fs & Hf & _).
  assert (Hok : form_ok (ui m)) by apply Hg.
  destruct (truthy (BookingForm.userId fs)) eqn:Hu.
  - destruct (run_submit (ui m) g fs (ui m) Hf Hu) as (w & Hw & _ & Hrun).
    apply invoke_good; [done|..]; rewrite Hrun.
    + apply Forall_singleton. right; right. by eexists.
    + intros _. by do 3 (apply poke_form_ok; [done|]).
  - apply invoke_good; [done|..]; rewrite (run_submit_missing _ _ _ _ Hf Hu).
    + constructor.
    + intros _. by do 3 (apply poke_form_ok; [done|]).
Qed.

Lemma page_good_settle i o m :
  good m -> enabled (Settle i o) m = true -> good (fire (Settle i o) m).
Proof.
  intros Hg He. unfold fire, BookDetails.fire. rewrite He.
  apply bool_decide_eq_true in He as [w Hi].
  assert (Hok : form_ok (ui m)) by apply Hg.
  apply (deliver_good _ i o m w Hg Hi);
    destruct (good_pending _ Hg i w Hi) as [[c Hc]|[[c Hc]|[c Hc]]].
  - destruct (resume_load_settles c w o (ui m) Hc) as (-> & _). constructor.
  - destruct (page_resume_sum_settles c w o (ui m) Hc) as (-> & _). constructor.
  - destruct (resume_booking_settles c w o (ui m) Hc Hok)
      as (_ & _ & [(wl & Hl & -> & _)|(-> & _)]); [|constructor].
    apply Forall_singleton. by left.
  - destruct (resume_load_settles c w o (ui m) Hc) as (_ & _ & _ & Hf & Hm & _).
    intros _. by apply (form_ok_same (ui m)).
  - destruct (page_resume_sum_settles c w o (ui m) Hc) as (_ & _ & _ & Hf & Hm & _).
    intros _. by apply (form_ok_same (ui m)).
  - destruct (resume_booking_settles c w o (ui m) Hc Hok)
      as (_ & _ & [(wl & _ & _ & Hl)|(_ & _ & Hok')]); [|done].
    intros Hs. by rewrite (loading_hides _ Hl) in Hs.
Qed.

Lemma page_good_fire ev m : good m -> good (fire ev m).
Proof.
  intros Hg. destruct (enabled ev m) eqn:He;
    [|by unfold fire, BookDetails.fire; rewrite He].
  destruct ev;
    auto using good_navigate, page_good_change, page_good_summarize, page_good_submit, page_good_settle.
Qed.

(** The page is a component: its runs are the paths of [step]. *)
#[export] Instance page_component :
  Component enabled (BookDetails.fire storedUser) (step storedUser).
Proof.
  split.
  - intros ev m E. unfold BookDetails.fire. by rewrite E.
  - intros ev m E. by exists ev.
  - by intros m m' Hs.
Qed.

Lemma page_reachable_good i m : reachable (step storedUser) (boot i) m -> good m.
Proof.
  apply (reachable_invariant good); [apply page_good_boot|].
  intros ev m' Hg _. by apply page_good_fire.
Qed.

End StepFacts.

Section SettleFacts.
Context (storedUser : value).
Implicit Types (m : machine request State) (c s : State)
  (w : suspended request State).

#[local] Abbreviation commit := (commit storedUser).
#[local] Abbreviation fire := (fire storedUser).
#[local] Abbreviation boot := (boot storedUser).
#[local] Abbreviation exec := (exec storedUser).
#[local] Abbreviation step := (step storedUser).

Lemma fire_settle_quiet m i w o :
  pending m !! i = Some w -> waiting (run (resume w o) (ui m)) = [] ->
  fire (Settle i o) m =
    Machine (commit (after (run (resume w o) (ui m)))) (delete i (pending m))
            (next_id m) (sent m) (unhandled m ++ uncaught (run (resume w o) (ui m))).
Proof.
  intros Hw Hq. unfold fire, BookDetails.fire, enabled.
  rewrite bool_decide_eq_true_2 by eauto. by apply deliver_quiet.
Qed.

Lemma fire_settle_single m i w o wl :
  pending m !! i = Some w -> waiting (run (resume w o) (ui m)) = [wl] ->
  fire (Settle i o) m =
    Machine (commit (after (run (resume w o) (ui m))))
            (<[next_id m := wl]> (delete i (pending m)))
            (S (next_id m)) (sent m ++ [request_of wl])
            (unhandled m ++ uncaught (run (resume w o) (ui m))).
Proof.
  intros Hw Hq. unfold fire, BookDetails.fire, enabled.
  rewrite bool_decide_eq_true_2 by eauto. by apply deliver_single.
Qed.

Lemma exec_from_reachable i evs m :
  reachable step (boot i) m -> reachable step (boot i) (exec evs m).
Proof.
  apply reachable_foldl. intros m' ev. apply fire_step_or_same.
Qed.

(** *** The error cell only ever takes messages *)

Lemma fire_keeps_error ev m :
  good m -> truthy (error (ui m)) = true -> truthy (error (ui (fire ev m))) = true.
Proof.
  intros Hg He. destruct (enabled ev m) eqn:En;
    [|by unfold fire, BookDetails.fire; rewrite En].
  unfold fire, BookDetails.fire. rewrite En. destruct ev as [j| |v| |i o].
  - case_decide; [done|]. rewrite invoke_ui, commit_error.
    by destruct (run_load (setId j (ui m)) (ui (retype (setId j) m))) as (w & _ & _ & ->).
  - apply page_enabled_summarize in En as (_ & _ & Ht). rewrite invoke_ui, commit_error.
    by destruct (page_run_summarize (ui m) (ui m) Ht) as (w & _ & _ & ->).
  - simpl. unfold change_form. by destruct (form (ui m)) as [[g fs]|].
  - apply page_enabled_submit in En as (g & fs & Hf & _). rewrite invoke_ui, commit_error.
    destruct (truthy (BookingForm.userId fs)) eqn:Hu.
    + destruct (run_submit (ui m) g fs (ui m) Hf Hu) as (w & _ & _ & ->). cbn.
      by rewrite !poke_form_error.
    + rewrite (run_submit_missing _ _ _ _ Hf Hu). cbn. by rewrite !poke_form_error.
  - apply bool_decide_eq_true in En as [w Hi].
    rewrite (deliver_known _ _ _ _ w Hi), invoke_ui, commit_error. cbn [Async.ui].
    destruct (good_pending _ Hg i w Hi) as [[c Hc]|[[c Hc]|[c Hc]]].
    + by destruct (resume_load_settles c w o (ui m) Hc)
        as (_ & _ & _ & _ & _ & [-> | ->]).
    + by destruct (page_resume_sum_settles c w o (ui m) Hc)
        as (_ & _ & _ & _ & _ & [-> | ->]).
    + assert (Hok : form_ok (ui m)) by apply Hg.
      by destruct (resume_booking_settles c w o (ui m) Hc Hok) as (-> & _).
Qed.

Lemma exec_keeps_error evs m :
  good m -> truthy (error (ui m)) = true ->
  truthy (error (ui (exec evs m))) = true.
Proof.
  intros Hg He.
  apply (foldl_invariant _ (fun m => good m /\ truthy (error (ui m)) = true)
           (fun _ => True) evs m); [|by apply Forall_true|done].
  intros m' ev _ [? ?]. split; [by apply page_good_fire|by apply fire_keeps_error].
Qed.

(** *** Nothing is left unhandled *)

Lemma load_guarded c : safe axios_outcome (load c).
Proof.
  unfold load, safe. apply guarded_try_finally; [|done].
  apply guarded_try_catch with (T := thrown_object); solve_guarded.
Qed.

Lemma page_handleSummarize_guarded c : safe axios_outcome (handleSummarize c).
Proof. unfold handleSummarize, safe. case_match; solve_guarded. Qed.

Lemma page_handleSubmit_guarded c : safe axios_outcome (handleSubmit c).
Proof.
  unfold handleSubmit. destruct (form c) as [[g fs]|]; [|done].
  apply BookingForm.form_handleSubmit_guarded. intros d f [= <-].
  split; [apply load_guarded|done].
Qed.

Lemma page_fire_safe ev m :
  axios_event ev -> machine_safe axios_outcome m ->
  machine_safe axios_outcome (fire ev m).
Proof.
  intros Hev Hm. unfold fire, BookDetails.fire. destruct (enabled ev m); [|done].
  destruct ev as [j| |v| |i o].
  - case_decide; [done|]. apply invoke_safe; [apply load_guarded|by destruct Hm].
  - apply invoke_safe; [apply page_handleSummarize_guarded|done].
  - by destruct Hm.
  - apply invoke_safe; [apply page_handleSubmit_guarded|done].
  - by apply deliver_safe.
Qed.

Lemma boot_page_safe i : machine_safe axios_outcome (boot i).
Proof. apply invoke_safe; [apply load_guarded|apply boot_safe]. Qed.

End SettleFacts.

(** ** From the route to the booking *)

Section JourneyFacts.
Context (storedUser : value).
Implicit Types (m : machine request State) (c s : State)
  (w : suspended request State).

#[local] Abbreviation commit := (commit storedUser).
#[local] Abbreviation fire := (fire storedUser).
#[local] Abbreviation boot := (boot storedUser).

(** The first render fetches the book of the route. *)
Lemma boot_fetches i :
  exists w, loading_of (init i) = Some w /\
    boot i = Machine (init i) (<[0 := w]> ∅) 1 [getBook (VStr i)] [].
Proof.
  destruct (run_load (init i) (ui (Async.boot (Req:=request) (init i))))
    as (w & Hw & Hr & Hrun).
  exists w. split; [done|]. unfold boot, BookDetails.boot.
  rewrite (invoke_single _ _ _ w) by (by rewrite Hrun).
  rewrite Hrun, Hr. reflexivity.
Qed.

(** The book arrives on a page without an error: the form is mounted,
    empty but for the id of the stored user. *)
Lemma book_arrives m i c w resp data :
  pending m !! i = Some w -> loading_of c = Some w ->
  member resp "data" = Some data -> truthy data = true ->
  truthy (error (ui m)) = false -> form (ui m) = None ->
  fire (Settle i (Resolved resp)) m =
    Machine
      (mkState (id (ui m)) data false (error (ui m))
         (or_ (get_field data "ai_summary") (VStr "")) (summarizing (ui m))
         (Some (mounts (ui m), BookingForm.init storedUser)) (S (mounts (ui m))))
      (delete i (pending m)) (next_id m) (sent m) (unhandled m).
Proof.
  intros Hi Hc Hd Ht He Hf.
  assert (Ha : member data "ai_summary" = Some (get_field data "ai_summary")).
  { unfold member. by rewrite (truthy_not_nullish data Ht). }
  pose proof (resume_load_ok c w resp data _ (ui m) Hc Hd Ha) as Hrun.
  rewrite (fire_settle_quiet _ m i w _ Hi) by (by rewrite Hrun).
  rewrite Hrun. cbn [after uncaught]. rewrite app_nil_r. f_equal.
  unfold commit, BookDetails.commit, shows_book, render, not_. cbn.
  by rewrite He, Ht, Hf.
Qed.

(** A submission with a user id sends the booking of the book of the
    route for that user. *)
Lemma page_submit_sends m g fs :
  form (ui m) = Some (g, fs) -> BookingForm.loading fs = false ->
  truthy (BookingForm.userId fs) = true ->
  sent (fire FormSubmit m) =
    sent m ++ [createBooking (BookingForm.payload (VStr (id (ui m))) (BookingForm.userId fs))].
Proof.
  intros Hf Hl Hu. unfold fire, BookDetails.fire, enabled. rewrite Hf. cbn.
  rewrite Hl. cbn.
  destruct (run_submit (ui m) g fs (ui m) Hf Hu) as (w & _ & Hr & Hrun).
  rewrite (invoke_single _ _ _ w) by (by rewrite Hrun). cbn. by rewrite Hr.
Qed.

End JourneyFacts.

Section Claims.
Context (storedUser : value).
Implicit Types (m : machine request State) (c s : State)
  (w : suspended request State).

#[local] Abbreviation commit := (commit storedUser).
#[local] Abbreviation fire := (fire storedUser).
#[local] Abbreviation boot := (boot storedUser).
#[local] Abbreviation exec := (exec storedUser).
#[local] Abbreviation step := (step storedUser).

(** C5. When a fetch of the book succeeds, the whole snapshot is replaced
    at once: the book cell becomes the data received and the AI summary
    cell becomes the [ai_summary] of the same data, or '' when it has
    none; nothing of the previous snapshot or of a summary generated
    earlier survives, and nothing is sent. *)
Theorem load_replaces_snapshot m i c w resp data ai :
  pending m !! i = Some w -> loading_of c = Some w ->
  member resp "data" = Some data -> member data "ai_summary" = Some ai ->
  fire (Settle i (Resolved resp)) m =
    Machine
      (commit (setLoading false (setAiSummary (or_ ai (VStr "")) (setBook data (ui m)))))
      (delete i (pending m)) (next_id m) (sent m) (unhandled m) /\
  book (ui (fire (Settle i (Resolved resp)) m)) = data /\
  aiSummary (ui (fire (Settle i (Resolved resp)) m)) = or_ ai (VStr "").
Proof.
  intros Hi Hc Hd Ha.
  pose proof (resume_load_ok c w resp data ai (ui m) Hc Hd Ha) as Hrun.
  rewrite (fire_settle_quiet _ m i w _ Hi) by (by rewrite Hrun).
  rewrite Hrun. cbn. rewrite app_nil_r, commit_book, commit_aiSummary. done.
Qed.

(** When a fetch of the book fails, for whatever reason, the page shows
    "Failed to load book": the server's own message is not used. *)
Theorem load_failure_message m i c w e :
  pending m !! i = Some w -> loading_of c = Some w ->
  fire (Settle i (Rejected e)) m =
    Machine (commit (setLoading false (setError (VStr "Failed to load book") (ui m))))
            (delete i (pending m)) (next_id m) (sent m) (unhandled m) /\
  render (ui (fire (Settle i (Rejected e)) m)) = Failed (VStr "Failed to load book").
Proof.
  intros Hi Hc.
  pose proof (resume_load_rejected c w e (ui m) Hc) as Hrun.
  rewrite (fire_settle_quiet _ m i w _ Hi) by (by rewrite Hrun).
  rewrite Hrun. cbn [Async.ui after uncaught]. by rewrite app_nil_r, commit_render.
Qed.

(** C3. A booking the server accepted makes the page fetch the book again:
    the continuation of the form calls [onBooked], which issues a GET of
    the book of the render that submitted; the page is loading from then
    on, the form is unmounted, and the displayed snapshot is not patched
    locally. *)
Theorem accepted_booking_refetches m i c w resp data :
  pending m !! i = Some w -> booking_of c = Some w ->
  member resp "data" = Some data ->
  let m' := fire (Settle i (Resolved resp)) m in
  sent m' = sent m ++ [getBook (VStr (id c))] /\
  loading (ui m') = true /\ form (ui m') = None /\
  book (ui m') = book (ui m) /\ render (ui m') = Loading.
Proof.
  intros Hi Hc Hd. cbv zeta.
  destruct (booking_of_form c w Hc) as (g & fs & Hf & _).
  destruct (resume_booking_ok c w g fs resp data (ui m) Hc Hf Hd) as (wl & Hwl & Hrun).
  rewrite (fire_settle_single _ m i w _ wl Hi) by (by rewrite Hrun).
  destruct (run_load c c) as (wl' & Hwl' & Hreq & _).
  rewrite Hwl in Hwl'. injection Hwl' as <-.
  rewrite Hrun, Hreq. cbn [Async.ui Async.sent after].
  rewrite commit_loading, commit_book, commit_render.
  rewrite poke_form_loading, poke_form_book. cbn.
  rewrite poke_form_book. split_and!; try done.
  - unfold BookDetails.commit. rewrite loading_hides; [done|].
    by rewrite poke_form_loading.
  - unfold render. by rewrite poke_form_loading.
Qed.

(** C4. A booking the server rejected sends nothing: the book is not
    fetched again and the displayed snapshot stays as it is. *)
Theorem rejected_booking_no_refetch m i c w e :
  pending m !! i = Some w -> booking_of c = Some w -> nullish e = false ->
  let m' := fire (Settle i (Rejected e)) m in
  sent m' = sent m /\ book (ui m') = book (ui m) /\
  loading (ui m') = loading (ui m) /\ unhandled m' = unhandled m.
Proof.
  intros Hi Hc He. cbv zeta.
  destruct (booking_of_form c w Hc) as (g & fs & Hf & _).
  pose proof (resume_booking_rejected c w g fs e (ui m) Hc Hf He) as Hrun.
  rewrite (fire_settle_quiet _ m i w _ Hi) by (by rewrite Hrun).
  rewrite Hrun. cbn [Async.ui Async.sent Async.unhandled after uncaught].
  rewrite commit_book, commit_loading, !poke_form_book, !poke_form_loading.
  by rewrite app_nil_r.
Qed.

(** C27. In no state the page can reach does the mounted form display its
    success message: the fetch that an accepted booking starts puts the
    page in its loading view, which unmounts the form that had just set
    the message, and the form mounted afterwards is a new one. *)
Theorem success_message_never_shown i m g fs :
  reachable step (boot i) m -> form (ui m) = Some (g, fs) ->
  BookingForm.success_box (BookingForm.render fs) = None.
Proof.
  intros Hg%page_reachable_good Hf.
  destruct (good_tidy _ Hg) as [_ Hok]. destruct (Hok g fs Hf) as [Hs _].
  unfold BookingForm.render. simpl. by rewrite Hs.
Qed.

(** C28. Once the error cell holds a message, it holds one for good: no
    handler ever clears it, so the page never shows the book again, not
    even after a later fetch succeeded. *)
Theorem error_is_sticky i m evs :
  reachable step (boot i) m -> truthy (error (ui m)) = true ->
  truthy (error (ui (exec evs m))) = true /\ shows_book (ui (exec evs m)) = false.
Proof.
  intros Hg%page_reachable_good He.
  pose proof (exec_keeps_error storedUser evs m Hg He) as He'. split; [done|].
  unfold shows_book, render. rewrite He'. by destruct (loading _).
Qed.

(** No summary is requested for a book without an original summary:
    the button is disabled, and the handler itself returns before the
    request. *)
Theorem summarize_needs_summary m s :
  truthy (opt_get (book (ui m)) "summary") = false ->
  enabled ClickSummarize m = false /\
  run (handleSummarize (ui m)) s = Effects s [] [].
Proof.
  intros Hn. split; [|by apply run_summarize_disabled].
  destruct (enabled ClickSummarize m) eqn:E; [|done].
  apply page_enabled_summarize in E as (_ & _ & Ht). congruence.
Qed.

(** When the generated summary arrives, it becomes the displayed AI
    summary and the button is enabled again; the book snapshot, and with
    it the displayed number of available copies, is untouched. *)
Theorem summary_generated m i c w resp data sm :
  pending m !! i = Some w -> summarizing_of c = Some w ->
  member resp "data" = Some data -> member data "summary" = Some sm ->
  fire (Settle i (Resolved resp)) m =
    Machine (commit (setSummarizing false (setAiSummary sm (ui m))))
            (delete i (pending m)) (next_id m) (sent m) (unhandled m) /\
  aiSummary (ui (fire (Settle i (Resolved resp)) m)) = sm /\
  book (ui (fire (Settle i (Resolved resp)) m)) = book (ui m).
Proof.
  intros Hi Hc Hd Hs.
  pose proof (page_resume_sum_ok c w resp data sm (ui m) Hc Hd Hs) as Hrun.
  rewrite (fire_settle_quiet _ m i w _ Hi) by (by rewrite Hrun).
  rewrite Hrun. cbn. rewrite app_nil_r, commit_book, commit_aiSummary. done.
Qed.


(** The form is part of the page exactly when the page shows the
    book. *)
Theorem form_follows_book i m :
  reachable step (boot i) m ->
  (is_Some (form (ui m)) <-> shows_book (ui m) = true).
Proof. intros Hg%page_reachable_good. apply (good_tidy _ Hg). Qed.

(** As long as the network answers the way axios does, no run of the
    page leaves a rejection unhandled. *)
Theorem page_no_unhandled i evs :
  Forall axios_event evs -> unhandled (exec evs (boot i)) = [].
Proof.
  intros Hevs.
  eapply exec_unhandled; eauto using page_fire_safe, boot_page_safe.
Qed.

End Claims.

(** ** Witnesses *)

#[local] Abbreviation u5 := BookingForm.user5.

Lemma load_replaces_snapshot_witness :
  book (ui (fire u5 (Settle 0 (http_ok (hound 3 VNull))) (boot u5 "12"))) =
    hound 3 VNull /\
  aiSummary (ui (fire u5 (Settle 0 (http_ok (hound 3 VNull))) (boot u5 "12"))) =
    VStr "".
Proof.
  refine (proj2 (load_replaces_snapshot u5 (boot u5 "12") 0 (init "12") _
                   (response (hound 3 VNull)) (hound 3 VNull) VNull _ _ _ _));
    reflexivity.
Defined.

Lemma load_failure_message_witness :
  render (ui (fire u5 (Settle 0 (http_error 404 (error_body "Book not found")))
                (boot u5 "12"))) =
    Failed (VStr "Failed to load book").
Proof.
  refine (proj2 (load_failure_message u5 (boot u5 "12") 0 (init "12") _
                   (failure 404 (error_body "Book not found")) _ _));
    reflexivity.
Defined.

Lemma accepted_booking_refetches_witness :
  let m := exec u5 [Settle 0 (http_ok (hound 3 VNull)); FormSubmit] (boot u5 "12") in
  let m' := fire u5 (Settle 1 (http_ok (VObj [("id", VNum 1)]))) m in
  sent m' =
    [getBook (VStr "12");
     createBooking (VObj [("user_id", VNum 5); ("book_id", VNum 12)]);
     getBook (VStr "12")] /\
  loading (ui m') = true /\ form (ui m') = None /\
  book (ui m') = hound 3 VNull /\ render (ui m') = Loading.
Proof.
  intros m.
  refine (accepted_booking_refetches u5 m 1 (ui m) _
            (response (VObj [("id", VNum 1)])) (VObj [("id", VNum 1)]) _ _ _);
    reflexivity.
Defined.

Lemma rejected_booking_no_refetch_witness :
  let m := exec u5 [Settle 0 (http_ok (hound 0 VNull)); FormSubmit] (boot u5 "12") in
  let m' := fire u5 (Settle 1 (http_error 409 (error_body "No copies available"))) m in
  sent m' = sent m /\ book (ui m') = hound 0 VNull /\
  loading (ui m') = false /\ unhandled m' = [].
Proof.
  intros m.
  refine (rejected_booking_no_refetch u5 m 1 (ui m) _
            (failure 409 (error_body "No copies available")) _ _ _);
    reflexivity.
Defined.

Lemma success_message_never_shown_witness :
  let m := exec u5 [Settle 0 (http_ok (hound 3 VNull)); FormSubmit;
                    Settle 1 (http_ok (VObj [("id", VNum 1)]));
                    Settle 2 (http_ok (hound 2 VNull))] (boot u5 "12") in
  get_field (book (ui m)) "available_copies" = VNum 2 /\
  forall g fs, form (ui m) = Some (g, fs) ->
    BookingForm.success_box (BookingForm.render fs) = None.
Proof.
  intros m. split; [reflexivity|]. intros g fs.
  apply (success_message_never_shown u5 "12"), exec_reachable.
Defined.

Lemma error_is_sticky_witness :
  let m := exec u5 [Settle 0 (http_ok (hound 3 VNull)); ClickSummarize;
                    Settle 1 network_error] (boot u5 "12") in
  let evs := [Navigate "13"; Settle 2 (http_ok (hound 1 VNull))] in
  truthy (error (ui (exec u5 evs m))) = true /\
  shows_book (ui (exec u5 evs m)) = false.
Proof.
  intros m evs.
  apply (error_is_sticky u5 "12"); [apply exec_reachable|reflexivity].
Defined.

Lemma summarize_needs_summary_witness :
  let nosummary := VObj [("id", VNum 7); ("title", VStr "Untitled")] in
  let m := exec u5 [Settle 0 (http_ok nosummary)] (boot u5 "7") in
  enabled ClickSummarize m = false /\
  run (handleSummarize (ui m)) (ui m) = Effects (ui m) [] [].
Proof. intros nosummary m. by apply summarize_needs_summary. Defined.

Lemma summary_generated_witness :
  let m := exec u5 [Settle 0 (http_ok (hound 3 VNull)); ClickSummarize] (boot u5 "12") in
  let m' := fire u5 (Settle 1 (http_ok (VObj [("summary", VStr "<generated>")]))) m in
  aiSummary (ui m') = VStr "<generated>" /\ book (ui m') = hound 3 VNull.
Proof.
  intros m.
  refine (proj2 (summary_generated u5 m 1
                   (ui (exec u5 [Settle 0 (http_ok (hound 3 VNull))] (boot u5 "12"))) _
                   (response (VObj [("summary", VStr "<generated>")]))
                   (VObj [("summary", VStr "<generated>")]) (VStr "<generated>")
                   _ _ _ _)); reflexivity.
Defined.


Lemma form_follows_book_witness :
  let m := exec u5 [Settle 0 (http_ok (hound 3 VNull))] (boot u5 "12") in
  is_Some (form (ui m)) <-> shows_book (ui m) = true.
Proof. intros m. apply (form_follows_book u5 "12"), exec_reachable. Defined.

Lemma page_no_unhandled_witness :
  unhandled (exec u5 [Settle 0 network_error; Navigate "13"] (boot u5 "12")) = [].
Proof. apply page_no_unhandled. repeat constructor. Defined.

End BookDetails.
