(* ===== verification/BookList.v ===== *)
(** * The list of books: pages/BookList.jsx and components/BookCard.jsx

    The page fetches the catalogue when it mounts and again each time the
    user searches; it shows one card per book.  The Search button is never
    disabled, so searches overlap: each one is a request in flight of its
    own, and each answer replaces the list when it arrives.

    Rendering can fail: [books.map] needs an array and a card reads the
    properties of its book.  [render] answers [None] for the TypeError
    that unmounts the page. *)

From S2P Require Import Prelude JsValue Async Component Gateway.

(** ** The card of one book: components/BookCard.jsx *)

Module BookCard.

Record View : Type := mkView {
  title : value;
  author : value;
  genre : value;
  summary : value;
  available : value;
  total : value;
  link : string          (* the target of "Details" *)
}.

Definition render (book : value) : option View :=
  if nullish book then None
  else
    Some (mkView
      (get_field book "title")
      (get_field book "author")
      (or_ (get_field book "genre") (VStr "—"))
      (or_ (get_field book "summary") (VStr "No summary available."))
      (get_field book "available_copies")
      (get_field book "total_copies")
      ("/books/" +:+ toString (get_field book "id"))).

End BookCard.

Module BookList.

(** ** State: lines 6-9 *)

Record State : Type := mkState {
  books : value;       (* [[]], or the items of the last answer *)
  q : string;          (* the search box *)
  loading : bool;
  error : value
}.

Definition init : State := mkState (VArr []) "" true (VStr "").

Definition setBooks (v : value) (s : State) : State :=
  mkState v (q s) (loading s) (error s).
Definition setQ (v : string) (s : State) : State :=
  mkState (books s) v (loading s) (error s).
Definition setLoading (b : bool) (s : State) : State :=
  mkState (books s) (q s) b (error s).
Definition setError (v : value) (s : State) : State :=
  mkState (books s) (q s) (loading s) v.

(** ** The handler: lines 11-21

    [load] reads nothing from its closure: the query is its argument. *)
Definition load (query : value) : prog request State unit :=
  try_finally
    (try_catch
       (upd (setLoading true);;
        resp ← await (getBooks query);
        data ← get resp "data";
        items ← get data "items";
        upd (setBooks (or_ items (VArr []))))
       (fun _ => upd (setError (VStr "Failed to load books"))))
    (upd (setLoading false)).

(** [onClick={() => load(q || undefined)}], line 33. *)
Definition search (c : State) : prog request State unit :=
  load (or_ (VStr (q c)) VUndefined).

Arguments load : simpl never.

(** ** What is rendered: lines 28-42 *)

Record View : Type := mkView {
  search_value : string;
  loading_box : bool;              (* "Loading…" *)
  error_box : option value;
  cards : list BookCard.View
}.

Definition render (s : State) : option View :=
  cs ← array_map BookCard.render (books s);
  Some (mkView (q s) (loading s)
          (if truthy (error s) then Some (error s) else None) cs).

(** ** The page on the event loop *)

(** The first render, and the effect of line 23 after it: [load()]. *)
Definition boot : machine request State :=
  invoke id (load VUndefined) (Async.boot init).

Inductive event : Type :=
| TypeQuery (v : string)
| Search
| Settle (i : nat) (o : outcome).

(** The controls exist as long as the page renders; none of them is ever
    disabled. *)
Definition enabled (ev : event) (m : machine request State) : bool :=
  match ev with
  | TypeQuery _ | Search => bool_decide (is_Some (render (ui m)))
  | Settle i _ => bool_decide (is_Some (pending m !! i))
  end.

Definition fire (ev : event) (m : machine request State) : machine request State :=
  if enabled ev m then
    match ev with
    | TypeQuery v => retype (setQ v) m
    | Search => invoke id (search (ui m)) m
    | Settle i o => deliver id i o m
    end
  else m.

Inductive step (m : machine request State) : machine request State -> Prop :=
| step_query v : is_Some (render (ui m)) -> step m (retype (setQ v) m)
| step_search : is_Some (render (ui m)) -> step m (invoke id (search (ui m)) m)
| step_settle i o : is_Some (pending m !! i) -> step m (deliver id i o m).

Definition exec (evs : list event) (m : machine request State) : machine request State :=
  foldl (fun m ev => fire ev m) m evs.

(** ** The bodies in flight *)

(** The body [load query] leaves waiting for the server. *)
Definition loading_of (query : value) : option (suspended request State) :=
  head (waiting (run (load query) init)).

Definition is_load (w : suspended request State) : Prop :=
  exists query, loading_of query = Some w.

Definition listing_event (ev : event) : Prop :=
  match ev with
  | Settle _ o => listing o
  | _ => True
  end.

Definition axios_event (ev : event) : Prop :=
  match ev with
  | Settle _ o => axios_outcome o
  | _ => True
  end.

(** Every request of the page is a query of the catalogue. *)
Definition catalogue_request (r : request) : Prop :=
  r = Request GET "/books/" (VObj []) VUndefined \/
  exists s, s <> "" /\ r = Request GET "/books/" (VObj [("q", VStr s)]) VUndefined.

(** Two answers of the catalogue, for the examples. *)
Definition moors : value :=
  VObj [("items", VArr [VObj [("id", VNum 12); ("title", VStr "The Hound")]])].
Definition sea : value :=
  VObj [("items", VArr [VObj [("id", VNum 7); ("title", VStr "Moby Dick")]])].

Record good (m : machine request State) : Prop := mkGood {
  good_wf : machine_wf m;
  good_pending : forall i w, pending m !! i = Some w -> is_load w;
  good_log : Forall catalogue_request (sent m)
}.

(** ** The handler, branch by branch *)

Section HandlerFacts.
Implicit Types (s : State) (w : suspended request State) (m : machine request State).

Lemma run_load_list query s :
  exists w, loading_of query = Some w /\
    request_of w = getBooks query /\
    run (load query) s = Effects (setLoading true s) [w] [].
Proof. eexists. split; [reflexivity|]. split; reflexivity. Qed.

Lemma resume_list_ok query w resp data items s :
  loading_of query = Some w -> member resp "data" = Some data ->
  member data "items" = Some items ->
  run (resume w (Resolved resp)) s =
    Effects (setLoading false (setBooks (or_ items (VArr [])) s)) [] [].
Proof.
  intros [= <-] Hd Hi. cbn. unfold get. rewrite Hd. cbn. rewrite Hi. reflexivity.
Qed.

Lemma resume_list_malformed query w resp s :
  loading_of query = Some w ->
  (forall data, member resp "data" = Some data -> member data "items" = None) ->
  run (resume w (Resolved resp)) s =
    Effects (setLoading false (setError (VStr "Failed to load books") s)) [] [].
Proof.
  intros [= <-] Hd. cbn. unfold get.
  destruct (member resp "data") as [data|] eqn:E; [|done].
  cbn. by rewrite (Hd data).
Qed.

Lemma resume_list_rejected query w e s :
  loading_of query = Some w ->
  run (resume w (Rejected e)) s =
    Effects (setLoading false (setError (VStr "Failed to load books") s)) [] [].
Proof. by intros [= <-]. Qed.

Lemma resume_list_settles w o s :
  is_load w ->
  waiting (run (resume w o) s) = [] /\ uncaught (run (resume w o) s) = [] /\
  loading (after (run (resume w o) s)) = false /\
  q (after (run (resume w o) s)) = q s /\
  ((error (after (run (resume w o) s)) = error s /\
    exists resp data items, o = Resolved resp /\ member resp "data" = Some data /\
      member data "items" = Some items /\
      books (after (run (resume w o) s)) = or_ items (VArr [])) \/
   (error (after (run (resume w o) s)) = VStr "Failed to load books" /\
    books (after (run (resume w o) s)) = books s)).
Proof.
  intros [query H]. destruct o as [resp|e].
  - destruct (member resp "data") as [d|] eqn:Hd.
    + destruct (member d "items") as [a|] eqn:Ha.
      * rewrite (resume_list_ok _ _ _ _ _ _ H Hd Ha). cbn.
        split_and!; try done. left. split; [done|]. by exists resp, d, a.
      * rewrite (resume_list_malformed _ _ _ _ H); [|congruence]. cbn.
        split_and!; try done. by right.
    + rewrite (resume_list_malformed _ _ _ _ H); [|congruence]. cbn.
      split_and!; try done. by right.
  - rewrite (resume_list_rejected _ _ _ _ H). cbn. split_and!; try done. by right.
Qed.

End HandlerFacts.

(** ** The steps of the page *)

Section MachineFacts.
Implicit Types (s : State) (w : suspended request State) (m : machine request State).

Lemma search_request (x : string) :
  getBooks (or_ (VStr x) VUndefined) =
    Request GET "/books/" (if decide (x = "") then VObj [] else VObj [("q", VStr x)])
            VUndefined.
Proof.
  unfold getBooks, or_. case_decide as Hx; [by subst|].
  apply truthy_str in Hx. by rewrite !Hx.
Qed.

Lemma search_catalogue (x : string) :
  catalogue_request (getBooks (or_ (VStr x) VUndefined)).
Proof.
  rewrite search_request. case_decide; [by left|right; by exists x].
Qed.

Lemma fire_search m :
  is_Some (render (ui m)) ->
  exists w, loading_of (or_ (VStr (q (ui m))) VUndefined) = Some w /\
    fire Search m =
      Machine (setLoading true (ui m)) (<[next_id m := w]> (pending m)) (S (next_id m))
              (sent m ++ [getBooks (or_ (VStr (q (ui m))) VUndefined)]) (unhandled m).
Proof.
  intros Hr. unfold fire, enabled. rewrite bool_decide_eq_true_2 by done.
  unfold search.
  destruct (run_load_list (or_ (VStr (q (ui m))) VUndefined) (ui m)) as (w & Hw & Hreq & Hrun).
  exists w. split; [done|].
  rewrite (invoke_single _ _ _ w) by (by rewrite Hrun).
  rewrite Hrun, Hreq. cbn. by rewrite app_nil_r.
Qed.

Lemma list_fire_settle m i w o :
  pending m !! i = Some w -> is_load w ->
  fire (Settle i o) m =
    Machine (after (run (resume w o) (ui m))) (delete i (pending m)) (next_id m)
            (sent m) (unhandled m).
Proof.
  intros Hi Hw. unfold fire, enabled. rewrite bool_decide_eq_true_2 by eauto.
  destruct (resume_list_settles w o (ui m) Hw) as (Hq & Hu & _).
  rewrite (deliver_quiet id i o m w Hi Hq), Hu. cbn. by rewrite app_nil_r.
Qed.

Lemma list_fire_wf ev m : machine_wf m -> machine_wf (fire ev m).
Proof.
  intros Hwf. unfold fire. destruct (enabled ev m); [|done].
  destruct ev; try (by destruct Hwf); auto using invoke_wf, deliver_wf.
Qed.

Lemma list_good_boot : good boot.
Proof.
  destruct (run_load_list VUndefined (ui (Async.boot (Req:=request) init))) as (w & Hw & Hreq & Hrun).
  assert (E : boot = Machine (setLoading true init) {[ 0 := w ]} 1 [getBooks VUndefined] []).
  { unfold boot. rewrite (invoke_single _ _ _ w) by (by rewrite Hrun).
    by rewrite Hrun, Hreq. }
  split.
  - apply invoke_wf, boot_wf.
  - rewrite E. simpl. intros i w' [_ <-]%lookup_singleton_Some. by exists VUndefined.
  - rewrite E. repeat constructor.
Qed.

Lemma list_good_fire ev m : good m -> enabled ev m = true -> good (fire ev m).
Proof.
  intros Hg He. pose proof (list_fire_wf ev m (good_wf _ Hg)) as Hwf'.
  destruct Hg as [Hwf Hp Hl]. destruct ev as [v| |i o].
  - unfold fire. rewrite He. by split.
  - apply bool_decide_eq_true in He.
    destruct (fire_search m He) as (w & Hw & Hfire). rewrite Hfire in *.
    split; [done|..]; simpl.
    + intros i w' [[_ <-]|[_ Hi]]%lookup_insert_Some; [by eexists|eauto].
    + apply Forall_app. split; [done|]. constructor; [|done]. apply search_catalogue.
  - apply bool_decide_eq_true in He as [w Hi].
    rewrite (list_fire_settle m i w o Hi (Hp i w Hi)) in *.
    split; [done|..]; simpl; [|done].
    intros j w' [_ Hj]%lookup_delete_Some. eauto.
Qed.

#[export] Instance list_component : Component enabled fire step.
Proof.
  split.
  - intros ev m E. unfold fire. by rewrite E.
  - intros ev m E. unfold fire. rewrite E.
    destruct ev; constructor; by apply bool_decide_eq_true in E.
  - intros m m' [v Hr|Hr|i o Hi].
    + exists (TypeQuery v). unfold fire, enabled. by rewrite bool_decide_eq_true_2.
    + exists Search. unfold fire, enabled. by rewrite bool_decide_eq_true_2.
    + exists (Settle i o). unfold fire, enabled. by rewrite bool_decide_eq_true_2.
Qed.

Lemma list_good_run ev m : good m -> good (fire ev m).
Proof. revert ev m. apply (fire_invariant good), @list_good_fire. Qed.

Lemma list_reachable_good m : reachable step boot m -> good m.
Proof.
  apply (reachable_invariant good); [apply list_good_boot|].
  intros ev m'. apply list_good_fire.
Qed.

(** *** Rendering *)

Lemma card_renders b : nullish b = false -> is_Some (BookCard.render b).
Proof. unfold BookCard.render. intros ->. by eexists. Qed.

Lemma listable_renders s : listable (books s) -> is_Some (render s).
Proof.
  intros [cs Hcs]%(listable_map BookCard.render); [|apply card_renders].
  unfold render. rewrite Hcs. by eexists.
Qed.

Lemma fire_listable ev m :
  listing_event ev -> good m ->
  listable (books (ui m)) -> listable (books (ui (fire ev m))).
Proof.
  intros Hev Hg Hb. destruct (enabled ev m) eqn:He;
    [|by unfold fire; rewrite He].
  destruct ev as [v| |i o].
  - unfold fire. by rewrite He.
  - apply bool_decide_eq_true in He.
    by destruct (fire_search m He) as (w & _ & ->).
  - apply bool_decide_eq_true in He as [w Hi].
    pose proof (good_pending _ Hg i w Hi) as Hw.
    rewrite (list_fire_settle m i w o Hi Hw). cbn [ui].
    destruct (resume_list_settles w o (ui m) Hw)
      as (_ & _ & _ & _ & [(_ & resp & d & a & -> & Hd & Ha & ->)|(_ & ->)]); [|done].
    apply listable_default. by apply (Hev d a).
Qed.

Lemma fire_keeps_list_error ev m :
  good m -> truthy (error (ui m)) = true -> truthy (error (ui (fire ev m))) = true.
Proof.
  intros Hg Hb. destruct (enabled ev m) eqn:He;
    [|by unfold fire; rewrite He].
  destruct ev as [v| |i o].
  - unfold fire. by rewrite He.
  - apply bool_decide_eq_true in He.
    by destruct (fire_search m He) as (w & _ & ->).
  - apply bool_decide_eq_true in He as [w Hi].
    pose proof (good_pending _ Hg i w Hi) as Hw.
    rewrite (list_fire_settle m i w o Hi Hw). cbn [ui].
    by destruct (resume_list_settles w o (ui m) Hw)
      as (_ & _ & _ & _ & [(-> & _)|(-> & _)]).
Qed.

Lemma load_list_guarded query : safe axios_outcome (load query).
Proof.
  unfold load, safe. apply guarded_try_finally; [|done].
  apply guarded_try_catch with (T := thrown_object); solve_guarded.
Qed.

Lemma list_fire_safe ev m :
  axios_event ev -> machine_safe axios_outcome m ->
  machine_safe axios_outcome (fire ev m).
Proof.
  intros Hev Hm. unfold fire. destruct (enabled ev m); [|done].
  destruct ev as [v| |i o]; [by destruct Hm| |by apply deliver_safe].
  apply invoke_safe; [apply load_list_guarded|done].
Qed.

End MachineFacts.

(** ** The properties of the page *)

Section Claims.
Implicit Types (s : State) (w : suspended request State) (m : machine request State).

(** A click on Search sends the query of the box as the parameter [q] of
    a GET of the catalogue, and no parameter at all when the box is empty,
    which is the request of the first load.  It raises the loading flag
    and leaves the list and the error message as they are. *)
Theorem search_sends_query m :
  is_Some (render (ui m)) ->
  sent (fire Search m) =
    sent m ++ [Request GET "/books/"
                 (if decide (q (ui m) = "") then VObj []
                  else VObj [("q", VStr (q (ui m)))])
                 VUndefined] /\
  ui (fire Search m) = setLoading true (ui m) /\
  is_Some (pending (fire Search m) !! next_id m).
Proof.
  intros Hr. destruct (fire_search m Hr) as (w & _ & ->). cbn.
  rewrite search_request, lookup_insert_eq. eauto.
Qed.

(** C37. Searches overlap, and the answers are applied in the order of their
    arrival: with two of them in flight, the first answer to arrive is
    displayed and lowers the loading flag while the other search is still
    in flight, and the answer that arrives last replaces the list,
    whichever search was started last. *)
Theorem overlapping_searches_race m i j wi wj ri rj di dj ai aj :
  i <> j -> pending m !! i = Some wi -> pending m !! j = Some wj ->
  is_load wi -> is_load wj ->
  member ri "data" = Some di -> member di "items" = Some ai ->
  member rj "data" = Some dj -> member dj "items" = Some aj ->
  let m1 := fire (Settle j (Resolved rj)) m in
  let m2 := fire (Settle i (Resolved ri)) m1 in
  books (ui m1) = or_ aj (VArr []) /\ loading (ui m1) = false /\
  is_Some (pending m1 !! i) /\
  books (ui m2) = or_ ai (VArr []).
Proof.
  intros Hij Hi Hj [qi Hwi] [qj Hwj] Hdi Hai Hdj Haj. cbv zeta.
  rewrite (list_fire_settle m j wj _ Hj) by (by exists qj).
  rewrite (resume_list_ok _ _ _ _ _ _ Hwj Hdj Haj). cbn.
  assert (Hi' : delete j (pending m) !! i = Some wi) by (by rewrite lookup_delete_ne).
  rewrite (list_fire_settle (Machine _ _ _ _ _) i wi _ Hi') by (by exists qi).
  rewrite (resume_list_ok _ _ _ _ _ _ Hwi Hdi Hai). cbn. eauto.
Qed.

(** C38. As long as the server answers a query of the catalogue with a list
    of books, the page renders in every state of every run. *)
Theorem list_renders evs :
  Forall listing_event evs -> is_Some (render (ui (exec evs boot))).
Proof.
  intros Hevs. apply listable_renders.
  apply (foldl_invariant _ (fun m => good m /\ listable (books (ui m))) listing_event
           evs boot); [|done|].
  - intros m ev Hev [Hg Hb]. split; [|by apply fire_listable].
    by apply list_good_run.
  - split; [apply list_good_boot|]. by exists [].
Qed.

(** C39. The error message is never cleared: once a load has failed, the
    message stays on the page in every later state, also above the
    results of a search that succeeded afterwards. *)
Theorem list_error_sticky m evs :
  reachable step boot m -> truthy (error (ui m)) = true ->
  truthy (error (ui (exec evs m))) = true.
Proof.
  intros Hg%list_reachable_good He.
  apply (foldl_invariant _ (fun m => good m /\ truthy (error (ui m)) = true)
           (fun _ => True) evs m); [|by apply Forall_true|done].
  intros m' ev _ [? ?]. split; [|by apply fire_keeps_list_error].
  by apply list_good_run.
Qed.

(** As long as the network answers the way axios does, no run of the
    page leaves a rejection unhandled. *)
Theorem list_no_unhandled evs :
  Forall axios_event evs -> unhandled (exec evs boot) = [].
Proof.
  intros Hevs. eapply exec_unhandled; eauto using list_fire_safe.
  apply invoke_safe; [apply load_list_guarded|apply boot_safe].
Qed.

End Claims.

(** ** Witnesses *)

Lemma search_sends_query_witness :
  let m := exec [Settle 0 (http_ok (VObj [("items", VArr [])])); TypeQuery "moors"] boot in
  sent (fire Search m) =
    [Request GET "/books/" (VObj []) VUndefined;
     Request GET "/books/" (VObj [("q", VStr "moors")]) VUndefined] /\
  ui (fire Search m) = mkState (VArr []) "moors" true (VStr "") /\
  is_Some (pending (fire Search m) !! 1).
Proof.
  intros m. apply (search_sends_query m). by eexists.
Defined.

Lemma overlapping_searches_race_witness :
  let m := exec [Settle 0 (http_ok (VObj [("items", VArr [])]));
                 TypeQuery "moors"; Search; TypeQuery "sea"; Search] boot in
  let m1 := fire (Settle 2 (http_ok sea)) m in
  let m2 := fire (Settle 1 (http_ok moors)) m1 in
  q (ui m2) = "sea" /\
  (books (ui m1) = get_field sea "items" /\ loading (ui m1) = false /\
   is_Some (pending m1 !! 1) /\
   books (ui m2) = get_field moors "items").
Proof.
  intros m. split; [reflexivity|].
  pose proof (list_reachable_good m (exec_reachable _ _)) as Hg.
  destruct (pending m !! 1) as [w1|] eqn:E1; [|by vm_compute in E1].
  destruct (pending m !! 2) as [w2|] eqn:E2; [|by vm_compute in E2].
  refine (overlapping_searches_race m 1 2 w1 w2 (response moors) (response sea)
            moors sea (get_field moors "items") (get_field sea "items")
            _ E1 E2 (good_pending _ Hg _ _ E1) (good_pending _ Hg _ _ E2) _ _ _ _);
    done.
Defined.

Lemma list_renders_witness :
  is_Some (render (ui (exec [Settle 0 (http_ok moors); TypeQuery "sea"; Search;
                             Settle 1 (http_error 500 (error_body "boom"))] boot))).
Proof.
  apply list_renders. repeat constructor.
  intros data items [= <-] [= <-] _. eexists. split; [done|]. by repeat constructor.
Defined.

Lemma list_error_sticky_witness :
  let m := exec [Settle 0 network_error] boot in
  let m' := exec [TypeQuery "sea"; Search; Settle 1 (http_ok sea)] m in
  books (ui m') = get_field sea "items" /\
  truthy (error (ui m')) = true.
Proof.
  intros m. split; [reflexivity|].
  apply (list_error_sticky m); [apply exec_reachable|reflexivity].
Defined.

Lemma list_no_unhandled_witness :
  unhandled (exec [Search; Settle 0 network_error; Settle 1 (http_ok sea)] boot) = [].
Proof. apply list_no_unhandled. repeat constructor. Defined.

(** An answer whose [items] are no list takes the page down: the
    [catch] of [load] does not cover the rendering. *)
Example malformed_list_unmounts :
  render (ui (exec [Settle 0 (http_ok (VObj [("items", VStr "none")]))] boot)) = None.
Proof. reflexivity. Qed.

End BookList.
