(* ===== verification/MyBookings.v ===== *)
(** * The bookings of a user: pages/MyBookings.jsx

    The page lists the bookings of the user whose id is in its input.  The
    input starts with the id of the stored user, when there is one, and
    the bookings of that user are fetched as soon as the page mounts.
    Without a user id nothing is fetched: the Load button is disabled and
    [load] returns at once.

    A row shows the fields of a booking as the server sent them; the
    formatting of the booking date by the browser's locale is not part of
    the model. *)

From S2P Require Import Prelude JsValue Async Component Gateway.

Module MyBookings.

(** ** State: lines 5-9 *)

Record State : Type := mkState {
  userId : value;      (* the stored user's id, or what the user typed *)
  items : value;       (* [[]], or the items of the last answer *)
  loading : bool;
  error : value
}.

(** The first render: [storedUser] is what local storage holds under
    'user', decoded, or [null]. *)
Definition init (storedUser : value) : State :=
  mkState (or_ (opt_get storedUser "id") (VStr "")) (VArr []) false (VStr "").

Definition setUserId (v : value) (s : State) : State :=
  mkState v (items s) (loading s) (error s).
Definition setItems (v : value) (s : State) : State :=
  mkState (userId s) v (loading s) (error s).
Definition setLoading (b : bool) (s : State) : State :=
  mkState (userId s) (items s) b (error s).
Definition setError (v : value) (s : State) : State :=
  mkState (userId s) (items s) (loading s) v.

(** ** The handler: lines 11-22

    [c] is the state of the render whose closure runs: [load] reads
    [userId] from it. *)
Definition load (c : State) : prog request State unit :=
  if not_ (userId c) then mret tt
  else
    try_finally
      (try_catch
         (upd (setLoading true);;
          resp ← await (getUserBookings (Number_ (userId c)));
          data ← get resp "data";
          items ← get data "items";
          upd (setItems (or_ items (VArr []))))
         (fun _ => upd (setError (VStr "Failed to load bookings"))))
      (upd (setLoading false)).

(** The effect of the first render, lines 24-27: [if (userId) load()]. *)
Definition effect (c : State) : prog request State unit :=
  if truthy (userId c) then load c else mret tt.

Arguments load : simpl never.

(** ** What is rendered: lines 29-50 *)

Record Row : Type := mkRow {
  booking : value;       (* "Booking #" *)
  book : value;          (* "Book ID: " *)
  status : value;
  date : value           (* the [booking_date] the row formats *)
}.

Definition row (b : value) : option Row :=
  if nullish b then None
  else Some (mkRow (get_field b "id") (get_field b "book_id")
                   (get_field b "status") (get_field b "booking_date")).

Record View : Type := mkView {
  input_value : value;
  load_disabled : bool;
  loading_box : bool;
  error_box : option value;
  rows : list Row;
  empty_note : bool        (* "No bookings" *)
}.

Definition render (s : State) : option View :=
  rs ← array_map row (items s);
  Some (mkView (userId s) (not_ (userId s)) (loading s)
          (if truthy (error s) then Some (error s) else None)
          rs
          (not_ (get_field (items s) "length") && negb (loading s))).

(** ** The page on the event loop *)

Definition boot (storedUser : value) : machine request State :=
  invoke id (effect (init storedUser)) (Async.boot (init storedUser)).

Inductive event : Type :=
| TypeUser (v : string)
| ClickLoad
| Settle (i : nat) (o : outcome).

Definition enabled (ev : event) (m : machine request State) : bool :=
  match ev with
  | TypeUser _ => bool_decide (is_Some (render (ui m)))
  | ClickLoad =>
      match render (ui m) with
      | Some v => negb (load_disabled v)
      | None => false
      end
  | Settle i _ => bool_decide (is_Some (pending m !! i))
  end.

Definition fire (ev : event) (m : machine request State) : machine request State :=
  if enabled ev m then
    match ev with
    | TypeUser v => retype (setUserId (VStr v)) m
    | ClickLoad => invoke id (load (ui m)) m
    | Settle i o => deliver id i o m
    end
  else m.

Inductive step (m : machine request State) : machine request State -> Prop :=
| step_type v : is_Some (render (ui m)) -> step m (retype (setUserId (VStr v)) m)
| step_load v :
    render (ui m) = Some v -> load_disabled v = false ->
    step m (invoke id (load (ui m)) m)
| step_settle i o : is_Some (pending m !! i) -> step m (deliver id i o m).

Definition exec (evs : list event) (m : machine request State) : machine request State :=
  foldl (fun m ev => fire ev m) m evs.

(** ** The bodies in flight *)

Definition loading_of (c : State) : option (suspended request State) :=
  head (waiting (run (load c) c)).

Definition is_load (w : suspended request State) : Prop :=
  exists c, loading_of c = Some w.

Definition listing_event (ev : event) : Prop :=
  match ev with
  | Settle _ o => listing o
  | _ => True
  end.

Definition axios_event (ev : event) : Prop :=
  match ev with
  | Settle _ o => axios_outcome o
  | _ => True
  end.

(** Every request of the page asks for the bookings of a user id that is
    not empty. *)
Definition bookings_request (r : request) : Prop :=
  exists uid, truthy uid = true /\
    r = Request GET ("/bookings/user/" +:+ toString (Number_ uid)) VUndefined VUndefined.

(** Two answers, for the examples. *)
Definition of_user5 : value :=
  VObj [("items", VArr [VObj [("id", VNum 1); ("book_id", VNum 12);
                              ("status", VStr "active");
                              ("booking_date", VStr "2024-05-01T10:00:00")]])].
Definition of_user6 : value :=
  VObj [("items", VArr [VObj [("id", VNum 2); ("book_id", VNum 7);
                              ("status", VStr "active");
                              ("booking_date", VStr "2024-05-02T10:00:00")]])].
Definition user5 : value := VObj [("id", VNum 5); ("name", VStr "Ann")].

Record good (m : machine request State) : Prop := mkGood {
  good_wf : machine_wf m;
  good_pending : forall i w, pending m !! i = Some w -> is_load w;
  good_log : Forall bookings_request (sent m)
}.

(** ** The handler, branch by branch *)

Section HandlerFacts.
Implicit Types (c s : State) (w : suspended request State) (m : machine request State).

Lemma run_load_missing c s : truthy (userId c) = false -> run (load c) s = Effects s [] [].
Proof. intros H. unfold load, not_. by rewrite H. Qed.

Lemma loading_of_truthy c w : loading_of c = Some w -> truthy (userId c) = true.
Proof.
  unfold loading_of, load, not_. by destruct (truthy (userId c)).
Qed.

Lemma run_load_bookings c s :
  truthy (userId c) = true ->
  exists w, loading_of c = Some w /\
    request_of w = getUserBookings (Number_ (userId c)) /\
    run (load c) s = Effects (setLoading true s) [w] [].
Proof.
  intros H. unfold loading_of, load, not_. rewrite H. cbn.
  eexists. split; [reflexivity|]. split; reflexivity.
Qed.

(** [resume_of H] opens the body that [H : loading_of c = Some w] names. *)
Ltac resume_of H :=
  revert H; unfold loading_of, load, not_;
  destruct (truthy (userId _)); [|done]; cbn; intros [= <-]; cbn.

Lemma resume_bookings_ok c w resp data its s :
  loading_of c = Some w -> member resp "data" = Some data ->
  member data "items" = Some its ->
  run (resume w (Resolved resp)) s =
    Effects (setLoading false (setItems (or_ its (VArr [])) s)) [] [].
Proof.
  intros H Hd Hi. resume_of H. unfold get. rewrite Hd. cbn. rewrite Hi. reflexivity.
Qed.

Lemma resume_bookings_malformed c w resp s :
  loading_of c = Some w ->
  (forall data, member resp "data" = Some data -> member data "items" = None) ->
  run (resume w (Resolved resp)) s =
    Effects (setLoading false (setError (VStr "Failed to load bookings") s)) [] [].
Proof.
  intros H Hd. resume_of H. unfold get.
  destruct (member resp "data") as [data|] eqn:E; [|done].
  cbn. by rewrite (Hd data).
Qed.

Lemma resume_bookings_rejected c w e s :
  loading_of c = Some w ->
  run (resume w (Rejected e)) s =
    Effects (setLoading false (setError (VStr "Failed to load bookings") s)) [] [].
Proof. intros H. by resume_of H. Qed.

Lemma resume_bookings_settles w o s :
  is_load w ->
  waiting (run (resume w o) s) = [] /\ uncaught (run (resume w o) s) = [] /\
  loading (after (run (resume w o) s)) = false /\
  userId (after (run (resume w o) s)) = userId s /\
  ((error (after (run (resume w o) s)) = error s /\
    exists resp data its, o = Resolved resp /\ member resp "data" = Some data /\
      member data "items" = Some its /\
      items (after (run (resume w o) s)) = or_ its (VArr [])) \/
   (error (after (run (resume w o) s)) = VStr "Failed to load bookings" /\
    items (after (run (resume w o) s)) = items s)).
Proof.
  intros [c H]. destruct o as [resp|e].
  - destruct (member resp "data") as [d|] eqn:Hd.
    + destruct (member d "items") as [a|] eqn:Ha.
      * rewrite (resume_bookings_ok _ _ _ _ _ _ H Hd Ha). cbn.
        split_and!; try done. left. split; [done|]. by exists resp, d, a.
      * rewrite (resume_bookings_malformed _ _ _ _ H); [|congruence]. cbn.
        split_and!; try done. by right.
    + rewrite (resume_bookings_malformed _ _ _ _ H); [|congruence]. cbn.
      split_and!; try done. by right.
  - rewrite (resume_bookings_rejected _ _ _ _ H). cbn. split_and!; try done. by right.
Qed.

End HandlerFacts.

(** ** The steps of the page *)

Section MachineFacts.
Implicit Types (c s : State) (w : suspended request State) (m : machine request State).

Lemma bookings_of_user c :
  truthy (userId c) = true -> bookings_request (getUserBookings (Number_ (userId c))).
Proof. intros H. by exists (userId c). Qed.

Lemma row_renders b : nullish b = false -> is_Some (row b).
Proof. unfold row. intros ->. by eexists. Qed.

Lemma bookings_render s : listable (items s) -> is_Some (render s).
Proof.
  intros [rs Hrs]%(listable_map row); [|apply row_renders].
  unfold render. rewrite Hrs. by eexists.
Qed.

Lemma enabled_load m :
  enabled ClickLoad m = true ->
  is_Some (render (ui m)) /\ truthy (userId (ui m)) = true.
Proof.
  unfold enabled, render. destruct (array_map row _); cbn; [|done].
  unfold not_. rewrite negb_involutive. eauto.
Qed.

Lemma fire_load m :
  enabled ClickLoad m = true ->
  exists w, loading_of (ui m) = Some w /\
    fire ClickLoad m =
      Machine (setLoading true (ui m)) (<[next_id m := w]> (pending m)) (S (next_id m))
              (sent m ++ [getUserBookings (Number_ (userId (ui m)))]) (unhandled m).
Proof.
  intros He. unfold fire. rewrite He. apply enabled_load in He as [_ Hu].
  destruct (run_load_bookings (ui m) (ui m) Hu) as (w & Hw & Hreq & Hrun).
  exists w. split; [done|].
  rewrite (invoke_single _ _ _ w) by (by rewrite Hrun).
  rewrite Hrun, Hreq. cbn. by rewrite app_nil_r.
Qed.

Lemma bookings_fire_settle m i w o :
  pending m !! i = Some w -> is_load w ->
  fire (Settle i o) m =
    Machine (after (run (resume w o) (ui m))) (delete i (pending m)) (next_id m)
            (sent m) (unhandled m).
Proof.
  intros Hi Hw. unfold fire, enabled. rewrite bool_decide_eq_true_2 by eauto.
  destruct (resume_bookings_settles w o (ui m) Hw) as (Hq & Hu & _).
  rewrite (deliver_quiet id i o m w Hi Hq), Hu. cbn. by rewrite app_nil_r.
Qed.

Lemma bookings_fire_wf ev m : machine_wf m -> machine_wf (fire ev m).
Proof.
  intros Hwf. unfold fire. destruct (enabled ev m); [|done].
  destruct ev; try (by destruct Hwf); auto using invoke_wf, deliver_wf.
Qed.

(** The page after its first effect: idle without a stored user id, and
    fetching the bookings of the stored user otherwise. *)
Lemma boot_anonymous u :
  truthy (opt_get u "id") = false -> boot u = Async.boot (init u).
Proof.
  intros H. unfold boot, effect, init. cbn [userId]. rewrite or_falsy by done.
  cbn. by rewrite invoke_quiet.
Qed.

Lemma boot_signed_in u :
  truthy (opt_get u "id") = true ->
  exists w, loading_of (init u) = Some w /\
    boot u = Machine (setLoading true (init u)) {[ 0 := w ]} 1
               [getUserBookings (Number_ (opt_get u "id"))] [].
Proof.
  intros H. unfold boot, effect.
  assert (Hu : userId (init u) = opt_get u "id") by (unfold init; cbn; by rewrite or_truthy).
  rewrite Hu, H.
  destruct (run_load_bookings (init u) (ui (Async.boot (Req:=request) (init u))))
    as (w & Hw & Hreq & Hrun); [by rewrite Hu|].
  exists w. split; [done|].
  rewrite (invoke_single _ _ _ w) by (by rewrite Hrun).
  by rewrite Hrun, Hreq, Hu.
Qed.

Lemma bookings_good_boot u : good (boot u).
Proof.
  destruct (truthy (opt_get u "id")) eqn:H.
  - destruct (boot_signed_in u H) as (w & Hw & E).
    split; [apply invoke_wf, boot_wf|..]; rewrite E; simpl.
    + intros i w' [_ <-]%lookup_singleton_Some. by exists (init u).
    + repeat constructor. by exists (opt_get u "id").
  - rewrite (boot_anonymous u H). split; [apply boot_wf| |constructor].
    intros i w. simpl. by rewrite lookup_empty.
Qed.

Lemma bookings_good_fire ev m : good m -> enabled ev m = true -> good (fire ev m).
Proof.
  intros Hg He. pose proof (bookings_fire_wf ev m (good_wf _ Hg)) as Hwf'.
  destruct Hg as [Hwf Hp Hl]. destruct ev as [v| |i o].
  - unfold fire. rewrite He. by split.
  - destruct (fire_load m He) as (w & Hw & Hfire). rewrite Hfire in *.
    split; [done|..]; simpl.
    + intros i w' [[_ <-]|[_ Hi]]%lookup_insert_Some; [by eexists|eauto].
    + apply Forall_app. split; [done|]. constructor; [|done].
      apply bookings_of_user. by apply enabled_load in He as [_ ?].
  - apply bool_decide_eq_true in He as [w Hi].
    rewrite (bookings_fire_settle m i w o Hi (Hp i w Hi)) in *.
    split; [done|..]; simpl; [|done].
    intros j w' [_ Hj]%lookup_delete_Some. eauto.
Qed.

#[export] Instance bookings_component : Component enabled fire step.
Proof.
  split.
  - intros ev m E. unfold fire. by rewrite E.
  - intros ev m E. unfold fire. rewrite E. destruct ev.
    + constructor. by apply bool_decide_eq_true in E.
    + unfold enabled in E. destruct (render (ui m)) as [v|] eqn:Hr; [|done].
      apply (step_load m v); [done|]. by apply negb_true_iff.
    + constructor. by apply bool_decide_eq_true in E.
  - intros m m' [v Hr|v Hr Hd|i o Hi].
    + exists (TypeUser v). unfold fire, enabled. by rewrite bool_decide_eq_true_2.
    + exists ClickLoad. unfold fire, enabled. by rewrite Hr, Hd.
    + exists (Settle i o). unfold fire, enabled. by rewrite bool_decide_eq_true_2.
Qed.

Lemma bookings_good_run ev m : good m -> good (fire ev m).
Proof. revert ev m. apply (fire_invariant good), @bookings_good_fire. Qed.

Lemma bookings_reachable_good u m : reachable step (boot u) m -> good m.
Proof.
  apply (reachable_invariant good); [apply bookings_good_boot|].
  intros ev m'. apply bookings_good_fire.
Qed.

Lemma fire_bookings_listable ev m :
  listing_event ev -> good m ->
  listable (items (ui m)) -> listable (items (ui (fire ev m))).
Proof.
  intros Hev Hg Hb. destruct (enabled ev m) eqn:He; [|by unfold fire; rewrite He].
  destruct ev as [v| |i o].
  - unfold fire. by rewrite He.
  - by destruct (fire_load m He) as (w & _ & ->).
  - apply bool_decide_eq_true in He as [w Hi].
    pose proof (good_pending _ Hg i w Hi) as Hw.
    rewrite (bookings_fire_settle m i w o Hi Hw). cbn [ui].
    destruct (resume_bookings_settles w o (ui m) Hw)
      as (_ & _ & _ & _ & [(_ & resp & d & a & -> & Hd & Ha & ->)|(_ & ->)]); [|done].
    apply listable_default. by apply (Hev d a).
Qed.

Lemma load_bookings_guarded c : safe axios_outcome (load c).
Proof.
  unfold load, safe. case_match; [done|]. apply guarded_try_finally; [|done].
  apply guarded_try_catch with (T := thrown_object); solve_guarded.
Qed.

Lemma bookings_fire_safe ev m :
  axios_event ev -> machine_safe axios_outcome m ->
  machine_safe axios_outcome (fire ev m).
Proof.
  intros Hev Hm. unfold fire. destruct (enabled ev m); [|done].
  destruct ev as [v| |i o]; [by destruct Hm| |by apply deliver_safe].
  apply invoke_safe; [apply load_bookings_guarded|done].
Qed.

Lemma bookings_boot_safe u : machine_safe axios_outcome (boot u).
Proof.
  apply invoke_safe; [|apply boot_safe].
  unfold effect. case_match; [apply load_bookings_guarded|done].
Qed.

End MachineFacts.

(** ** The properties of the page *)

Section Claims.
Implicit Types (c s : State) (w : suspended request State) (m : machine request State).

(** When the page mounts it reads the id of the stored user into its
    input and, when there is one, fetches the bookings of that user at
    once; without a stored user id it sends nothing and waits for
    input. *)
Theorem mount_fetches_stored_user u :
  userId (ui (boot u)) = or_ (opt_get u "id") (VStr "") /\
  loading (ui (boot u)) = truthy (opt_get u "id") /\
  sent (boot u) =
    if truthy (opt_get u "id")
    then [Request GET ("/bookings/user/" +:+ toString (Number_ (opt_get u "id")))
            VUndefined VUndefined]
    else [].
Proof.
  destruct (truthy (opt_get u "id")) eqn:H.
  - destruct (boot_signed_in u H) as (w & _ & ->). cbn. by rewrite or_truthy.
  - rewrite (boot_anonymous u H). cbn. by rewrite or_falsy.
Qed.

(** No request leaves the page without a user id: every request ever
    sent asks for the bookings of the number read from an id that is not
    empty. *)
Theorem bookings_need_user u m :
  reachable step (boot u) m ->
  Forall (fun r => exists uid, truthy uid = true /\
            r = Request GET ("/bookings/user/" +:+ toString (Number_ uid))
                  VUndefined VUndefined)
         (sent m).
Proof. intros Hg%bookings_reachable_good. exact (good_log _ Hg). Qed.

(** C36. When the bookings arrive they replace the list and the loading
    flag goes down, whatever the input holds by then: the answer for the
    user id of an earlier click is listed under the id typed since. *)
Theorem bookings_listed m i c w resp data its :
  pending m !! i = Some w -> loading_of c = Some w ->
  member resp "data" = Some data -> member data "items" = Some its ->
  fire (Settle i (Resolved resp)) m =
    Machine (setLoading false (setItems (or_ its (VArr [])) (ui m)))
            (delete i (pending m)) (next_id m) (sent m) (unhandled m) /\
  userId (ui (fire (Settle i (Resolved resp)) m)) = userId (ui m).
Proof.
  intros Hi Hc Hd Ha.
  rewrite (bookings_fire_settle m i w _ Hi) by (by exists c).
  by rewrite (resume_bookings_ok _ _ _ _ _ _ Hc Hd Ha).
Qed.

(** As long as the server answers with a list of bookings, the page
    renders in every state of every run. *)
Theorem bookings_always_render u evs :
  Forall listing_event evs -> is_Some (render (ui (exec evs (boot u)))).
Proof.
  intros Hevs. apply bookings_render.
  apply (foldl_invariant _ (fun m => good m /\ listable (items (ui m))) listing_event
           evs (boot u)); [|done|].
  - intros m ev Hev [Hg Hb]. split; [by apply bookings_good_run|].
    by apply fire_bookings_listable.
  - split; [apply bookings_good_boot|]. exists [].
    destruct (truthy (opt_get u "id")) eqn:H.
    + by destruct (boot_signed_in u H) as (w & _ & ->).
    + by rewrite (boot_anonymous u H).
Qed.

(** As long as the network answers the way axios does, no run of the
    page leaves a rejection unhandled. *)
Theorem bookings_no_unhandled u evs :
  Forall axios_event evs -> unhandled (exec evs (boot u)) = [].
Proof.
  intros Hevs. eapply exec_unhandled; eauto using bookings_fire_safe, bookings_boot_safe.
Qed.

End Claims.

(** ** Witnesses *)

Lemma bookings_need_user_witness :
  Forall (fun r => exists uid, truthy uid = true /\
            r = Request GET ("/bookings/user/" +:+ toString (Number_ uid))
                  VUndefined VUndefined)
    (sent (exec [ClickLoad; TypeUser "6"; ClickLoad; TypeUser ""; ClickLoad] (boot VNull))).
Proof. apply (bookings_need_user VNull), exec_reachable. Defined.

Lemma bookings_listed_witness :
  let m := exec [TypeUser "6"; ClickLoad] (boot user5) in
  fire (Settle 0 (http_ok of_user5)) m =
    Machine (mkState (VStr "6") (get_field of_user5 "items") false (VStr ""))
            (delete 0 (pending m)) 2
            [Request GET "/bookings/user/5" VUndefined VUndefined;
             Request GET "/bookings/user/6" VUndefined VUndefined] [] /\
  userId (ui (fire (Settle 0 (http_ok of_user5)) m)) = VStr "6".
Proof.
  intros m.
  refine (bookings_listed m 0 (init user5) _ (response of_user5) of_user5
            (get_field of_user5 "items") _ _ _ _); reflexivity.
Defined.

Lemma bookings_always_render_witness :
  is_Some (render (ui (exec [Settle 0 (http_ok of_user5); TypeUser "6"; ClickLoad;
                             Settle 1 network_error] (boot user5)))).
Proof.
  apply bookings_always_render. repeat constructor.
  intros data its [= <-] [= <-] _. eexists. split; [done|]. by repeat constructor.
Defined.

Lemma bookings_no_unhandled_witness :
  unhandled (exec [Settle 0 network_error; ClickLoad; Settle 1 (http_ok of_user6)]
               (boot user5)) = [].
Proof. apply bookings_no_unhandled. repeat constructor. Defined.

(** What the input lets through is sent as it is: an id that is not a
    number asks for the bookings of user NaN. *)
Example bookings_of_nan :
  sent (exec [TypeUser "abc"; ClickLoad] (boot VNull)) =
    [Request GET "/bookings/user/NaN" VUndefined VUndefined].
Proof. reflexivity. Qed.

End MyBookings.
