(* ===== verification/Login.v ===== *)
(** * The login page: pages/Login.jsx

    The page creates an account and signs the new user in by writing the
    server's answer to local storage; it signs out by removing it.  The
    page has no state for "signed in": every render reads the stored user,
    and shows the form when there is none.

    The state of the model is the page's cells together with the local
    storage, because the handlers write both.  The [required] attributes
    of the inputs keep an incomplete form from being submitted; the check
    of the address format by the browser is not part of the model. *)

From S2P Require Import Prelude JsValue Json Session Async Component Gateway.

Module Login.

(** ** State: lines 5-10, and the storage *)

Record State : Type := mkState {
  name : string;
  email : string;
  password : string;
  loading : bool;
  error : value;
  success : string
}.

Record World : Type := mkWorld {
  page : State;
  store : localStorage.storage
}.

Definition init : State := mkState "" "" "" false (VStr "") "".

Definition on_page (f : State -> State) (w : World) : World :=
  mkWorld (f (page w)) (store w).
Definition on_store (f : localStorage.storage -> localStorage.storage) (w : World) :
    World :=
  mkWorld (page w) (f (store w)).

Definition setName (v : string) (s : State) : State :=
  mkState v (email s) (password s) (loading s) (error s) (success s).
Definition setEmail (v : string) (s : State) : State :=
  mkState (name s) v (password s) (loading s) (error s) (success s).
Definition setPassword (v : string) (s : State) : State :=
  mkState (name s) (email s) v (loading s) (error s) (success s).
Definition setLoading (b : bool) (s : State) : State :=
  mkState (name s) (email s) (password s) b (error s) (success s).
Definition setError (v : value) (s : State) : State :=
  mkState (name s) (email s) (password s) (loading s) v (success s).
Definition setSuccess (v : string) (s : State) : State :=
  mkState (name s) (email s) (password s) (loading s) (error s) v.

(** ** The handlers: lines 12-32

    [c] is the state of the render whose closure runs: [handleSubmit]
    reads the three fields from it. *)

Definition credentials (c : State) : value :=
  VObj [("name", VStr (name c)); ("email", VStr (email c));
        ("password", VStr (password c))].

Definition handleSubmit (c : State) : prog request World unit :=
  upd (on_page (setError (VStr "")));;
  upd (on_page (setSuccess ""));;
  try_finally
    (try_catch
       (upd (on_page (setLoading true));;
        resp ← await (createUser (credentials c));
        data ← get resp "data";
        upd (on_store (localStorage.setItem "user" (stringified data)));;
        upd (on_page (setSuccess "Account created and logged in."));;
        upd (on_page (setName ""));;
        upd (on_page (setEmail ""));;
        upd (on_page (setPassword "")))
       (fun err =>
          msg ← error_message err "Login failed";
          upd (on_page (setError msg))))
    (upd (on_page (setLoading false))).

Definition handleLogout : prog request World unit :=
  upd (on_store (localStorage.removeItem "user"));;
  upd (on_page (setSuccess "Logged out.")).

Arguments handleSubmit : simpl never.

(** ** What is rendered: lines 34-55 *)

Record Form : Type := mkForm {
  name_value : string;
  email_value : string;
  password_value : string;
  submit_disabled : bool;
  submit_label : string;
  error_box : option value;
  success_box : option string
}.

Inductive View : Type :=
| SignedIn (user_name user_id : value)    (* "You are logged in as ... (ID ...)" *)
| SignedOut (f : Form).

Definition form (s : State) : Form :=
  mkForm (name s) (email s) (password s) (loading s)
         (if loading s then "Creating…" else "Create Account")
         (if truthy (error s) then Some (error s) else None)
         (if String.eqb (success s) "" then None else Some (success s)).

(** [None] is the SyntaxError of a stored text that is not JSON. *)
Definition render (w : World) : option View :=
  user ← stored_user (store w);
  Some (if truthy user
        then SignedIn (get_field user "name") (get_field user "id")
        else SignedOut (form (page w))).

(** ** The page on the event loop *)

Definition boot (st : localStorage.storage) : machine request World :=
  Async.boot (mkWorld init st).

Inductive event : Type :=
| TypeName (v : string)
| TypeEmail (v : string)
| TypePassword (v : string)
| Submit
| Logout
| Settle (i : nat) (o : outcome).

(** The form is there when nobody is signed in; it submits when its
    button is enabled and its required fields are filled. *)
Definition shows_form (m : machine request World) : bool :=
  match render (ui m) with
  | Some (SignedOut _) => true
  | _ => false
  end.

Definition can_submit (m : machine request World) : bool :=
  match render (ui m) with
  | Some (SignedOut f) =>
      negb (submit_disabled f) &&
      negb (String.eqb (name_value f) "") && negb (String.eqb (email_value f) "") &&
      negb (String.eqb (password_value f) "")
  | _ => false
  end.

Definition enabled (ev : event) (m : machine request World) : bool :=
  match ev with
  | TypeName _ | TypeEmail _ | TypePassword _ => shows_form m
  | Submit => can_submit m
  | Logout =>
      match render (ui m) with
      | Some (SignedIn _ _) => true
      | _ => false
      end
  | Settle i _ => bool_decide (is_Some (pending m !! i))
  end.

Definition fire (ev : event) (m : machine request World) : machine request World :=
  if enabled ev m then
    match ev with
    | TypeName v => retype (on_page (setName v)) m
    | TypeEmail v => retype (on_page (setEmail v)) m
    | TypePassword v => retype (on_page (setPassword v)) m
    | Submit => invoke id (handleSubmit (page (ui m))) m
    | Logout => invoke id handleLogout m
    | Settle i o => deliver id i o m
    end
  else m.

Definition step (m m' : machine request World) : Prop :=
  exists ev, enabled ev m = true /\ m' = fire ev m.

Definition exec (evs : list event) (m : machine request World) : machine request World :=
  foldl (fun m ev => fire ev m) m evs.

(** ** The bodies in flight *)

Definition submitted (c : State) : option (suspended request World) :=
  head (waiting (run (handleSubmit c) (mkWorld c ∅))).

Definition is_submit (w : suspended request World) : Prop :=
  exists c, submitted c = Some w.

(** An answer of a server that keeps its contract: the data of a created
    account is a user, a JSON object. *)
Definition account (o : outcome) : Prop :=
  match o with
  | Resolved resp =>
      forall data, member resp "data" = Some data ->
        JSON.is_json data = true /\ truthy data = true
  | Rejected _ => True
  end.

Definition account_event (ev : event) : Prop :=
  match ev with
  | Settle _ o => account o
  | _ => True
  end.

Definition axios_event (ev : event) : Prop :=
  match ev with
  | Settle _ o => axios_outcome o
  | _ => True
  end.

(** The confirmation of a new account is set only together with the
    stored user. *)
Definition confirmed (w : World) : Prop :=
  success (page w) = "Account created and logged in." ->
  exists u, stored_user (store w) = Some u /\ truthy u = true.

(** Every request of the page creates an account from a form whose
    required fields are filled. *)
Definition account_request (r : request) : Prop :=
  exists c, name c <> "" /\ email c <> "" /\ password c <> "" /\
    r = createUser (credentials c).

(** The state a successful creation leaves: the new user is stored before
    the confirmation is set and the fields are cleared. *)
Definition signed_in (data : value) (s : World) : World :=
  on_page (setLoading false)
    (on_page (setPassword "") (on_page (setEmail "") (on_page (setName "")
       (on_page (setSuccess "Account created and logged in.")
          (on_store (localStorage.setItem "user" (stringified data)) s))))).

(** A user as the server sends it, for the examples. *)
Definition ann : value :=
  VObj [("id", VNum 5); ("name", VStr "Ann"); ("email", VStr "ann@example.org")].

Record good (m : machine request World) : Prop := mkGood {
  good_wf : machine_wf m;
  good_pending : forall i w, pending m !! i = Some w -> is_submit w;
  good_flight : single_flight (fun w => loading (page w)) is_submit m;
  good_log : Forall account_request (sent m)
}.

(** ** The handler, branch by branch *)

Section HandlerFacts.
Implicit Types (c : State) (s : World) (w : suspended request World)
  (m : machine request World).

Lemma run_create c s :
  exists w, submitted c = Some w /\
    request_of w = createUser (credentials c) /\
    run (handleSubmit c) s =
      Effects (on_page (setLoading true)
                 (on_page (setSuccess "") (on_page (setError (VStr "")) s))) [w] [].
Proof. eexists. split; [reflexivity|]. split; reflexivity. Qed.

Lemma resume_create_ok c w resp data s :
  submitted c = Some w -> member resp "data" = Some data ->
  run (resume w (Resolved resp)) s = Effects (signed_in data s) [] [].
Proof. intros [= <-] Hd. cbn. unfold get. rewrite Hd. reflexivity. Qed.

Lemma resume_create_malformed c w resp s :
  submitted c = Some w -> member resp "data" = None ->
  run (resume w (Resolved resp)) s =
    Effects (on_page (setLoading false) (on_page (setError (VStr "Login failed")) s)) [] [].
Proof. intros [= <-] Hd. cbn. unfold get. rewrite Hd. reflexivity. Qed.

Lemma resume_create_rejected c w e s :
  submitted c = Some w -> nullish e = false ->
  run (resume w (Rejected e)) s =
    Effects (on_page (setLoading false)
               (on_page (setError (message_of e "Login failed")) s)) [] [].
Proof. intros [= <-] He. cbn. rewrite error_message_object by done. reflexivity. Qed.

Lemma resume_create_nullish c w e s :
  submitted c = Some w -> nullish e = true ->
  run (resume w (Rejected e)) s = Effects (on_page (setLoading false) s) [] [TypeError].
Proof. intros [= <-] He. cbn. rewrite error_message_nullish by done. reflexivity. Qed.

(** However the request ends, the continuation sends nothing and lowers
    [loading]; it either signs the user in or leaves the storage and the
    confirmation alone. *)
Lemma resume_create_settles w o s :
  is_submit w ->
  waiting (run (resume w o) s) = [] /\
  loading (page (after (run (resume w o) s))) = false /\
  ((exists resp data, o = Resolved resp /\ member resp "data" = Some data /\
      after (run (resume w o) s) = signed_in data s) \/
   (store (after (run (resume w o) s)) = store s /\
    success (page (after (run (resume w o) s))) = success (page s))).
Proof.
  intros [c H]. destruct o as [resp|e].
  - destruct (member resp "data") as [d|] eqn:Hd.
    + rewrite (resume_create_ok _ _ _ _ _ H Hd). cbn. split_and!; try done.
      left. by exists resp, d.
    + rewrite (resume_create_malformed _ _ _ _ H Hd). cbn. split_and!; try done. by right.
  - destruct (nullish e) eqn:He.
    + rewrite (resume_create_nullish _ _ _ _ H He). cbn. split_and!; try done. by right.
    + rewrite (resume_create_rejected _ _ _ _ H He). cbn. split_and!; try done. by right.
Qed.

End HandlerFacts.

(** ** The steps of the page *)

Section MachineFacts.
Implicit Types (c : State) (s : World) (w : suspended request World)
  (m : machine request World).

Lemma shows_form_spec m :
  shows_form m = true <->
  exists u, stored_user (store (ui m)) = Some u /\ truthy u = false.
Proof.
  unfold shows_form, render. destruct (stored_user _) as [u|]; cbn.
  - destruct (truthy u) eqn:E; split; try done.
    + by intros (u' & [= <-] & ?); congruence.
    + eauto.
  - split; [done|]. by intros (u & ? & _).
Qed.

Lemma can_submit_spec m :
  can_submit m = true ->
  shows_form m = true /\ loading (page (ui m)) = false.
Proof.
  unfold can_submit, shows_form. destruct (render (ui m)) as [[n i|f]|] eqn:E; try done.
  intros H. split; [done|].
  unfold render in E. destruct (stored_user _) as [u|]; [|done]. cbn in E.
  destruct (truthy u); [done|]. injection E as <-. cbn in H.
  by destruct (loading (page (ui m))).
Qed.

Lemma fire_submit m :
  can_submit m = true ->
  exists w, submitted (page (ui m)) = Some w /\
    fire Submit m =
      Machine (on_page (setLoading true)
                 (on_page (setSuccess "") (on_page (setError (VStr "")) (ui m))))
              (<[next_id m := w]> (pending m)) (S (next_id m))
              (sent m ++ [createUser (credentials (page (ui m)))]) (unhandled m).
Proof.
  intros He. unfold fire, enabled. rewrite He.
  destruct (run_create (page (ui m)) (ui m)) as (w & Hw & Hreq & Hrun).
  exists w. split; [done|].
  rewrite (invoke_single _ _ _ w) by (by rewrite Hrun).
  rewrite Hrun, Hreq. cbn. by rewrite app_nil_r.
Qed.

Lemma fire_logout m :
  enabled Logout m = true ->
  fire Logout m =
    Machine (on_page (setSuccess "Logged out.")
               (on_store (localStorage.removeItem "user") (ui m)))
            (pending m) (next_id m) (sent m) (unhandled m).
Proof.
  intros He. unfold fire. rewrite He. rewrite invoke_quiet by done.
  cbn. by rewrite app_nil_r.
Qed.

Lemma login_fire_settle m i w o :
  pending m !! i = Some w -> is_submit w ->
  fire (Settle i o) m =
    Machine (after (run (resume w o) (ui m))) (delete i (pending m)) (next_id m)
            (sent m) (unhandled m ++ uncaught (run (resume w o) (ui m))).
Proof.
  intros Hi Hw. unfold fire, enabled. rewrite bool_decide_eq_true_2 by eauto.
  destruct (resume_create_settles w o (ui m) Hw) as (Hq & _).
  exact (deliver_quiet id i o m w Hi Hq).
Qed.

Lemma login_fire_wf ev m : machine_wf m -> machine_wf (fire ev m).
Proof.
  intros Hwf. unfold fire. destruct (enabled ev m); [|done].
  destruct ev; try (by destruct Hwf); auto using invoke_wf, deliver_wf.
Qed.

Lemma login_good_boot st : good (boot st).
Proof.
  split; [apply boot_wf| |by apply single_flight_boot|constructor].
  intros i w. simpl. by rewrite lookup_empty.
Qed.

Lemma can_submit_filled m :
  can_submit m = true ->
  name (page (ui m)) <> "" /\ email (page (ui m)) <> "" /\ password (page (ui m)) <> "".
Proof.
  unfold can_submit, render. destruct (stored_user _) as [u|]; [|done]. cbn.
  destruct (truthy u); [done|]. cbn.
  rewrite !andb_true_iff, !negb_true_iff, !String.eqb_neq. by intros [[[_ ?] ?] ?].
Qed.

Lemma login_good_fire ev m : good m -> enabled ev m = true -> good (fire ev m).
Proof.
  intros Hg He. pose proof (login_fire_wf ev m (good_wf _ Hg)) as Hwf'.
  destruct Hg as [Hwf Hp Hfl Hl]. destruct ev as [v|v|v| | |i o].
  1-3: unfold fire; rewrite He; split; try done; by apply (single_flight_same _ _ m).
  - simpl in He. destruct (fire_submit m He) as (w & Hw & Hfire).
    pose proof (wf_fresh m (next_id m) Hwf (Nat.le_refl _)) as Hfresh.
    apply can_submit_spec in He as Hs. destruct Hs as [_ Hidle].
    rewrite Hfire in *. split; [done|..]; simpl.
    + intros i w' [[_ <-]|[_ Hi]]%lookup_insert_Some; [by eexists|eauto].
    + eapply single_flight_start; eauto; by eexists.
    + apply Forall_app. split; [done|]. constructor; [|done].
      exists (page (ui m)). by destruct (can_submit_filled m He) as (? & ? & ?).
  - rewrite (fire_logout m He) in *. by split.
  - apply bool_decide_eq_true in He as [w Hi]. pose proof (Hp i w Hi) as Hw.
    rewrite (login_fire_settle m i w o Hi Hw) in *.
    destruct (resume_create_settles w o (ui m) Hw) as (_ & Hidle & _).
    split; [done|..]; simpl; [|by eapply single_flight_finish|done].
    intros j w' [_ Hj]%lookup_delete_Some. eauto.
Qed.

#[export] Instance login_component : Component enabled fire step.
Proof.
  split.
  - intros ev m E. unfold fire. by rewrite E.
  - intros ev m E. by exists ev.
  - by intros m m' Hs.
Qed.

Lemma login_good_run ev m : good m -> good (fire ev m).
Proof. revert ev m. apply (fire_invariant good), @login_good_fire. Qed.

Lemma login_reachable_good st m : reachable step (boot st) m -> good m.
Proof.
  apply (reachable_invariant good); [apply login_good_boot|].
  intros ev m'. apply login_good_fire.
Qed.

(** *** The confirmation and the stored user *)

Lemma signed_in_confirmed data s :
  JSON.is_json data = true -> truthy data = true -> confirmed (signed_in data s).
Proof.
  intros Hj Ht _. exists data. split; [|done]. by apply stored_user_set.
Qed.

Lemma fire_confirmed ev m :
  account_event ev -> good m -> confirmed (ui m) -> confirmed (ui (fire ev m)).
Proof.
  intros Hev Hg Hc. destruct (enabled ev m) eqn:He; [|by unfold fire; rewrite He].
  destruct ev as [v|v|v| | |i o].
  1-3: unfold fire; by rewrite He.
  - simpl in He. by destruct (fire_submit m He) as (w & _ & ->).
  - by rewrite (fire_logout m He).
  - apply bool_decide_eq_true in He as [w Hi].
    pose proof (good_pending _ Hg i w Hi) as Hw.
    rewrite (login_fire_settle m i w o Hi Hw). cbn [ui].
    destruct (resume_create_settles w o (ui m) Hw)
      as (_ & _ & [(resp & d & -> & Hd & ->)|(Hst & Hsu)]).
    + destruct (Hev d Hd). by apply signed_in_confirmed.
    + unfold confirmed. by rewrite Hst, Hsu.
Qed.

Lemma confirmed_hidden s f :
  confirmed s -> render s = Some (SignedOut f) ->
  success_box f <> Some "Account created and logged in.".
Proof.
  intros Hc Hr Hs. unfold render in Hr.
  destruct (stored_user (store s)) as [u|] eqn:Eu; [|done]. cbn in Hr.
  destruct (truthy u) eqn:Et; [done|]. injection Hr as <-. cbn in Hs.
  destruct (String.eqb_spec (success (page s)) ""); [done|]. injection Hs as Hs.
  destruct (Hc Hs) as (u' & Hu & Hu'). rewrite Eu in Hu. congruence.
Qed.

(** *** Nothing is left unhandled *)

Lemma handleCreate_guarded c : safe axios_outcome (handleSubmit c).
Proof. unfold handleSubmit, safe. solve_guarded. Qed.

Lemma login_fire_safe ev m :
  axios_event ev -> machine_safe axios_outcome m ->
  machine_safe axios_outcome (fire ev m).
Proof.
  intros Hev Hm. unfold fire. destruct (enabled ev m); [|done].
  destruct ev as [v|v|v| | |i o]; try (by destruct Hm).
  - apply invoke_safe; [apply handleCreate_guarded|done].
  - by apply invoke_safe.
  - by apply deliver_safe.
Qed.

(** The server created the account. *)
Lemma fire_created m i c w resp data :
  pending m !! i = Some w -> submitted c = Some w -> member resp "data" = Some data ->
  fire (Settle i (Resolved resp)) m =
    Machine (signed_in data (ui m)) (delete i (pending m)) (next_id m) (sent m)
            (unhandled m).
Proof.
  intros Hi Hc Hd. rewrite (login_fire_settle m i w _ Hi) by (by exists c).
  rewrite (resume_create_ok _ _ _ _ _ Hc Hd). cbn [ui uncaught after].
  by rewrite app_nil_r.
Qed.

Lemma signed_in_stored data s :
  JSON.is_json data = true -> stored_user (store (signed_in data s)) = Some data.
Proof. intros Hj. by apply stored_user_set. Qed.

Lemma render_signed_in s u :
  stored_user (store s) = Some u -> truthy u = true ->
  render s = Some (SignedIn (get_field u "name") (get_field u "id")).
Proof. intros Hu Ht. unfold render. rewrite Hu. cbn. by rewrite Ht. Qed.

End MachineFacts.

(** ** The properties of the page *)

Section Claims.
Implicit Types (c : State) (s : World) (w : suspended request World)
  (m : machine request World).

(** C30. When the server has created the account, the page stores the data of
    the answer as the user, sets its confirmation and clears the three
    fields.  When that data is a user, a JSON object, the next render
    reads it back from the storage and shows the signed-in panel with its
    name and id. *)
Theorem account_created m i c w resp data :
  pending m !! i = Some w -> submitted c = Some w ->
  member resp "data" = Some data ->
  JSON.is_json data = true -> truthy data = true ->
  let m' := fire (Settle i (Resolved resp)) m in
  m' = Machine (signed_in data (ui m)) (delete i (pending m)) (next_id m) (sent m)
               (unhandled m) /\
  stored_user (store (ui m')) = Some data /\
  render (ui m') = Some (SignedIn (get_field data "name") (get_field data "id")).
Proof.
  intros Hi Hc Hd Hj Ht. cbv zeta.
  rewrite (fire_created m i c w resp data Hi Hc Hd). cbn [ui].
  split; [done|]. rewrite (render_signed_in _ _ (signed_in_stored data (ui m) Hj) Ht).
  split; [by apply signed_in_stored|done].
Qed.

(** Log out removes the stored user: the page shows the form again, with
    "Logged out.", and a page mounted afterwards finds nobody signed in.
    Nothing is sent to the server. *)
Theorem logged_out m :
  enabled Logout m = true ->
  stored_user (store (ui (fire Logout m))) = Some VNull /\
  render (ui (fire Logout m)) =
    Some (SignedOut (form (setSuccess "Logged out." (page (ui m))))) /\
  success_box (form (setSuccess "Logged out." (page (ui m)))) = Some "Logged out." /\
  sent (fire Logout m) = sent m.
Proof.
  intros He. rewrite (fire_logout m He). cbn [ui sent].
  assert (Hu : stored_user (store (on_page (setSuccess "Logged out.")
                 (on_store (localStorage.removeItem "user") (ui m)))) = Some VNull)
    by apply stored_user_removed.
  split; [done|]. unfold render. by rewrite Hu.
Qed.

(** C32. The confirmation "Account created and logged in." is never on the
    screen: it is a box of the form, and the form is not rendered once the
    new user is stored.  This holds in every run in which the server
    answers a creation with a user. *)
Theorem confirmation_never_shown st evs f :
  Forall account_event evs ->
  render (ui (exec evs (boot st))) = Some (SignedOut f) ->
  success_box f <> Some "Account created and logged in.".
Proof.
  intros Hevs. apply confirmed_hidden.
  apply (foldl_invariant _ (fun m => good m /\ confirmed (ui m)) account_event
           evs (boot st)); [|done|].
  - intros m ev Hev [Hg Hc]. split; [by apply login_good_run|by apply fire_confirmed].
  - split; [apply login_good_boot|done].
Qed.

(** However the user and the network interleave, at most one creation
    is in flight, exactly while the button is disabled, and every request
    the page ever sent creates an account from a form whose required
    fields were filled. *)
Theorem one_account_at_a_time st m :
  reachable step (boot st) m ->
  single_flight (fun s => loading (page s)) is_submit m /\
  Forall (fun r => exists n e p, n <> "" /\ e <> "" /\ p <> "" /\
            r = Request POST "/users/" VUndefined
                  (VObj [("name", VStr n); ("email", VStr e); ("password", VStr p)]))
         (sent m).
Proof.
  intros [_ _ Hfl Hlog]%login_reachable_good. split; [done|].
  eapply Forall_impl; [exact Hlog|]. intros r (c & ? & ? & ? & ->).
  by exists (name c), (email c), (password c).
Qed.

(** As long as the network answers the way axios does, no run of the
    page leaves a rejection unhandled. *)
Theorem login_no_unhandled st evs :
  Forall axios_event evs -> unhandled (exec evs (boot st)) = [].
Proof.
  intros Hevs. eapply exec_unhandled; eauto using login_fire_safe, boot_safe.
Qed.

End Claims.

(** ** Witnesses *)

Lemma account_created_witness :
  let m := exec [TypeName "Ann"; TypeEmail "ann@example.org"; TypePassword "pw"; Submit]
             (boot ∅) in
  let m' := fire (Settle 0 (http_ok ann)) m in
  m' = Machine (signed_in ann (ui m)) (delete 0 (pending m)) (next_id m) (sent m)
               (unhandled m) /\
  stored_user (store (ui m')) = Some ann /\
  render (ui m') = Some (SignedIn (VStr "Ann") (VNum 5)).
Proof.
  intros m.
  refine (account_created m 0 (mkState "Ann" "ann@example.org" "pw" false (VStr "") "")
            _ (response ann) ann _ _ _ _ _); reflexivity.
Defined.

Lemma logged_out_witness :
  let m := exec [TypeName "Ann"; TypeEmail "ann@example.org"; TypePassword "pw"; Submit;
                 Settle 0 (http_ok ann)] (boot ∅) in
  stored_user (store (ui (fire Logout m))) = Some VNull /\
  render (ui (fire Logout m)) =
    Some (SignedOut (mkForm "" "" "" false "Create Account" None (Some "Logged out."))).
Proof.
  intros m. destruct (logged_out m) as (Hu & Hr & _); [by vm_compute|].
  split; [exact Hu|exact Hr].
Defined.

Lemma confirmation_never_shown_witness :
  exists f,
    render (ui (exec [TypeName "Ann"; TypeEmail "ann@example.org"; TypePassword "pw";
                      Submit; Settle 0 (http_ok ann); Logout] (boot ∅))) =
      Some (SignedOut f) /\
    success_box f <> Some "Account created and logged in.".
Proof.
  exists (mkForm "" "" "" false "Create Account" None (Some "Logged out.")).
  split; [reflexivity|].
  apply (confirmation_never_shown ∅
           [TypeName "Ann"; TypeEmail "ann@example.org"; TypePassword "pw"; Submit;
            Settle 0 (http_ok ann); Logout]); [|reflexivity].
  repeat first [apply Forall_nil | apply Forall_cons; split]; try exact I.
  by intros d [= <-].
Defined.

Lemma one_account_at_a_time_witness :
  let m := exec [TypeName "Ann"; TypeEmail "ann@example.org"; TypePassword "pw"; Submit;
                 Submit] (boot ∅) in
  single_flight (fun s => loading (page s)) is_submit m /\
  Forall (fun r => exists n e p, n <> "" /\ e <> "" /\ p <> "" /\
            r = Request POST "/users/" VUndefined
                  (VObj [("name", VStr n); ("email", VStr e); ("password", VStr p)]))
         (sent m).
Proof. intros m. apply (one_account_at_a_time ∅), exec_reachable. Defined.

Lemma login_no_unhandled_witness :
  unhandled (exec [TypeName "Ann"; TypeEmail "ann@example.org"; TypePassword "pw"; Submit;
                   Settle 0 (http_error 409 (error_body "Email already registered"))]
               (boot ∅)) = [].
Proof. apply login_no_unhandled. repeat constructor. Defined.

Example created_without_user :
  let m := exec [TypeName "Ann"; TypeEmail "ann@example.org"; TypePassword "pw"; Submit;
                 Settle 0 (http_ok VNull)] (boot ∅) in
  stored_user (store (ui m)) = Some VNull /\
  render (ui m) =
    Some (SignedOut (mkForm "" "" "" false "Create Account" None
                       (Some "Account created and logged in."))).
Proof. by vm_compute. Qed.

End Login.
