(* ===== verification/Traffic.v ===== *)
(** * Traffic: the requests in flight of the pages

    The pages start requests and the network answers them.  This file
    measures that traffic on the models of the pages: how many requests
    a page can have in flight, how long the answers can go on once the
    user stops, and what the page shows when nothing is left in flight.

    - [owed] is the number of answers owed to the requests in flight, the
      sum of their ranks; [alone] says that two requests of one kind in
      flight are the same request.
    - For BookDetails.jsx, [rank] owes two answers to a booking (its own,
      and that of the fetch which [onBooked] starts when it is accepted)
      and one to every other request; [busy] says that each flag of the
      page has its request in flight; [answered] is a run of answers with
      no event of the user in between.
    - The bounds on the requests in flight of BookingForm.jsx,
      Login.jsx and AIPromptBox.jsx follow from their single-flight
      invariants; BookList.jsx has none. *)

From S2P Require Import Prelude JsValue Async Component Gateway BookingForm AIPromptBox BookDetails BookList Login.
Import BookDetails.

(** ** Measures *)

Section Measures.
Context {Req St : Type}.
Implicit Types (p : gmap nat (suspended Req St)).

(** The answers still owed to the requests in flight: the sum of their ranks. *)
Definition owed (rank : Req -> nat) p : nat :=
  sum_list ((fun iw => rank (request_of iw.2)) <$> map_to_list p).

(** Requests of which any two of the same kind are one: with one kind at
    most one is in flight, with two kinds at most two. *)
Definition alone (P : suspended Req St -> Prop) p : Prop :=
  forall i j w w', p !! i = Some w -> p !! j = Some w' -> P w -> P w' -> i = j.

(** The number of requests in flight. *)
Definition in_flight (m : machine Req St) : nat := size (pending m).

End Measures.

(** ** The traffic of the page of a book *)

(** The requests of the page, told apart by what is sent. *)
Definition is_fetch (r : request) : bool := bool_decide (meth r = GET).
Definition is_summary (r : request) : bool :=
  bool_decide (meth r = POST) && String.eqb (url r) "/books/summarize".
Definition is_create (r : request) : bool :=
  bool_decide (meth r = POST) && String.eqb (url r) "/bookings/".

(** A booking is owed two answers, its own and that of the fetch which
    follows when it is accepted; every other request one. *)
Definition rank (r : request) : nat := if is_create r then 2 else 1.

(** A request of a kind is in flight. *)
Definition awaited (test : request -> bool) (p : gmap nat (suspended request State)) : Prop :=
  exists i w, p !! i = Some w /\ test (request_of w) = true.

(** Each flag of the page has its request: the page shows "Loading…"
    only while a fetch is in flight, and "Summarizing…" only while a
    summary is. *)
Record busy (m : machine request State) : Prop := mkBusy {
  busy_loading : loading (ui m) = true -> awaited is_fetch (pending m);
  busy_summarizing : summarizing (ui m) = true -> awaited is_summary (pending m)
}.

(** A run of answers, each to a request that is in flight when it comes. *)
Inductive answered (u : value) :
    list (nat * outcome) -> machine request State -> machine request State -> Prop :=
| answered_nil m : answered u [] m m
| answered_cons i o os m m' :
    is_Some (pending m !! i) -> answered u os (fire u (Settle i o) m) m' ->
    answered u ((i, o) :: os) m m'.


(** ** Facts *)

(** *** The answers owed *)

Section OwedFacts.
Context {Req St : Type}.
Context (rank : Req -> nat).
Implicit Types (p : gmap nat (suspended Req St)) (m : machine Req St).

#[local] Abbreviation owed := (owed (St:=St) rank).

Lemma owed_empty : owed ∅ = 0.
Proof. unfold Traffic.owed. by rewrite map_to_list_empty. Qed.

Lemma owed_insert p i w :
  p !! i = None -> owed (<[i := w]> p) = rank (request_of w) + owed p.
Proof. intros H. unfold Traffic.owed. by rewrite (map_to_list_insert p i w H). Qed.

Lemma owed_delete p i w :
  p !! i = Some w -> rank (request_of w) + owed (delete i p) = owed p.
Proof.
  intros H. rewrite <- (insert_delete_id p i w H) at 2.
  by rewrite owed_insert by apply lookup_delete_eq.
Qed.

(** With every rank positive, nothing is owed only when nothing is in
    flight. *)
Lemma owed_zero p : (forall r, 0 < rank r) -> owed p = 0 -> p = ∅.
Proof.
  intros Hr. induction p as [|i w p Hi IH] using map_ind; [done|].
  rewrite owed_insert by done. specialize (Hr (request_of w)). lia.
Qed.

Lemma owed_size p : (forall r, 0 < rank r) -> size p <= owed p.
Proof.
  intros Hr. induction p as [|i w p Hi IH] using map_ind.
  - by rewrite map_size_empty.
  - rewrite map_size_insert_None, owed_insert by done. specialize (Hr (request_of w)). lia.
Qed.

End OwedFacts.

(** *** How many requests are in flight *)

Section BoundFacts.
Context {Req St : Type}.
Implicit Types (p : gmap nat (suspended Req St)) (w : suspended Req St).

Lemma size_two_kinds (P Q : suspended Req St -> Prop) p :
  (forall i w, p !! i = Some w -> P w \/ Q w) -> alone P p -> alone Q p -> size p <= 2.
Proof.
  intros Hk HP HQ. rewrite <- length_map_to_list.
  pose proof (NoDup_fst_map_to_list p) as Hnd.
  assert (Hin : forall i w, (i, w) ∈ map_to_list p -> p !! i = Some w)
    by (intros i w; apply elem_of_map_to_list).
  destruct (map_to_list p) as [|[i1 w1] [|[i2 w2] [|[i3 w3] l]]]; simpl; try lia.
  exfalso.
  pose proof (Hin i1 w1 ltac:(set_solver)) as H1.
  pose proof (Hin i2 w2 ltac:(set_solver)) as H2.
  pose proof (Hin i3 w3 ltac:(set_solver)) as H3.
  apply NoDup_cons in Hnd as [N1 Hnd]. apply NoDup_cons in Hnd as [N2 _].
  simpl in N1, N2.
  destruct (Hk _ _ H1), (Hk _ _ H2), (Hk _ _ H3);
    first [ assert (i1 = i2) by eauto | assert (i1 = i3) by eauto
          | assert (i2 = i3) by eauto ]; set_solver.
Qed.

Lemma size_one_kind (P : suspended Req St -> Prop) p :
  (forall i w, p !! i = Some w -> P w) -> alone P p -> size p <= 1.
Proof.
  intros Hk HP. rewrite <- length_map_to_list.
  pose proof (NoDup_fst_map_to_list p) as Hnd.
  assert (Hin : forall i w, (i, w) ∈ map_to_list p -> p !! i = Some w)
    by (intros i w; apply elem_of_map_to_list).
  destruct (map_to_list p) as [|[i1 w1] [|[i2 w2] l]]; simpl; try lia.
  exfalso.
  pose proof (Hin i1 w1 ltac:(set_solver)) as H1.
  pose proof (Hin i2 w2 ltac:(set_solver)) as H2.
  apply NoDup_cons in Hnd as [N1 _]. simpl in N1.
  assert (i1 = i2) by eauto. set_solver.
Qed.

End BoundFacts.

(** *** The requests of the page, by kind *)

Section KindFacts.
Implicit Types (c s : State) (w : suspended request State)
  (p : gmap nat (suspended request State)).

Lemma load_request w :
  is_load w -> is_fetch (request_of w) = true /\ is_summary (request_of w) = false /\
               is_create (request_of w) = false.
Proof.
  intros [c Hc]. destruct (run_load c c) as (w' & Hw & Hr & _).
  rewrite Hw in Hc. injection Hc as <-. by rewrite Hr.
Qed.

Lemma sum_request w :
  is_sum w -> is_fetch (request_of w) = false /\ is_summary (request_of w) = true /\
              is_create (request_of w) = false.
Proof.
  intros [c Hc].
  destruct (page_run_summarize c c (summarizing_of_truthy _ _ Hc)) as (w' & Hw & Hr & _).
  rewrite Hw in Hc. injection Hc as <-. by rewrite Hr.
Qed.

Lemma booking_request w :
  is_booking w -> is_fetch (request_of w) = false /\ is_summary (request_of w) = false /\
                  is_create (request_of w) = true.
Proof.
  intros [c Hc]. destruct (booking_of_form _ _ Hc) as (g & fs & Hf & Hu).
  destruct (run_submit c g fs c Hf Hu) as (w' & Hw & Hr & _).
  rewrite Hw in Hc. injection Hc as <-. by rewrite Hr.
Qed.

Lemma awaited_new test p n w : test (request_of w) = true -> awaited test (<[n := w]> p).
Proof. intros H. exists n, w. by rewrite lookup_insert_eq. Qed.

Lemma awaited_old test p n w : p !! n = None -> awaited test p -> awaited test (<[n := w]> p).
Proof.
  intros Hn (i & w' & Hi & Ht). exists i, w'. split; [|done].
  rewrite lookup_insert_ne; [done|]. by intros ->; rewrite Hn in Hi.
Qed.

Lemma awaited_delete test p j w :
  p !! j = Some w -> test (request_of w) = false -> awaited test p ->
  awaited test (delete j p).
Proof.
  intros Hj Hf (i & w' & Hi & Ht). exists i, w'. split; [|done].
  rewrite lookup_delete_ne; [done|]. intros ->. rewrite Hj in Hi. congruence.
Qed.

End KindFacts.

Section FlagFacts.
Context (storedUser : value).
Implicit Types (m : machine request State) (c s : State)
  (w : suspended request State).

#[local] Abbreviation commit := (commit storedUser).
#[local] Abbreviation fire := (fire storedUser).
#[local] Abbreviation boot := (boot storedUser).
#[local] Abbreviation step := (step storedUser).

Lemma commit_summarizing s : summarizing (commit s) = summarizing s.
Proof. unfold commit, BookDetails.commit. destruct (shows_book s); [|done]. by destruct (form s). Qed.

Lemma poke_form_summarizing g f s : summarizing (poke_form g f s) = summarizing s.
Proof. apply poke_form_page. Qed.

(** What an answer does to the two flags, by the kind of its request. *)
Lemma load_flags c w o s :
  loading_of c = Some w ->
  loading (after (run (resume w o) s)) = false /\
  summarizing (after (run (resume w o) s)) = summarizing s.
Proof.
  intros H. destruct o as [resp|e].
  - destruct (member resp "data") as [d|] eqn:Hd.
    + destruct (member d "ai_summary") as [a|] eqn:Ha.
      * by rewrite (resume_load_ok _ _ _ _ _ _ H Hd Ha).
      * by rewrite (resume_load_null _ _ _ _ _ H Hd Ha).
    + by rewrite (resume_load_malformed _ _ _ _ H Hd).
  - by rewrite (resume_load_rejected _ _ _ _ H).
Qed.

Lemma sum_flags c w o s :
  summarizing_of c = Some w ->
  loading (after (run (resume w o) s)) = loading s /\
  summarizing (after (run (resume w o) s)) = false.
Proof.
  intros H. destruct o as [resp|e].
  - destruct (member resp "data" ≫= (fun d => member d "summary")) as [x|] eqn:Hd.
    + destruct (member resp "data") as [d|] eqn:Hd1; [|done]. cbn in Hd.
      by rewrite (page_resume_sum_ok _ _ _ _ _ _ H Hd1 Hd).
    + by rewrite (page_resume_sum_malformed _ _ _ _ H Hd).
  - destruct (nullish e) eqn:He.
    + by rewrite (resume_sum_nullish _ _ _ _ H He).
    + by rewrite (page_resume_sum_rejected _ _ _ _ H He).
Qed.

Lemma booking_flags c w o s :
  booking_of c = Some w ->
  summarizing (after (run (resume w o) s)) = summarizing s /\
  (waiting (run (resume w o) s) = [] -> loading (after (run (resume w o) s)) = loading s).
Proof.
  intros H. destruct (booking_of_form _ _ H) as (g & fs & Hf & _).
  destruct o as [resp|e].
  - destruct (member resp "data") as [d|] eqn:Hd.
    + destruct (resume_booking_ok _ _ _ _ _ _ s H Hf Hd) as (wl & Hwl & ->).
      cbn [after waiting]. rewrite !poke_form_summarizing. cbn.
      by rewrite poke_form_summarizing.
    + rewrite (resume_booking_malformed _ _ _ _ _ s H Hf Hd). cbn [after waiting].
      by rewrite !poke_form_summarizing, !poke_form_loading.
  - destruct (nullish e) eqn:He.
    + rewrite (resume_booking_nullish _ _ _ _ _ s H Hf He). cbn [after waiting].
      by rewrite !poke_form_summarizing, !poke_form_loading.
    + rewrite (resume_booking_rejected _ _ _ _ _ s H Hf He). cbn [after waiting].
      by rewrite !poke_form_summarizing, !poke_form_loading.
Qed.

(** A handler that leaves one request waiting: the flags of the new
    state have their requests when each of them is either down, or has
    the new request, or was up before. *)
Lemma busy_sent m s' w n l u :
  machine_wf m -> busy m ->
  (loading s' = true -> is_fetch (request_of w) = true \/ loading (ui m) = true) ->
  (summarizing s' = true -> is_summary (request_of w) = true \/ summarizing (ui m) = true) ->
  busy (Machine (commit s') (<[next_id m := w]> (pending m)) n l u).
Proof.
  intros Hwf [Hl Hs] Hl' Hs'. pose proof (wf_fresh m (next_id m) Hwf (le_n _)) as Hn.
  split; simpl; rewrite ?commit_loading, ?commit_summarizing; intros H.
  - destruct (Hl' H); [by apply awaited_new|by apply awaited_old, Hl].
  - destruct (Hs' H); [by apply awaited_new|by apply awaited_old, Hs].
Qed.

(** A handler that leaves nothing waiting and raises no flag. *)
Lemma busy_quiet m s' n l u :
  busy m ->
  (loading s' = true -> loading (ui m) = true) ->
  (summarizing s' = true -> summarizing (ui m) = true) ->
  busy (Machine (commit s') (pending m) n l u).
Proof.
  intros [Hl Hs] Hl' Hs'.
  split; simpl; rewrite ?commit_loading, ?commit_summarizing; auto.
Qed.

End FlagFacts.

Section TrafficFacts.
Context (storedUser : value).
Implicit Types (m : machine request State) (c s : State)
  (w : suspended request State).

#[local] Abbreviation commit := (commit storedUser).
#[local] Abbreviation fire := (fire storedUser).
#[local] Abbreviation boot := (boot storedUser).
#[local] Abbreviation step := (step storedUser).

(** An answer, by what it leaves in flight: the request it answers is
    gone, and an accepted booking leaves the fetch of the book behind. *)
Lemma settle_cases m j o w :
  good m -> pending m !! j = Some w ->
  exists s' l u,
    (fire (Settle j o) m = Machine (commit s') (delete j (pending m)) (next_id m) l u /\
     (loading s' = true -> loading (ui m) = true /\ is_fetch (request_of w) = false) /\
     (summarizing s' = true ->
        summarizing (ui m) = true /\ is_summary (request_of w) = false)) \/
    (exists wl,
       fire (Settle j o) m =
         Machine (commit s') (<[next_id m := wl]> (delete j (pending m)))
                 (S (next_id m)) l u /\
       is_load wl /\ is_booking w /\ summarizing s' = summarizing (ui m)).
Proof.
  intros Hg Hj.
  destruct (good_pending _ Hg j w Hj) as [[c Hc]|[[c Hc]|[c Hc]]].
  - eexists _, _, _. left. destruct (resume_load_settles c w o (ui m) Hc) as (Hq & _).
    destruct (load_flags c w o (ui m) Hc) as [Hl Hs].
    rewrite (fire_settle_quiet _ m j w o Hj Hq).
    split; [reflexivity|]. rewrite Hl, Hs. split; [done|]. intros ->. split; [done|].
    apply load_request. by exists c.
  - eexists _, _, _. left. destruct (page_resume_sum_settles c w o (ui m) Hc) as (Hq & _).
    destruct (sum_flags c w o (ui m) Hc) as [Hl Hs].
    rewrite (fire_settle_quiet _ m j w o Hj Hq).
    split; [reflexivity|]. rewrite Hl, Hs. split; [|done]. intros ->. split; [done|].
    apply sum_request. by exists c.
  - destruct (booking_flags c w o (ui m) Hc) as [Hs Hl].
    destruct (resume_booking_settles c w o (ui m) Hc (proj2 (good_tidy _ Hg)))
      as (_ & _ & [(wl & Hwl & Hq & _)|(Hq & _)]).
    + eexists _, _, _. right. exists wl. rewrite (fire_settle_single _ m j w o wl Hj Hq).
      split; [reflexivity|]. split; [done|]. split; [by exists c|done].
    + eexists _, _, _. left. rewrite (fire_settle_quiet _ m j w o Hj Hq).
      split; [reflexivity|]. rewrite Hs, (Hl Hq).
      split; (intros ->; split; [done|]); apply booking_request; by exists c.
Qed.

(** *** Each flag has its request *)

Lemma busy_boot i : busy (boot i).
Proof.
  destruct (boot_fetches storedUser i) as (w & Hw & ->).
  split; simpl; [|done]. intros _. apply awaited_new, load_request. by exists (init i).
Qed.

Lemma busy_navigate i m : good m -> busy m -> busy (fire (Navigate i) m).
Proof.
  intros Hg Hb. unfold fire, BookDetails.fire. cbn. case_decide; [done|].
  destruct (run_load (setId i (ui m)) (ui (retype (setId i) m))) as (w & Hw & _ & Hrun).
  rewrite (invoke_single _ _ _ w) by (by rewrite Hrun). rewrite Hrun.
  apply (busy_sent storedUser m); [apply Hg|done|..]; cbn; [|by right].
  intros _. left. apply load_request. by eexists.
Qed.

Lemma busy_summarize m :
  good m -> busy m -> enabled ClickSummarize m = true -> busy (fire ClickSummarize m).
Proof.
  intros Hg Hb He. unfold fire, BookDetails.fire. rewrite He.
  apply page_enabled_summarize in He as (_ & _ & Ht).
  destruct (page_run_summarize (ui m) (ui m) Ht) as (w & Hw & _ & Hrun).
  rewrite (invoke_single _ _ _ w) by (by rewrite Hrun). rewrite Hrun.
  apply (busy_sent storedUser m); [apply Hg|done|..]; cbn; [by right|].
  intros _. left. apply sum_request. by eexists.
Qed.

Lemma busy_change v m : busy m -> busy (fire (FormChange v) m).
Proof.
  intros [Hl Hs]. unfold fire, BookDetails.fire.
  destruct (enabled (FormChange v) m); [|done].
  split; simpl; unfold change_form; by destruct (form (ui m)) as [[g fs]|].
Qed.

Lemma busy_submit m :
  good m -> busy m -> enabled FormSubmit m = true -> busy (fire FormSubmit m).
Proof.
  intros Hg Hb He. unfold fire, BookDetails.fire. rewrite He.
  apply page_enabled_submit in He as (g & fs & Hf & _).
  destruct (truthy (BookingForm.userId fs)) eqn:Hu.
  - destruct (run_submit (ui m) g fs (ui m) Hf Hu) as (w & Hw & _ & Hrun).
    rewrite (invoke_single _ _ _ w) by (by rewrite Hrun). rewrite Hrun.
    apply (busy_sent storedUser m); [apply Hg|done|..]; cbn [after];
      rewrite ?poke_form_loading, ?poke_form_summarizing; by right.
  - rewrite invoke_quiet; rewrite (run_submit_missing _ _ _ _ Hf Hu); [|done].
    apply (busy_quiet storedUser m); [done|..]; cbn [after];
      by rewrite ?poke_form_loading, ?poke_form_summarizing.
Qed.

Lemma busy_settle j o m :
  good m -> busy m -> enabled (Settle j o) m = true -> busy (fire (Settle j o) m).
Proof.
  intros Hg [Hl Hs] [w Hj]%bool_decide_eq_true.
  pose proof (wf_fresh m (next_id m) (good_wf _ Hg) (le_n _)) as Hn.
  destruct (settle_cases m j o w Hg Hj)
    as (s' & l & u & [(-> & Hl' & Hs')|(wl & -> & Hwl & Hw & Hs')]);
    split; simpl; rewrite ?commit_loading, ?commit_summarizing; intros H.
  - destruct (Hl' H). by eapply awaited_delete; eauto.
  - destruct (Hs' H). by eapply awaited_delete; eauto.
  - by apply awaited_new, load_request.
  - apply awaited_old; [by rewrite lookup_delete_ne by (intros ->; congruence)|].
    eapply awaited_delete; [done|by apply booking_request|]. apply Hs. congruence.
Qed.

Lemma busy_fire ev m : good m -> busy m -> busy (fire ev m).
Proof.
  intros Hg Hb. destruct (enabled ev m) eqn:He;
    [|by unfold fire, BookDetails.fire; rewrite He].
  destruct ev; auto using busy_navigate, busy_summarize, busy_change, busy_submit, busy_settle.
Qed.

Lemma reachable_busy i m : reachable step (boot i) m -> good m /\ busy m.
Proof.
  apply (reachable_ind_inv step (boot i) (fun m => good m /\ busy m));
    [split; [apply page_good_boot|apply busy_boot]|].
  intros s s' _ [Hg Hb] (ev & _ & ->). split; [by apply page_good_fire|by apply busy_fire].
Qed.

(** *** Every answer pays off a debt *)

Lemma rank_positive r : 0 < rank r.
Proof. unfold rank. case_match; lia. Qed.

Lemma settle_pays j o m :
  good m -> is_Some (pending m !! j) ->
  owed rank (pending (fire (Settle j o) m)) < owed rank (pending m).
Proof.
  intros Hg [w Hj].
  pose proof (wf_fresh m (next_id m) (good_wf _ Hg) (le_n _)) as Hn.
  pose proof (owed_delete rank _ j w Hj) as Hd. pose proof (rank_positive (request_of w)).
  destruct (settle_cases m j o w Hg Hj)
    as (s' & l & u & [(-> & _)|(wl & -> & Hwl & Hw & _)]); simpl; [lia|].
  rewrite owed_insert by (by rewrite lookup_delete_ne by (intros ->; congruence)).
  revert Hd. unfold rank.
  destruct (load_request wl Hwl) as (_ & _ & ->).
  destruct (booking_request w Hw) as (_ & _ & ->). lia.
Qed.

Lemma answered_good os m m' : good m -> answered storedUser os m m' -> good m'.
Proof. intros Hg H. induction H; [done|]. by apply IHanswered, page_good_fire. Qed.

Lemma answered_pays os m m' :
  good m -> answered storedUser os m m' ->
  length os + owed rank (pending m') <= owed rank (pending m).
Proof.
  intros Hg H. induction H as [|i o os m m' Hi _ IH]; [simpl; lia|].
  pose proof (settle_pays i o m Hg Hi). specialize (IH (page_good_fire _ _ _ Hg)).
  simpl. lia.
Qed.

Lemma owed_twice (p : gmap nat (suspended request State)) : owed rank p <= 2 * size p.
Proof.
  induction p as [|i w p Hi IH] using map_ind.
  - by rewrite owed_empty.
  - rewrite owed_insert, map_size_insert_None by done. unfold rank at 1. case_match; lia.
Qed.

End TrafficFacts.

Section RestFacts.
Context (storedUser : value).
Implicit Types (m : machine request State) (c s : State)
  (w : suspended request State).

#[local] Abbreviation fire := (fire storedUser).
#[local] Abbreviation boot := (boot storedUser).
#[local] Abbreviation step := (step storedUser).

Lemma answered_busy os m m' :
  good m -> busy m -> answered storedUser os m m' -> good m' /\ busy m'.
Proof.
  intros Hg Hb H. induction H as [|i o os m m' Hi _ IH]; [done|].
  apply IH; [by apply page_good_fire|]. apply busy_settle; [done..|].
  by apply bool_decide_eq_true.
Qed.

Lemma busy_rest m :
  busy m -> pending m = ∅ -> loading (ui m) = false /\ summarizing (ui m) = false.
Proof.
  intros [Hl Hs] He. split; apply not_true_is_false; intros H;
    [destruct (Hl H) as (i & w & Hi & _)|destruct (Hs H) as (i & w & Hi & _)];
    by rewrite He in Hi.
Qed.

(** Whatever the answers are, answering the requests in flight one after
    the other empties the network. *)
Lemma drains (reply : nat -> outcome) n m :
  good m -> owed rank (pending m) <= n ->
  exists os m', answered storedUser os m m' /\ pending m' = ∅ /\
                Forall (fun io => io.2 = reply io.1) os.
Proof.
  revert m. induction n as [|n IH]; intros m Hg Hn.
  - exists [], m. split_and!; [constructor| |constructor].
    apply (owed_zero rank); [apply rank_positive|lia].
  - destruct (map_choose_or_empty (pending m)) as [(i & w & Hi)|He];
      [|exists [], m; split_and!; [constructor|done|constructor]].
    pose proof (settle_pays storedUser i (reply i) m Hg (mk_is_Some _ _ Hi)).
    destruct (IH (fire (Settle i (reply i)) m)) as (os & m' & Ha & He & Hr);
      [by apply page_good_fire|lia|].
    exists ((i, reply i) :: os), m'. split_and!; [by constructor| done |by constructor].
Qed.

End RestFacts.

Section InFlight.

Lemma single_flight_alone {Req St} (flag : St -> bool) mine (m : machine Req St) :
  single_flight flag mine m -> alone mine (pending m).
Proof. by intros [H _]. Qed.

Lemma form_in_flight bookId u m :
  reachable (BookingForm.Harness.step bookId) (BookingForm.Harness.boot u) m ->
  size (pending m) <= 1.
Proof.
  intros [_ [[_ ->]|(_ & i & c & w & _ & ->)] _ _]%BookingForm.form_reachable_good.
  - rewrite map_size_empty. lia.
  - by rewrite map_size_singleton.
Qed.

Lemma prompt_in_flight m :
  reachable AIPromptBox.step AIPromptBox.boot m -> size (pending m) <= 2.
Proof.
  intros [_ Hr Hs Hp _]%AIPromptBox.prompt_reachable_good.
  eapply size_two_kinds; eauto using single_flight_alone.
Qed.

Lemma login_in_flight st m :
  reachable Login.step (Login.boot st) m -> size (pending m) <= 1.
Proof.
  intros [_ Hp Hf _]%Login.login_reachable_good.
  eapply size_one_kind; eauto using single_flight_alone.
Qed.

(** The bound of the prompt box is reached: a recommendation and a summary
    in flight together. *)
Lemma both_flows_in_flight :
  exists m, reachable AIPromptBox.step AIPromptBox.boot m /\ size (pending m) = 2.
Proof.
  exists (AIPromptBox.exec
            [AIPromptBox.TypeQuery "moors"; AIPromptBox.ClickRecommend;
             AIPromptBox.TypeText "t"; AIPromptBox.ClickSummarize] AIPromptBox.boot).
  split; [|by vm_compute].
  apply (@exec_reachable _ _ _ _ _ _ AIPromptBox.prompt_component).
Qed.

(** The list page has no such bound: each click on Search adds a request,
    and the page never stops taking clicks. *)
Lemma searches_pile_up n :
  let m := BookList.exec (replicate n BookList.Search) BookList.boot in
  BookList.good m /\ listable (BookList.books (ui m)) /\ size (pending m) = S n.
Proof.
  induction n as [|n (Hg & Hl & Hn)]; [split_and!; [apply BookList.list_good_boot|by exists []|done]|].
  cbn zeta. rewrite replicate_S_end. unfold BookList.exec. rewrite foldl_snoc.
  fold (BookList.exec (replicate n BookList.Search) BookList.boot).
  set (m := BookList.exec _ _) in *. cbn zeta in *.
  split_and!; [by apply BookList.list_good_run|by apply BookList.fire_listable|].
  destruct (BookList.fire_search m (BookList.listable_renders _ Hl)) as (w & _ & ->).
  cbn [pending]. rewrite map_size_insert_None, Hn; [done|].
  apply wf_fresh; [apply Hg|done].
Qed.

End InFlight.

(** ** Claims *)

Section Claims.
Context (storedUser : value).

#[local] Abbreviation fire := (fire storedUser).
#[local] Abbreviation boot := (boot storedUser).
#[local] Abbreviation step := (step storedUser).

(** C21. The answers to the page come to an end.  From a state the page can
    be in, a run of answers, each to a request in flight when it comes,
    is no longer than the answers owed there: two for a booking, whose
    acceptance sends the fetch of the book again, one for every other
    request.  So a run of answers with [n] requests in flight has at most
    [2 * n] steps, although an answer can send a request of its own. *)
Theorem answers_terminate i m os m' :
  reachable step (boot i) m -> answered storedUser os m m' ->
  length os + owed rank (pending m') <= owed rank (pending m) /\
  owed rank (pending m) <= 2 * size (pending m).
Proof.
  intros [Hg _]%reachable_busy Ha. split; [by eapply answered_pays|apply owed_twice].
Qed.

(** C20. The page comes to rest.  From every state the page can be in,
    answering the requests in flight one after the other, whatever the
    answers are, leads to a state with nothing in flight; and in every
    state reached by answers in which nothing is in flight, the page
    shows neither "Loading…" nor "Summarizing…". *)
Theorem page_comes_to_rest i m (reply : nat -> outcome) :
  reachable step (boot i) m ->
  (exists os m', answered storedUser os m m' /\ pending m' = ∅ /\
                 Forall (fun io => io.2 = reply io.1) os) /\
  (forall os m', answered storedUser os m m' -> pending m' = ∅ ->
                 loading (ui m') = false /\ summarizing (ui m') = false /\
                 render (ui m') <> Loading).
Proof.
  intros [Hg Hb]%reachable_busy. split; [by eapply drains|].
  intros os m' Ha He. destruct (answered_busy _ _ _ _ Hg Hb Ha) as [_ Hb'].
  destruct (busy_rest _ Hb' He) as [Hl Hs]. split_and!; [done..|].
  unfold render. by rewrite Hl; repeat case_match.
Qed.

End Claims.

(** C22. The requests in flight are bounded where the buttons are disabled
    while a request is in flight, and only there: the booking form and the
    login form have at most one, the prompt box at most two (one of each
    flow, and both can be in flight together), and the list of books, whose Search button is never disabled,
    has as many as the user clicked. *)
Theorem in_flight_bounded :
  (forall bookId u m,
     reachable (BookingForm.Harness.step bookId) (BookingForm.Harness.boot u) m ->
     in_flight m <= 1) /\
  (forall st m, reachable Login.step (Login.boot st) m -> in_flight m <= 1) /\
  (forall m, reachable AIPromptBox.step AIPromptBox.boot m -> in_flight m <= 2) /\
  (exists m, reachable AIPromptBox.step AIPromptBox.boot m /\ in_flight m = 2) /\
  (forall n, exists m, reachable BookList.step BookList.boot m /\ in_flight m = S n).
Proof.
  split_and!; [apply form_in_flight|apply login_in_flight|apply prompt_in_flight
              |apply both_flows_in_flight|].
  intros n. eexists. split; [apply (@exec_reachable _ _ _ _ _ _ BookList.list_component BookList.boot
                           (replicate n BookList.Search))|].
  apply searches_pile_up.
Qed.

#[local] Abbreviation u5 := BookingForm.user5.

Lemma answers_terminate_witness :
  let m := exec u5 [Settle 0 (http_ok (hound 3 VNull)); FormSubmit] (boot u5 "12") in
  let os := [(1, http_ok (VObj [("id", VNum 1)])); (2, http_ok (hound 2 VNull))] in
  let m' := exec u5 [Settle 1 (http_ok (VObj [("id", VNum 1)]));
                     Settle 2 (http_ok (hound 2 VNull))] m in
  length os + owed rank (pending m') <= owed rank (pending m) /\
  owed rank (pending m) <= 2 * size (pending m).
Proof.
  intros m os m'. apply (answers_terminate u5 "12"); [apply exec_reachable|].
  repeat (apply answered_cons; [by vm_compute; eexists|]). apply answered_nil.
Defined.

Lemma page_comes_to_rest_witness :
  let m := exec u5 [Settle 0 (http_ok (hound 3 VNull)); FormSubmit] (boot u5 "12") in
  (exists os m', answered u5 os m m' /\ pending m' = ∅ /\
                 Forall (fun io => io.2 = network_error) os) /\
  (forall os m', answered u5 os m m' -> pending m' = ∅ ->
                 loading (ui m') = false /\ summarizing (ui m') = false /\
                 render (ui m') <> Loading).
Proof.
  intros m. apply (page_comes_to_rest u5 "12" m (fun _ => network_error)), exec_reachable.
Defined.
