(* ===== verification/System.v ===== *)
(** * The client and the server together

    A page of the client and the server of [Server], closed into one
    transition system: the user acts on the page, the server answers
    the requests in flight in any order, a request or its answer can be
    lost, and other clients use the server in between.

    - [world] is a page with its requests in flight and the state of the
      server; [act] is one step of it and [perform] a sequence of steps.  The
      system is generic in the page: it takes the [fire] of a component,
      the event that delivers an answer, and which events are the
      user's.
    - What the page sees of a world is a run of its own in which every
      answer is one the server gives or the failure of the network
      ([perform_produced]): what is proved of a page for any network holds
      in the world, and the hypotheses on the answers under which a
      page is safe are discharged by the server ([no_page_fails]). *)

From S2P Require Import Prelude JsValue Json Async Component Gateway Server BookingForm AIPromptBox BookDetails BookList MyBookings Login.

(** ** A page and the server *)

Section World.
Context {St Ev : Type}.
(** The reaction of the page to an event, the event of an answer, and
    which events are the user's. *)
Context {fire : Ev -> machine request St -> machine request St}.
Context (settle : nat -> outcome -> Ev) (by_user : Ev -> bool).
Context (ai : Server.Oracle).

Record world : Type := World {
  client : machine request St;
  server : Server.State
}.

Inductive move : Type :=
| User (ev : Ev)              (* a click, a key, a change of the route *)
| Answer (i : nat)            (* the server handles request [i]; its answer arrives *)
| Lose (i : nat)              (* request [i] does not reach the server *)
| Drop (i : nat)              (* the server handles request [i]; the answer is lost *)
| Elsewhere (r : request).    (* another client of the server *)

(** The request in flight under an id. *)
Definition in_transit (i : nat) (w : world) : option request :=
  request_of <$> pending (client w) !! i.

Definition act (a : move) (w : world) : world :=
  match a with
  | User ev => if by_user ev then World (fire ev (client w)) (server w) else w
  | Answer i =>
      match in_transit i w with
      | Some r =>
          World (fire (settle i (Server.handle ai r (server w)).1) (client w))
                (Server.handle ai r (server w)).2
      | None => w
      end
  | Lose i =>
      match in_transit i w with
      | Some _ => World (fire (settle i network_error) (client w)) (server w)
      | None => w
      end
  | Drop i =>
      match in_transit i w with
      | Some r =>
          World (fire (settle i network_error) (client w))
                (Server.handle ai r (server w)).2
      | None => w
      end
  | Elsewhere r => World (client w) (Server.handle ai r (server w)).2
  end.

Definition perform (acts : list move) (w : world) : world :=
  foldl (fun w a => act a w) w acts.

(** The events of the page that a world can produce: those of the user,
    and the answers within [P]. *)
Definition produced (P : outcome -> Prop) (ev : Ev) : Prop :=
  by_user ev = true \/ exists i o, ev = settle i o /\ P o.

End World.

(** ** The pages in a world *)

(** Which events of a page are the user's: all but the answers. *)
Definition page_user (ev : BookDetails.event) : bool :=
  match ev with
  | BookDetails.Settle _ _ => false
  | _ => true
  end.

Definition form_user (ev : BookingForm.Harness.event) : bool :=
  match ev with
  | BookingForm.Harness.Settle _ _ => false
  | _ => true
  end.

Definition prompt_user (ev : AIPromptBox.event) : bool :=
  match ev with
  | AIPromptBox.Settle _ _ => false
  | _ => true
  end.

Definition list_user (ev : BookList.event) : bool :=
  match ev with
  | BookList.Settle _ _ => false
  | _ => true
  end.

Definition bookings_user (ev : MyBookings.event) : bool :=
  match ev with
  | MyBookings.Settle _ _ => false
  | _ => true
  end.

Definition login_user (ev : Login.event) : bool :=
  match ev with
  | Login.Settle _ _ => false
  | _ => true
  end.

(** What every answer of this world is: an outcome of axios whose list,
    when it has one, can be rendered. *)
Definition polite (o : outcome) : Prop := axios_outcome o /\ listing o.

(** ** Facts *)

(** *** The world and the page *)

Section WorldFacts.
Context {St Ev : Type}.
Context {enabled : Ev -> machine request St -> bool}.
Context {fire : Ev -> machine request St -> machine request St}.
Context {step : machine request St -> machine request St -> Prop}.
Context `{!Component enabled fire step}.
Context (settle : nat -> outcome -> Ev) (by_user : Ev -> bool).
Context (ai : Server.Oracle).
Implicit Types (w : @world St) (a : @move Ev) (acts : list (@move Ev)).

#[local] Abbreviation act := (act (fire:=fire) settle by_user ai).
#[local] Abbreviation perform := (perform (fire:=fire) settle by_user ai).
#[local] Abbreviation produced := (produced settle by_user).

Lemma perform_snoc acts a w : perform (acts ++ [a]) w = act a (perform acts w).
Proof. unfold System.perform. by rewrite foldl_snoc. Qed.

(** The server stays well formed. *)
Lemma act_wf a w : Server.wf (server w) -> Server.wf (server (act a w)).
Proof.
  intros H. destruct a as [ev|i|i|i|r]; simpl;
    [by destruct (by_user ev)|destruct (in_transit i w); simpl..|];
    auto using Server.handle_wf.
Qed.

Lemma perform_wf acts w : Server.wf (server w) -> Server.wf (server (perform acts w)).
Proof.
  intros H. induction acts as [|a acts IH] using rev_ind; [done|].
  rewrite perform_snoc. by apply act_wf.
Qed.

(** What the page sees of a world is a run of its own, whose answers
    are those of the server or the failure of the network. *)
Lemma act_produced (P : outcome -> Prop) a w :
  (forall r s, P (Server.handle ai r s).1) -> P network_error ->
  client (act a w) = client w \/
  exists ev, produced P ev /\ client (act a w) = fire ev (client w).
Proof.
  intros Hs Hn. destruct a as [ev|i|i|i|r]; simpl.
  - destruct (by_user ev) eqn:E; [|by left]. right. exists ev. split; [by left|done].
  - destruct (in_transit i w); [|by left]. right. eexists. split; [right|done]. eauto.
  - destruct (in_transit i w); [|by left]. right. eexists. split; [right|done]. eauto.
  - destruct (in_transit i w); [|by left]. right. eexists. split; [right|done]. eauto.
  - by left.
Qed.

Lemma perform_produced (P : outcome -> Prop) acts w :
  (forall r s, P (Server.handle ai r s).1) -> P network_error ->
  exists evs, Forall (produced P) evs /\
    client (perform acts w) = foldl (fun m ev => fire ev m) (client w) evs.
Proof.
  intros Hs Hn. induction acts as [|a acts (evs & Hevs & IH)] using rev_ind;
    [by exists []|].
  rewrite perform_snoc.
  destruct (act_produced P a (perform acts w) Hs Hn) as [->|(ev & Hev & ->)]; [eauto|].
  exists (evs ++ [ev]). split; [apply Forall_app; auto|]. by rewrite foldl_snoc, IH.
Qed.

(** In particular the page is in a state it can reach with a network
    that answers anything. *)
Lemma perform_reachable acts w : reachable step (client w) (client (perform acts w)).
Proof.
  destruct (perform_produced (fun _ => True) acts w) as (evs & _ & ->); [done..|].
  apply exec_reachable.
Qed.

Lemma handle_polite r s : polite (Server.handle ai r s).1.
Proof. split; [apply Server.handle_axios|apply Server.handle_listing]. Qed.

Lemma network_error_polite : polite network_error.
Proof. done. Qed.

(** What every event of a polite network keeps, the world keeps. *)
Lemma perform_invariant (I : machine request St -> Prop) acts w :
  (forall ev m, produced polite ev -> I m -> I (fire ev m)) ->
  I (client w) -> I (client (perform acts w)).
Proof.
  intros Hf Hw.
  destruct (perform_produced polite acts w)
    as (evs & Hevs & ->); [apply handle_polite|apply network_error_polite|].
  by apply (foldl_invariant _ I (produced polite)); [intros m ev; apply Hf|..].
Qed.

(** No rejection is left unhandled by a page whose handlers catch what
    axios delivers. *)
Lemma perform_unhandled (ok : Ev -> Prop) acts w :
  (forall ev, produced polite ev -> ok ev) ->
  (forall ev m, ok ev -> machine_safe axios_outcome m ->
                machine_safe axios_outcome (fire ev m)) ->
  machine_safe axios_outcome (client w) ->
  unhandled (client (perform acts w)) = [].
Proof.
  intros Hok Hf Hw.
  by destruct (perform_invariant (machine_safe axios_outcome) acts w); [eauto|..].
Qed.

End WorldFacts.

(** *** Every page against the server *)

Section Pages.
Context (ai : Server.Oracle).

Lemma page_produced_axios ev :
  produced BookDetails.Settle page_user polite ev -> BookDetails.axios_event ev.
Proof. intros [H|(i & o & -> & [Ho _])]; [by destruct ev|done]. Qed.

Lemma form_produced_axios ev :
  produced BookingForm.Harness.Settle form_user polite ev -> BookingForm.Harness.axios_event ev.
Proof. intros [H|(i & o & -> & [Ho _])]; [by destruct ev|done]. Qed.

Lemma prompt_produced_axios ev :
  produced AIPromptBox.Settle prompt_user polite ev -> AIPromptBox.axios_event ev.
Proof. intros [H|(i & o & -> & [Ho _])]; [by destruct ev|done]. Qed.

Lemma login_produced_axios ev :
  produced Login.Settle login_user polite ev -> Login.axios_event ev.
Proof. intros [H|(i & o & -> & [Ho _])]; [by destruct ev|done]. Qed.

Lemma list_produced ev :
  produced BookList.Settle list_user polite ev ->
  BookList.axios_event ev /\ BookList.listing_event ev.
Proof. intros [H|(i & o & -> & [Ho Hl])]; [by destruct ev|done]. Qed.

Lemma bookings_produced ev :
  produced MyBookings.Settle bookings_user polite ev ->
  MyBookings.axios_event ev /\ MyBookings.listing_event ev.
Proof. intros [H|(i & o & -> & [Ho Hl])]; [by destruct ev|done]. Qed.

Lemma list_world_good acts sv :
  let m := client (perform (fire:=BookList.fire) BookList.Settle list_user ai acts
                     (World BookList.boot sv)) in
  (BookList.good m /\ listable (BookList.books (ui m))) /\ machine_safe axios_outcome m.
Proof.
  apply (perform_invariant BookList.Settle list_user ai
           (fun m => (BookList.good m /\ listable (BookList.books (ui m))) /\
                     machine_safe axios_outcome m)).
  - intros ev m [Ha Hl]%list_produced [[Hg Hb] Hs]. split_and!.
    + by apply BookList.list_good_run.
    + by apply BookList.fire_listable.
    + by apply BookList.list_fire_safe.
  - split_and!; [apply BookList.list_good_boot|by exists []|].
    apply invoke_safe; [apply BookList.load_list_guarded|apply boot_safe].
Qed.

Lemma bookings_world_good u acts sv :
  let m := client (perform (fire:=MyBookings.fire) MyBookings.Settle bookings_user ai acts
                     (World (MyBookings.boot u) sv)) in
  (MyBookings.good m /\ listable (MyBookings.items (ui m))) /\ machine_safe axios_outcome m.
Proof.
  apply (perform_invariant MyBookings.Settle bookings_user ai
           (fun m => (MyBookings.good m /\ listable (MyBookings.items (ui m))) /\
                     machine_safe axios_outcome m)).
  - intros ev m [Ha Hl]%bookings_produced [[Hg Hb] Hs]. split_and!.
    + by apply MyBookings.bookings_good_run.
    + by apply MyBookings.fire_bookings_listable.
    + by apply MyBookings.bookings_fire_safe.
  - split_and!; [apply MyBookings.bookings_good_boot| |apply MyBookings.bookings_boot_safe].
    exists []. destruct (truthy (opt_get u "id")) eqn:H.
    + by destruct (MyBookings.boot_signed_in u H) as (w & _ & ->).
    + by rewrite (MyBookings.boot_anonymous u H).
Qed.

(** C17. Against this server no page fails.  Whatever the user does,
    in whatever order the server answers, whichever requests or answers
    are lost and whatever other clients do in between: no handler of the
    book page, of the booking form, of the prompt box or of the Login
    page leaves a rejection unhandled, and the list of books and the
    list of bookings, in addition, render in every state.  The
    hypotheses on the network under which these properties are proved
    for the pages alone are met by the server. *)
Theorem no_page_fails :
  (forall u i acts sv,
     unhandled (client (perform (fire:=BookDetails.fire u) BookDetails.Settle page_user ai acts
                          (World (BookDetails.boot u i) sv))) = []) /\
  (forall bookId u acts sv,
     unhandled (client (perform (fire:=BookingForm.Harness.fire bookId)
                          BookingForm.Harness.Settle form_user ai acts
                          (World (BookingForm.Harness.boot u) sv))) = []) /\
  (forall acts sv,
     unhandled (client (perform (fire:=AIPromptBox.fire) AIPromptBox.Settle prompt_user ai acts
                          (World AIPromptBox.boot sv))) = []) /\
  (forall st acts sv,
     unhandled (client (perform (fire:=Login.fire) Login.Settle login_user ai acts
                          (World (Login.boot st) sv))) = []) /\
  (forall acts sv,
     let m := client (perform (fire:=BookList.fire) BookList.Settle list_user ai acts
                        (World BookList.boot sv)) in
     unhandled m = [] /\ is_Some (BookList.render (ui m))) /\
  (forall u acts sv,
     let m := client (perform (fire:=MyBookings.fire) MyBookings.Settle bookings_user ai acts
                        (World (MyBookings.boot u) sv)) in
     unhandled m = [] /\ is_Some (MyBookings.render (ui m))).
Proof.
  split_and!; intros.
  - eapply perform_unhandled;
      eauto using page_produced_axios, BookDetails.page_fire_safe, BookDetails.boot_page_safe.
  - eapply perform_unhandled;
      eauto using form_produced_axios, BookingForm.form_fire_safe, boot_safe.
  - eapply perform_unhandled;
      eauto using prompt_produced_axios, AIPromptBox.prompt_fire_safe, boot_safe.
  - eapply perform_unhandled;
      eauto using login_produced_axios, Login.login_fire_safe, boot_safe.
  - destruct (list_world_good acts sv) as [[_ Hb] [Hu _]].
    split; [done|by apply BookList.listable_renders].
  - destruct (bookings_world_good u acts sv) as [[_ Hb] [Hu _]].
    split; [done|by apply MyBookings.bookings_render].
Qed.

End Pages.
