(* ===== verification/Inventory.v ===== *)
(** * The inventory, from the click to the server and back

    The page of a book in a world with the server ([System]): what a
    booking and a summary do to the inventory of the server and to what
    the page shows.

    - [after_booking] and [after_summary] are the states of the server
      after an accepted booking and after a summary; [from_server] says where the
      snapshot of a page comes from and [sound] is the invariant of the
      world of the page.
    - The booking is followed step by step: the click ([fire_submit_machine]),
      the answer of the server and what the form makes of it
      ([submit_accepted], [submit_refused]), and the fetch that follows
      an acceptance ([booking_takes_a_copy]).
    - The examples run on a small library: one reader, one book with
      three copies. *)

From S2P Require Import Prelude JsValue Json Async Component Gateway Server BookingForm BookDetails Traffic System.
Import BookDetails.

(** ** Definitions *)

(** A run of the page of a book against the server. *)
Definition browse (storedUser : value) (ai : Server.Oracle) (acts : list move)
    (w : @world State) : @world State :=
  perform (fire:=fire storedUser) Settle page_user ai acts w.

(** The state of the server after an accepted booking. *)
Definition after_booking (u n : Z) (b : Server.Book) (sv : Server.State) : Server.State :=
  Server.mkState (<[n := Server.take_copy b]> (Server.books sv)) (Server.users sv)
    (Server.bookings sv ++
       [Server.mkBooking (Z.of_nat (length (Server.bookings sv)) + 1) u n
          Server.active (Server.now sv)])
    (Server.next_book sv) (Server.next_user sv) (Server.now sv).

(** The state of the server after a summary of book [n]. *)
Definition after_summary (ai : Server.Oracle) (n : Z) (b : Server.Book) (t : string)
    (sv : Server.State) : Server.State :=
  if Server.persists ai then
    Server.mkState (<[n := Server.set_ai_summary (Server.generate ai t) b]> (Server.books sv))
      (Server.users sv) (Server.bookings sv) (Server.next_book sv) (Server.next_user sv)
      (Server.now sv)
  else sv.

(** A snapshot as the server sends it to the page of a book: nothing
    yet, a book with its copies within bounds, or, for the path without
    an id, the list of the catalogue. *)
Definition from_server (v : value) : Prop :=
  v = VNull \/ (exists n b, v = Server.book_json n b /\ Server.stocked b) \/
  exists l, v = Server.items l.

(** The world of the page in order: the inventory is consistent, the
    page is in one of its good states, and its snapshot came from the
    server. *)
Definition sound (w : @world State) : Prop :=
  Server.wf (server w) /\ good (client w) /\ from_server (book (ui (client w))).

(** A server for the examples: one reader, one book with three copies,
    a text model that always writes the same. *)
Definition plain : Server.Oracle :=
  Server.mkOracle (fun _ => "<generated>") (fun _ _ => None) (fun _ _ => true) false.

Definition reader : Server.User := Server.mkUser "Ann" "ann@example.org" "secret".

Definition volume (copies : Z) : Server.Book :=
  Server.mkBook "The Hound of the Baskervilles" "Arthur Conan Doyle" None
    (Some "A detective story.") None 3 copies.

Definition library : Server.State :=
  Server.mkState {[12%Z := volume 3]} {[5%Z := reader]} [] 13 6 0.

(** The library after the reader booked all three copies. *)
Definition emptied : Server.State :=
  after_booking 5 12 (volume 1)
    (after_booking 5 12 (volume 2) (after_booking 5 12 (volume 3) library)).

(** ** Facts *)

(** *** The booking, step by step *)

Section BookingSteps.
Context (storedUser : value).
Implicit Types (m : machine request State) (c s : State)
  (w : suspended request State).

#[local] Abbreviation commit := (commit storedUser).
#[local] Abbreviation fire := (fire storedUser).

(** The submission, as a machine. *)
Lemma fire_submit_machine m g fs :
  form (ui m) = Some (g, fs) -> BookingForm.loading fs = false ->
  truthy (BookingForm.userId fs) = true ->
  exists wk s', booking_of (ui m) = Some wk /\
    request_of wk =
      createBooking (BookingForm.payload (VStr (id (ui m))) (BookingForm.userId fs)) /\
    fire FormSubmit m =
      Machine (commit s') (<[next_id m := wk]> (pending m)) (S (next_id m))
              (sent m ++ [request_of wk]) (unhandled m) /\
    s' = poke_form g (BookingForm.setLoading true)
           (poke_form g (BookingForm.setSuccess "")
              (poke_form g (BookingForm.setError (VStr "")) (ui m))) /\
    error s' = error (ui m) /\ book s' = book (ui m) /\ id s' = id (ui m).
Proof.
  intros Hf Hl Hu. unfold fire, BookDetails.fire, enabled. rewrite Hf. cbn.
  rewrite Hl. cbn.
  destruct (run_submit (ui m) g fs (ui m) Hf Hu) as (wk & Hk & Hr & Hrun).
  exists wk. eexists. split_and!; [done|done| |reflexivity|..].
  - rewrite (invoke_single _ _ _ wk) by (by rewrite Hrun). by rewrite Hrun, app_nil_r.
  - by rewrite !poke_form_error.
  - by rewrite !poke_form_book.
  - by rewrite !poke_form_id.
Qed.

(** The acceptance: the form is unmounted and the book is fetched
    again. *)
Lemma fire_accepted m i c wk g fs resp data :
  pending m !! i = Some wk -> booking_of c = Some wk -> form c = Some (g, fs) ->
  member resp "data" = Some data ->
  exists wl s', loading_of c = Some wl /\
    fire (Settle i (Resolved resp)) m =
      Machine s' (<[next_id m := wl]> (delete i (pending m))) (S (next_id m))
              (sent m ++ [getBook (VStr (id c))]) (unhandled m) /\
    form s' = None /\ error s' = error (ui m) /\ id s' = id (ui m).
Proof.
  intros Hi Hc Hf Hd.
  destruct (resume_booking_ok c wk g fs resp data (ui m) Hc Hf Hd) as (wl & Hwl & Hrun).
  destruct (run_load c c) as (wl' & Hwl' & Hreq & _).
  rewrite Hwl in Hwl'. injection Hwl' as <-.
  exists wl. eexists. split; [done|]. split.
  - rewrite (fire_settle_single _ m i wk _ wl Hi) by (by rewrite Hrun).
    by rewrite Hrun, Hreq, app_nil_r.
  - cbn [after]. set (s1 := poke_form g _ (setLoading true _)).
    assert (Hl : loading s1 = true) by (unfold s1; by rewrite poke_form_loading).
    unfold commit, BookDetails.commit. rewrite (loading_hides s1 Hl).
    unfold s1. cbn [form error id setForm]. rewrite poke_form_error, poke_form_id.
    cbn [error id setLoading]. by rewrite poke_form_error, poke_form_id.
Qed.

(** The form after the submission: it is the one that submitted, with
    its messages cleared and its button disabled. *)
Lemma submitted_form m g fs :
  good m -> form (ui m) = Some (g, fs) ->
  let s' := poke_form g (BookingForm.setLoading true)
              (poke_form g (BookingForm.setSuccess "")
                 (poke_form g (BookingForm.setError (VStr "")) (ui m))) in
  commit s' = s' /\
  form s' = Some (g, BookingForm.setLoading true
                       (BookingForm.setSuccess "" (BookingForm.setError (VStr "") fs))).
Proof.
  intros Hg Hf s'.
  assert (Hform : form s' = Some (g, BookingForm.setLoading true
                       (BookingForm.setSuccess "" (BookingForm.setError (VStr "") fs)))).
  { unfold s'. rewrite !poke_form_form, Hf. by rewrite !decide_True. }
  split; [|done]. unfold commit, BookDetails.commit.
  assert (Hs : shows_book s' = true).
  { unfold s'. rewrite !poke_form_shows. apply (good_tidy _ Hg). by rewrite Hf. }
  by rewrite Hs, Hform.
Qed.

(** The refusal: the form shows the message of the server, and nothing
    is sent. *)
Lemma fire_refused m i c wk g fs fs' code msg :
  pending m !! i = Some wk -> booking_of c = Some wk -> form c = Some (g, fs) ->
  form (ui m) = Some (g, fs') -> shows_book (ui m) = true -> msg <> "" ->
  fire (Settle i (http_error code (error_body msg))) m =
    Machine (setForm (Some (g, BookingForm.setLoading false
                                 (BookingForm.setError (VStr msg) fs'))) (ui m))
            (delete i (pending m)) (next_id m) (sent m) (unhandled m).
Proof.
  intros Hi Hc Hf Hf' Hs Hmsg.
  pose proof (resume_booking_rejected c wk g fs (failure code (error_body msg)) (ui m)
                Hc Hf eq_refl) as Hrun.
  unfold http_error. rewrite (fire_settle_quiet _ m i wk _ Hi) by (by rewrite Hrun).
  rewrite Hrun, message_of_failure by done. cbn [after uncaught]. rewrite app_nil_r.
  f_equal. set (s1 := poke_form g _ (poke_form g _ _)).
  assert (Hform : form s1 = Some (g, BookingForm.setLoading false
                                       (BookingForm.setError (VStr msg) fs'))).
  { unfold s1. rewrite !poke_form_form, Hf'. by rewrite !decide_True. }
  unfold commit, BookDetails.commit.
  assert (Hs1 : shows_book s1 = true) by (unfold s1; by rewrite !poke_form_shows).
  rewrite Hs1, Hform. unfold s1, poke_form at 1.
  rewrite poke_form_form, Hf', !decide_True by done.
  unfold poke_form. rewrite Hf', decide_True by done. by destruct (ui m).
Qed.

End BookingSteps.

Section BookPage.
Context (storedUser : value) (ai : Server.Oracle).
Implicit Types (m : machine request State) (c s : State)
  (k : suspended request State) (sv : Server.State).

#[local] Abbreviation fire := (fire storedUser).
#[local] Abbreviation boot := (boot storedUser).
#[local] Abbreviation step := (step storedUser).
#[local] Abbreviation act := (act (fire:=fire) Settle page_user ai).
#[local] Abbreviation perform := (perform (fire:=fire) Settle page_user ai).

Lemma shows_book_no_error s : shows_book s = true -> truthy (error s) = false.
Proof.
  unfold shows_book, render. destruct (loading s); [done|].
  by destruct (truthy (error s)).
Qed.

(** A mounted form is on a page without an error. *)
Lemma mounted_no_error m g fs :
  good m -> form (ui m) = Some (g, fs) -> truthy (error (ui m)) = false.
Proof.
  intros Hg Hf. apply shows_book_no_error, (good_tidy _ Hg). by rewrite Hf.
Qed.

(** An answer of the server to the request in flight under [i]. *)
Lemma act_answer i m sv k :
  pending m !! i = Some k ->
  act (Answer i) (World m sv) =
    World (fire (Settle i (Server.handle ai (request_of k) sv).1) m)
          (Server.handle ai (request_of k) sv).2.
Proof. intros H. unfold System.act, in_transit. cbn [client server]. by rewrite H. Qed.

(** The booking of user [u] for book [n], as the form of the page of
    book [n] sends it. *)
Lemma booking_payload n uid u :
  Number_ uid = VNum u ->
  BookingForm.payload (VStr (string_of_Z n)) uid =
    VObj [("user_id", VNum u); ("book_id", VNum n)].
Proof.
  intros Hu. unfold BookingForm.payload. rewrite Hu. cbn [Number_].
  by rewrite StringToNumber_of_Z.
Qed.

Lemma handle_booking r u n sv :
  Server.safe_int u -> Server.safe_int n ->
  r = createBooking (VObj [("user_id", VNum u); ("book_id", VNum n)]) ->
  Server.handle ai r sv =
    Server.post_booking (VObj [("user_id", VNum u); ("book_id", VNum n)]) sv.
Proof. intros Hu Hn ->. unfold Server.handle. by rewrite Server.route_createBooking. Qed.

Lemma handle_getBook r n sv :
  r = getBook (VStr (string_of_Z n)) -> Server.handle ai r sv = Server.get_book n sv.
Proof. intros ->. unfold Server.handle. by rewrite Server.route_getBook. Qed.

End BookPage.

Section BookingClaims.
Context (storedUser : value) (ai : Server.Oracle).
Implicit Types (m : machine request State) (c s : State)
  (k : suspended request State) (sv : Server.State).

#[local] Abbreviation fire := (fire storedUser).
#[local] Abbreviation boot := (boot storedUser).
#[local] Abbreviation step := (step storedUser).
#[local] Abbreviation act := (act (fire:=fire) Settle page_user ai).
#[local] Abbreviation perform := (perform (fire:=fire) Settle page_user ai).

(** The submission and the answer to it, when the server accepts. *)
Lemma submit_accepted m sv g fs u n usr b :
  good m -> form (ui m) = Some (g, fs) -> BookingForm.loading fs = false ->
  truthy (BookingForm.userId fs) = true -> Number_ (BookingForm.userId fs) = VNum u ->
  id (ui m) = string_of_Z n -> Server.safe_int u -> Server.safe_int n ->
  Server.users sv !! u = Some usr -> Server.books sv !! n = Some b ->
  (0 < Server.available_copies b)%Z ->
  exists wl s',
    perform [User FormSubmit; Answer (next_id m)] (World m sv) =
      World (Machine s' (<[S (next_id m) := wl]> (pending m)) (S (S (next_id m)))
               (sent m ++ [createBooking (VObj [("user_id", VNum u); ("book_id", VNum n)]);
                           getBook (VStr (string_of_Z n))])
               (unhandled m))
            (after_booking u n b sv) /\
    loading_of (ui m) = Some wl /\
    form s' = None /\ truthy (error s') = false /\ id s' = string_of_Z n.
Proof.
  intros Hg Hf Hl Ht Hu Hid Hsu Hsn Husr Hb Hpos.
  pose proof (wf_fresh m (next_id m) (good_wf _ Hg) (le_n _)) as Hfresh.
  destruct (fire_submit_machine storedUser m g fs Hf Hl Ht)
    as (wk & s1 & Hk & Hr & Hm1 & _ & He1 & _ & Hi1).
  rewrite Hid, (booking_payload n _ u Hu) in Hr.
  unfold System.perform. cbn [foldl]. unfold System.act at 2. cbn [page_user client server].
  rewrite Hm1, (act_answer _ _ _ _ _ wk) by apply lookup_insert_eq.
  rewrite (handle_booking ai _ u n sv Hsu Hsn Hr),
    (Server.post_booking_accepted u n usr b sv Husr Hb Hpos).
  cbn [Server.created fst snd].
  edestruct (fire_accepted storedUser) as (wl & s2 & Hwl & -> & Hf2 & He2 & Hi2);
    [apply lookup_insert_eq|exact Hk|exact Hf|reflexivity|].
  exists wl, s2. cbn [next_id pending sent unhandled Async.ui] in *.
  rewrite delete_insert_eq, (delete_id _ _ Hfresh), Hr, Hid, <- app_assoc.
  split; [done|]. split_and!; [done..| |].
  - rewrite He2, BookDetails.commit_error, He1. by eapply mounted_no_error.
  - rewrite Hi2, <- Hid, <- Hi1. unfold commit.
    destruct (shows_book s1); [by destruct (form s1)|done].
Qed.


(** The booking and the fetch that follows it, answered in turn. *)
Lemma booked_and_fetched m sv g fs u n usr b :
  good m -> form (ui m) = Some (g, fs) -> BookingForm.loading fs = false ->
  truthy (BookingForm.userId fs) = true -> Number_ (BookingForm.userId fs) = VNum u ->
  id (ui m) = string_of_Z n -> Server.safe_int u -> Server.safe_int n ->
  Server.users sv !! u = Some usr -> Server.books sv !! n = Some b ->
  (0 < Server.available_copies b)%Z ->
  exists w',
    w' = perform [User FormSubmit; Answer (next_id m); Answer (S (next_id m))] (World m sv) /\
    server w' = after_booking u n b sv /\
    book (ui (client w')) = Server.book_json n (Server.take_copy b) /\
    shows_book (ui (client w')) = true /\
    sent (client w') =
      sent m ++ [createBooking (VObj [("user_id", VNum u); ("book_id", VNum n)]);
                 getBook (VStr (string_of_Z n))] /\
    pending (client w') = pending m.
Proof.
  intros Hg Hf Hl Ht Hu Hid Hsu Hsn Husr Hb Hpos. eexists. split; [reflexivity|].
  pose proof (wf_fresh m (S (next_id m)) (good_wf _ Hg) (le_S _ _ (le_n _))) as Hfresh.
  destruct (submit_accepted m sv g fs u n usr b) as (wl & s' & Hrun & Hwl & Hf' & He' & Hi');
    try done.
  change [User FormSubmit; Answer (next_id m); Answer (S (next_id m))]
    with ([User FormSubmit; Answer (next_id m)] ++ [Answer (S (next_id m))]).
  rewrite perform_snoc, Hrun, (act_answer _ _ _ _ _ wl) by apply lookup_insert_eq.
  destruct (run_load (ui m) (ui m)) as (wl' & Hwl' & Hreq & _).
  rewrite Hwl in Hwl'. injection Hwl' as <-. rewrite Hid in Hreq.
  rewrite (handle_getBook ai _ n _ Hreq),
    (Server.get_book_found n (Server.take_copy b)) by apply lookup_insert_eq.
  cbn [Server.ok fst snd client server].
  rewrite (book_arrives storedUser _ _ (ui m) wl (response (Server.book_json n (Server.take_copy b)))
             (Server.book_json n (Server.take_copy b)))
    by (done || apply lookup_insert_eq).
  cbn [Async.ui Async.sent Async.pending book].
  rewrite delete_insert_eq, (delete_id _ _ Hfresh). split_and!; try done.
  unfold shows_book, render. cbn [loading error book]. by rewrite He'.
Qed.

(** C12. A booking takes one copy, and the page shows it (specification,
    8: with [N > 0] copies available the booking succeeds and the fetch
    that follows shows [N - 1]).  On the page of book [n], with a form
    that holds the id of a user the server knows, submitting the form and
    letting the server answer the booking and then the fetch leaves the
    server with one copy less and one active booking more, and the page
    with the book as the server now has it: the request in between is
    the only one sent, and nothing else in flight is touched. *)
Theorem booking_takes_a_copy i0 m sv g fs u n usr b :
  reachable step (boot i0) m ->
  form (ui m) = Some (g, fs) -> BookingForm.loading fs = false ->
  truthy (BookingForm.userId fs) = true -> Number_ (BookingForm.userId fs) = VNum u ->
  id (ui m) = string_of_Z n -> Server.safe_int u -> Server.safe_int n ->
  Server.users sv !! u = Some usr -> Server.books sv !! n = Some b ->
  (0 < Server.available_copies b)%Z ->
  let w' := browse storedUser ai
              [User FormSubmit; Answer (next_id m); Answer (S (next_id m))]
                (World m sv) in
  server w' = after_booking u n b sv /\
  book (ui (client w')) = Server.book_json n (Server.take_copy b) /\
  get_field (book (ui (client w'))) "available_copies" =
    VNum (Server.available_copies b - 1) /\
  shows_book (ui (client w')) = true /\
  sent (client w') =
    sent m ++ [createBooking (VObj [("user_id", VNum u); ("book_id", VNum n)]);
               getBook (VStr (string_of_Z n))] /\
  pending (client w') = pending m.
Proof.
  intros Hg%page_reachable_good Hf Hl Ht Hu Hid Hsu Hsn Husr Hb Hpos w'.
  destruct (booked_and_fetched m sv g fs u n usr b)
    as (w & Hw & Hsv & Hbook & Hshow & Hsent & Hpend); try done.
  unfold browse in w'. fold w' in Hw. subst w. by rewrite Hbook.
Qed.


(** The submission and the answer to it, when no copy is left. *)
Lemma submit_refused m sv g fs u n usr b :
  good m -> form (ui m) = Some (g, fs) -> BookingForm.loading fs = false ->
  truthy (BookingForm.userId fs) = true -> Number_ (BookingForm.userId fs) = VNum u ->
  id (ui m) = string_of_Z n -> Server.safe_int u -> Server.safe_int n ->
  Server.users sv !! u = Some usr -> Server.books sv !! n = Some b ->
  (Server.available_copies b <= 0)%Z ->
  perform [User FormSubmit; Answer (next_id m)] (World m sv) =
    World (Machine
             (setForm (Some (g, BookingForm.setLoading false
                                  (BookingForm.setError (VStr "No copies available")
                                     (BookingForm.setLoading true
                                        (BookingForm.setSuccess ""
                                           (BookingForm.setError (VStr "") fs))))))
                (poke_form g (BookingForm.setLoading true)
                   (poke_form g (BookingForm.setSuccess "")
                      (poke_form g (BookingForm.setError (VStr "")) (ui m)))))
             (pending m) (S (next_id m))
             (sent m ++ [createBooking (VObj [("user_id", VNum u); ("book_id", VNum n)])])
             (unhandled m))
          sv.
Proof.
  intros Hg Hf Hl Ht Hu Hid Hsu Hsn Husr Hb Hnone.
  pose proof (wf_fresh m (next_id m) (good_wf _ Hg) (le_n _)) as Hfresh.
  destruct (fire_submit_machine storedUser m g fs Hf Hl Ht)
    as (wk & s1 & Hk & Hr & Hm1 & -> & _ & _ & _).
  destruct (submitted_form storedUser m g fs Hg Hf) as [Hc Hf1]. rewrite Hc in Hm1.
  rewrite Hid, (booking_payload n _ u Hu) in Hr.
  unfold System.perform. cbn [foldl]. unfold System.act at 2. cbn [page_user client server].
  rewrite Hm1, (act_answer _ _ _ _ _ wk) by apply lookup_insert_eq.
  rewrite (handle_booking ai _ u n sv Hsu Hsn Hr),
    (Server.post_booking_sold_out u n usr b sv Husr Hb Hnone).
  cbn [Server.fail fst snd].
  erewrite (fire_refused storedUser _ _ (ui m) wk g fs);
    [|apply lookup_insert_eq|exact Hk|exact Hf|exact Hf1| |done].
  - cbn [Async.ui Async.sent Async.pending Async.next_id Async.unhandled].
    by rewrite delete_insert_eq, (delete_id _ _ Hfresh), Hr.
  - cbn [Async.ui]. rewrite !poke_form_shows. apply (good_tidy _ Hg). by rewrite Hf.
Qed.

(** C13. A booking of a book without a copy is refused and changes nothing
    (specification, 8).  With no copy available the server answers with
    its error envelope; the form shows "No copies available" and enables
    its button again; the server is as it was, the page sends nothing
    more (the book is not fetched again) and keeps the snapshot it
    had. *)
Theorem sold_out_booking_refused i0 m sv g fs u n usr b :
  reachable step (boot i0) m ->
  form (ui m) = Some (g, fs) -> BookingForm.loading fs = false ->
  truthy (BookingForm.userId fs) = true -> Number_ (BookingForm.userId fs) = VNum u ->
  id (ui m) = string_of_Z n -> Server.safe_int u -> Server.safe_int n ->
  Server.users sv !! u = Some usr -> Server.books sv !! n = Some b ->
  (Server.available_copies b <= 0)%Z ->
  let w' := browse storedUser ai [User FormSubmit; Answer (next_id m)] (World m sv) in
  server w' = sv /\
  sent (client w') =
    sent m ++ [createBooking (VObj [("user_id", VNum u); ("book_id", VNum n)])] /\
  pending (client w') = pending m /\
  book (ui (client w')) = book (ui m) /\
  exists fs', form (ui (client w')) = Some (g, fs') /\
    BookingForm.error fs' = VStr "No copies available" /\
    BookingForm.loading fs' = false /\ BookingForm.userId fs' = BookingForm.userId fs.
Proof.
  intros Hg%page_reachable_good Hf Hl Ht Hu Hid Hsu Hsn Husr Hb Hnone w'.
  subst w'. unfold browse.
  rewrite (submit_refused m sv g fs u n usr b) by done.
  cbn [client server Async.ui Async.sent Async.pending form book setForm].
  rewrite !poke_form_book. split_and!; try done. by eexists.
Qed.

End BookingClaims.

(** *** The summary *)

Section SummaryFacts.
Context (storedUser : value) (ai : Server.Oracle).
Implicit Types (m : machine request State) (c s : State)
  (k : suspended request State) (sv : Server.State).

#[local] Abbreviation fire := (fire storedUser).
#[local] Abbreviation boot := (boot storedUser).
#[local] Abbreviation step := (step storedUser).
#[local] Abbreviation act := (act (fire:=fire) Settle page_user ai).
#[local] Abbreviation perform := (perform (fire:=fire) Settle page_user ai).

Lemma handle_summarize r n b t sv :
  Server.safe_int n -> Server.books sv !! n = Some b -> Server.summary b = Some t ->
  r = summarize (VObj [("book_id", VNum n)]) ->
  Server.handle ai r sv =
    (http_ok (VObj [("summary", VStr (Server.generate ai t))]), after_summary ai n b t sv).
Proof.
  intros Hn Hb Ht ->. unfold Server.handle. rewrite Server.route_summarize_book by done.
  cbn [Server.serve]. unfold Server.post_summarize. cbn [get_field assoc]. simpl.
  by rewrite Hb, Ht.
Qed.

(** The click on the summary button, as a machine. *)
Lemma fire_summarize_machine m :
  enabled ClickSummarize m = true ->
  exists wk, summarizing_of (ui m) = Some wk /\
    request_of wk = summarize (VObj [("book_id", Number_ (VStr (id (ui m))))]) /\
    fire ClickSummarize m =
      Machine (commit storedUser (setSummarizing true (ui m)))
              (<[next_id m := wk]> (pending m)) (S (next_id m))
              (sent m ++ [request_of wk]) (unhandled m).
Proof.
  intros He. destruct (page_enabled_summarize m He) as (_ & _ & Ht).
  destruct (page_run_summarize (ui m) (ui m) Ht) as (wk & Hk & Hr & Hrun).
  exists wk. split_and!; [done..|].
  unfold fire, BookDetails.fire. rewrite He.
  rewrite (invoke_single _ _ _ wk) by (by rewrite Hrun). by rewrite Hrun, app_nil_r.
Qed.

Lemma after_summary_copies n b t sv id b0 :
  Server.books sv !! n = Some b -> Server.books sv !! id = Some b0 ->
  exists b', Server.books (after_summary ai n b t sv) !! id = Some b' /\
    Server.available_copies b' = Server.available_copies b0 /\
    Server.total_copies b' = Server.total_copies b0.
Proof.
  intros Hb H0. unfold after_summary. destruct (Server.persists ai); [|eauto]. simpl.
  destruct (decide (n = id)) as [->|Hne];
    [rewrite lookup_insert_eq|rewrite lookup_insert_ne by done]; [|eauto].
  simplify_eq. eauto.
Qed.

(** C26. A generated summary is displayed and leaves the copies alone
    (specification, 8).  On the page of book [n], whose summary at the
    server is [t], a click on the summary button and the answer of the
    server leave the page with the generated text as the AI summary and
    with the snapshot of the book it had; at the server no book has
    another number of copies than before, whether or not the server
    keeps the generated text. *)
Theorem summary_keeps_copies i0 m sv n b t :
  reachable step (boot i0) m -> enabled ClickSummarize m = true ->
  id (ui m) = string_of_Z n -> Server.safe_int n ->
  Server.books sv !! n = Some b -> Server.summary b = Some t ->
  let w' := browse storedUser ai [User ClickSummarize; Answer (next_id m)] (World m sv) in
  aiSummary (ui (client w')) = VStr (Server.generate ai t) /\
  book (ui (client w')) = book (ui m) /\
  summarizing (ui (client w')) = false /\
  sent (client w') = sent m ++ [summarize (VObj [("book_id", VNum n)])] /\
  server w' = after_summary ai n b t sv /\
  forall id b0, Server.books sv !! id = Some b0 ->
    exists b', Server.books (server w') !! id = Some b' /\
      Server.available_copies b' = Server.available_copies b0 /\
      Server.total_copies b' = Server.total_copies b0.
Proof.
  intros Hg%page_reachable_good He Hid Hn Hb Ht w'. unfold browse in w'.
  pose proof (wf_fresh m (next_id m) (good_wf _ Hg) (le_n _)) as Hfresh.
  destruct (fire_summarize_machine m He) as (wk & Hk & Hr & Hm1).
  rewrite Hid in Hr. cbn [Number_] in Hr. rewrite StringToNumber_of_Z in Hr.
  assert (Hw : w' = World
            (Machine (commit storedUser
                        (setSummarizing false
                           (setAiSummary (VStr (Server.generate ai t))
                              (commit storedUser (setSummarizing true (ui m))))))
                     (pending m) (S (next_id m))
                     (sent m ++ [summarize (VObj [("book_id", VNum n)])]) (unhandled m))
            (after_summary ai n b t sv)).
  { unfold w', System.perform. cbn [foldl]. unfold System.act at 2.
    cbn [page_user client server].
    rewrite Hm1, (act_answer _ _ _ _ _ wk) by apply lookup_insert_eq.
    rewrite (handle_summarize _ n b t sv Hn Hb Ht Hr). cbn [fst snd]. f_equal.
    unfold http_ok.
    pose proof (page_resume_sum_ok (ui m) wk
                  (response (VObj [("summary", VStr (Server.generate ai t))]))
                  (VObj [("summary", VStr (Server.generate ai t))])
                  (VStr (Server.generate ai t))
                  (commit storedUser (setSummarizing true (ui m))) Hk eq_refl eq_refl)
      as Hrun.
    erewrite (fire_settle_quiet _ _ _ wk);
      [|apply lookup_insert_eq|cbn [Async.ui]; by rewrite Hrun].
    cbn [Async.ui Async.pending Async.sent Async.unhandled Async.next_id].
    rewrite Hrun. cbn [after uncaught].
    by rewrite delete_insert_eq, (delete_id _ _ Hfresh), Hr, app_nil_r. }
  rewrite Hw. cbn [client server Async.ui Async.sent].
  rewrite commit_aiSummary, commit_book, commit_summarizing. cbn [aiSummary book summarizing
    setSummarizing setAiSummary]. rewrite commit_book.
  split_and!; try done. intros id b0. by apply after_summary_copies.
Qed.

End SummaryFacts.

(** *** The snapshot of the page *)

Section SnapshotFacts.
Context (storedUser : value) (ai : Server.Oracle).
Implicit Types (m : machine request State) (c s : State)
  (k : suspended request State) (sv : Server.State).

#[local] Abbreviation fire := (fire storedUser).
#[local] Abbreviation boot := (boot storedUser).
#[local] Abbreviation step := (step storedUser).
#[local] Abbreviation act := (act (fire:=fire) Settle page_user ai).
#[local] Abbreviation perform := (perform (fire:=fire) Settle page_user ai).

(** *** Which answers change the snapshot *)

Lemma load_book c k o s :
  loading_of c = Some k ->
  book (after (Async.run (resume k o) s)) = book s \/
  exists resp d, o = Resolved resp /\ member resp "data" = Some d /\
    book (after (Async.run (resume k o) s)) = d.
Proof.
  intros H. destruct o as [resp|e].
  - destruct (member resp "data") as [d|] eqn:Hd.
    + right. exists resp, d. split_and!; [done..|].
      destruct (member d "ai_summary") as [a|] eqn:Ha.
      * by rewrite (resume_load_ok _ _ _ _ _ _ H Hd Ha).
      * by rewrite (resume_load_null _ _ _ _ _ H Hd Ha).
    + left. by rewrite (resume_load_malformed _ _ _ _ H Hd).
  - left. by rewrite (resume_load_rejected _ _ _ _ H).
Qed.

Lemma booking_book c k o s :
  booking_of c = Some k -> book (after (Async.run (resume k o) s)) = book s.
Proof.
  intros H. destruct (booking_of_form _ _ H) as (g & fs & Hf & _).
  destruct o as [resp|e].
  - destruct (member resp "data") as [d|] eqn:Hd.
    + destruct (resume_booking_ok _ _ _ _ _ _ s H Hf Hd) as (wl & _ & ->).
      cbn [after]. rewrite poke_form_book. cbn. by rewrite poke_form_book.
    + rewrite (resume_booking_malformed _ _ _ _ _ s H Hf Hd). cbn [after].
      by rewrite !poke_form_book.
  - destruct (nullish e) eqn:He.
    + rewrite (resume_booking_nullish _ _ _ _ _ s H Hf He). cbn [after].
      by rewrite !poke_form_book.
    + rewrite (resume_booking_rejected _ _ _ _ _ s H Hf He). cbn [after].
      by rewrite !poke_form_book.
Qed.

(** Only the answer to a fetch changes the snapshot, and it replaces it
    by the data of the answer. *)
Lemma settle_book m i o k :
  good m -> pending m !! i = Some k ->
  book (ui (fire (Settle i o) m)) = book (ui m) \/
  (is_load k /\ exists resp d, o = Resolved resp /\ member resp "data" = Some d /\
     book (ui (fire (Settle i o) m)) = d).
Proof.
  intros Hg Hi. unfold fire, BookDetails.fire, enabled.
  rewrite bool_decide_eq_true_2 by eauto.
  rewrite (deliver_known _ _ _ _ k Hi), invoke_ui, commit_book. cbn [Async.ui].
  destruct (good_pending _ Hg i k Hi) as [[c Hc]|[[c Hc]|[c Hc]]].
  - destruct (load_book c k o (ui m) Hc) as [?|?]; [by left|right]. split; [by exists c|done].
  - left. by destruct (page_resume_sum_settles c k o (ui m) Hc) as (_ & _ & ? & _).
  - left. by apply (booking_book c).
Qed.

(** The user does not change it. *)
Lemma user_book ev m : page_user ev = true -> book (ui (fire ev m)) = book (ui m).
Proof.
  intros Hu. unfold fire, BookDetails.fire. destruct (enabled ev m) eqn:He; [|done].
  destruct ev as [j| |v| |i o]; try done.
  - case_decide; [done|]. by rewrite invoke_ui, commit_book.
  - rewrite invoke_ui, commit_book.
    destruct (page_enabled_summarize m He) as (_ & _ & Ht).
    by destruct (page_run_summarize (ui m) (ui m) Ht) as (wk & _ & _ & ->).
  - cbn. unfold change_form. by destruct (form (ui m)) as [[g fs]|].
  - rewrite invoke_ui, commit_book.
    destruct (page_enabled_submit m He) as (g & fs & Hf & Hl).
    destruct (truthy (BookingForm.userId fs)) eqn:Ht.
    + destruct (run_submit (ui m) g fs (ui m) Hf Ht) as (wk & _ & _ & ->).
      cbn [after]. by rewrite !poke_form_book.
    + rewrite (run_submit_missing (ui m) g fs (ui m) Hf Ht). cbn [after].
      by rewrite !poke_form_book.
Qed.

End SnapshotFacts.

Section SnapshotClaims.
Context (storedUser : value) (ai : Server.Oracle).
Implicit Types (m : machine request State) (c s : State)
  (k : suspended request State) (sv : Server.State).

#[local] Abbreviation fire := (fire storedUser).
#[local] Abbreviation boot := (boot storedUser).
#[local] Abbreviation step := (step storedUser).
#[local] Abbreviation act := (act (fire:=fire) Settle page_user ai).
#[local] Abbreviation perform := (perform (fire:=fire) Settle page_user ai).

(** What the server answers to the fetch of the page. *)
Lemma fetch_answer i sv resp d :
  Server.wf sv ->
  (Server.handle ai (getBook (VStr i)) sv).1 = Resolved resp ->
  member resp "data" = Some d -> from_server d.
Proof.
  intros Hwf. unfold Server.handle, getBook, API.get. cbn [toString].
  destruct (String.eqb ("/books/" +:+ i) "/books/") eqn:Hb.
  - unfold Server.route. cbn [meth url]. rewrite Hb. cbn. intros [= <-] [= <-].
    right. right. by eexists.
  - rewrite Server.route_get by (done || by apply String.eqb_neq).
    change (JSON.eat "/bookings/user/" _) with (@None string).
    change (JSON.eat "/books/" _) with (Some i). cbn [mbind option_bind].
    destruct (Server.numeral i) as [n|]; [|done]. cbn [Server.serve].
    unfold Server.get_book. destruct (Server.books sv !! n) as [b|] eqn:E; [|done].
    cbn. intros [= <-] [= <-]. right. left. exists n, b. split; [done|].
    by apply (Server.wf_stocked _ Hwf n).
Qed.

Lemma sound_boot i sv : Server.wf sv -> sound (World (boot i) sv).
Proof.
  intros H. split_and!; [done|apply page_good_boot|].
  destruct (boot_fetches storedUser i) as (k & _ & ->). by left.
Qed.

Lemma sound_failure i w :
  sound w -> sound (World (fire (Settle i network_error) (client w)) (server w)).
Proof.
  intros (Hs & Hg & Hb). split_and!; [done|by apply page_good_fire|]. cbn [client].
  destruct (pending (client w) !! i) as [k|] eqn:Hi.
  - by destruct (settle_book storedUser (client w) i network_error k Hg Hi)
      as [->|(_ & resp & d & ? & _)].
  - unfold fire, BookDetails.fire, enabled. by rewrite bool_decide_eq_false_2 by (by rewrite Hi; intros []).
Qed.

Lemma sound_act a w : sound w -> sound (act a w).
Proof.
  intros Hw. pose proof Hw as (Hs & Hg & Hb).
  destruct a as [ev|i|i|i|r]; cbn [System.act].
  - destruct (page_user ev) eqn:Hu; [|done].
    split_and!; [done|by apply page_good_fire|]. cbn [client]. by rewrite user_book.
  - unfold in_transit. destruct (pending (client w) !! i) as [k|] eqn:Hi; [|done].
    cbn [fmap option_fmap option_map].
    split_and!; [by apply Server.handle_wf|by apply page_good_fire|]. cbn [client].
    destruct (settle_book storedUser (client w) i
                (Server.handle ai (request_of k) (server w)).1 k Hg Hi)
      as [->|([c Hc] & resp & d & Ho & Hd & ->)]; [done|].
    destruct (run_load c c) as (k' & Hk' & Hr & _). rewrite Hc in Hk'.
    injection Hk' as <-. rewrite Hr in Ho. by eapply fetch_answer.
  - unfold in_transit. destruct (pending (client w) !! i); [|done]. by apply sound_failure.
  - unfold in_transit. destruct (pending (client w) !! i); [|done].
    destruct (sound_failure i w Hw) as (_ & ? & ?).
    split_and!; [by apply Server.handle_wf|done..].
  - split_and!; [by apply Server.handle_wf|done..].
Qed.

Lemma sound_run acts w : sound w -> sound (perform acts w).
Proof.
  intros H. induction acts as [|a acts IH] using rev_ind; [done|].
  rewrite perform_snoc. by apply sound_act.
Qed.

(** The copies of a snapshot of the server are within bounds. *)
Lemma from_server_copies v a t :
  from_server v ->
  get_field v "available_copies" = VNum a -> get_field v "total_copies" = VNum t ->
  (0 <= a <= t)%Z.
Proof. by intros [->|[(n & b & -> & Hb)|[l ->]]]; [|intros [= <-] [= <-]|]. Qed.

(** C14. The copies the page shows are within bounds (specification, 8:
    [0 <= available_copies <= total_copies] after every refetch).
    Starting from a server whose inventory is consistent, whatever the
    user does, in whatever order the server answers, whichever requests
    and answers are lost, and whatever other clients book in between:
    when the snapshot of the page has an available and a total number
    of copies, the first is not negative and not greater than the
    second; and the inventory of the server is consistent at the end. *)
Theorem displayed_copies_in_bounds i acts sv a t :
  Server.wf sv ->
  let w := browse storedUser ai acts (World (boot i) sv) in
  Server.wf (server w) /\
  (get_field (book (ui (client w))) "available_copies" = VNum a ->
   get_field (book (ui (client w))) "total_copies" = VNum t ->
   (0 <= a <= t)%Z).
Proof.
  intros H w. unfold browse in w.
  destruct (sound_run acts (World (boot i) sv)) as (Hs & _ & Hb);
    [by apply sound_boot|].
  split; [done|]. by apply from_server_copies.
Qed.

End SnapshotClaims.

(** *** The library of the examples *)

Lemma library_wf : Server.wf library.
Proof.
  split; simpl; try done.
  - by intros id b [<- <-]%lookup_singleton_Some.
  - by intros id b [<- <-]%lookup_singleton_Some.
  - intros id [b [<- <-]%lookup_singleton_Some]. lia.
  - intros id [b [<- <-]%lookup_singleton_Some]. lia.
Qed.

(** ** Witnesses *)

#[local] Abbreviation u5 := BookingForm.user5.
#[local] Abbreviation go := (browse u5 plain).

Lemma booking_takes_a_copy_witness :
  let w := go [Answer 0] (World (boot u5 "12") library) in
  let w' := go [User FormSubmit; Answer (next_id (client w)); Answer (S (next_id (client w)))]
                (World (client w) (server w)) in
  server w' = after_booking 5 12 (volume 3) (server w) /\
  book (ui (client w')) = Server.book_json 12 (Server.take_copy (volume 3)) /\
  get_field (book (ui (client w'))) "available_copies" =
    VNum (Server.available_copies (volume 3) - 1) /\
  shows_book (ui (client w')) = true /\
  sent (client w') =
    sent (client w) ++ [createBooking (VObj [("user_id", VNum 5); ("book_id", VNum 12)]);
                        getBook (VStr (string_of_Z 12))] /\
  pending (client w') = pending (client w).
Proof.
  intros w.
  refine (booking_takes_a_copy u5 plain "12" (client w) (server w) 0 (BookingForm.init u5)
            5 12 reader (volume 3) _ _ _ _ _ _ _ _ _ _ _);
    [apply (perform_reachable Settle page_user plain [Answer 0]
              (World (boot u5 "12") library))
    |by vm_compute..].
Defined.

Lemma sold_out_booking_refused_witness :
  let w := go [Answer 0] (World (boot u5 "12") emptied) in
  let w' := go [User FormSubmit; Answer (next_id (client w))]
                (World (client w) (server w)) in
  server w' = server w /\
  sent (client w') =
    sent (client w) ++ [createBooking (VObj [("user_id", VNum 5); ("book_id", VNum 12)])] /\
  pending (client w') = pending (client w) /\
  book (ui (client w')) = book (ui (client w)) /\
  exists fs', form (ui (client w')) = Some (0, fs') /\
    BookingForm.error fs' = VStr "No copies available" /\
    BookingForm.loading fs' = false /\
    BookingForm.userId fs' = BookingForm.userId (BookingForm.init u5).
Proof.
  intros w.
  refine (sold_out_booking_refused u5 plain "12" (client w) (server w) 0
            (BookingForm.init u5) 5 12 reader (volume 0) _ _ _ _ _ _ _ _ _ _ _);
    [apply (perform_reachable Settle page_user plain [Answer 0]
              (World (boot u5 "12") emptied))
    |by vm_compute..].
Defined.

Lemma summary_keeps_copies_witness :
  let w := go [Answer 0] (World (boot u5 "12") library) in
  let w' := go [User ClickSummarize; Answer (next_id (client w))]
               (World (client w) (server w)) in
  aiSummary (ui (client w')) = VStr (Server.generate plain "A detective story.") /\
  book (ui (client w')) = book (ui (client w)) /\
  summarizing (ui (client w')) = false /\
  sent (client w') = sent (client w) ++ [summarize (VObj [("book_id", VNum 12)])] /\
  server w' = after_summary plain 12 (volume 3) "A detective story." (server w) /\
  forall id b0, Server.books (server w) !! id = Some b0 ->
    exists b', Server.books (server w') !! id = Some b' /\
      Server.available_copies b' = Server.available_copies b0 /\
      Server.total_copies b' = Server.total_copies b0.
Proof.
  intros w.
  refine (summary_keeps_copies u5 plain "12" (client w) (server w) 12 (volume 3)
            "A detective story." _ _ _ _ _ _);
    [apply (perform_reachable Settle page_user plain [Answer 0] (World (boot u5 "12") library))
    |by vm_compute..].
Defined.

Lemma displayed_copies_in_bounds_witness :
  let w := go [Answer 0; User FormSubmit; Answer 1; Answer 2] (World (boot u5 "12") library) in
  Server.wf (server w) /\
  get_field (book (ui (client w))) "available_copies" = VNum 2 /\
  get_field (book (ui (client w))) "total_copies" = VNum 3 /\
  (0 <= 2 <= 3)%Z.
Proof.
  intros w.
  pose proof (displayed_copies_in_bounds u5 plain "12"
                [Answer 0; User FormSubmit; Answer 1; Answer 2] library 2 3 library_wf)
    as [Hwf Hb].
  refine (conj Hwf (conj _ (conj _ (Hb _ _)))); by vm_compute.
Defined.

(** ** Examples *)

(** The book of the examples is the book this server sends. *)
Example volume_is_hound copies : Server.book_json 12 (volume copies) = hound copies VNull.
Proof. reflexivity. Qed.

(** The snapshot is as old as the last fetch.  Other clients take the
    three copies while the page shows them; the booking of the user is
    then refused, and the page, which does not fetch after a refusal,
    goes on showing three copies. *)
Example stale_after_refusal :
  let taken := Elsewhere (createBooking (VObj [("user_id", VNum 5); ("book_id", VNum 12)])) in
  let w := go [Answer 0; taken; taken; taken; User FormSubmit; Answer 1]
              (World (boot u5 "12") library) in
  get_field (book (ui (client w))) "available_copies" = VNum 3 /\
  Server.available_copies <$> Server.books (server w) !! 12%Z = Some 0%Z /\
  (BookingForm.error ∘ snd) <$> form (ui (client w)) = Some (VStr "No copies available").
Proof. by vm_compute. Qed.

(** An answer that is lost leaves the user with "Booking failed" and
    the server with the booking: the second attempt takes a second
    copy. *)
Example lost_answer_books_twice :
  let w1 := go [Answer 0; User FormSubmit; Drop 1] (World (boot u5 "12") library) in
  let w2 := go [User FormSubmit; Answer 2; Answer 3] w1 in
  (BookingForm.error ∘ snd) <$> form (ui (client w1)) = Some (VStr "Booking failed") /\
  length (Server.bookings (server w1)) = 1 /\
  length (Server.bookings (server w2)) = 2 /\
  get_field (book (ui (client w2))) "available_copies" = VNum 1.
Proof. by vm_compute. Qed.
