(* ===== verification/Router.v ===== *)
(** * Route matching: what App.jsx asks of react-router-dom

    App.jsx gives [<Routes>] a table of paths; the library shows the
    element of the path that matches the location.  This file models the
    match of one path pattern against a pathname, [matchPath], and the
    choice among the routes of a table, [matchRoutes], for the patterns
    the program uses: static segments, [:name] segments and the lone
    splat.

    A pattern matches a pathname segment by segment.  Static segments are
    compared without regard to case, a [:name] segment takes any segment
    that is not empty, slashes at the end of the pathname are ignored,
    and the splat matches every pathname.  Percent-decoding is not
    modelled: the parameters are the segments as they stand. *)

From Stdlib Require Import Ascii.
From S2P Require Import Prelude JsValue.

Module Router.

Definition slash : ascii := "/".

(** The pieces of a string between its slashes. *)
Fixpoint split (s : string) : list string :=
  match s with
  | "" => [""]
  | String c t =>
      if Ascii.eqb c slash then "" :: split t
      else
        match split t with
        | seg :: rest => String c seg :: rest
        | [] => [String c ""]
        end
  end.

(** Without the empty pieces at the end: the slashes that end a pathname
    or a pattern do not count. *)
Fixpoint trim_end (l : list string) : list string :=
  match l with
  | [] => []
  | s :: l' =>
      match trim_end l' with
      | [] => if String.eqb s "" then [] else [s]
      | r => s :: r
      end
  end.

Fixpoint strip_slashes (s : string) : string :=
  match s with
  | String c t => if Ascii.eqb c slash then strip_slashes t else s
  | "" => ""
  end.

Definition lower_char (c : ascii) : ascii :=
  let n := nat_of_ascii c in
  if (65 <=? n)%nat && (n <=? 90)%nat then ascii_of_nat (n + 32) else c.

Fixpoint lower (s : string) : string :=
  match s with
  | "" => ""
  | String c t => String (lower_char c) (lower t)
  end.

Inductive segment : Type :=
| Static (s : string)
| Dynamic (name : string).       (* [:name] *)

Inductive pattern : Type :=
| Splat                          (* [*] *)
| Segments (l : list segment).

Definition segment_of (s : string) : segment :=
  match s with
  | String ":" name => Dynamic name
  | _ => Static s
  end.

Definition compilePath (path : string) : pattern :=
  if String.eqb path "*" then Splat
  else Segments (map segment_of (trim_end (split (strip_slashes path)))).

(** The parameters of a match: the segments the [:name]s took. *)
Definition params : Type := list (string * string).

Fixpoint matchSegments (p : list segment) (segs : list string) : option params :=
  match p, segs with
  | [], [] => Some []
  | Static s :: p', seg :: segs' =>
      if String.eqb (lower s) (lower seg) then matchSegments p' segs' else None
  | Dynamic name :: p', seg :: segs' =>
      if String.eqb seg "" then None
      else cons (name, seg) <$> matchSegments p' segs'
  | _, _ => None
  end.

(** A pathname starts with a slash: what follows it. *)
Definition rooted (pathname : string) : option string :=
  match pathname with
  | String "/" t => Some t
  | _ => None
  end.

(** The segments of a pathname. *)
Definition segments (pathname : string) : option (list string) :=
  t ← rooted pathname; Some (trim_end (split t)).

Definition matchPath (path pathname : string) : option params :=
  match compilePath path with
  | Splat => t ← rooted pathname; Some [("*", t)]
  | Segments p => segments pathname ≫= matchSegments p
  end.

(** The route of a table that a pathname selects.  The library ranks the
    routes by how specific they are, and the splat ranks last; among the
    others the first that matches is taken here, which is the library's
    choice whenever no two of them match the same pathname. *)
Fixpoint first_match {E} (routes : list (string * E)) (pathname : string) :
    option (E * params) :=
  match routes with
  | [] => None
  | (path, el) :: rest =>
      match matchPath path pathname with
      | Some ps => Some (el, ps)
      | None => first_match rest pathname
      end
  end.

Definition is_splat {E} (r : string * E) : bool := String.eqb (fst r) "*".

Definition matchRoutes {E} (routes : list (string * E)) (pathname : string) :
    option (E * params) :=
  match first_match (List.filter (fun r => negb (is_splat r)) routes) pathname with
  | Some r => Some r
  | None => first_match (List.filter is_splat routes) pathname
  end.

(** [useParams().name] *)
Fixpoint param (name : string) (ps : params) : option string :=
  match ps with
  | [] => None
  | (k, v) :: rest => if String.eqb k name then Some v else param name rest
  end.

(** A string without a slash. *)
Definition slashless (s : string) : bool :=
  all_chars (fun c => negb (Ascii.eqb c slash)) s.

(** ** Facts *)

Lemma split_nonempty s : split s <> [].
Proof.
  destruct s as [|c t]; [done|]. simpl.
  destruct (Ascii.eqb c slash); [done|]. by destruct (split t).
Qed.

(** A string without a slash is one piece. *)
Lemma split_slashless s : slashless s = true -> split s = [s].
Proof.
  induction s as [|c t IH]; [done|]. unfold slashless. simpl.
  intros [Hc Ht]%andb_true_iff. apply negb_true_iff in Hc.
  by rewrite Hc, (IH Ht).
Qed.

(** The pieces of [a/b]: those of [a] when it has no slash, then those
    of [b]. *)
Lemma split_cons a b :
  slashless a = true -> split (a +:+ String slash b) = a :: split b.
Proof.
  induction a as [|c t IH]; intros Ha.
  - by rewrite append_nil.
  - unfold slashless in Ha. simpl in Ha.
    apply andb_true_iff in Ha as [Hc Ht]. apply negb_true_iff in Hc.
    rewrite append_cons. simpl. by rewrite Hc, (IH Ht).
Qed.

Lemma trim_end_single s : s <> "" -> trim_end [s] = [s].
Proof. intros H. simpl. by apply String.eqb_neq in H as ->. Qed.

Lemma trim_end_cons s l : trim_end l <> [] -> trim_end (s :: l) = s :: trim_end l.
Proof. intros H. simpl. by destruct (trim_end l). Qed.

(** A numeral has no slash and is not empty. *)
Lemma slashless_numeral s : all_chars is_numeral s = true -> slashless s = true.
Proof.
  apply all_chars_impl. intros c Hc. apply negb_true_iff, Ascii.eqb_neq.
  intros ->. by vm_compute in Hc.
Qed.

Lemma param_head name v ps : param name ((name, v) :: ps) = Some v.
Proof. simpl. by rewrite String.eqb_refl. Qed.

(** *** Matching *)

Lemma matchPath_segments path p t :
  compilePath path = Segments p ->
  matchPath path (String "/" t) =
    matchSegments p (trim_end (split t)).
Proof. intros H. unfold matchPath. by rewrite H. Qed.

Lemma matchPath_splat t : matchPath "*" (String "/" t) = Some [("*", t)].
Proof. reflexivity. Qed.

Lemma rooted_Some pathname t : rooted pathname = Some t <-> pathname = String "/" t.
Proof.
  split; [|by intros ->].
  destruct pathname as [|[[] [] [] [] [] [] [] []] t']; try done. by intros [= <-].
Qed.

Lemma matchPath_rooted path pathname ps :
  matchPath path pathname = Some ps -> exists t, pathname = String "/" t.
Proof.
  unfold matchPath, segments.
  destruct (compilePath path), (rooted pathname) as [t|] eqn:E; try done;
    apply rooted_Some in E; eauto.
Qed.

Lemma first_match_rooted {E} (rs : list (string * E)) pathname r :
  first_match rs pathname = Some r -> exists t, pathname = String "/" t.
Proof.
  induction rs as [|[path el] rs IH]; [done|]. cbn [first_match].
  destruct (matchPath path pathname) eqn:Hm; [|done].
  intros _. by eapply matchPath_rooted.
Qed.

Lemma matchRoutes_rooted {E} (rs : list (string * E)) pathname r :
  matchRoutes rs pathname = Some r -> exists t, pathname = String "/" t.
Proof.
  unfold matchRoutes.
  destruct (first_match _ pathname) eqn:Hm; [intros _|intros Hm'];
    by eapply first_match_rooted.
Qed.

End Router.
