(* ===== verification/App.v ===== *)
(** * The application shell: App.jsx, components/Navbar.jsx, pages/Home.jsx

    [App] puts the navigation bar above the page the location selects.
    The pages do not talk to each other: what one page leaves for the
    next is the location it links to and the user it stored.  This file
    models the table of routes, the bar, the home page, and the
    application as one transition system whose state is the location,
    the browser's storage and the page that is mounted, with the
    requests that page has in flight.

    Leaving a page unmounts it: its cells are dropped, and a page is
    mounted with the state of its first render.  The requests it had in
    flight are answered all the same, and the handlers that await them
    run to their end: what they set on the page that is gone is lost,
    but what they do besides is done.  One handler does something
    besides, [handleSubmit] of the Login page, which writes the user to
    the storage: the state keeps the submissions of the Login pages that
    are gone ([adrift]), and their answers arrive as the event [Late].
    An exception during a render unmounts the whole tree, since the
    program has no error boundary: the screen is [Blank] until the
    location is opened again.  A page load starts the program anew: no
    handler of the pages before it is left. *)

From Stdlib Require Import Ascii.
From S2P Require Import Prelude JsValue Json Session Async Component Gateway.
From S2P Require Import BookingForm AIPromptBox BookDetails BookList MyBookings Login.
From S2P Require Import Router.

(** ** The navigation bar: components/Navbar.jsx *)

Module Navbar.

Record Link : Type := mkLink {
  className : string;
  to : string;
  label : string
}.

Section Render.
(** [useLocation().pathname] *)
Context (pathname : string).

Definition active (path : string) : string :=
  if String.eqb pathname path then "active" else "".

Definition render : list Link :=
  [ mkLink ("nav-link " +:+ active "/") "/" "Home";
    mkLink ("nav-link " +:+ active "/books") "/books" "Books";
    mkLink ("nav-link " +:+ active "/bookings") "/bookings" "My Bookings";
    mkLink ("nav-link " +:+ active "/login") "/login" "Login" ].

End Render.

Definition is_active (l : Link) : bool := String.eqb (className l) "nav-link active".

End Navbar.

(** ** The home page: pages/Home.jsx *)

Module Home.

Record View : Type := mkView {
  heading : string;
  text : string;
  prompt : AIPromptBox.View
}.

Definition render (s : AIPromptBox.State) : View :=
  mkView "Welcome to the AI-Powered Online Library"
         "Browse books, make bookings, and use AI to summarize and recommend titles."
         (AIPromptBox.render s).

End Home.

(** ** The application: App.jsx *)

Module App.

Inductive element : Type :=
| Home
| BookList
| BookDetails
| MyBookings
| Login
| Navigate (to : string).          (* [<Navigate to=... replace />] *)

#[export] Instance element_eq_dec : EqDecision element.
Proof. solve_decision. Defined.

(** Lines 17-22. *)
Definition routes : list (string * element) :=
  [ ("/", Home);
    ("/books", BookList);
    ("/books/:id", BookDetails);
    ("/bookings", MyBookings);
    ("/login", Login);
    ("*", Navigate "/") ].

(** Where a location leads: the element of its route, after the
    redirection of a [Navigate], which replaces the location. *)
Definition resolve (pathname : string) : option (string * element * Router.params) :=
  match Router.matchRoutes routes pathname with
  | Some (Navigate to, _) =>
      '(el, ps) ← Router.matchRoutes routes to; Some (to, el, ps)
  | Some (el, ps) => Some (pathname, el, ps)
  | None => None
  end.

(** The table of routes, read as a function of the segments of the
    pathname: the reference the table is compared with. *)
Definition named (name seg : string) : bool := String.eqb name (Router.lower seg).

Definition page_of (t : string) : element * Router.params :=
  match Router.trim_end (Router.split t) with
  | [] => (Home, [])
  | [s] =>
      if named "books" s then (BookList, [])
      else if named "bookings" s then (MyBookings, [])
      else if named "login" s then (Login, [])
      else (Navigate "/", [("*", t)])
  | [s; i] =>
      if named "books" s && negb (String.eqb i "") then (BookDetails, [("id", i)])
      else (Navigate "/", [("*", t)])
  | _ => (Navigate "/", [("*", t)])
  end.

Definition is_page (el : element) : bool :=
  match el with
  | Navigate _ => false
  | _ => true
  end.

(** The page that is mounted, with its requests in flight. *)
Inductive screen : Type :=
| Blank
| AtHome (m : machine request AIPromptBox.State)
| AtBooks (m : machine request BookList.State)
| AtBook (m : machine request BookDetails.State)
| AtBookings (m : machine request MyBookings.State)
| AtLogin (m : machine request Login.World).

Record State : Type := mkState {
  location : string;
  storage : localStorage.storage;
  shown : screen;
  adrift : list (suspended request Login.World)   (* submissions of Login pages that are gone *)
}.

(** The stored user as a page that can read it sees it. *)
Definition user (st : localStorage.storage) : value :=
  default VNull (stored_user st).

(** [const { id } = useParams()] *)
Definition id_of (ps : Router.params) : string := default "" (Router.param "id" ps).

(** A page stays on the screen as long as it renders.  The list pages
    throw on an answer that is no list; a page that reads the stored user
    throws when the stored text is not JSON, which for the page of a
    book is when its booking form is rendered. *)
Definition books_screen (m : machine request BookList.State) : screen :=
  match BookList.render (ui m) with
  | Some _ => AtBooks m
  | None => Blank
  end.

Definition book_screen (st : localStorage.storage) (m : machine request BookDetails.State) :
    screen :=
  match stored_user st, BookDetails.form (ui m) with
  | None, Some _ => Blank
  | _, _ => AtBook m
  end.

Definition bookings_screen (st : localStorage.storage) (m : machine request MyBookings.State) :
    screen :=
  match stored_user st, MyBookings.render (ui m) with
  | Some _, Some _ => AtBookings m
  | _, _ => Blank
  end.

Definition login_screen (m : machine request Login.World) : screen :=
  match Login.render (ui m) with
  | Some _ => AtLogin m
  | None => Blank
  end.

(** The first render of the element of a route, and its effects. *)
Definition mount (el : element) (ps : Router.params) (st : localStorage.storage) : screen :=
  match el with
  | Home => AtHome AIPromptBox.boot
  | BookList => books_screen BookList.boot
  | BookDetails => book_screen st (BookDetails.boot (user st) (id_of ps))
  | MyBookings => bookings_screen st (MyBookings.boot (user st))
  | Login => login_screen (Login.boot st)
  | Navigate _ => Blank
  end.

(** The page is loaded: the address bar, or a reload. *)
Definition open (pathname : string) (st : localStorage.storage) : State :=
  match resolve pathname with
  | Some (loc, el, ps) => mkState loc st (mount el ps st) []
  | None => mkState pathname st Blank []
  end.

(** The submissions a page leaves behind when it is unmounted. *)
Definition stranded (sc : screen) : list (suspended request Login.World) :=
  match sc with
  | AtLogin m => (map_to_list (pending m)).*2
  | _ => []
  end.

(** What is left behind when the render of a page throws. *)
Definition left_behind (was now : screen) : list (suspended request Login.World) :=
  match now with
  | Blank => stranded was
  | _ => []
  end.

Definition same_page (el : element) (sc : screen) : bool :=
  match el, sc with
  | Home, AtHome _ | BookList, AtBooks _ | MyBookings, AtBookings _ | Login, AtLogin _ => true
  | _, _ => false
  end.

(** Navigation inside the running application: a [Link], or the
    history.  A route with the same element keeps the page mounted; for
    the page of a book the parameter of the route changes. *)
Definition visit (to : string) (a : State) : State :=
  match shown a, resolve to with
  | Blank, _ | _, None => a
  | AtBook m, Some (loc, BookDetails, ps) =>
      mkState loc (storage a)
        (book_screen (storage a)
           (BookDetails.fire (user (storage a)) (BookDetails.Navigate (id_of ps)) m))
        (adrift a)
  | sc, Some (loc, el, ps) =>
      if same_page el sc then mkState loc (storage a) sc (adrift a)
      else mkState loc (storage a) (mount el ps (storage a)) (adrift a ++ stranded sc)
  end.

(** The storage after a handler of a page that is gone has run to its
    end: what it sets on the page is lost. *)
Definition late_store (w : suspended request Login.World) (o : outcome)
    (st : localStorage.storage) : localStorage.storage :=
  Login.store (after (run (resume w o) (Login.mkWorld Login.init st))).

(** The page on the screen reads the storage at its next render. *)
Definition reread (st : localStorage.storage) (sc : screen) : screen :=
  match sc with
  | AtBook m => book_screen st m
  | AtBookings m => bookings_screen st m
  | AtLogin m =>
      login_screen (Machine (Login.mkWorld (Login.page (ui m)) st) (pending m) (next_id m)
                      (sent m) (unhandled m))
  | sc => sc
  end.

(** The answer to a submission of a Login page that is gone. *)
Definition late (k : nat) (o : outcome) (a : State) : State :=
  match adrift a !! k with
  | Some w =>
      let st := late_store w o (storage a) in
      mkState (location a) st (reread st (shown a))
        (delete k (adrift a) ++ left_behind (shown a) (reread st (shown a)))
  | None => a
  end.

Inductive event : Type :=
| Open (pathname : string)
| Visit (to : string)
| InHome (ev : AIPromptBox.event)
| InBookList (ev : BookList.event)
| InBookDetails (ev : BookDetails.event)
| InMyBookings (ev : MyBookings.event)
| InLogin (ev : Login.event)
| Late (k : nat) (o : outcome).

(** The parameter of the route changes through the router only. *)
Definition of_page (ev : BookDetails.event) : bool :=
  match ev with
  | BookDetails.Navigate _ => false
  | _ => true
  end.

Definition fire (ev : event) (a : State) : State :=
  match ev, shown a with
  | Open pathname, _ => open pathname (storage a)
  | Visit to, _ => visit to a
  | InHome e, AtHome m =>
      mkState (location a) (storage a) (AtHome (AIPromptBox.fire e m)) (adrift a)
  | InBookList e, AtBooks m =>
      mkState (location a) (storage a) (books_screen (BookList.fire e m)) (adrift a)
  | InBookDetails e, AtBook m =>
      if of_page e
      then mkState (location a) (storage a)
             (book_screen (storage a) (BookDetails.fire (user (storage a)) e m)) (adrift a)
      else a
  | InMyBookings e, AtBookings m =>
      mkState (location a) (storage a) (bookings_screen (storage a) (MyBookings.fire e m))
        (adrift a)
  | InLogin e, AtLogin m =>
      let m' := Login.fire e m in
      mkState (location a) (Login.store (ui m')) (login_screen m')
        (adrift a ++ left_behind (AtLogin m') (login_screen m'))
  | Late k o, _ => late k o a
  | _, _ => a
  end.

Inductive step (a : State) : State -> Prop :=
| step_fire ev : step a (fire ev a).

Definition exec (evs : list event) (a : State) : State :=
  foldl (fun a ev => fire ev a) a evs.

(** ** What is rendered: lines 12-26 *)

Inductive Main : Type :=
| HomeView (v : Home.View)
| BookListView (v : BookList.View)
| BookDetailsView (v : BookDetails.View)
| MyBookingsView (v : MyBookings.View)
| LoginView (v : Login.View).

Record View : Type := mkView {
  navbar : list Navbar.Link;
  main : Main
}.

Definition render_main (sc : screen) : option Main :=
  match sc with
  | Blank => None
  | AtHome m => Some (HomeView (Home.render (ui m)))
  | AtBooks m => BookListView <$> BookList.render (ui m)
  | AtBook m => Some (BookDetailsView (BookDetails.render (ui m)))
  | AtBookings m => MyBookingsView <$> MyBookings.render (ui m)
  | AtLogin m => LoginView <$> Login.render (ui m)
  end.

Definition render (a : State) : option View :=
  mkView (Navbar.render (location a)) <$> render_main (shown a).

(** The requests the page on the screen has sent since it was mounted. *)
Definition sent_now (a : State) : list request :=
  match shown a with
  | Blank => []
  | AtHome m => sent m
  | AtBooks m => sent m
  | AtBook m => sent m
  | AtBookings m => sent m
  | AtLogin m => sent m
  end.

(** The element that is on the screen. *)
Definition element_of (sc : screen) : option element :=
  match sc with
  | Blank => None
  | AtHome _ => Some Home
  | AtBooks _ => Some BookList
  | AtBook _ => Some BookDetails
  | AtBookings _ => Some MyBookings
  | AtLogin _ => Some Login
  end.

(** The page on the screen is in order, by the invariant of its own
    component. *)
Definition page_good (sc : screen) : Prop :=
  match sc with
  | Blank => True
  | AtHome m => AIPromptBox.good m
  | AtBooks m => BookList.good m
  | AtBook m => BookDetails.good m
  | AtBookings m => MyBookings.good m
  | AtLogin m => Login.good m
  end.

(** The requests of the page on the screen are numbered in order, and
    each request in flight is in the log under its number. *)
Definition page_wf (sc : screen) : Prop :=
  match sc with
  | Blank => True
  | AtHome m => machine_wf m
  | AtBooks m => machine_wf m
  | AtBook m => machine_wf m
  | AtBookings m => machine_wf m
  | AtLogin m => machine_wf m
  end.

(** The screen, the location and the storage agree: the page on the
    screen is the element of the route of the location, the Login page
    holds the storage itself, what is on the screen renders, and the page
    is in order. *)
Record good (a : State) : Prop := mkGood {
  good_route : forall el, element_of (shown a) = Some el ->
    exists ps, resolve (location a) = Some (location a, el, ps);
  good_store : forall m, shown a = AtLogin m -> Login.store (ui m) = storage a;
  good_renders : shown a <> Blank -> is_Some (render a);
  good_page : page_good (shown a);
  good_adrift : Forall Login.is_submit (adrift a)
}.

(** A screen of the element [el]: blank, or a page of [el] that
    renders. *)
Definition screen_of (el : element) (sc : screen) : Prop :=
  sc = Blank \/ element_of sc = Some el /\ is_Some (render_main sc) /\ page_good sc.

(** A signed-in user's storage, a book and a catalogue, for the examples. *)
Definition signed_in_store : localStorage.storage :=
  localStorage.setItem "user" (stringified Login.ann) ∅.
Definition book3 : value :=
  VObj [("id", VNum 3); ("title", VStr "Dune"); ("author", VStr "Frank Herbert");
        ("available_copies", VNum 2); ("total_copies", VNum 4)].
Definition catalogue : value := VObj [("items", VArr [book3])].


(** ** The routes *)

Lemma pages_of_routes :
  List.filter (fun r => negb (Router.is_splat r)) routes =
    [("/", Home); ("/books", BookList); ("/books/:id", BookDetails);
     ("/bookings", MyBookings); ("/login", Login)].
Proof. reflexivity. Qed.

Lemma splat_of_routes : List.filter Router.is_splat routes = [("*", Navigate "/")].
Proof. reflexivity. Qed.

Lemma matchRoutes_page t : Router.matchRoutes routes (String "/" t) = Some (page_of t).
Proof.
  unfold Router.matchRoutes, page_of, named.
  rewrite pages_of_routes, splat_of_routes.
  cbn [Router.first_match].
  rewrite (Router.matchPath_segments "/" [] t eq_refl).
  rewrite (Router.matchPath_segments "/books" [Router.Static "books"] t eq_refl).
  rewrite (Router.matchPath_segments "/books/:id" [Router.Static "books"; Router.Dynamic "id"] t eq_refl).
  rewrite (Router.matchPath_segments "/bookings" [Router.Static "bookings"] t eq_refl).
  rewrite (Router.matchPath_segments "/login" [Router.Static "login"] t eq_refl).
  rewrite Router.matchPath_splat.
  destruct (Router.trim_end (Router.split t)) as [|s [|i [|j l]]]; cbn [Router.matchSegments];
    change (Router.lower "books") with "books";
    change (Router.lower "bookings") with "bookings";
    change (Router.lower "login") with "login";
    repeat case_match; simplify_eq; try done; try congruence.
  match goal with H : _ <$> _ = Some _ |- _ => by injection H as <- end.
Qed.

(** The patterns of the table, compiled: each page has a pattern of
    its own. *)
Lemma routes_compiled p el :
  In (p, el) routes ->
  p = "*" \/
  exists sg, Router.compilePath p = Router.Segments sg /\
    In sg [[]; [Router.Static "books"]; [Router.Static "books"; Router.Dynamic "id"];
           [Router.Static "bookings"]; [Router.Static "login"]] /\
    forall q el', In (q, el') routes -> Router.compilePath q = Router.Segments sg -> q = p.
Proof.
  intros Hp. simpl in Hp.
  destruct Hp as [Hp|[Hp|[Hp|[Hp|[Hp|[Hp|[]]]]]]]; injection Hp as <- <-; auto; right;
    eexists; (split; [reflexivity|]); (split; [simpl; auto 10|]);
    intros q el' Hq; simpl in Hq;
    destruct Hq as [Hq|[Hq|[Hq|[Hq|[Hq|[Hq|[]]]]]]]; injection Hq as <- <-; done.
Qed.

(** What the table selects is a page, or the redirection to "/". *)
Lemma page_of_cases t :
  is_page (page_of t).1 = true \/ page_of t = (Navigate "/", [("*", t)]).
Proof.
  unfold page_of.
  destruct (Router.trim_end (Router.split t)) as [|s [|i [|j l]]];
    repeat case_match; auto.
Qed.

Lemma resolve_page t :
  resolve (String "/" t) =
    Some (if is_page (page_of t).1 then (String "/" t, (page_of t).1, (page_of t).2)
          else ("/", Home, [])).
Proof.
  unfold resolve. rewrite matchRoutes_page.
  destruct (page_of_cases t) as [H| ->]; [|done].
  rewrite H. by destruct (page_of t) as [[] ps].
Qed.

Lemma resolve_rooted pathname r :
  resolve pathname = Some r -> exists t, pathname = String "/" t.
Proof.
  unfold resolve. destruct (Router.matchRoutes routes pathname) eqn:E; [|done].
  intros _. by eapply Router.matchRoutes_rooted.
Qed.

(** A location that was resolved resolves to itself. *)
Lemma resolve_resolved pathname loc el ps :
  resolve pathname = Some (loc, el, ps) ->
  resolve loc = Some (loc, el, ps) /\ is_page el = true.
Proof.
  intros H. destruct (resolve_rooted _ _ H) as [t ->]. revert H.
  rewrite resolve_page. destruct (is_page (page_of t).1) eqn:Hp.
  - intros [= <- <- <-]. by rewrite resolve_page, Hp.
  - by intros [= <- <- <-].
Qed.

(** The link of a card. *)
Lemma resolve_book k :
  Router.slashless k = true -> k <> "" ->
  resolve ("/books/" +:+ k) = Some ("/books/" +:+ k, BookDetails, [("id", k)]).
Proof.
  intros Hs Hk.
  change ("/books/" +:+ k) with (String "/" ("books" +:+ String Router.slash k)).
  rewrite resolve_page. unfold page_of.
  rewrite Router.split_cons by done. rewrite (Router.split_slashless k Hs).
  rewrite Router.trim_end_cons by (by rewrite Router.trim_end_single).
  rewrite Router.trim_end_single by done.
  apply String.eqb_neq in Hk. change (named "books" "books") with true.
  by rewrite Hk.
Qed.

(** ** The screen, the location and the storage *)

Section ScreenFacts.
Implicit Types (a : State) (st : localStorage.storage) (el : element) (sc : screen).

(** *** The screens *)

Lemma books_screen_of m : BookList.good m -> screen_of BookList (books_screen m).
Proof.
  intros Hg. unfold books_screen, screen_of.
  destruct (BookList.render (ui m)) eqn:E; [right|by left].
  split_and!; [done| |done]. simpl. by rewrite E.
Qed.

Lemma book_screen_of st m : BookDetails.good m -> screen_of BookDetails (book_screen st m).
Proof. intros Hg. unfold book_screen, screen_of. repeat case_match; eauto 6. Qed.

Lemma bookings_screen_of st m :
  MyBookings.good m -> screen_of MyBookings (bookings_screen st m).
Proof.
  intros Hg. unfold bookings_screen, screen_of. destruct (stored_user st); [|by left].
  destruct (MyBookings.render (ui m)) eqn:E; [right|by left].
  split_and!; [done| |done]. simpl. by rewrite E.
Qed.

Lemma login_screen_of m : Login.good m -> screen_of Login (login_screen m).
Proof.
  intros Hg. unfold login_screen, screen_of.
  destruct (Login.render (ui m)) eqn:E; [right|by left].
  split_and!; [done| |done]. simpl. by rewrite E.
Qed.

Lemma mount_screen_of el ps st : screen_of el (mount el ps st).
Proof.
  destruct el; simpl.
  - right. split_and!; [done|by eexists|apply AIPromptBox.prompt_good_boot].
  - apply books_screen_of, BookList.list_good_boot.
  - apply book_screen_of, BookDetails.page_good_boot.
  - apply bookings_screen_of, MyBookings.bookings_good_boot.
  - apply login_screen_of, Login.login_good_boot.
  - by left.
Qed.

Lemma login_screen_store m m' : login_screen m = AtLogin m' -> m' = m.
Proof. unfold login_screen. case_match; congruence. Qed.

Lemma mount_store el ps st m : mount el ps st = AtLogin m -> Login.store (ui m) = st.
Proof.
  destruct el; simpl; unfold books_screen, book_screen, bookings_screen;
    repeat case_match; try done.
  by intros ->%login_screen_store.
Qed.

Lemma same_page_element el sc : same_page el sc = true -> element_of sc = Some el.
Proof. by destruct el, sc. Qed.

(** *** The invariant *)

(** A state built from a location that was resolved and a screen of its
    element is in order. *)
Lemma good_intro pathname loc el ps st sc ad :
  resolve pathname = Some (loc, el, ps) -> screen_of el sc ->
  (forall m, sc = AtLogin m -> Login.store (ui m) = st) ->
  Forall Login.is_submit ad ->
  good (mkState loc st sc ad).
Proof.
  intros Hr Hsc Hst Had. apply resolve_resolved in Hr as [Hr _]. split; simpl.
  - intros el' He. destruct Hsc as [->|(He' & _)]; [done|]. exists ps. congruence.
  - done.
  - intros Hb. destruct Hsc as [->|(_ & Hm & _)]; [done|]. unfold render. simpl.
    by apply fmap_is_Some.
  - by destruct Hsc as [->|(_ & _ & Hg)].
  - done.
Qed.

(** The page on the screen is replaced by a screen of the same
    element. *)
Lemma good_update a el sc st ad :
  good a -> element_of (shown a) = Some el -> screen_of el sc ->
  (forall m, sc = AtLogin m -> Login.store (ui m) = st) ->
  Forall Login.is_submit ad ->
  good (mkState (location a) st sc ad).
Proof.
  intros Hg He Hsc Hst Had. destruct (good_route a Hg el He) as [ps Hr].
  by eapply good_intro.
Qed.

(** What a page in order leaves behind are submissions. *)
Lemma stranded_submit sc : page_good sc -> Forall Login.is_submit (stranded sc).
Proof.
  destruct sc as [|m|m|m|m|m]; try by constructor. intros Hg. cbn [stranded].
  apply Forall_forall. intros w [[i w'] [-> Hi%elem_of_map_to_list]]%list_elem_of_fmap.
  by apply (Login.good_pending _ Hg i).
Qed.

Lemma left_behind_submit was now :
  page_good was -> Forall Login.is_submit (left_behind was now).
Proof. intros H. destruct now; try by constructor. by apply stranded_submit. Qed.

(** The screen of a state in order is a screen of its element. *)
Lemma good_screen a el :
  good a -> element_of (shown a) = Some el -> screen_of el (shown a).
Proof.
  intros Hg He. right. split_and!; [done| |apply Hg].
  assert (Hb : shown a <> Blank) by (by destruct (shown a)).
  apply (good_renders a Hg) in Hb. unfold render in Hb. by apply fmap_is_Some in Hb.
Qed.

Lemma good_blank loc st ad : Forall Login.is_submit ad -> good (mkState loc st Blank ad).
Proof. by split. Qed.

Lemma good_open pathname st : good (open pathname st).
Proof.
  unfold open. destruct (resolve pathname) as [[[loc el] ps]|] eqn:Hr; [|by apply good_blank].
  eapply good_intro; [done|apply mount_screen_of|apply mount_store|done].
Qed.

(** A page is mounted, or the page of the same element stays. *)
Lemma good_turn to loc el ps a :
  good a -> resolve to = Some (loc, el, ps) ->
  good (if same_page el (shown a) then mkState loc (storage a) (shown a) (adrift a)
        else mkState loc (storage a) (mount el ps (storage a))
               (adrift a ++ stranded (shown a))).
Proof.
  intros Hg Hr. destruct (same_page el (shown a)) eqn:Hp.
  - eapply good_intro; [done|by apply good_screen, same_page_element| |apply Hg].
    apply (good_store a Hg).
  - eapply good_intro; [done|apply mount_screen_of|apply mount_store|].
    apply Forall_app. split; [apply Hg|apply stranded_submit, Hg].
Qed.

Lemma good_visit to a : good a -> good (visit to a).
Proof.
  intros Hg. unfold visit.
  destruct (shown a) as [|m|m|m|m|m] eqn:Hs; [done|..];
    (destruct (resolve to) as [[[loc el] ps]|] eqn:Hr; [|done]);
    try (rewrite <- Hs; by eapply good_turn).
  destruct el; try (rewrite <- Hs; by eapply good_turn).
  eapply good_intro; [done| | |apply Hg].
  - apply book_screen_of, BookDetails.page_good_fire.
    pose proof (good_page a Hg) as Hp. by rewrite Hs in Hp.
  - intros m'. unfold book_screen. by repeat case_match.
Qed.

(** The storage is no part of what keeps a Login page in order. *)
Lemma login_good_reread st m :
  Login.good m ->
  Login.good (Machine (Login.mkWorld (Login.page (ui m)) st) (pending m) (next_id m)
                (sent m) (unhandled m)).
Proof. intros [Hw Hp Hf Hl]. by split. Qed.

Lemma reread_screen_of st el sc : screen_of el sc -> screen_of el (reread st sc).
Proof.
  intros [->|(He & Hr & Hg)]; [by left|].
  destruct sc as [|m|m|m|m|m]; try done; injection He as <-; cbn [reread];
    try (by right).
  - by apply book_screen_of.
  - by apply bookings_screen_of.
  - by apply login_screen_of, login_good_reread.
Qed.

Lemma good_late k o a : good a -> good (late k o a).
Proof.
  intros Hg. unfold late. destruct (adrift a !! k) as [w|] eqn:Hk; [|done]. cbv zeta.
  assert (Had : Forall Login.is_submit
            (delete k (adrift a) ++
             left_behind (shown a) (reread (late_store w o (storage a)) (shown a)))).
  { apply Forall_app. split; [|apply left_behind_submit, Hg].
    apply Forall_delete, Hg. }
  destruct (element_of (shown a)) as [el|] eqn:He.
  - apply (good_update a el _ _ _ Hg He); [by apply reread_screen_of, good_screen| |done].
    destruct (shown a) as [|m|m|m|m|m]; cbn [reread]; intros m';
      unfold book_screen, bookings_screen; repeat case_match; try done.
    by intros ->%login_screen_store.
  - by destruct (shown a).
Qed.

Lemma good_fire ev a : good a -> good (fire ev a).
Proof.
  intros Hg. pose proof (good_page a Hg) as Hp.
  destruct ev as [p|to|e|e|e|e|e|k o]; cbn [fire];
    [apply good_open|by apply good_visit|..|by apply good_late];
    destruct (shown a) as [|m|m|m|m|m] eqn:Hs; try done; simpl in Hp.
  - apply (good_update a Home); [done|by rewrite Hs| |done|apply Hg].
    right. split_and!; [done|by eexists|].
    by apply AIPromptBox.prompt_good_run.
  - apply (good_update a BookList); [done|by rewrite Hs| | |apply Hg].
    + by apply books_screen_of, BookList.list_good_run.
    + intros m'. unfold books_screen. by case_match.
  - destruct (of_page e); [|done].
    apply (good_update a BookDetails); [done|by rewrite Hs| | |apply Hg].
    + by apply book_screen_of, BookDetails.page_good_fire.
    + intros m'. unfold book_screen. by repeat case_match.
  - apply (good_update a MyBookings); [done|by rewrite Hs| | |apply Hg].
    + by apply bookings_screen_of, MyBookings.bookings_good_run.
    + intros m'. unfold bookings_screen. by repeat case_match.
  - cbv zeta. apply (good_update a Login); [done|by rewrite Hs| | |].
    + by apply login_screen_of, Login.login_good_run.
    + by intros m' ->%login_screen_store.
    + apply Forall_app. split; [apply Hg|].
      by apply left_behind_submit, Login.login_good_run.
Qed.

Lemma reachable_good pathname st a :
  reachable step (open pathname st) a -> good a.
Proof.
  apply reachable_ind_inv; [apply good_open|].
  intros s s' _ Hg [ev]. by apply good_fire.
Qed.

(** A page in order is well-formed. *)
Lemma page_good_wf sc : page_good sc -> page_wf sc.
Proof. destruct sc; simpl; [done|by intros []..]. Qed.

End ScreenFacts.

Lemma app_exec_reachable a evs : reachable step a (exec evs a).
Proof.
  apply (reachable_foldl step a (fun a ev => fire ev a)); [|apply reachable_init].
  intros s e. left. constructor.
Qed.

(** ** From one page to the next *)

Section JourneyFacts.
Implicit Types (a : State) (st : localStorage.storage) (el : element) (sc : screen).

(** The link of a card leads to the page of its book. *)
Lemma resolve_card k :
  resolve ("/books/" +:+ toString (VNum k)) =
    Some ("/books/" +:+ toString (VNum k), BookDetails, [("id", toString (VNum k))]).
Proof.
  apply resolve_book; [apply Router.slashless_numeral, numerals_of_Z|].
  destruct (string_of_Z_first k) as (c & t & E & _). cbn [toString]. by rewrite E.
Qed.

Lemma book_screen_signed st u m : stored_user st = Some u -> book_screen st m = AtBook m.
Proof. unfold book_screen. by intros ->. Qed.

(** The id a signed-in user books with. *)
Lemma init_user_id u n :
  get_field u "id" = VNum n -> n <> 0%Z ->
  BookingForm.userId (BookingForm.init u) = VNum n.
Proof.
  intros Hu Hn. unfold BookingForm.init. cbn [BookingForm.userId].
  rewrite opt_get_defined by (by destruct u). rewrite Hu.
  apply or_truthy. by destruct n.
Qed.

(** The bookings page of a stored user. *)
Lemma mount_bookings st u ps :
  stored_user st = Some u -> mount MyBookings ps st = AtBookings (MyBookings.boot u).
Proof.
  intros Hu. cbn [mount]. unfold bookings_screen, user. rewrite Hu. cbn [default from_option id].
  destruct (truthy (opt_get u "id")) eqn:H.
  - by destruct (MyBookings.boot_signed_in u H) as (w & _ & ->).
  - by rewrite (MyBookings.boot_anonymous u H).
Qed.

(** What a late answer does to the storage: nothing, or the write of
    the user it carries. *)
Lemma late_store_cases w o st :
  Login.is_submit w ->
  late_store w o st = st \/
  exists resp data, o = Resolved resp /\ member resp "data" = Some data /\
    late_store w o st = localStorage.setItem "user" (stringified data) st.
Proof.
  intros Hw. unfold late_store.
  destruct (Login.resume_create_settles w o (Login.mkWorld Login.init st) Hw)
    as (_ & _ & [(resp & d & -> & Hd & ->)|[-> _]]); [right|by left].
  by exists resp, d.
Qed.

(** A Login page in order has one submission in flight at most. *)
Lemma stranded_login m i w :
  Login.good m -> pending m !! i = Some w -> stranded (AtLogin m) = [w].
Proof.
  intros Hg Hi. cbn [stranded].
  assert (E : pending m = {[i := w]}); [|by rewrite E, map_to_list_singleton].
  apply map_eq. intros j. destruct (decide (j = i)) as [->|Hj].
  - by rewrite lookup_singleton_eq.
  - rewrite lookup_singleton_ne by done. destruct (pending m !! j) as [w'|] eqn:E; [|done].
    destruct (Login.good_flight _ Hg) as [Hu _].
    destruct Hj. eapply Hu; eauto using Login.good_pending.
Qed.

Lemma is_active_spec pathname path label :
  Navbar.is_active (Navbar.mkLink ("nav-link " +:+ Navbar.active pathname path) path label)
    = String.eqb pathname path.
Proof. unfold Navbar.active. by destruct (String.eqb pathname path). Qed.

(** A link that is marked is one of the four, and the location is its
    target. *)
Lemma active_link pathname l :
  In l (Navbar.render pathname) -> Navbar.is_active l = true ->
  Navbar.to l = pathname /\
  In l [Navbar.mkLink "nav-link active" "/" "Home";
        Navbar.mkLink "nav-link active" "/books" "Books";
        Navbar.mkLink "nav-link active" "/bookings" "My Bookings";
        Navbar.mkLink "nav-link active" "/login" "Login"].
Proof.
  intros Hl Ha. simpl in Hl.
  destruct Hl as [<-|[<-|[<-|[<-|[]]]]]; rewrite is_active_spec in Ha;
    apply String.eqb_eq in Ha as ->; simpl; auto 10.
Qed.

End JourneyFacts.

(** ** The properties of the application *)

Section Claims.
Implicit Types (a : State) (st : localStorage.storage).

(** C34. The table of routes selects what the reference function computes
    from the segments of the pathname: the home page for no segment, the
    list, the bookings and the login for their names in any case, the
    page of a book for [books] and one more segment, and the redirection
    for everything else; a pathname that does not start with a slash
    selects nothing. *)
Theorem table_is_page_of pathname :
  Router.matchRoutes routes pathname = (t ← Router.rooted pathname; Some (page_of t)).
Proof.
  destruct (Router.rooted pathname) as [t|] eqn:E.
  - apply Router.rooted_Some in E as ->. apply matchRoutes_page.
  - destruct (Router.matchRoutes routes pathname) as [r|] eqn:Hm; [|done].
    destruct (Router.matchRoutes_rooted _ _ _ Hm) as [t ->]. done.
Qed.

(** No location is claimed by two pages: of the five routes that name
    a page at most one matches a pathname, so that the page shown does
    not depend on the order or the ranking of the routes. *)
Theorem routes_unambiguous pathname p1 el1 p2 el2 :
  In (p1, el1) routes -> In (p2, el2) routes -> p1 <> "*" -> p2 <> "*" ->
  is_Some (Router.matchPath p1 pathname) -> is_Some (Router.matchPath p2 pathname) ->
  p1 = p2 /\ el1 = el2.
Proof.
  intros H1 H2 N1 N2 [ps1 M1] [ps2 M2].
  cut (p1 = p2).
  { intros <-. split; [done|]. revert H1 H2. simpl.
    intros [H|[H|[H|[H|[H|[H|[]]]]]]] [H'|[H'|[H'|[H'|[H'|[H'|[]]]]]]]; congruence. }
  destruct (Router.matchPath_rooted _ _ _ M1) as [t ->]. revert M1 M2.
  destruct (routes_compiled _ _ H1) as [?|(s1 & C1 & I1 & U1)]; [done|].
  destruct (routes_compiled _ _ H2) as [?|(s2 & C2 & I2 & U2)]; [done|].
  rewrite (Router.matchPath_segments _ _ _ C1), (Router.matchPath_segments _ _ _ C2).
  intros M1 M2. symmetry. apply (U1 _ _ H2). rewrite C2. f_equal.
  revert M1 M2. simpl in I1, I2.
  destruct (Router.trim_end (Router.split t)) as [|s [|i [|j l]]];
    destruct I1 as [<-|[<-|[<-|[<-|[<-|[]]]]]]; destruct I2 as [<-|[<-|[<-|[<-|[<-|[]]]]]];
    cbn [Router.matchSegments];
    change (Router.lower "books") with "books";
    change (Router.lower "bookings") with "bookings";
    change (Router.lower "login") with "login";
    repeat case_match; try done; intros _ _;
    repeat match goal with H : String.eqb _ _ = true |- _ => apply String.eqb_eq in H end;
    congruence.
Qed.

(** Every location shows a page: a pathname either selects one of the
    five pages and stays in the address bar, or it is replaced by "/" and
    the home page is shown.  The redirection never redirects again. *)
Theorem every_location_has_a_page t :
  exists loc el ps,
    resolve (String "/" t) = Some (loc, el, ps) /\
    In el [Home; BookList; BookDetails; MyBookings; Login] /\
    (loc = String "/" t /\ Router.matchRoutes routes (String "/" t) = Some (el, ps) \/
     loc = "/" /\ el = Home /\
       Router.matchRoutes routes (String "/" t) = Some (Navigate "/", [("*", t)])).
Proof.
  rewrite resolve_page, matchRoutes_page.
  destruct (page_of_cases t) as [H| ->].
  - rewrite H. destruct (page_of t) as [el ps]. exists (String "/" t), el, ps.
    split; [done|]. split; [|by left]. destruct el; simpl in *; auto 10. done.
  - exists "/", Home, []. split; [done|]. split; [simpl; auto|]. by right.
Qed.

(** The user the Login page stored is the user of the pages opened
    afterwards.  When the server has created the account, the storage
    holds the user; the link to the bookings then mounts MyBookings with
    the id of that user in its input, and it fetches the bookings of
    that id at once.  *)
Theorem login_reaches_bookings a m i c w resp data :
  shown a = AtLogin m -> pending m !! i = Some w -> Login.submitted c = Some w ->
  member resp "data" = Some data -> JSON.is_json data = true -> truthy data = true ->
  let a1 := fire (InLogin (Login.Settle i (Resolved resp))) a in
  let a2 := fire (Visit "/bookings") a1 in
  stored_user (storage a1) = Some data /\
  location a2 = "/bookings" /\
  shown a2 = AtBookings (MyBookings.boot data) /\
  MyBookings.userId (ui (MyBookings.boot data)) = or_ (opt_get data "id") (VStr "") /\
  sent_now a2 =
    if truthy (opt_get data "id")
    then [Request GET ("/bookings/user/" +:+ toString (Number_ (opt_get data "id")))
            VUndefined VUndefined]
    else [].
Proof.
  intros Hs Hi Hc Hd Hj Ht. cbv zeta.
  pose proof (Login.signed_in_stored data (ui m) Hj) as Hst.
  assert (H1 : fire (InLogin (Login.Settle i (Resolved resp))) a =
            mkState (location a) (Login.store (Login.signed_in data (ui m)))
              (AtLogin (Login.fire (Login.Settle i (Resolved resp)) m)) (adrift a ++ [])).
  { cbn [fire]. rewrite Hs. cbv zeta. unfold login_screen.
    rewrite (Login.fire_created m i c w resp data Hi Hc Hd). cbn [ui].
    by rewrite (Login.render_signed_in _ _ Hst Ht). }
  rewrite H1. cbn [storage]. split; [done|].
  cbn [fire]. unfold visit. cbn [shown storage].
  change (resolve "/bookings") with (Some ("/bookings", MyBookings, @nil (string * string))).
  cbn [same_page location shown]. rewrite (mount_bookings _ data) by done.
  split; [done|]. split; [done|]. cbn [sent_now shown].
  destruct (truthy (opt_get data "id")) eqn:H.
  - destruct (MyBookings.boot_signed_in data H) as (w' & _ & ->). cbn.
    by rewrite or_truthy.
  - rewrite (MyBookings.boot_anonymous data H). cbn. by rewrite or_falsy.
Qed.

(** In every state the application reaches from a page load, the page
    on the screen is the element of the route of the location, the
    storage is the one the Login page wrote to, the screen renders
    unless it is blank, and the page that is mounted satisfies the
    invariant of its own component, whatever was done on the pages
    before it. *)
Theorem screen_follows_location pathname st a :
  reachable step (open pathname st) a -> good a.
Proof. apply reachable_good. Qed.


(** The navigation bar marks a link only when the location is the
    target of the link, letter for letter; the link it marks is then the
    link of the page on the screen, and no other link is marked. *)
Theorem active_link_is_current a l :
  good a -> In l (Navbar.render (location a)) -> Navbar.is_active l = true ->
  Navbar.to l = location a /\
  (forall el, element_of (shown a) = Some el -> In (Navbar.to l, el) routes) /\
  (forall l', In l' (Navbar.render (location a)) -> Navbar.is_active l' = true -> l' = l).
Proof.
  intros Hg Hl Ha. destruct (active_link _ _ Hl Ha) as [E Hin]. split; [done|]. split.
  - intros el [ps Hr]%(good_route a Hg). rewrite <- E in Hr. simpl in Hin.
    destruct Hin as [<-|[<-|[<-|[<-|[]]]]];
      vm_compute in Hr; injection Hr as <- <-; simpl; auto 10.
  - intros l' Hl' Ha'. destruct (active_link _ _ Hl' Ha') as [E' Hin'].
    rewrite <- E in E'. simpl in Hin, Hin'.
    destruct Hin as [<-|[<-|[<-|[<-|[]]]]]; destruct Hin' as [<-|[<-|[<-|[<-|[]]]]];
      by (done || discriminate E').
Qed.

(** C19. A booking carries the ids the user saw.  With a user of id [n]
    stored, the link of the card of book [k] opens the page of a book
    that fetches book [k]; when the book has arrived, a click on the
    button of the form, untouched, posts the booking of book [k] for
    user [n]: both ids come back as numbers from the texts they
    travelled as, the path of the route and the cell of the input. *)
Theorem booking_journey a m st u n b k v b' :
  shown a = AtBooks m -> storage a = st ->
  stored_user st = Some u -> get_field u "id" = VNum n -> n <> 0%Z ->
  BookCard.render b = Some v -> get_field b "id" = VNum k ->
  truthy b' = true ->
  let a0 := fire (Visit (BookCard.link v)) a in
  let a1 := fire (InBookDetails (BookDetails.Settle 0 (http_ok b'))) a0 in
  let a2 := fire (InBookDetails BookDetails.FormSubmit) a1 in
  location a0 = "/books/" +:+ toString (VNum k) /\
  sent_now a0 = [Request GET ("/books/" +:+ toString (VNum k)) VUndefined VUndefined] /\
  sent_now a2 =
    sent_now a0 ++
    [Request POST "/bookings/" VUndefined
       (VObj [("user_id", VNum n); ("book_id", VNum k)])].
Proof.
  intros Hs Hst Hu Hn Hn0 Hv Hk Hb. cbv zeta.
  assert (Hl : BookCard.link v = "/books/" +:+ toString (VNum k)).
  { revert Hv. unfold BookCard.render. case_match; [done|]. intros [= <-]. simpl.
    by rewrite Hk. }
  destruct (BookDetails.boot_fetches u (toString (VNum k))) as (w & Hw & Hboot).
  assert (H0 : fire (Visit (BookCard.link v)) a =
            mkState ("/books/" +:+ toString (VNum k)) st
              (AtBook (BookDetails.boot u (toString (VNum k)))) (adrift a ++ [])).
  { cbn [fire]. unfold visit. rewrite Hs, Hl, resolve_card. cbn [same_page mount]. rewrite Hst.
    unfold user, id_of. rewrite Hu, Router.param_head. cbn [default].
    by rewrite (book_screen_signed st u). }
  rewrite H0, Hboot. cbn [location sent_now shown sent]. split; [done|]. split; [done|].
  cbn [fire shown of_page storage location]. unfold user. rewrite Hu. cbn [default].
  rewrite (BookDetails.book_arrives u _ 0 (BookDetails.init (toString (VNum k))) w
             (response b') b'); [|apply lookup_insert_eq|done..].
  rewrite (book_screen_signed st u) by done.
  cbn [fire shown of_page storage location]. rewrite (book_screen_signed st u) by done.
  cbn [sent_now shown].
  rewrite (BookDetails.page_submit_sends u _ 0 (BookingForm.init u));
    [|done|done|rewrite (init_user_id u n Hn Hn0); by destruct n].
  cbn [sent ui BookDetails.id BookDetails.init]. do 2 f_equal.
  unfold createBooking, API.post, BookingForm.payload.
  rewrite (init_user_id u n Hn Hn0). by rewrite Number_toString.
Qed.

(** C24. An answer signs the reader in also when the Login page is gone.
    When the reader leaves the Login page while the creation of the
    account is in flight, the page is unmounted but its handler still
    awaits the answer: when the server has created the account the
    handler stores the user, on whichever page the reader is by then,
    and every page that is mounted afterwards reads that user.  The
    late answer is not ignored. *)
Theorem late_answer_signs_in a m i w to loc el ps resp data :
  good a -> shown a = AtLogin m -> pending m !! i = Some w ->
  resolve to = Some (loc, el, ps) -> el <> Login ->
  member resp "data" = Some data -> JSON.is_json data = true ->
  let a1 := fire (Visit to) a in
  let a2 := fire (Late (length (adrift a)) (Resolved resp)) a1 in
  shown a1 = mount el ps (storage a) /\ storage a1 = storage a /\
  adrift a1 = adrift a ++ [w] /\
  stored_user (storage a2) = Some data /\ adrift a2 = adrift a.
Proof.
  intros Hg Hs Hi Hr Hel Hd Hj. cbv zeta.
  pose proof (good_page a Hg) as Hm. rewrite Hs in Hm. cbn in Hm.
  destruct (Login.good_pending _ Hm i w Hi) as [c Hc].
  assert (H1 : fire (Visit to) a =
            mkState loc (storage a) (mount el ps (storage a)) (adrift a ++ [w])).
  { cbn [fire]. unfold visit. rewrite Hs, Hr, (stranded_login m i w Hm Hi). by destruct el. }
  rewrite H1. cbn [shown storage adrift fire]. split_and!; try done; unfold late;
    cbn [adrift storage shown location]; rewrite list_lookup_middle by done; cbv zeta;
    cbn [adrift storage]; unfold late_store;
    rewrite (Login.resume_create_ok c w resp data _ Hc Hd); cbn [after].
  - by apply Login.signed_in_stored.
  - rewrite delete_middle, app_nil_r.
    replace (left_behind _ _) with (@nil (suspended request Login.World));
      [by rewrite app_nil_r|].
    unfold left_behind. case_match; [|done..].
    destruct (mount_screen_of el ps (storage a)) as [E|(He & _)]; [by rewrite E|].
    destruct (mount el ps (storage a)); try done. cbn in He. congruence.
Qed.

End Claims.

(** ** Witnesses *)

Lemma routes_unambiguous_witness : "/books" = "/books" /\ BookList = BookList.
Proof.
  apply (routes_unambiguous "/Books/" "/books" BookList "/books" BookList);
    try (simpl; tauto); try discriminate; by eexists.
Defined.

Lemma booking_journey_witness :
  let a := fire (InBookList (BookList.Settle 0 (http_ok catalogue)))
             (open "/books" signed_in_store) in
  let a0 := fire (Visit "/books/3") a in
  let a1 := fire (InBookDetails (BookDetails.Settle 0 (http_ok book3))) a0 in
  let a2 := fire (InBookDetails BookDetails.FormSubmit) a1 in
  location a0 = "/books/3" /\
  sent_now a0 = [Request GET "/books/3" VUndefined VUndefined] /\
  sent_now a2 =
    [Request GET "/books/3" VUndefined VUndefined;
     Request POST "/bookings/" VUndefined (VObj [("user_id", VNum 5); ("book_id", VNum 3)])].
Proof.
  intros a.
  refine (booking_journey a (BookList.fire (BookList.Settle 0 (http_ok catalogue)) BookList.boot)
            signed_in_store Login.ann 5 book3 3
            (BookCard.mkView (VStr "Dune") (VStr "Frank Herbert") (VStr "—")
               (VStr "No summary available.") (VNum 2) (VNum 4) "/books/3")
            book3 _ _ _ _ _ _ _ _);
    first [reflexivity | discriminate].
Defined.

Lemma login_reaches_bookings_witness :
  let a := exec [InLogin (Login.TypeName "Ann"); InLogin (Login.TypeEmail "ann@example.org");
                 InLogin (Login.TypePassword "pw"); InLogin Login.Submit]
             (open "/login" ∅) in
  let a1 := fire (InLogin (Login.Settle 0 (http_ok Login.ann))) a in
  let a2 := fire (Visit "/bookings") a1 in
  stored_user (storage a1) = Some Login.ann /\
  location a2 = "/bookings" /\
  shown a2 = AtBookings (MyBookings.boot Login.ann) /\
  MyBookings.userId (ui (MyBookings.boot Login.ann)) = VNum 5 /\
  sent_now a2 = [Request GET "/bookings/user/5" VUndefined VUndefined].
Proof.
  intros a.
  refine (login_reaches_bookings a
            (Login.exec [Login.TypeName "Ann"; Login.TypeEmail "ann@example.org";
                         Login.TypePassword "pw"; Login.Submit] (Login.boot ∅))
            0 (Login.mkState "Ann" "ann@example.org" "pw" false (VStr "") "")
            _ (response Login.ann) Login.ann _ _ _ _ _ _); reflexivity.
Defined.

Lemma late_answer_signs_in_witness :
  let a := exec [InLogin (Login.TypeName "Ann"); InLogin (Login.TypeEmail "ann@example.org");
                 InLogin (Login.TypePassword "pw"); InLogin Login.Submit]
             (open "/login" ∅) in
  let a1 := fire (Visit "/books") a in
  let a2 := fire (Late (length (adrift a)) (Resolved (response Login.ann))) a1 in
  exists w,
    shown a1 = mount BookList [] (storage a) /\ storage a1 = storage a /\
    adrift a1 = adrift a ++ [w] /\
    stored_user (storage a2) = Some Login.ann /\ adrift a2 = adrift a.
Proof.
  intros a. eexists.
  refine (late_answer_signs_in a
            (Login.exec [Login.TypeName "Ann"; Login.TypeEmail "ann@example.org";
                         Login.TypePassword "pw"; Login.Submit] (Login.boot ∅))
            0 _ "/books" "/books" BookList [] (response Login.ann) Login.ann
            (reachable_good "/login" ∅ a (app_exec_reachable _ _)) _ _ _ _ _ _);
    first [reflexivity|discriminate].
Defined.

Lemma screen_follows_location_witness :
  good (exec [InLogin (Login.TypeName "Ann"); Visit "/books"; Visit "/BOOKS/7/";
              InBookDetails (BookDetails.Settle 0 network_error); Visit "/nowhere"]
          (open "/login" ∅)).
Proof. apply (screen_follows_location "/login" ∅), app_exec_reachable. Defined.


Lemma active_link_is_current_witness :
  let a := open "/books" ∅ in
  let l := Navbar.mkLink "nav-link active" "/books" "Books" in
  Navbar.to l = location a /\
  In (Navbar.to l, BookList) routes.
Proof.
  intros a l.
  destruct (active_link_is_current a l) as (E & Hel & _);
    [apply good_open|simpl; tauto|reflexivity|].
  split; [exact E|]. by apply Hel.
Defined.

(** The bar compares the location letter for letter, the router does
    not: with a slash at the end, or in capitals, the list of books is
    shown and no link is marked. *)
Example unmarked_page :
  let a := open "/Books/" ∅ in
  element_of (shown a) = Some BookList /\
  List.filter Navbar.is_active (Navbar.render (location a)) = [].
Proof. by vm_compute. Qed.

(** An answer without [data] is stored as the text "undefined": the Login
    page goes blank at once, the pages that read the stored user are
    blank when they are opened, and the page of a book goes blank when
    its form is rendered. *)
Example unparsable_user_blanks_pages :
  let a := exec [InLogin (Login.TypeName "Ann"); InLogin (Login.TypeEmail "ann@example.org");
                 InLogin (Login.TypePassword "pw"); InLogin Login.Submit;
                 InLogin (Login.Settle 0 (Resolved (VObj [("status", VNum 201)])))]
             (open "/login" ∅) in
  storage a !! "user" = Some "undefined" /\
  shown a = Blank /\
  shown (open "/login" (storage a)) = Blank /\
  shown (open "/bookings" (storage a)) = Blank /\
  element_of (shown (open "/books/3" (storage a))) = Some BookDetails /\
  shown (fire (InBookDetails (BookDetails.Settle 0 (http_ok book3)))
           (open "/books/3" (storage a))) = Blank.
Proof. by vm_compute. Qed.

(** A location without a route is replaced by "/". *)
Example unknown_location :
  resolve "/books/3/edit" = Some ("/", Home, []) /\
  location (open "/books/3/edit" ∅) = "/".
Proof. by vm_compute. Qed.

End App.
