(* ===== verification/Site.v ===== *)
(** * The application and the server together

    The whole client ([App]: the router, the bar, the page on the
    screen and the submissions of the Login pages that are gone) and the
    server of [Server], closed into one transition system.  The reader
    acts on the application, the server answers the requests of the
    page that is on the screen, in any order; a request or its answer
    can be lost, and other clients use the server in between.

    - [site] is the application with the state of the server;
      [turn] is one step of it for the page on the screen and [surf] a
      sequence of such steps.  [sail] adds the answers to the
      submissions that are adrift, and [voyage] is a sequence of those
      steps: the whole system.  A request of another page that was
      unmounted before its answer is no longer awaited by the
      application: that the server still handles it is a move of
      another client.
    - While the reader stays on the page of a book the site is the
      world of that page ([surf_on_book]), so what [Inventory] proves
      of a booking holds in the application.
    - [reader_journey] follows a new reader from the form of the Login
      page to the list of MyBookings; [in_order] is the invariant of the
      site, and [app_copies_in_bounds] what it gives for every page of a
      book the application ever shows.
    - [steady] adds that the storage can be read and the lists are
      lists, from which the screen is never blank ([never_blank]).
    - [detour] is the run of a reader who leaves the Login page before
      the answer: the account is created and the reader signed in all
      the same ([detour_signs_in]). *)

From S2P Require Import Prelude JsValue Json Session Async Component Gateway Server BookingForm AIPromptBox BookDetails BookList MyBookings Login System Inventory Router App.

(** ** Definitions *)

(** The application and the server. *)
Record site : Type := Site {
  app : App.State;
  backend : Server.State
}.

(** The request the page on the screen has in flight under an id. *)
Definition awaiting (i : nat) (a : App.State) : option request :=
  match App.shown a with
  | App.Blank => None
  | App.AtHome m => request_of <$> pending m !! i
  | App.AtBooks m => request_of <$> pending m !! i
  | App.AtBook m => request_of <$> pending m !! i
  | App.AtBookings m => request_of <$> pending m !! i
  | App.AtLogin m => request_of <$> pending m !! i
  end.

(** The event that delivers an answer to the page on the screen. *)
Definition arrival (i : nat) (o : outcome) (a : App.State) : App.event :=
  match App.shown a with
  | App.Blank | App.AtHome _ => App.InHome (AIPromptBox.Settle i o)
  | App.AtBooks _ => App.InBookList (BookList.Settle i o)
  | App.AtBook _ => App.InBookDetails (BookDetails.Settle i o)
  | App.AtBookings _ => App.InMyBookings (MyBookings.Settle i o)
  | App.AtLogin _ => App.InLogin (Login.Settle i o)
  end.

(** Which events of the application are the reader's: all but the
    answers. *)
Definition by_reader (ev : App.event) : bool :=
  match ev with
  | App.Open _ | App.Visit _ => true
  | App.InHome e => prompt_user e
  | App.InBookList e => list_user e
  | App.InBookDetails e => page_user e
  | App.InMyBookings e => bookings_user e
  | App.InLogin e => login_user e
  | App.Late _ _ => false
  end.

(** The request of a submission of a Login page that is gone. *)
Definition astray (k : nat) (a : App.State) : option request :=
  request_of <$> App.adrift a !! k.

(** The steps of the whole system. *)
Inductive leg : Type :=
| Move (mv : @move App.event)   (* a move for the page on the screen *)
| Stray (k : nat)               (* the server answers the submission adrift under [k] *)
| Wreck (k : nat).              (* that submission does not reach the server *)

Section Turns.
Context (ai : Server.Oracle).

(** One step of the site: the moves are those of [System], over the
    events of the application. *)
Definition turn (mv : @move App.event) (w : site) : site :=
  match mv with
  | User ev => if by_reader ev then Site (App.fire ev (app w)) (backend w) else w
  | Answer i =>
      match awaiting i (app w) with
      | Some r =>
          Site (App.fire (arrival i (Server.handle ai r (backend w)).1 (app w)) (app w))
               (Server.handle ai r (backend w)).2
      | None => w
      end
  | Lose i =>
      match awaiting i (app w) with
      | Some _ => Site (App.fire (arrival i network_error (app w)) (app w)) (backend w)
      | None => w
      end
  | Drop i =>
      match awaiting i (app w) with
      | Some r =>
          Site (App.fire (arrival i network_error (app w)) (app w))
               (Server.handle ai r (backend w)).2
      | None => w
      end
  | Elsewhere r => Site (app w) (Server.handle ai r (backend w)).2
  end.

Definition surf (mvs : list (@move App.event)) (w : site) : site :=
  foldl (fun w mv => turn mv w) w mvs.

(** One step of the site with the submissions that are adrift: a move
    as above, or the server handles the submission adrift under [k] and
    its answer arrives, or that submission does not reach the server. *)
Definition sail (l : leg) (w : site) : site :=
  match l with
  | Move mv => turn mv w
  | Stray k =>
      match astray k (app w) with
      | Some r =>
          Site (App.fire (App.Late k (Server.handle ai r (backend w)).1) (app w))
               (Server.handle ai r (backend w)).2
      | None => w
      end
  | Wreck k =>
      match astray k (app w) with
      | Some _ => Site (App.fire (App.Late k network_error) (app w)) (backend w)
      | None => w
      end
  end.

Definition voyage (ls : list leg) (w : site) : site :=
  foldl (fun w l => sail l w) w ls.

End Turns.

(** The server after the account of [c] is created. *)
Definition after_account (c : Login.State) (sv : Server.State) : Server.State :=
  Server.mkState (Server.books sv)
    (<[Server.next_user sv := Server.mkUser (Login.name c) (Login.email c) (Login.password c)]>
       (Server.users sv))
    (Server.bookings sv) (Server.next_book sv) (Server.next_user sv + 1) (Server.now sv).

(** The user the server answers the creation with. *)
Definition account_of (c : Login.State) (sv : Server.State) : value :=
  Server.user_json (Server.next_user sv)
    (Server.mkUser (Login.name c) (Login.email c) (Login.password c)).

(** A move in the world of the page of a book, as a move of the site. *)
Definition on_book (mv : @move BookDetails.event) : @move App.event :=
  match mv with
  | User ev => User (App.InBookDetails ev)
  | Answer i => Answer i
  | Lose i => Lose i
  | Drop i => Drop i
  | Elsewhere r => Elsewhere r
  end.

(** The moves that stay on the page: the parameter of the route changes
    through the router only. *)
Definition stays (mv : @move BookDetails.event) : bool :=
  match mv with
  | User ev => App.of_page ev
  | _ => true
  end.

(** The site on the page of a book, with the world of that page. *)
Definition at_book (a : App.State) (w : @world BookDetails.State) : site :=
  Site (App.mkState (App.location a) (App.storage a) (App.AtBook (client w)) (App.adrift a))
       (server w).

(** The page of a book the server has, once the book has arrived. *)
Definition arrived (u : value) (n : Z) (b : Server.Book) : machine request BookDetails.State :=
  Machine
    (BookDetails.mkState (string_of_Z n) (Server.book_json n b) false (VStr "")
       (or_ (Server.optional (Server.ai_summary b)) (VStr "")) false
       (Some (0, BookingForm.init u)) 1)
    ∅ 1 [getBook (VStr (string_of_Z n))] [].

(** The bookings of a user as the server lists them. *)
Definition listed (uid : Z) (sv : Server.State) : list value :=
  Server.booking_json <$>
    List.filter (fun b => bool_decide (Server.user_id b = uid)) (Server.bookings sv).

(** The bookings page of user [uid], once the list has arrived. *)
Definition loaded (uid : Z) (sv : Server.State) : machine request MyBookings.State :=
  Machine (MyBookings.mkState (VNum uid) (VArr (listed uid sv)) false (VStr ""))
    ∅ 1 [getUserBookings (VNum uid)] [].

(** The journey of a new reader: the account, the page of book [n] and
    a booking there, then the list of the bookings.  [i] is the number
    of the request that creates the account. *)
Definition to_the_book (i : nat) (n : Z) : list (@move App.event) :=
  [User (App.InLogin Login.Submit); Answer i;
   User (App.Visit ("/books/" +:+ string_of_Z n)); Answer 0] ++
  (on_book <$> [User BookDetails.FormSubmit; Answer 1; Answer 2]).

Definition journey (i : nat) (n : Z) : list (@move App.event) :=
  to_the_book i n ++ [User (App.Visit "/bookings"); Answer 0].

(** A reader who does not wait: the form is submitted and left for the
    list of books before the answer; the account is created and the
    answer arrives there; the bookings are opened next. *)
Definition detour : list leg :=
  [Move (User (App.InLogin (Login.TypeName "Ann")));
   Move (User (App.InLogin (Login.TypeEmail "ann@example.org")));
   Move (User (App.InLogin (Login.TypePassword "pw")));
   Move (User (App.InLogin Login.Submit));
   Move (User (App.Visit "/books")); Stray 0; Move (Answer 0);
   Move (User (App.Visit "/bookings")); Move (Answer 0)].

(** The snapshot of the page of a book, when that page is on the
    screen, came from the server. *)
Definition snapshot_sound (sc : App.screen) : Prop :=
  match sc with
  | App.AtBook m => from_server (BookDetails.book (ui m))
  | _ => True
  end.

(** The site in order: the inventory is consistent, the application is
    in one of its good states, and the snapshot on the screen came from
    the server. *)
Definition in_order (w : site) : Prop :=
  Server.wf (backend w) /\ App.good (app w) /\ snapshot_sound (App.shown (app w)).

(** A pathname of the address bar starts with a slash. *)
Definition rooted (p : string) : bool :=
  match p with
  | String c _ => Ascii.eqb c Router.slash
  | EmptyString => false
  end.

(** The moves of a browser: a page load is at a pathname. *)
Definition civil (l : leg) : bool :=
  match l with
  | Move (User (App.Open p)) => rooted p
  | _ => true
  end.

(** The screen is filled: a page is mounted, and what a list page maps
    is a list. *)
Definition page_steady (sc : App.screen) : Prop :=
  match sc with
  | App.Blank => False
  | App.AtBooks m => listable (BookList.books (ui m))
  | App.AtBookings m => listable (MyBookings.items (ui m))
  | _ => True
  end.

(** The site with [k] moves to go: in addition to the above the storage
    can be read, and the ids of the accounts that can still be created
    are integers a JavaScript number holds exactly. *)
Definition steady (k : Z) (w : site) : Prop :=
  Server.wf (backend w) /\ App.good (app w) /\
  is_Some (stored_user (App.storage (app w))) /\
  page_steady (App.shown (app w)) /\
  (Server.next_user (backend w) + k < 2 ^ 53)%Z.

(** ** Facts *)

(** *** The journey, page by page *)

Section Facts.
Context (ai : Server.Oracle).
Implicit Types (a : App.State) (sv : Server.State).

Lemma surf_app l1 l2 w : surf ai (l1 ++ l2) w = surf ai l2 (surf ai l1 w).
Proof. unfold surf. by rewrite foldl_app. Qed.

Lemma turn_wf mv w : Server.wf (backend w) -> Server.wf (backend (turn ai mv w)).
Proof.
  intros H. destruct mv as [ev|i|i|i|r]; simpl;
    [by destruct (by_reader ev)|destruct (awaiting i (app w)); simpl..|];
    auto using Server.handle_wf.
Qed.

Lemma turn_good mv w : App.good (app w) -> App.good (app (turn ai mv w)).
Proof.
  intros H. destruct mv as [ev|i|i|i|r]; cbn [turn];
    [destruct (by_reader ev)|destruct (awaiting i (app w))..|];
    cbn [app]; auto using App.good_fire.
Qed.

Lemma handle_createUser c sv :
  Login.name c <> "" -> Login.email c <> "" -> Login.password c <> "" ->
  Server.handle ai (createUser (Login.credentials c)) sv =
    Server.created (account_of c sv) (after_account c sv).
Proof.
  intros Hn He Hp. unfold Server.handle, Login.credentials.
  rewrite Server.route_createUser. cbn [Server.serve]. unfold Server.post_user.
  cbn. apply String.eqb_neq in Hn, He, Hp. by rewrite Hn, He, Hp.
Qed.

Lemma account_is_json c sv :
  Server.safe_int (Server.next_user sv) -> JSON.is_json (account_of c sv) = true.
Proof. intros H%Server.is_json_num. simpl in *. by rewrite H. Qed.

(** The form stays on the screen while nobody is signed in. *)
Lemma login_screen_shown m : Login.shows_form m = true -> App.login_screen m = App.AtLogin m.
Proof. unfold Login.shows_form, App.login_screen. by destruct (Login.render (ui m)). Qed.

Lemma login_screen_signed m u :
  stored_user (Login.store (ui m)) = Some u -> truthy u = true ->
  App.login_screen m = App.AtLogin m.
Proof. intros Hu Ht. unfold App.login_screen. by rewrite (Login.render_signed_in _ u). Qed.

(** A Login page in order whose button is enabled has nothing in
    flight. *)
Lemma login_idle m :
  Login.good m -> Login.loading (Login.page (ui m)) = false -> pending m = ∅.
Proof.
  intros Hg Hl. apply map_empty. intros i. destruct (pending m !! i) as [w|] eqn:Hi; [|done].
  destruct (Login.good_flight _ Hg) as [_ [_ Hf]]. rewrite Hf in Hl; [done|].
  exists i, w. eauto using Login.good_pending.
Qed.

(** The account is created and its user stored. *)
Lemma signing_up a m sv :
  App.good a -> App.shown a = App.AtLogin m -> Login.can_submit m = true ->
  Server.safe_int (Server.next_user sv) ->
  exists m',
    surf ai [User (App.InLogin Login.Submit); Answer (next_id m)] (Site a sv) =
      Site (App.mkState (App.location a)
              (localStorage.setItem "user" (stringified (account_of (Login.page (ui m)) sv))
                 (App.storage a))
              (App.AtLogin m') (App.adrift a))
           (after_account (Login.page (ui m)) sv) /\
    App.stranded (App.AtLogin m') = [].
Proof.
  intros Hg Hs Hc Hsafe.
  pose proof (App.good_page a Hg) as Hm. rewrite Hs in Hm. cbn in Hm.
  pose proof (wf_fresh m (next_id m) (Login.good_wf _ Hm) (le_n _)) as Hfresh.
  destruct (Login.can_submit_spec m Hc) as [Hf Hl].
  destruct (Login.can_submit_filled m Hc) as (Hn & He & Hp).
  destruct (Login.fire_submit m Hc) as (w & Hw & Hfire).
  destruct (Login.run_create (Login.page (ui m)) (ui m)) as (w' & Hw' & Hreq & _).
  rewrite Hw in Hw'. injection Hw' as <-.
  unfold surf. cbn [foldl turn by_reader login_user app backend App.fire]. rewrite Hs.
  cbv zeta. rewrite Hfire. cbn [ui Login.on_page Login.store].
  rewrite login_screen_shown
    by (apply Login.shows_form_spec; by apply Login.shows_form_spec in Hf).
  cbn [App.left_behind]. rewrite app_nil_r.
  unfold awaiting, arrival. cbn [App.shown pending]. rewrite lookup_insert_eq. cbn [fmap option_fmap option_map].
  rewrite Hreq, (handle_createUser _ sv Hn He Hp). cbn [Server.created fst snd App.fire App.shown].
  cbv zeta.
  erewrite (Login.fire_created _ (next_id m) _ w); [|apply lookup_insert_eq|exact Hw|reflexivity].
  cbn [ui pending next_id sent unhandled Login.signed_in Login.on_page Login.on_store Login.store Login.page].
  rewrite (App.good_store a Hg m Hs).
  rewrite delete_insert_eq, (delete_id _ _ Hfresh), (login_idle m Hm Hl).
  eexists. rewrite (login_screen_signed _ (account_of (Login.page (ui m)) sv));
    [by rewrite app_nil_r| |done].
  cbn [ui Login.store]. apply stored_user_set, account_is_json, Hsafe.
Qed.

(** The link to the page of a book, from another page. *)
Lemma visit_book a u n :
  stored_user (App.storage a) = Some u -> App.shown a <> App.Blank ->
  (forall m, App.shown a <> App.AtBook m) ->
  App.fire (App.Visit ("/books/" +:+ string_of_Z n)) a =
    App.mkState ("/books/" +:+ string_of_Z n) (App.storage a)
      (App.AtBook (BookDetails.boot u (string_of_Z n)))
      (App.adrift a ++ App.stranded (App.shown a)).
Proof.
  intros Hu Hb Hk. cbn [App.fire]. unfold App.visit.
  rewrite (App.resolve_card n : App.resolve ("/books/" +:+ string_of_Z n) = _).
  destruct (App.shown a) eqn:E; try done; try (by destruct (Hk m));
    cbn [App.same_page App.mount]; unfold App.user, App.id_of;
    rewrite Hu, Router.param_head; cbn [default from_option id];
    by rewrite (App.book_screen_signed _ u).
Qed.

Lemma opening_book a u n b sv :
  stored_user (App.storage a) = Some u -> App.shown a <> App.Blank ->
  (forall m, App.shown a <> App.AtBook m) ->
  Server.books sv !! n = Some b ->
  surf ai [User (App.Visit ("/books/" +:+ string_of_Z n)); Answer 0] (Site a sv) =
    Site (App.mkState ("/books/" +:+ string_of_Z n) (App.storage a) (App.AtBook (arrived u n b))
            (App.adrift a ++ App.stranded (App.shown a)))
         sv.
Proof.
  intros Hu Hb Hk Hn. unfold surf. cbn [foldl turn by_reader app backend].
  rewrite (visit_book a u n Hu Hb Hk).
  destruct (BookDetails.boot_fetches u (string_of_Z n)) as (w & Hw & ->).
  destruct (BookDetails.run_load (BookDetails.init (string_of_Z n)) (BookDetails.init (string_of_Z n)))
    as (w' & Hw' & Hreq & _).
  rewrite Hw in Hw'. injection Hw' as <-.
  unfold awaiting, arrival. cbn [App.shown pending]. rewrite lookup_insert_eq.
  cbn [fmap option_fmap option_map].
  rewrite (handle_getBook ai _ n sv Hreq), (Server.get_book_found n b sv Hn).
  cbn [Server.ok fst snd App.fire App.shown App.of_page App.storage App.location].
  unfold App.user. rewrite Hu. cbn [default from_option id].
  rewrite (BookDetails.book_arrives u _ 0 (BookDetails.init (string_of_Z n)) w
             (response (Server.book_json n b)) (Server.book_json n b));
    [|apply lookup_insert_eq|done..].
  rewrite (App.book_screen_signed _ u) by done.
  cbn. by rewrite delete_insert_eq, delete_empty.
Qed.

(** While the reader stays on the page of a book, the site is the world
    of that page. *)
Lemma turn_on_book a u mv w :
  stored_user (App.storage a) = Some u -> stays mv = true ->
  turn ai (on_book mv) (at_book a w) =
    at_book a (act (fire:=BookDetails.fire u) BookDetails.Settle page_user ai mv w).
Proof.
  intros Hu Hs.
  assert (Hf : forall ev m, App.book_screen (App.storage a)
            (BookDetails.fire (App.user (App.storage a)) ev m) =
          App.AtBook (BookDetails.fire u ev m)).
  { intros ev m. rewrite (App.book_screen_signed _ u) by done. unfold App.user. by rewrite Hu. }
  unfold at_book.
  destruct mv as [ev|i|i|i|r]; cbn [on_book turn act by_reader app backend];
    unfold awaiting, arrival, in_transit; cbn [App.shown App.fire client server]; [|..|done].
  - destruct (page_user ev); [|done]. cbn in Hs.
    by rewrite Hs; cbn [App.storage App.location]; rewrite Hf.
  - destruct (pending (client w) !! i); [|done].
    by cbn [fmap option_fmap option_map App.of_page App.storage App.location]; rewrite Hf.
  - destruct (pending (client w) !! i); [|done].
    by cbn [fmap option_fmap option_map App.of_page App.storage App.location]; rewrite Hf.
  - destruct (pending (client w) !! i); [|done].
    by cbn [fmap option_fmap option_map App.of_page App.storage App.location]; rewrite Hf.
Qed.

Lemma surf_on_book a u mvs w :
  stored_user (App.storage a) = Some u -> forallb stays mvs = true ->
  surf ai (on_book <$> mvs) (at_book a w) =
    at_book a (perform (fire:=BookDetails.fire u) BookDetails.Settle page_user ai mvs w).
Proof.
  intros Hu. revert w. induction mvs as [|mv mvs IH]; intros w H; [done|].
  apply andb_true_iff in H as [H1 H2]. cbn [fmap list_fmap].
  unfold surf, perform in *. cbn [foldl]. rewrite (turn_on_book a u mv w Hu H1). by apply IH.
Qed.

Lemma or_listed uid sv : or_ (VArr (listed uid sv)) (VArr []) = VArr (listed uid sv).
Proof. done. Qed.

Lemma bookings_screen_loaded st u uid sv :
  stored_user st = Some u -> App.bookings_screen st (loaded uid sv) = App.AtBookings (loaded uid sv).
Proof.
  intros Hu. unfold App.bookings_screen. rewrite Hu.
  destruct (listable_map MyBookings.row (VArr (listed uid sv))) as [rs Hrs].
  - intros b Hb. unfold MyBookings.row. rewrite Hb. by eexists.
  - by apply Server.listable_fmap.
  - unfold MyBookings.render. cbn [ui loaded MyBookings.items]. by rewrite Hrs.
Qed.

Lemma opening_bookings a u uid sv :
  stored_user (App.storage a) = Some u -> opt_get u "id" = VNum uid -> uid <> 0%Z ->
  App.shown a <> App.Blank -> (forall m, App.shown a <> App.AtBookings m) ->
  surf ai [User (App.Visit "/bookings"); Answer 0] (Site a sv) =
    Site (App.mkState "/bookings" (App.storage a) (App.AtBookings (loaded uid sv))
            (App.adrift a ++ App.stranded (App.shown a))) sv.
Proof.
  intros Hu Hid H0 Hb Hk.
  assert (Ht : truthy (opt_get u "id") = true) by (rewrite Hid; by destruct uid).
  destruct (MyBookings.boot_signed_in u Ht) as (w & Hw & Hboot).
  destruct (MyBookings.run_load_bookings (MyBookings.init u) (MyBookings.init u))
    as (w' & Hw' & Hreq & _).
  { unfold MyBookings.init. cbn [MyBookings.userId]. by rewrite or_truthy. }
  rewrite Hw in Hw'. injection Hw' as <-.
  assert (Hi : MyBookings.userId (MyBookings.init u) = VNum uid).
  { unfold MyBookings.init. cbn [MyBookings.userId]. by rewrite or_truthy, Hid. }
  rewrite Hi in Hreq. cbn [Number_] in Hreq.
  assert (Hv : App.fire (App.Visit "/bookings") a =
            App.mkState "/bookings" (App.storage a) (App.AtBookings (MyBookings.boot u))
              (App.adrift a ++ App.stranded (App.shown a))).
  { cbn [App.fire]. unfold App.visit.
    change (App.resolve "/bookings")
      with (Some ("/bookings", App.MyBookings, @nil (string * string))).
    destruct (App.shown a) eqn:E; try done; try (by destruct (Hk m));
      cbn [App.same_page]; by rewrite (App.mount_bookings _ u). }
  unfold surf. cbn [foldl turn by_reader app backend]. rewrite Hv, Hboot.
  unfold awaiting, arrival. cbn [App.shown pending]. rewrite lookup_singleton_eq.
  cbn [fmap option_fmap option_map]. unfold Server.handle.
  rewrite Hreq, Server.route_getUserBookings. cbn [Server.serve Server.get_bookings Server.ok fst snd].
  cbn [App.fire App.shown App.storage App.location].
  rewrite (MyBookings.bookings_fire_settle _ 0 w) by (apply lookup_singleton_eq || by eexists).
  unfold http_ok.
  rewrite (MyBookings.resume_bookings_ok _ w _ (Server.items (listed uid sv)) (VArr (listed uid sv)))
    by done.
  cbn [after ui pending next_id sent unhandled]. rewrite delete_singleton_eq, or_listed.
  rewrite Hid. cbn [Number_].
  unfold MyBookings.setLoading, MyBookings.setItems, MyBookings.init.
  cbn [MyBookings.userId MyBookings.items MyBookings.loading MyBookings.error].
  rewrite or_truthy, Hid by done.
  fold (loaded uid sv). by rewrite (bookings_screen_loaded _ u).
Qed.

Lemma surf_wf mvs w : Server.wf (backend w) -> Server.wf (backend (surf ai mvs w)).
Proof.
  intros H. induction mvs as [|mv mvs IH] using rev_ind; [done|].
  rewrite surf_app. by apply turn_wf.
Qed.

Lemma surf_good mvs w : App.good (app w) -> App.good (app (surf ai mvs w)).
Proof.
  intros H. induction mvs as [|mv mvs IH] using rev_ind; [done|].
  rewrite surf_app. by apply turn_good.
Qed.

(** A new account has no bookings. *)
Lemma listed_new sv : Server.wf sv -> listed (Server.next_user sv) sv = [].
Proof.
  intros Hwf. unfold listed. pose proof (Server.wf_bookings _ Hwf) as Hb.
  induction Hb as [|bk l [Hu%(Server.wf_users _ Hwf) _] _ IH]; [done|].
  cbn. rewrite bool_decide_eq_false_2 by lia. apply IH.
Qed.

Lemma account_id c sv : opt_get (account_of c sv) "id" = VNum (Server.next_user sv).
Proof. done. Qed.

(** The storage after the account of [c] is created. *)
Lemma reader_arrives a m sv n b :
  App.good a -> App.shown a = App.AtLogin m -> Login.can_submit m = true ->
  Server.safe_int (Server.next_user sv) -> Server.books sv !! n = Some b ->
  exists st,
    stored_user st = Some (account_of (Login.page (ui m)) sv) /\
    surf ai [User (App.InLogin Login.Submit); Answer (next_id m);
             User (App.Visit ("/books/" +:+ string_of_Z n)); Answer 0] (Site a sv) =
      Site (App.mkState ("/books/" +:+ string_of_Z n) st
              (App.AtBook (arrived (account_of (Login.page (ui m)) sv) n b)) (App.adrift a))
           (after_account (Login.page (ui m)) sv).
Proof.
  intros Hg Hs Hc Hsu Hb. destruct (signing_up a m sv Hg Hs Hc Hsu) as (m1 & H1 & H0).
  eexists. split; [by apply stored_user_set, account_is_json|].
  change [User (App.InLogin Login.Submit); Answer (next_id m);
          User (App.Visit ("/books/" +:+ string_of_Z n)); Answer 0]
    with ([User (App.InLogin Login.Submit); Answer (next_id m)] ++
          [User (App.Visit ("/books/" +:+ string_of_Z n)); Answer 0]).
  rewrite surf_app, H1.
  rewrite (opening_book _ (account_of (Login.page (ui m)) sv) n b)
    by (done || by apply stored_user_set, account_is_json).
  cbn [App.shown App.storage App.adrift]. by rewrite H0, app_nil_r.
Qed.

(** The first part of the journey: the reader has an account and has
    booked a copy of the book. *)
Lemma reader_books a m sv n b :
  App.good a -> App.shown a = App.AtLogin m -> Login.can_submit m = true ->
  Server.wf sv -> Server.safe_int (Server.next_user sv) -> Server.safe_int n ->
  Server.books sv !! n = Some b -> (0 < Server.available_copies b)%Z ->
  exists st m3,
    surf ai (to_the_book (next_id m) n) (Site a sv) =
      Site (App.mkState ("/books/" +:+ string_of_Z n) st (App.AtBook m3) (App.adrift a))
           (after_booking (Server.next_user sv) n b (after_account (Login.page (ui m)) sv)) /\
    stored_user st = Some (account_of (Login.page (ui m)) sv) /\
    BookDetails.book (ui m3) = Server.book_json n (Server.take_copy b) /\
    BookDetails.shows_book (ui m3) = true.
Proof.
  intros Hg Hs Hc Hwf Hsu Hsn Hb Hpos.
  destruct (reader_arrives a m sv n b Hg Hs Hc Hsu Hb) as (st & Hst & H4).
  pose proof (App.good_page _ (surf_good [User (App.InLogin Login.Submit); Answer (next_id m);
                 User (App.Visit ("/books/" +:+ string_of_Z n)); Answer 0] (Site a sv) Hg))
    as Hgood.
  rewrite H4 in Hgood. cbn [app App.shown App.page_good] in Hgood.
  set (c := Login.page (ui m)) in *. set (u := account_of c sv) in *.
  destruct (Server.wf_next _ Hwf) as [_ Hpos'].
  assert (Hid : BookingForm.userId (BookingForm.init u) = VNum (Server.next_user sv))
    by (cbn; by destruct (Server.next_user sv)).
  destruct (booked_and_fetched u ai (arrived u n b) (after_account c sv) 0 (BookingForm.init u)
              (Server.next_user sv) n
              (Server.mkUser (Login.name c) (Login.email c) (Login.password c)) b)
    as (w3 & Hw3 & Hsv & Hbook & Hshow & _); try done.
  - rewrite Hid. by destruct (Server.next_user sv).
  - by rewrite Hid.
  - apply lookup_insert_eq.
  - unfold to_the_book. rewrite surf_app, H4.
    change (Site _ (after_account c sv))
      with (at_book (App.mkState ("/books/" +:+ string_of_Z n) st App.Blank (App.adrift a))
              (World (arrived u n b) (after_account c sv))).
    rewrite (surf_on_book _ u) by done.
    cbn [next_id arrived] in Hw3. rewrite <- Hw3. exists st, (client w3).
    unfold at_book. cbn [App.location App.storage App.adrift]. by rewrite Hsv.
Qed.

(** The first booking of a new account is its only one. *)
Lemma listed_first c n b sv :
  Server.wf sv ->
  listed (Server.next_user sv) (after_booking (Server.next_user sv) n b (after_account c sv)) =
    [Server.booking_json
       (Server.mkBooking (Z.of_nat (length (Server.bookings sv)) + 1) (Server.next_user sv) n
          Server.active (Server.now sv))].
Proof.
  intros Hwf. pose proof (listed_new sv Hwf) as Hn. unfold listed in *.
  cbn [after_booking after_account Server.bookings Server.now].
  rewrite List.filter_app, fmap_app, Hn. cbn [List.filter Server.user_id].
  by rewrite bool_decide_eq_true_2.
Qed.

End Facts.

(** *** The invariant of the site *)

Section Order.
Context (ai : Server.Oracle).
Implicit Types (a : App.State) (w : site) (sc : App.screen).

Lemma book_screen_snapshot st m :
  from_server (BookDetails.book (ui m)) -> snapshot_sound (App.book_screen st m).
Proof. intros H. unfold App.book_screen. by repeat case_match. Qed.

Lemma mount_snapshot el ps st : snapshot_sound (App.mount el ps st).
Proof.
  destruct el; cbn [App.mount]; try done.
  - apply book_screen_snapshot.
    destruct (BookDetails.boot_fetches (App.user st) (App.id_of ps)) as (k & _ & ->). by left.
  - unfold App.bookings_screen. by repeat case_match.
  - unfold App.login_screen. by case_match.
Qed.

(** An event of a page keeps the snapshot sound when the page of a book
    does. *)
Lemma reread_snapshot st sc : snapshot_sound sc -> snapshot_sound (App.reread st sc).
Proof.
  destruct sc; cbn [App.reread]; try done; intros H.
  - by apply book_screen_snapshot.
  - unfold App.bookings_screen. by repeat case_match.
  - unfold App.login_screen. by case_match.
Qed.

Lemma fire_snapshot ev a :
  snapshot_sound (App.shown a) ->
  (forall e m, ev = App.InBookDetails e -> App.shown a = App.AtBook m ->
     from_server (BookDetails.book (ui (BookDetails.fire (App.user (App.storage a)) e m)))) ->
  snapshot_sound (App.shown (App.fire ev a)).
Proof.
  intros Ha Hb. destruct ev as [p|to|e|e|e|e|e|k o]; cbn [App.fire].
  - unfold App.open. repeat case_match; cbn [App.shown]; [apply mount_snapshot|done].
  - unfold App.visit. destruct (App.shown a) eqn:E; [by rewrite E|..];
      (destruct (App.resolve to) as [[[loc el] ps]|]; [|by rewrite E]);
      destruct el; cbn [App.shown App.same_page]; try apply mount_snapshot; try done.
    apply book_screen_snapshot. by rewrite user_book.
  - destruct (App.shown a) eqn:E; cbn [App.shown]; by rewrite ?E.
  - destruct (App.shown a) eqn:E; cbn [App.shown]; rewrite ?E; try done.
    unfold App.books_screen. by case_match.
  - destruct (App.shown a) eqn:E; rewrite ?E; try done. case_match; [|by rewrite E].
    cbn [App.shown]. by apply book_screen_snapshot, Hb.
  - destruct (App.shown a) eqn:E; cbn [App.shown]; rewrite ?E; try done.
    unfold App.bookings_screen. by repeat case_match.
  - destruct (App.shown a) eqn:E; cbv zeta; cbn [App.shown]; rewrite ?E; try done.
    unfold App.login_screen. by case_match.
  - unfold App.late. destruct (App.adrift a !! k); [|done]. by apply reread_snapshot.
Qed.

(** A move of the world of the page of a book keeps its snapshot sound. *)
Lemma page_move_snapshot u mv m sv :
  Server.wf sv -> BookDetails.good m -> from_server (BookDetails.book (ui m)) ->
  from_server (BookDetails.book (ui (client
    (act (fire:=BookDetails.fire u) BookDetails.Settle page_user ai mv (World m sv))))).
Proof. intros Hs Hg Hb. by destruct (sound_act u ai mv (World m sv)) as (_ & _ & ?). Qed.

(** The answer to a request of the page on the screen. *)
Lemma arrival_snapshot i o a mv sv :
  App.good a -> Server.wf sv -> snapshot_sound (App.shown a) ->
  (forall m, App.shown a = App.AtBook m ->
     BookDetails.fire (App.user (App.storage a)) (BookDetails.Settle i o) m =
     client (act (fire:=BookDetails.fire (App.user (App.storage a))) BookDetails.Settle
               page_user ai mv (World m sv))) ->
  snapshot_sound (App.shown (App.fire (arrival i o a) a)).
Proof.
  intros Hg Hs Ha Hm. apply fire_snapshot; [done|]. intros e m He E.
  unfold arrival in He. rewrite E in He. injection He as <-. rewrite (Hm m E).
  apply page_move_snapshot; [done| |by rewrite E in Ha].
  pose proof (App.good_page a Hg) as Hp. by rewrite E in Hp.
Qed.

Lemma awaiting_book i a m r :
  awaiting i a = Some r -> App.shown a = App.AtBook m ->
  exists k, pending m !! i = Some k /\ r = request_of k.
Proof.
  unfold awaiting. intros H E. rewrite E in H.
  destruct (pending m !! i) as [k|]; [|done]. injection H as <-. by exists k.
Qed.

(** The answer of the server, or the failure of the network, to a
    request the application awaits. *)
Lemma settled_snapshot i o r w :
  in_order w -> awaiting i (app w) = Some r ->
  o = (Server.handle ai r (backend w)).1 \/ o = network_error ->
  snapshot_sound (App.shown (App.fire (arrival i o (app w)) (app w))).
Proof.
  intros (Hs & Hg & Ha) Hi [-> | ->];
    [apply (arrival_snapshot _ _ _ (Answer i) (backend w))
    |apply (arrival_snapshot _ _ _ (Lose i) (backend w))]; try done;
    intros m E; destruct (awaiting_book i _ m r Hi E) as (k & Hk & ->);
    unfold act, in_transit; cbn [client server]; by rewrite Hk.
Qed.

Lemma turn_in_order mv w : in_order w -> in_order (turn ai mv w).
Proof.
  intros Hw. pose proof Hw as (Hs & Hg & Ha).
  split; [by apply turn_wf|]. split; [by apply turn_good|].
  destruct mv as [ev|i|i|i|r]; cbn [turn]; [|destruct (awaiting i (app w)) eqn:Hi..|];
    try done; cbn [app]; try (eapply settled_snapshot; eauto).
  destruct (by_reader ev) eqn:Hr; [|done]. cbn [app]. apply fire_snapshot; [done|].
  intros e m -> E. rewrite user_book by done. by rewrite E in Ha.
Qed.

Lemma sail_in_order l w : in_order w -> in_order (sail ai l w).
Proof.
  intros Hw. destruct l as [mv|k|k]; [by apply turn_in_order|..];
    destruct Hw as (Hs & Hg & Ha); cbn [sail];
    (destruct (astray k (app w)); [|done]);
    (split_and!; cbn [app backend App.fire];
      [auto using Server.handle_wf|by apply App.good_late|]);
    unfold App.late; (destruct (App.adrift (app w) !! k); [|done]);
    by apply reread_snapshot.
Qed.

Lemma voyage_in_order ls w : in_order w -> in_order (voyage ai ls w).
Proof.
  intros H. induction ls as [|l ls IH] using rev_ind; [done|].
  unfold voyage. rewrite foldl_snoc. by apply sail_in_order.
Qed.

Lemma open_in_order p st sv : Server.wf sv -> in_order (Site (App.open p st) sv).
Proof.
  intros H. split; [done|]. split; [apply App.good_open|]. cbn [app]. unfold App.open.
  repeat case_match; cbn [App.shown]; [apply mount_snapshot|done].
Qed.

End Order.

(** *** The screen is never blank *)

Section Steady.
Context (ai : Server.Oracle).

Lemma handle_next_user r s :
  (Server.next_user s <= Server.next_user (Server.handle ai r s).2 <= Server.next_user s + 1)%Z.
Proof.
  unfold Server.handle. destruct (Server.route r); simpl;
    unfold Server.get_books, Server.get_book, Server.post_book, Server.post_summarize,
      Server.post_recommend, Server.post_user, Server.get_users, Server.post_booking,
      Server.get_bookings;
    repeat case_match; simpl; lia.
Qed.

Lemma created_account c sv resp d :
  (Server.handle ai (createUser (Login.credentials c)) sv).1 = Resolved resp ->
  member resp "data" = Some d -> d = account_of c sv.
Proof.
  unfold Server.handle, Login.credentials. rewrite Server.route_createUser.
  cbn [Server.serve]. unfold Server.post_user. cbn.
  repeat case_match; try done; by intros [= <-] [= <-].
Qed.

(** The reader's events on the Login page leave a storage that can be
    read. *)
Lemma login_user_readable ev m :
  login_user ev = true -> is_Some (stored_user (Login.store (ui m))) ->
  is_Some (stored_user (Login.store (ui (Login.fire ev m)))).
Proof.
  intros Hu Hs. destruct (Login.enabled ev m) eqn:He; [|by unfold Login.fire; rewrite He].
  destruct ev as [v|v|v| | |i o]; try done; try (by unfold Login.fire; rewrite He).
  rewrite (Login.fire_logout m He). cbn [ui Login.on_page Login.on_store Login.store].
  rewrite stored_user_removed. by eexists.
Qed.

(** So does the answer of the server to the creation of an account, and
    the failure of the network. *)
Lemma login_settle_readable i o k m sv :
  Login.good m -> pending m !! i = Some k -> Server.safe_int (Server.next_user sv) ->
  o = (Server.handle ai (request_of k) sv).1 \/ o = network_error ->
  is_Some (stored_user (Login.store (ui m))) ->
  is_Some (stored_user (Login.store (ui (Login.fire (Login.Settle i o) m)))).
Proof.
  intros Hg Hk Hsafe Ho Hs. pose proof (Login.good_pending _ Hg i k Hk) as Hsub.
  rewrite (Login.login_fire_settle m i k o Hk Hsub). cbn [ui].
  destruct (Login.resume_create_settles k o (ui m) Hsub)
    as (_ & _ & [(resp & d & -> & Hd & ->)|[-> _]]); [|done].
  destruct Ho as [Ho|Ho]; [|done]. destruct Hsub as [c Hc].
  destruct (Login.run_create c (ui m)) as (k' & Hk' & Hr & _).
  rewrite Hc in Hk'. injection Hk' as <-. rewrite Hr in Ho.
  rewrite (created_account c sv resp d (eq_sym Ho) Hd).
  rewrite Login.signed_in_stored by (by apply account_is_json). by eexists.
Qed.

Lemma book_screen_readable st m :
  is_Some (stored_user st) -> App.book_screen st m = App.AtBook m.
Proof. intros [u Hu]. by apply (App.book_screen_signed st u). Qed.

Lemma books_screen_listable m :
  listable (BookList.books (ui m)) -> App.books_screen m = App.AtBooks m.
Proof.
  intros [v Hv]%BookList.listable_renders. unfold App.books_screen. by rewrite Hv.
Qed.

Lemma bookings_screen_listable st m :
  is_Some (stored_user st) -> listable (MyBookings.items (ui m)) ->
  App.bookings_screen st m = App.AtBookings m.
Proof.
  intros [u Hu] [v Hv]%MyBookings.bookings_render. unfold App.bookings_screen.
  by rewrite Hu, Hv.
Qed.

Lemma login_screen_readable m :
  is_Some (stored_user (Login.store (ui m))) -> App.login_screen m = App.AtLogin m.
Proof.
  intros [u Hu]. unfold App.login_screen, Login.render. by rewrite Hu.
Qed.

(** A page that is mounted with a storage that can be read is on the
    screen. *)
Lemma mount_steady el ps st :
  is_Some (stored_user st) -> App.is_page el = true -> page_steady (App.mount el ps st).
Proof.
  intros Hs Hp. destruct el; try done; cbn [App.mount].
  - destruct (list_world_good ai [] Server.empty) as [[_ Hl] _].
    by rewrite books_screen_listable.
  - by rewrite book_screen_readable.
  - destruct (bookings_world_good ai (App.user st) [] Server.empty) as [[_ Hl] _].
    by rewrite bookings_screen_listable.
  - by rewrite login_screen_readable.
Qed.

Lemma open_steady p st :
  rooted p = true -> is_Some (stored_user st) -> page_steady (App.shown (App.open p st)).
Proof.
  intros Hp Hs. destruct p as [|c t]; [done|]. apply Ascii.eqb_eq in Hp as ->.
  unfold App.open. unfold Router.slash.
  rewrite App.resolve_page.
  destruct (App.is_page (App.page_of t).1) eqn:E; cbn [App.shown]; by apply mount_steady.
Qed.

Lemma visit_steady to a :
  is_Some (stored_user (App.storage a)) -> page_steady (App.shown a) ->
  App.storage (App.visit to a) = App.storage a /\
  page_steady (App.shown (App.visit to a)).
Proof.
  intros Hs Ha. unfold App.visit.
  destruct (App.shown a) eqn:E; [done|..];
    (destruct (App.resolve to) as [[[loc el] ps]|] eqn:Hr; [|by rewrite E]);
    apply App.resolve_resolved in Hr as [_ Hp];
    destruct el; try done; cbn [App.shown App.storage App.same_page];
    (split; [done|]); try (by apply mount_steady).
  by rewrite book_screen_readable.
Qed.

(** An event of the application keeps the storage readable and the
    screen filled, when the answers it delivers to the lists are lists
    and the Login page keeps its storage readable. *)
Lemma fire_steady ev a :
  App.good a -> is_Some (stored_user (App.storage a)) -> page_steady (App.shown a) ->
  (forall p, ev = App.Open p -> rooted p = true) ->
  (forall e, ev = App.InBookList e -> BookList.listing_event e) ->
  (forall e, ev = App.InMyBookings e -> MyBookings.listing_event e) ->
  (forall e m, ev = App.InLogin e -> App.shown a = App.AtLogin m ->
     is_Some (stored_user (Login.store (ui (Login.fire e m))))) ->
  (forall k o, ev <> App.Late k o) ->
  is_Some (stored_user (App.storage (App.fire ev a))) /\
  page_steady (App.shown (App.fire ev a)).
Proof.
  intros Hg Hs Ha Hopen Hlist Hbook Hlogin Hlate. pose proof (App.good_page a Hg) as Hp.
  destruct ev as [p|to|e|e|e|e|e|k o]; cbn [App.fire]; [..|by destruct (Hlate k o)].
  - split; [by unfold App.open; repeat case_match|]. apply open_steady; [by apply Hopen|done].
  - destruct (visit_steady to a Hs Ha) as [-> ?]. done.
  - destruct (App.shown a) eqn:E; cbn [App.shown App.storage]; by rewrite ?E.
  - destruct (App.shown a) eqn:E; cbn [App.shown App.storage]; rewrite ?E; try done.
    assert (listable (BookList.books (ui (BookList.fire e m))))
      by (apply BookList.fire_listable; auto).
    by rewrite books_screen_listable.
  - destruct (App.shown a) eqn:E; rewrite ?E; try done.
    case_match; cbn [App.shown App.storage]; rewrite ?E; try done.
    by rewrite book_screen_readable.
  - destruct (App.shown a) eqn:E; cbn [App.shown App.storage]; rewrite ?E; try done.
    assert (listable (MyBookings.items (ui (MyBookings.fire e m))))
      by (apply MyBookings.fire_bookings_listable; auto).
    by rewrite bookings_screen_listable.
  - destruct (App.shown a) eqn:E; cbv zeta; cbn [App.shown App.storage]; rewrite ?E; try done.
    split; [by apply Hlogin|]. by rewrite login_screen_readable by (by apply Hlogin).
Qed.

Lemma awaiting_login i a m r :
  awaiting i a = Some r -> App.shown a = App.AtLogin m ->
  exists k, pending m !! i = Some k /\ r = request_of k.
Proof.
  unfold awaiting. intros H E. rewrite E in H.
  destruct (pending m !! i) as [k|]; [|done]. injection H as <-. by exists k.
Qed.

(** An event of the reader. *)
Lemma reader_steady ev a :
  App.good a -> is_Some (stored_user (App.storage a)) -> page_steady (App.shown a) ->
  by_reader ev = true -> civil (Move (User ev)) = true ->
  is_Some (stored_user (App.storage (App.fire ev a))) /\
  page_steady (App.shown (App.fire ev a)).
Proof.
  intros Hg Hs Ha Hr Hc. apply fire_steady; try done.
  - by intros p ->.
  - intros e ->. by destruct e.
  - intros e ->. by destruct e.
  - intros e m -> E. apply login_user_readable; [done|].
    by rewrite (App.good_store a Hg m E).
  - by intros k o ->.
Qed.

(** An answer of the server, or the failure of the network. *)
Lemma settled_steady i o r a sv :
  App.good a -> is_Some (stored_user (App.storage a)) -> page_steady (App.shown a) ->
  awaiting i a = Some r -> Server.safe_int (Server.next_user sv) ->
  o = (Server.handle ai r sv).1 \/ o = network_error ->
  is_Some (stored_user (App.storage (App.fire (arrival i o a) a))) /\
  page_steady (App.shown (App.fire (arrival i o a) a)).
Proof.
  intros Hg Hs Ha Hi Hsafe Ho.
  assert (Hl : listing o) by (destruct Ho as [-> | ->]; [apply Server.handle_listing|done]).
  apply fire_steady; try done; unfold arrival.
  - intros p. by destruct (App.shown a).
  - intros e. destruct (App.shown a); try done. by intros [= <-].
  - intros e. destruct (App.shown a); try done. by intros [= <-].
  - intros e m He E. rewrite E in He. injection He as <-.
    destruct (awaiting_login i a m r Hi E) as (k & Hk & ->).
    apply (login_settle_readable i o k m sv); try done.
    + pose proof (App.good_page a Hg) as Hp. by rewrite E in Hp.
    + by rewrite (App.good_store a Hg m E).
  - intros k o'. by destruct (App.shown a).
Qed.

Lemma turn_next_user mv w :
  (Server.next_user (backend (turn ai mv w)) <= Server.next_user (backend w) + 1)%Z.
Proof.
  destruct mv as [ev|i|i|i|r]; cbn [turn];
    [destruct (by_reader ev)|destruct (awaiting i (app w))..|]; cbn [backend];
    try lia; apply handle_next_user.
Qed.

Lemma turn_steady k mv w :
  (0 <= k)%Z -> civil (Move mv) = true -> steady (k + 1) w -> steady k (turn ai mv w).
Proof.
  intros Hk Hc (Hwf & Hg & Hs & Ha & Hn).
  assert (Hsafe : Server.safe_int (Server.next_user (backend w))).
  { destruct (Server.wf_next _ Hwf). unfold Server.safe_int. lia. }
  split; [by apply turn_wf|]. split; [by apply turn_good|].
  enough (H : is_Some (stored_user (App.storage (app (turn ai mv w)))) /\
              page_steady (App.shown (app (turn ai mv w))))
    by (destruct H; split_and!; [done..|pose proof (turn_next_user mv w); lia]).
  destruct mv as [ev|i|i|i|r]; cbn [turn];
    [destruct (by_reader ev) eqn:Hr|destruct (awaiting i (app w)) eqn:Hi..|];
    cbn [app]; try done.
  - by apply reader_steady.
  - eapply settled_steady; eauto.
  - eapply settled_steady; eauto.
  - eapply settled_steady; eauto.
Qed.

Lemma reread_steady st sc :
  is_Some (stored_user st) -> page_steady sc -> page_steady (App.reread st sc).
Proof.
  intros Hs Ha. destruct sc; cbn [App.reread]; try done.
  - by rewrite book_screen_readable.
  - by rewrite bookings_screen_listable.
  - by rewrite login_screen_readable.
Qed.

(** The answer to a submission adrift leaves a storage that can be
    read. *)
Lemma late_readable o w st sv :
  Login.is_submit w -> Server.safe_int (Server.next_user sv) ->
  o = (Server.handle ai (request_of w) sv).1 \/ o = network_error ->
  is_Some (stored_user st) -> is_Some (stored_user (App.late_store w o st)).
Proof.
  intros Hw Hsafe Ho Hs.
  destruct (App.late_store_cases w o st Hw) as [->|(resp & d & -> & Hd & ->)]; [done|].
  destruct Ho as [Ho|Ho]; [|done]. destruct Hw as [c Hc].
  destruct (Login.run_create c (Login.mkWorld c ∅)) as (k' & Hk' & Hr & _).
  rewrite Hc in Hk'. injection Hk' as <-. rewrite Hr in Ho.
  rewrite (created_account c sv resp d (eq_sym Ho) Hd).
  rewrite stored_user_set by (by apply account_is_json). by eexists.
Qed.

Lemma late_steady k o r a sv :
  App.good a -> is_Some (stored_user (App.storage a)) -> page_steady (App.shown a) ->
  astray k a = Some r -> Server.safe_int (Server.next_user sv) ->
  o = (Server.handle ai r sv).1 \/ o = network_error ->
  is_Some (stored_user (App.storage (App.late k o a))) /\
  page_steady (App.shown (App.late k o a)).
Proof.
  intros Hg Hs Ha Hk Hsafe Ho. unfold astray in Hk. unfold App.late.
  destruct (App.adrift a !! k) as [w|] eqn:E; [|done]. injection Hk as <-.
  cbv zeta. cbn [App.storage App.shown].
  assert (is_Some (stored_user (App.late_store w o (App.storage a)))).
  { apply (late_readable o w _ sv); try done.
    by apply (Forall_lookup_1 _ _ _ _ (App.good_adrift a Hg) E). }
  split; [done|by apply reread_steady].
Qed.

Lemma sail_next_user l w :
  (Server.next_user (backend (sail ai l w)) <= Server.next_user (backend w) + 1)%Z.
Proof.
  destruct l as [mv|k|k]; cbn [sail]; [apply turn_next_user|destruct (astray k (app w))..];
    cbn [backend]; try lia; apply handle_next_user.
Qed.

Lemma sail_steady k l w :
  (0 <= k)%Z -> civil l = true -> steady (k + 1) w -> steady k (sail ai l w).
Proof.
  intros Hk Hc Hw. destruct l as [mv|j|j]; [by apply turn_steady|..];
    destruct Hw as (Hwf & Hg & Hs & Ha & Hn);
    (assert (Hsafe : Server.safe_int (Server.next_user (backend w)))
       by (destruct (Server.wf_next _ Hwf); unfold Server.safe_int; lia));
    cbn [sail]; (destruct (astray j (app w)) as [r|] eqn:Hj; [|split_and!; [done..|lia]]);
    (split_and!; cbn [app backend App.fire];
      [auto using Server.handle_wf|by apply App.good_late
      |eapply late_steady; eauto|eapply late_steady; eauto
      |pose proof (handle_next_user r (backend w)); lia]).
Qed.

Lemma voyage_steady ls w :
  forallb civil ls = true -> steady (Z.of_nat (length ls)) w -> steady 0 (voyage ai ls w).
Proof.
  revert w. induction ls as [|l ls IH]; intros w Hc Hw; [done|].
  apply andb_true_iff in Hc as [Hc1 Hc2]. unfold voyage. cbn [foldl]. apply IH; [done|].
  apply sail_steady; [lia|done|]. by replace (Z.of_nat (length ls) + 1)%Z
    with (Z.of_nat (length (l :: ls))) by (cbn [length]; lia).
Qed.

End Steady.

(** ** The properties of the site *)

Section Claims.
Context (ai : Server.Oracle).

(** C11. The journey of a new reader, through the whole application and
    the server.  On the Login page with its three fields filled, the
    reader submits the form; the server creates the account and the
    page stores the user it answers with.  The link to the page of book
    [n], of which a copy is available, fetches the book and mounts the
    booking form with the id of the new account; submitting it books a
    copy, and the link to the bookings then lists exactly that booking,
    active, under the id of the account.  At the end the server has
    the account, one copy less of the book and the booking, and its
    inventory is consistent. *)
Theorem reader_journey p st0 a m sv n b :
  reachable App.step (App.open p st0) a ->
  App.shown a = App.AtLogin m -> Login.can_submit m = true ->
  Server.wf sv -> Server.safe_int (Server.next_user sv) -> Server.safe_int n ->
  Server.books sv !! n = Some b -> (0 < Server.available_copies b)%Z ->
  let c := Login.page (ui m) in
  let u := Server.next_user sv in
  let w' := surf ai (journey (next_id m) n) (Site a sv) in
  backend w' = after_booking u n b (after_account c sv) /\
  Server.wf (backend w') /\
  stored_user (App.storage (app w')) = Some (account_of c sv) /\
  App.location (app w') = "/bookings" /\
  App.shown (app w') = App.AtBookings (loaded u (backend w')) /\
  App.render_main (App.shown (app w')) =
    Some (App.MyBookingsView
            (MyBookings.mkView (VNum u) false false None
               [MyBookings.mkRow (VNum (Z.of_nat (length (Server.bookings sv)) + 1)) (VNum n)
                  (VStr "active") (VNum (Server.now sv))]
               false)).
Proof.
  intros Hg%App.reachable_good Hs Hc Hwf Hsu Hsn Hb Hpos c u w'. subst u.
  assert (Hwf' : Server.wf (backend w')) by (by apply surf_wf).
  destruct (reader_books ai a m sv n b) as (st & m3 & H3 & Hst & _); try done.
  destruct (Server.wf_next _ Hwf) as [_ Hu].
  assert (Hw' : w' = Site (App.mkState "/bookings" st
                 (App.AtBookings (loaded (Server.next_user sv)
                    (after_booking (Server.next_user sv) n b (after_account c sv))))
                 (App.adrift a ++ []))
               (after_booking (Server.next_user sv) n b (after_account c sv))).
  { unfold w', journey. rewrite surf_app, H3.
    by rewrite (opening_bookings ai _ (account_of c sv) (Server.next_user sv)) by (done || lia). }
  rewrite Hw' in *. cbn [app backend App.storage App.location App.shown]. split_and!; try done.
  unfold loaded. rewrite (listed_first c n b sv Hwf). cbn. by destruct (Server.next_user sv).
Qed.

(** C15. The copies the application shows are within bounds, on every
    page of a book it ever shows.  From a page load on a server whose
    inventory is consistent, whatever the reader does on whichever
    pages, navigation from one book to another with fetches in flight
    included, in whatever order the server answers, whichever requests
    and answers are lost and whatever other clients do: the site stays
    in order, and when the page of a book is on the screen and its
    snapshot has an available and a total number of copies, the first
    is not negative and not greater than the second. *)
Theorem app_copies_in_bounds p st ls sv m a t :
  Server.wf sv ->
  let w := voyage ai ls (Site (App.open p st) sv) in
  in_order w /\
  (App.shown (app w) = App.AtBook m ->
   get_field (BookDetails.book (ui m)) "available_copies" = VNum a ->
   get_field (BookDetails.book (ui m)) "total_copies" = VNum t ->
   (0 <= a <= t)%Z).
Proof.
  intros H w. pose proof (voyage_in_order ai ls _ (open_in_order p st sv H)) as Hw.
  split; [done|]. intros E. destruct Hw as (_ & _ & Hb). fold w in Hb. rewrite E in Hb.
  by apply from_server_copies.
Qed.

(** C18. The application never shows a blank screen to a reader whose
    server keeps its contract.  From a page load at a pathname, with a
    storage that can be read (an empty one included), whatever the
    reader does on whichever pages, in whatever order the server
    answers, whichever requests and answers are lost and whatever other
    clients do: the application renders, the bar and a page, and the
    stored user can still be read.  What the list pages map is a list,
    and the user Login stores is the text of a JSON value, as long as
    the ids of the accounts are integers a JavaScript number holds
    exactly: each move creates at most one account. *)
Theorem never_blank p st ls sv :
  rooted p = true -> forallb civil ls = true ->
  is_Some (stored_user st) -> Server.wf sv ->
  (Server.next_user sv + Z.of_nat (length ls) < 2 ^ 53)%Z ->
  let w := voyage ai ls (Site (App.open p st) sv) in
  is_Some (App.render (app w)) /\ is_Some (stored_user (App.storage (app w))).
Proof.
  intros Hp Hc Hs Hwf Hn w. subst w.
  destruct (voyage_steady ai ls (Site (App.open p st) sv) Hc) as (_ & Hg & Hr & Ha & _).
  - split_and!; [done|apply App.good_open|by unfold App.open; repeat case_match
                |by apply open_steady|done].
  - split; [|done]. apply (App.good_renders _ Hg). intros E. by rewrite E in Ha.
Qed.

End Claims.


(** ** Witnesses *)

Lemma reader_journey_witness :
  let m := Login.exec [Login.TypeName "Ann"; Login.TypeEmail "ann@example.org";
                       Login.TypePassword "pw"] (Login.boot ∅) in
  let a := App.exec [App.InLogin (Login.TypeName "Ann");
                     App.InLogin (Login.TypeEmail "ann@example.org");
                     App.InLogin (Login.TypePassword "pw")] (App.open "/login" ∅) in
  let c := Login.page (ui m) in
  let u := Server.next_user library in
  let w' := surf plain (journey (next_id m) 12) (Site a library) in
  backend w' = after_booking u 12 (volume 3) (after_account c library) /\
  Server.wf (backend w') /\
  stored_user (App.storage (app w')) = Some (account_of c library) /\
  App.location (app w') = "/bookings" /\
  App.shown (app w') = App.AtBookings (loaded u (backend w')) /\
  App.render_main (App.shown (app w')) =
    Some (App.MyBookingsView
            (MyBookings.mkView (VNum u) false false None
               [MyBookings.mkRow (VNum (Z.of_nat (length (Server.bookings library)) + 1)) (VNum 12)
                  (VStr "active") (VNum (Server.now library))]
               false)).
Proof.
  intros m a.
  refine (reader_journey plain "/login" ∅ a m library 12 (volume 3) _ _ _ library_wf _ _ _ _);
    [apply App.app_exec_reachable|by vm_compute..].
Defined.

Lemma app_copies_in_bounds_witness :
  let w := voyage plain [Move (Answer 0)]
             (Site (App.open "/books/12" App.signed_in_store) library) in
  in_order w /\ (0 <= 3 <= 3)%Z.
Proof.
  intros w.
  destruct (app_copies_in_bounds plain "/books/12" App.signed_in_store [Move (Answer 0)] library
              (arrived Login.ann 12 (volume 3)) 3 3 library_wf) as [Hw Hb].
  split; [exact Hw|]. apply Hb; by vm_compute.
Defined.

Lemma never_blank_witness :
  let w := voyage plain detour (Site (App.open "/login" ∅) library) in
  is_Some (App.render (app w)) /\ is_Some (stored_user (App.storage (app w))).
Proof.
  refine (never_blank plain "/login" ∅ detour library _ _ _ library_wf _);
    first [by vm_compute|by eexists].
Defined.

(** The reader who did not wait is signed in all the same: the account
    the server created while the Login page was gone is the user of the
    bookings page. *)
Example detour_signs_in :
  let w := voyage plain detour (Site (App.open "/login" ∅) library) in
  App.shown (app w) = App.AtBookings (loaded 6 (backend w)) /\
  stored_user (App.storage (app w)) = Some (Server.user_json 6 (Server.mkUser "Ann" "ann@example.org" "pw")) /\
  App.adrift (app w) = [].
Proof. by vm_compute. Qed.
